(** * x402 boilerplate: the facilitator and the payment gate

    A shallow embedding of
    - [facilitator/x402-facilitator.cjs] (Node.js): the router, the verify
      and settle handlers of both settlement modes;
    - [api/middleware/X402Middleware.php]: the payment gate;
    - [assets/js/services/x402Service.js]: the client's header codec.

    JavaScript values are the values [JSON.parse] produces plus [undefined];
    in the handlers strings are sequences of code units below 256
    (Latin-1) and the numbers of request bodies are integers ([JSValue]).
    What [JSON.parse] itself returns is a document ([JSONDoc.t]): strings
    of UTF-16 code units, numbers that are doubles, objects in the order
    of enumeration.  The strings of the PHP script are byte strings, which
    [json_encode] reads as UTF-8.  Everything the handlers obtain from
    outside the process (the chain, the clock, the ECDSA recovery of ethers)
    is a field of the environment record [Env]. *)

From Stdlib Require Import ZArith List String Ascii Bool Lia.
Import ListNotations.
Open Scope string_scope.
Open Scope Z_scope.

Set Implicit Arguments.
Set Warnings "-register-all".

(* ================================================================== *)
(** ** JavaScript strings *)

Module JSString.

Definition code (c : ascii) : Z := Z.of_N (N_of_ascii c).

Definition chr (z : Z) : ascii := ascii_of_N (Z.to_N z).

(** [String.prototype.toLowerCase] on code units below 256: A-Z and the
    Latin-1 capitals U+00C0..U+00DE (U+00D7 is the multiplication sign). *)
Definition lowerChar (c : ascii) : ascii :=
  let n := code c in
  if ((65 <=? n) && (n <=? 90)) ||
     ((192 <=? n) && (n <=? 222) && negb (n =? 215))
  then chr (n + 32) else c.

Fixpoint toLowerCase (s : string) : string :=
  match s with
  | EmptyString => EmptyString
  | String c r => String (lowerChar c) (toLowerCase r)
  end.

(** StrWhiteSpaceChar below 256: TAB, LF, VT, FF, CR, SP, NBSP. *)
Definition isWhiteSpace (c : ascii) : bool :=
  let n := code c in
  ((9 <=? n) && (n <=? 13)) || (n =? 32) || (n =? 160).

Fixpoint trimStart (s : string) : string :=
  match s with
  | String c r => if isWhiteSpace c then trimStart r else s
  | EmptyString => EmptyString
  end.

Fixpoint rev_append (s acc : string) : string :=
  match s with
  | EmptyString => acc
  | String c r => rev_append r (String c acc)
  end.

Definition rev (s : string) : string := rev_append s EmptyString.

Definition trim (s : string) : string := rev (trimStart (rev (trimStart s))).

Definition eqb (a b : string) : bool := String.eqb a b.

(** [Array.prototype.join]-style concatenation with a separator. *)
Fixpoint join (sep : string) (l : list string) : string :=
  match l with
  | [] => ""
  | [x] => x
  | x :: r => x ++ sep ++ join sep r
  end.

(** Value of one digit in a radix up to 16, either case. *)
Definition digitValue (radix : Z) (c : ascii) : option Z :=
  let n := code c in
  let v := if (48 <=? n) && (n <=? 57) then n - 48
           else if (97 <=? n) && (n <=? 102) then n - 87
           else if (65 <=? n) && (n <=? 70) then n - 55
           else 99 in
  if v <? radix then Some v else None.

Fixpoint digitsFrom (radix : Z) (acc : Z) (s : string) : option Z :=
  match s with
  | EmptyString => Some acc
  | String c r =>
      match digitValue radix c with
      | Some v => digitsFrom radix (acc * radix + v) r
      | None => None
      end
  end.

(** One or more digits of the radix, nothing else. *)
Definition digits (radix : Z) (s : string) : option Z :=
  match s with
  | EmptyString => None
  | _ => digitsFrom radix 0 s
  end.

(** Decimal rendering of a non-negative integer. *)
Fixpoint decimalFuel (fuel : nat) (n : Z) (acc : string) : string :=
  match fuel with
  | O => acc
  | S f =>
      let acc' := String (chr (48 + n mod 10)) acc in
      if n <? 10 then acc' else decimalFuel f (n / 10) acc'
  end.

Definition ofZ (z : Z) : string :=
  if z <? 0 then String "-" (decimalFuel (S (Z.to_nat (Z.log2 (- z)))) (- z) "")
  else decimalFuel (S (Z.to_nat (Z.log2 z))) z "".

End JSString.

(* ================================================================== *)
(** ** IEEE-754 doubles, as far as the handlers compare them *)

Module Double.

(** A double is NaN, an infinity, or the dyadic rational [m * 2^e]. *)
Inductive t :=
| NaN
| Inf (negative : bool)
| Fin (m e : Z).

Definition ofInt (z : Z) : t := Fin z 0.

(** Round an integer to the nearest double, ties to even: 53 significant
    bits; magnitudes that round to 2^1024 or more overflow to infinity. *)
Definition roundInt (z : Z) : t :=
  let a := Z.abs z in
  if a <? 2 ^ 53 then Fin z 0
  else
    let k := Z.log2 a - 52 in
    let q := Z.shiftr a k in
    let r := a - Z.shiftl q k in
    let half := 2 ^ (k - 1) in
    let up := (half <? r) || ((half =? r) && Z.odd q) in
    let m := if up then q + 1 else q in
    if 2 ^ 1024 <=? m * 2 ^ k then Inf (z <? 0)
    else Fin (Z.sgn z * m) k.

(** Align two dyadics on the smaller exponent. *)
Definition align (m1 e1 m2 e2 : Z) : Z * Z :=
  let e := Z.min e1 e2 in
  (m1 * 2 ^ (e1 - e), m2 * 2 ^ (e2 - e)).

(** The [<] of two numbers; any comparison with NaN is false. *)
Definition lt (a b : t) : bool :=
  match a, b with
  | NaN, _ | _, NaN => false
  | Inf na, Inf nb => na && negb nb
  | Inf na, Fin _ _ => na
  | Fin _ _, Inf nb => negb nb
  | Fin m1 e1, Fin m2 e2 =>
      let '(x, y) := align m1 e1 m2 e2 in x <? y
  end.

Definition gt (a b : t) : bool := lt b a.

(** The double nearest to the ratio [a / b] of a non-negative and a
    positive integer, ties to even: 53 significant bits, exponents down to
    -1074 (the subnormal numbers), overflow to infinity. *)
Definition roundRatio (negative : bool) (a b : Z) : t :=
  if a =? 0 then Fin 0 0
  else
    let k0 := Z.log2 a - Z.log2 b in
    let reached := if 0 <=? k0 then b * 2 ^ k0 <=? a
                   else b <=? a * 2 ^ (- k0) in
    let k := if reached then k0 else k0 - 1 in
    let q := Z.max (k - 52) (-1074) in
    let num := if q <? 0 then a * 2 ^ (- q) else a in
    let den := if q <? 0 then b else b * 2 ^ q in
    let m0 := num / den in
    let r := num mod den in
    let up := (den <? 2 * r) || ((den =? 2 * r) && Z.odd m0) in
    let m := if up then m0 + 1 else m0 in
    if (0 <=? q) && (2 ^ 1024 <=? m * 2 ^ q) then Inf negative
    else Fin (if negative then - m else m) q.

(** The double a decimal literal denotes: [digits] times ten to the
    [exponent], negated when [negative]. *)
Definition ofDecimal (negative : bool) (digits exponent : Z) : t :=
  if 0 <=? exponent
  then roundInt ((if negative then - digits else digits) * 10 ^ exponent)
  else roundRatio negative digits (10 ^ (- exponent)).

(** The integer a double is, when it is one. *)
Definition toInteger (a : t) : option Z :=
  match a with
  | Fin m e =>
      if 0 <=? e then Some (m * 2 ^ e)
      else if m mod 2 ^ (- e) =? 0 then Some (m / 2 ^ (- e))
      else None
  | _ => None
  end.

Definition isNaN (a : t) : bool :=
  match a with NaN => true | _ => false end.

End Double.

(* ================================================================== *)
(** ** JavaScript values and conversions *)

(** What [JSON.parse] returns, plus [undefined] for a missing property. *)
Inductive JSValue :=
| VUndefined
| VNull
| VBool (b : bool)
| VNum (z : Z)
| VStr (s : string)
| VArr (items : list JSValue)
| VObj (fields : list (string * JSValue)).

(** A thrown error: every [Error] has a [message]; the errors of ethers
    also carry a [reason], which may be absent. *)
Record JSError := { message : string; reason : option string }.

(** A call into a built-in or a library either returns or throws. *)
Inductive Result (A : Type) :=
| Ok (a : A)
| Err (e : JSError).
Arguments Ok {A} a.
Arguments Err {A} e.

(** [throw new TypeError(msg)] and the like: no [reason] property. *)
Definition Throw {A : Type} (msg : string) : Result A :=
  Err {| message := msg; reason := None |}.

Module JS.

Import JSString.

(** Own-property lookup in a parsed object: the last duplicate key wins
    in [JSON.parse], so objects are kept with one entry per key and the
    first match is the value. *)
Fixpoint lookup (k : string) (fields : list (string * JSValue)) : JSValue :=
  match fields with
  | [] => VUndefined
  | (k', v) :: r => if eqb k k' then v else lookup k r
  end.

(** [v.k] for the property names the handlers read (none of them exists
    on a prototype): a TypeError on [undefined] and [null]. *)
Definition get (v : JSValue) (k : string) : Result JSValue :=
  match v with
  | VUndefined =>
      Throw ("Cannot read properties of undefined (reading '" ++ k ++ "')")
  | VNull =>
      Throw ("Cannot read properties of null (reading '" ++ k ++ "')")
  | VObj fields => Ok (lookup k fields)
  | _ => Ok VUndefined
  end.

(** [v?.k] *)
Definition getOpt (v : JSValue) (k : string) : JSValue :=
  match v with
  | VObj fields => lookup k fields
  | _ => VUndefined
  end.

(** [const { k } = v]: destructuring throws on [undefined] and [null]. *)
Definition destructure (v : JSValue) (k : string) : Result JSValue :=
  match v with
  | VUndefined =>
      Throw ("Cannot destructure property '" ++ k ++ "' of 'undefined' as it is undefined.")
  | VNull =>
      Throw ("Cannot destructure property '" ++ k ++ "' of 'null' as it is null.")
  | VObj fields => Ok (lookup k fields)
  | _ => Ok VUndefined
  end.

(** The abstract operation ToString. *)
Fixpoint ToString (v : JSValue) : string :=
  match v with
  | VUndefined => "undefined"
  | VNull => "null"
  | VBool true => "true"
  | VBool false => "false"
  | VNum z => ofZ z
  | VStr s => s
  | VArr items =>
      join "," (map (fun x => match x with
                              | VUndefined | VNull => ""
                              | _ => ToString x
                              end) items)
  | VObj _ => "[object Object]"
  end.

(** [v.toLowerCase()]: only strings have the method. *)
Definition toLowerCase (v : JSValue) : Result string :=
  match v with
  | VStr s => Ok (JSString.toLowerCase s)
  | VUndefined => Throw "Cannot read properties of undefined (reading 'toLowerCase')"
  | VNull => Throw "Cannot read properties of null (reading 'toLowerCase')"
  | _ => Throw "toLowerCase is not a function"
  end.

(** [a === b] where [b] is a string literal. *)
Definition strictEqStr (a : JSValue) (b : string) : bool :=
  match a with
  | VStr s => eqb s b
  | _ => false
  end.

(** [a === n] where [n] is an integer literal. *)
Definition strictEqNum (a : JSValue) (n : Z) : bool :=
  match a with
  | VNum z => z =? n
  | _ => false
  end.

(** Truthiness (ToBoolean). *)
Definition truthy (v : JSValue) : bool :=
  match v with
  | VUndefined | VNull => false
  | VBool b => b
  | VNum z => negb (z =? 0)
  | VStr s => negb (eqb s "")
  | VArr _ | VObj _ => true
  end.

(** StringToBigInt: optional white space around nothing (zero), signed
    decimal digits, or a 0x / 0o / 0b literal. *)
Definition nonDecimalLiteral (t : string) : option (option Z) :=
  match t with
  | String "0" (String c r) =>
      if (code c =? 120) || (code c =? 88) then Some (digits 16 r)
      else if (code c =? 111) || (code c =? 79) then Some (digits 8 r)
      else if (code c =? 98) || (code c =? 66) then Some (digits 2 r)
      else None
  | _ => None
  end.

Definition signedDecimal (t : string) : option Z :=
  match t with
  | String "+" r => digits 10 r
  | String "-" r => option_map Z.opp (digits 10 r)
  | _ => digits 10 t
  end.

Definition StringToBigInt (s : string) : option Z :=
  let t := trim s in
  match t with
  | EmptyString => Some 0
  | _ => match nonDecimalLiteral t with
         | Some r => r
         | None => signedDecimal t
         end
  end.

(** [BigInt(v)] *)
Definition BigInt (v : JSValue) : Result Z :=
  match v with
  | VUndefined => Throw "Cannot convert undefined to a BigInt"
  | VNull => Throw "Cannot convert null to a BigInt"
  | VBool b => Ok (if b then 1 else 0)
  | VNum z => Ok z
  | _ => match StringToBigInt (ToString v) with
         | Some z => Ok z
         | None => Throw ("Cannot convert " ++ ToString v ++ " to a BigInt")
         end
  end.

(** Recogniser of StrDecimalLiteral (after the sign) with a fraction, an
    exponent, or [Infinity]. *)
Definition isDecDigit (c : ascii) : bool :=
  (48 <=? code c) && (code c <=? 57).

Fixpoint dropDigits (s : string) : string :=
  match s with
  | String c r => if isDecDigit c then dropDigits r else s
  | EmptyString => EmptyString
  end.

Definition hasDigit (s : string) : bool :=
  match s with
  | String c _ => isDecDigit c
  | EmptyString => false
  end.

Definition exponentOk (s : string) : bool :=
  match s with
  | EmptyString => true
  | String c r =>
      if (code c =? 101) || (code c =? 69) then
        let r' := match r with
                  | String "+" x | String "-" x => x
                  | _ => r
                  end in
        hasDigit r' && eqb (dropDigits r') ""
      else false
  end.

Definition isUnsignedDecimalLiteral (s : string) : bool :=
  if eqb s "Infinity" then true
  else
    let d1 := hasDigit s in
    match dropDigits s with
    | String "." r2 => (d1 || hasDigit r2) && exponentOk (dropDigits r2)
    | r1 => d1 && exponentOk r1
    end.

Definition isStrDecimalLiteral (t : string) : bool :=
  match t with
  | String "+" r | String "-" r => isUnsignedDecimalLiteral r
  | _ => isUnsignedDecimalLiteral t
  end.

Section WithDecimalLiterals.

(** The double a StrDecimalLiteral with a fraction, an exponent or
    [Infinity] denotes; integer literals are evaluated below. *)
Variable decimalLiteral : string -> Double.t.

(** StringToNumber *)
Definition StringToNumber (s : string) : Double.t :=
  let t := trim s in
  match t with
  | EmptyString => Double.ofInt 0
  | _ =>
      match nonDecimalLiteral t with
      | Some (Some z) => Double.roundInt z
      | Some None => Double.NaN
      | None =>
          match signedDecimal t with
          | Some z => Double.roundInt z
          | None => if isStrDecimalLiteral t then decimalLiteral t
                    else Double.NaN
          end
      end
  end.

(** [Number(v)] *)
Definition Number (v : JSValue) : Double.t :=
  match v with
  | VUndefined => Double.NaN
  | VNull => Double.ofInt 0
  | VBool b => Double.ofInt (if b then 1 else 0)
  | VNum z => Double.ofInt z
  | _ => StringToNumber (ToString v)
  end.

End WithDecimalLiterals.

End JS.

(* ================================================================== *)
(** ** JSON documents *)

Module JSONDoc.

(** A JSON document as JavaScript holds it once parsed: numbers are
    doubles, strings are sequences of UTF-16 code units, the members of an
    object come in the order of enumeration.  The values [JSValue] of the
    handlers are the documents whose code units are below 256 and whose
    numbers are integers. *)
Inductive t :=
| Null
| Bool (b : bool)
| Num (d : Double.t)
| Str (units : list Z)
| Arr (items : list t)
| Obj (members : list (list Z * t)).

Fixpoint unitsOf (s : string) : list Z :=
  match s with
  | EmptyString => []
  | String c r => JSString.code c :: unitsOf r
  end.

Fixpoint stringOf (units : list Z) : option string :=
  match units with
  | [] => Some EmptyString
  | u :: r =>
      if (0 <=? u) && (u <? 256)
      then match stringOf r with
           | Some t => Some (String (JSString.chr u) t)
           | None => None
           end
      else None
  end.

(** A value as a document; [undefined], which no document holds, is taken
    as [null]. *)
Fixpoint ofValue (v : JSValue) : t :=
  match v with
  | VUndefined | VNull => Null
  | VBool b => Bool b
  | VNum z => Num (Double.ofInt z)
  | VStr s => Str (unitsOf s)
  | VArr items => Arr (map ofValue items)
  | VObj fields =>
      Obj (map (fun kv : string * JSValue =>
                  (unitsOf (fst kv), ofValue (snd kv))) fields)
  end.

(** A document as a value, when its strings have no code unit above 255
    and its numbers are integers. *)
Fixpoint toValue (d : t) : option JSValue :=
  match d with
  | Null => Some VNull
  | Bool b => Some (VBool b)
  | Num x => option_map VNum (Double.toInteger x)
  | Str units => option_map VStr (stringOf units)
  | Arr items =>
      option_map VArr
        ((fix go (l : list t) : option (list JSValue) :=
            match l with
            | [] => Some []
            | x :: r =>
                match toValue x, go r with
                | Some v, Some vs => Some (v :: vs)
                | _, _ => None
                end
            end) items)
  | Obj members =>
      option_map VObj
        ((fix go (l : list (list Z * t)) : option (list (string * JSValue)) :=
            match l with
            | [] => Some []
            | (k, x) :: r =>
                match stringOf k, toValue x, go r with
                | Some key, Some v, Some vs => Some ((key, v) :: vs)
                | _, _, _ => None
                end
            end) members)
  end.

Fixpoint unitsEqb (a b : list Z) : bool :=
  match a, b with
  | [], [] => true
  | x :: a', y :: b' => (x =? y) && unitsEqb a' b'
  | _, _ => false
  end.

Fixpoint hasKey (k : list Z) (l : list (list Z * t)) : bool :=
  match l with
  | [] => false
  | (k', _) :: r => unitsEqb k k' || hasKey k r
  end.

Fixpoint lookup (k : list Z) (l : list (list Z * t)) : t :=
  match l with
  | [] => Null
  | (k', v) :: r => if unitsEqb k k' then v else lookup k r
  end.

Fixpoint removeKey (k : list Z) (l : list (list Z * t)) : list (list Z * t) :=
  match l with
  | [] => []
  | (k', v) :: r => if unitsEqb k k' then removeKey k r
                    else (k', v) :: removeKey k r
  end.

(** The array index a property key is, if it is one: the canonical
    decimal numeral of an integer below 2^32 - 1. *)
Definition arrayIndex (k : list Z) : option Z :=
  match stringOf k with
  | Some s =>
      match JSString.digits 10 s with
      | Some n => if String.eqb (JSString.ofZ n) s && (n <? 2 ^ 32 - 1)
                  then Some n else None
      | None => None
      end
  | None => None
  end.

Definition isIndex (member : list Z * t) : bool :=
  match arrayIndex (fst member) with
  | Some _ => true
  | None => false
  end.

Fixpoint insertByIndex (member : list Z * t) (sorted : list (list Z * t))
  : list (list Z * t) :=
  match sorted with
  | [] => [member]
  | other :: r =>
      match arrayIndex (fst member), arrayIndex (fst other) with
      | Some i, Some j =>
          if i <? j then member :: sorted
          else other :: insertByIndex member r
      | _, _ => member :: sorted
      end
  end.

(** The order in which JavaScript enumerates the properties of an object:
    array indices first, ascending, then the other keys in the order of
    their creation. *)
Definition enumeration (members : list (list Z * t)) : list (list Z * t) :=
  (fold_right insertByIndex [] (filter isIndex members)
   ++ filter (fun member => negb (isIndex member)) members)%list.

(** The documents JavaScript reads back as they are written: every
    number is an integer of magnitude below 2^53, the keys of an object are
    distinct. *)
Fixpoint plain (d : t) : bool :=
  match d with
  | Null | Bool _ | Str _ => true
  | Num x =>
      match x with
      | Double.Fin z e => (e =? 0) && (Z.abs z <? 2 ^ 53)
      | _ => false
      end
  | Arr items => forallb plain items
  | Obj members =>
      (fix go (l : list (list Z * t)) : bool :=
         match l with
         | [] => true
         | (k, x) :: r => negb (hasKey k r) && plain x && go r
         end) members
  end.

(** A document with every object in the order of enumeration. *)
Fixpoint enumerated (d : t) : t :=
  match d with
  | Arr items => Arr (map enumerated items)
  | Obj members =>
      Obj (enumeration
             (map (fun kv : list Z * t => (fst kv, enumerated (snd kv)))
                  members))
  | other => other
  end.

End JSONDoc.

(* ================================================================== *)
(** ** The facilitator: configuration, environment, effects *)

Record AssetInfo := {
  symbol : string;
  decimals : Z;
  eip3009 : bool;
  eip712Name : string;
  eip712Version : string
}.

Module CONFIG.

Definition chainId : Z := 1030.
Definition network : string := "eip155:1030".

(** [CONFIG.assets], keyed by lower-case address. *)
Definition assets : list (string * AssetInfo) :=
  [ ("0xaf37e8b6c9ed7f6318979f56fc287d76c30847ff",
     {| symbol := "USDT0"; decimals := 6; eip3009 := true;
        eip712Name := "USDT0"; eip712Version := "1" |});
    ("0xded1660192d4d82e7c0b628ba556861edbb5cada",
     {| symbol := "CNHT0"; decimals := 6; eip3009 := true;
        eip712Name := "CNHT0"; eip712Version := "1" |}) ].

(** [CONFIG.assets[addr]].  A name inherited from [Object.prototype]
    yields a value without an [eip3009] property, which the handlers'
    guard [!asset || !asset.eip3009] rejects like an absent key; both are
    [None] here. *)
Fixpoint lookupIn (l : list (string * AssetInfo)) (addr : string)
  : option AssetInfo :=
  match l with
  | [] => None
  | (k, info) :: r => if String.eqb addr k then Some info else lookupIn r addr
  end.

Definition asset (addr : string) : option AssetInfo := lookupIn assets addr.

End CONFIG.

(** The EIP-712 domain handed to [ethers.verifyTypedData]. *)
Record TypedDataDomain := {
  domainName : string;
  domainVersion : string;
  domainChainId : Z;
  verifyingContract : JSValue
}.

(** What a handler does to the outside world, in order. *)
Inductive Event :=
| EvReadBody
| EvBalanceOf (token account : JSValue)
| EvClock
| EvStaticCall (contract : string) (method : string) (args : list JSValue)
               (from : string)
| EvSendTransaction (contract : JSValue) (method : string)
                    (args : list JSValue) (gasLimit : Z)
| EvGetBalance (account : string)
| EvDemoFlow (question : string)
| EvRespond (status : Z) (body : JSValue).

(** Everything outside the process.
    - [API_KEY], [escrowAdapter], [relayerAddress]: boot-time configuration
      ([escrowAdapter] is the empty string when X402_ADAPTER_ADDRESS is
      unset);
    - [dateNow]: [Date.now()], in milliseconds;
    - [decimalLiteral]: see [JS.StringToNumber];
    - [recoverSigner]: what [ethers.verifyTypedData] does once the three
      uint256 fields are read (address and bytes32 checks, hashing, ECDSA
      recovery); it returns the checksummed signer or throws;
    - [balanceOf]: the [balanceOf] read of the token contract;
    - [staticCall]: [adapter.settlePayment.staticCall];
    - [transact]: call a state-changing contract method through the
      relayer wallet and wait for the receipt; returns [receipt.hash] or
      throws (malformed argument, RPC failure, revert);
    - [getBalance], [formatEther]: the relayer's native balance and its
      rendering, for the health report;
    - [demoBuyerKey], [demoWallet], [demoFlow]: DEMO_BUYER_KEY, the wallet
      ethers builds from it, and the client flow the demo handler runs
      against the seller endpoint, ending in the response it sends. *)
Record Env := {
  API_KEY : string;
  escrowAdapter : string;
  relayerAddress : string;
  dateNow : Z;
  decimalLiteral : string -> Double.t;
  recoverSigner : TypedDataDomain -> JSValue -> JSValue -> Z -> Z -> Z ->
                  JSValue -> JSValue -> Result string;
  balanceOf : JSValue -> JSValue -> Result Z;
  staticCall : string -> string -> list JSValue -> string -> Result unit;
  transact : JSValue -> string -> list JSValue -> Z -> Result string;
  getBalance : string -> Result Z;
  formatEther : Z -> string;
  demoBuyerKey : option string;
  demoWallet : string -> Result string;
  demoFlow : string -> string -> Result (Z * JSValue)
}.

(** How a statement sequence ends. *)
Inductive Completion (A : Type) :=
| Normal (a : A)
| Return
| Thrown (e : JSError).
Arguments Normal {A} a.
Arguments Return {A}.
Arguments Thrown {A} e.

(** Handler code: a computation over the trace of events so far. *)
Definition M (A : Type) : Type := list Event -> Completion A * list Event.

Definition ret {A} (a : A) : M A := fun t => (Normal a, t).

Definition bind {A B} (m : M A) (k : A -> M B) : M B :=
  fun t => match m t with
           | (Normal a, t') => k a t'
           | (Return, t') => (Return, t')
           | (Thrown e, t') => (Thrown e, t')
           end.

Declare Scope js_scope.
Delimit Scope js_scope with js.
Notation "x <- m ;; k" := (bind m (fun x => k))
  (at level 61, m at next level, right associativity) : js_scope.
Notation "m ;; k" := (bind m (fun _ => k))
  (at level 61, right associativity) : js_scope.

Definition emit (ev : Event) : M unit := fun t => (Normal tt, (t ++ [ev])%list).

Definition returnM {A} : M A := fun t => (Return, t).

Definition throwM {A} (e : JSError) : M A := fun t => (Thrown e, t).

Definition lift {A} (r : Result A) : M A :=
  match r with
  | Ok a => ret a
  | Err e => throwM e
  end.

(** [try { body } catch (error) { handler }] *)
Definition tryCatch (body : M unit) (handler : JSError -> M unit) : M unit :=
  fun t => match body t with
           | (Thrown e, t') => handler e t'
           | other => other
           end.

(** [sendJson(res, statusCode, data)] *)
Definition sendJson (statusCode : Z) (data : JSValue) : M unit :=
  emit (EvRespond statusCode data).

(** [if (cond) return sendJson(res, statusCode, data);] *)
Definition rejectIf (cond : bool) (statusCode : Z) (data : JSValue) : M unit :=
  if cond then bind (sendJson statusCode data) (fun _ => returnM)
  else ret tt.

(* ================================================================== *)
(** ** ethers: reading uint256 fields of typed data *)

Module Ethers.

(** [maxValue] of [getBigInt]: 0x1fffffffffffff. *)
Definition maxValue : Z := 2 ^ 53 - 1.

(** [getBigInt(value)] of ethers v6: numbers must be safe integers;
    a string is empty (error), starts with one minus sign (the rest goes
    through [BigInt] and is negated), or goes through [BigInt] whole. *)
Definition getBigInt (v : JSValue) : Result Z :=
  match v with
  | VNum z =>
      if (- maxValue <=? z) && (z <=? maxValue) then Ok z
      else Throw "overflow"
  | VStr s =>
      match s with
      | EmptyString => Throw "invalid BigNumberish string: empty string"
      | String c r =>
          let negated :=
            (JSString.code c =? 45) &&
            negb (match r with
                  | String c' _ => JSString.code c' =? 45
                  | EmptyString => false
                  end) in
          let parsed := if negated
                        then option_map Z.opp (JS.StringToBigInt r)
                        else JS.StringToBigInt s in
          match parsed with
          | Some z => Ok z
          | None => Throw "invalid BigNumberish string"
          end
      end
  | _ => Throw "invalid BigNumberish value"
  end.

(** The encoder of a [uint256] field: [getBigInt] and the bounds check. *)
Definition uint256 (v : JSValue) : Result Z :=
  match getBigInt v with
  | Ok z => if (0 <=? z) && (z <? 2 ^ 256) then Ok z
            else Throw "value out-of-bounds for uint256"
  | Err e => Err e
  end.

(** [new ethers.Contract(target, abi, runner)] of ethers v6: the
    constructor accepts a string, or an object with a [getAddress] method,
    which no parsed JSON value is; a string that is not hexadecimal is
    kept as a name for the runner to resolve when a method is called. *)
Definition contractTarget (target : JSValue) : Result JSValue :=
  match target with
  | VStr _ => Ok target
  | _ => Throw "invalid value for Contract target"
  end.

End Ethers.

(* ================================================================== *)
(** ** The facilitator: requests and the verify handlers *)

(** The outcome of [parseBody(req)]: the parsed JSON, or a rejection
    (stream error, more than 1048576 characters, or a [JSON.parse] error). *)
Inductive Body :=
| BodyJson (v : JSValue)
| BodyRejected.

(** An incoming request; Node lower-cases header names. *)
Record Request := {
  method : string;
  pathname : string;
  headers : list (string * string);
  body : Body
}.

Section Facilitator.

Variable env : Env.
Local Open Scope js_scope.

Fixpoint header (hs : list (string * string)) (name : string) : option string :=
  match hs with
  | [] => None
  | (k, v) :: r => if String.eqb k name then Some v else header r name
  end.

(** [!apiKey || apiKey !== API_KEY] *)
Definition keyRejected (apiKey : option string) : bool :=
  match apiKey with
  | None => true
  | Some k => String.eqb k "" || negb (String.eqb k env.(API_KEY))
  end.

Definition errorBody (msg : string) : JSValue := VObj [("error", VStr msg)].

Definition invalid (why : string) : JSValue :=
  VObj [("valid", VBool false); ("reason", VStr why)].

Definition valid : JSValue := VObj [("valid", VBool true)].

(** The [catch] of the verify handlers. *)
Definition answerCaught (error : JSError) : M unit :=
  sendJson 200 (invalid error.(message)).

(** [try { body = await parseBody(req); } catch { return sendJson(...) }] *)
Definition readBody (req : Request) (statusCode : Z) (data : JSValue)
  : M JSValue :=
  emit EvReadBody ;;
  match req.(body) with
  | BodyJson v => ret v
  | BodyRejected => sendJson statusCode data ;; returnM
  end.

(** The six fields of [payload.payload.authorization]. *)
Record Authorization := {
  from : JSValue;
  to : JSValue;
  value : JSValue;
  validAfter : JSValue;
  validBefore : JSValue;
  nonce : JSValue
}.

(** [const { from, to, value, validAfter, validBefore, nonce } =
     payload.payload.authorization;] *)
Definition readAuthorization (payload : JSValue) : M Authorization :=
  inner <- lift (JS.get payload "payload") ;;
  a <- lift (JS.get inner "authorization") ;;
  f <- lift (JS.destructure a "from") ;;
  ret {| from := f;
         to := JS.getOpt a "to";
         value := JS.getOpt a "value";
         validAfter := JS.getOpt a "validAfter";
         validBefore := JS.getOpt a "validBefore";
         nonce := JS.getOpt a "nonce" |}.

(** [payload.payload.signature] *)
Definition readSignature (payload : JSValue) : M JSValue :=
  inner <- lift (JS.get payload "payload") ;;
  lift (JS.get inner "signature").

(** [ethers.verifyTypedData(domain, TRANSFER_AUTH_TYPES, message,
    signature)]: the three uint256 fields are read by ethers' encoder. *)
Definition verifyTypedData (domain : TypedDataDomain) (a : Authorization)
           (signature : JSValue) : Result string :=
  match Ethers.uint256 a.(value) with
  | Err e => Err e
  | Ok v =>
      match Ethers.uint256 a.(validAfter) with
      | Err e => Err e
      | Ok va =>
          match Ethers.uint256 a.(validBefore) with
          | Err e => Err e
          | Ok vb =>
              env.(recoverSigner) domain a.(from) a.(to) v va vb
                                  a.(nonce) signature
          end
      end
  end.

(** [Math.floor(Date.now() / 1000)] *)
Definition unixNow : Z := env.(dateNow) / 1000.

(** [now < Number(validAfter) || now > Number(validBefore)] *)
Definition outsideWindow (now : Z) (a : Authorization) : bool :=
  Double.lt (Double.ofInt now) (JS.Number env.(decimalLiteral) a.(validAfter))
  || Double.gt (Double.ofInt now) (JS.Number env.(decimalLiteral) a.(validBefore)).

(** The checks both verify handlers share, from the version check to the
    asset lookup. *)
Definition checkEnvelope (payload requirements : JSValue) : M AssetInfo :=
  version <- lift (JS.get payload "x402Version") ;;
  rejectIf (negb (JS.strictEqNum version 2)) 200
           (invalid "Unsupported x402 version") ;;
  scheme <- lift (JS.get payload "scheme") ;;
  rejectIf (negb (JS.strictEqStr scheme "exact")) 200
           (invalid "Unsupported scheme") ;;
  net <- lift (JS.get payload "network") ;;
  rejectIf (negb (JS.strictEqStr net CONFIG.network)) 200
           (invalid ("Wrong network: " ++ JS.ToString net)) ;;
  assetField <- lift (JS.get requirements "asset") ;;
  assetAddr <- lift (JS.toLowerCase assetField) ;;
  match CONFIG.asset assetAddr with
  | Some info =>
      if info.(eip3009) then ret info
      else sendJson 200 (invalid "Unsupported asset") ;; returnM
  | None => sendJson 200 (invalid "Unsupported asset") ;; returnM
  end.

(** The checks both verify handlers share after the destination check:
    balance, time window, amount. *)
Definition checkFunds (requirements : JSValue) (a : Authorization) : M unit :=
  emit (EvBalanceOf (JS.getOpt requirements "asset") a.(from)) ;;
  balance <- lift (env.(balanceOf) (JS.getOpt requirements "asset") a.(from)) ;;
  v <- lift (JS.BigInt a.(value)) ;;
  rejectIf (balance <? v) 200 (invalid "Insufficient balance") ;;
  emit EvClock ;;
  rejectIf (outsideWindow unixNow a) 200
           (invalid "Authorization expired or not yet valid") ;;
  v' <- lift (JS.BigInt a.(value)) ;;
  amount <- lift (JS.BigInt (JS.getOpt requirements "amount")) ;;
  rejectIf (v' <? amount) 200 (invalid "Insufficient amount").

Definition domainOf (info : AssetInfo) (requirements : JSValue)
  : TypedDataDomain :=
  {| domainName := info.(eip712Name);
     domainVersion := info.(eip712Version);
     domainChainId := CONFIG.chainId;
     verifyingContract := JS.getOpt requirements "asset" |}.

(** The [try] block of [handleVerifyTransfer]. *)
Definition verifyTransferChecks (payload requirements : JSValue) : M unit :=
  info <- checkEnvelope payload requirements ;;
  rejectIf (negb (JS.strictEqStr
                    (JS.getOpt (JS.getOpt requirements "extra") "settlementMode")
                    "transfer")) 200
           (invalid "Settlement mode must be transfer") ;;
  a <- readAuthorization payload ;;
  signature <- readSignature payload ;;
  recoveredSigner <- lift (verifyTypedData (domainOf info requirements) a signature) ;;
  fromLower <- lift (JS.toLowerCase a.(from)) ;;
  rejectIf (negb (String.eqb (JSString.toLowerCase recoveredSigner) fromLower))
           200 (invalid "Invalid signature") ;;
  toLower <- lift (JS.toLowerCase a.(to)) ;;
  payToLower <- lift (JS.toLowerCase (JS.getOpt requirements "payTo")) ;;
  rejectIf (negb (String.eqb toLower payToLower)) 200
           (invalid "Wrong payment destination (expected treasury)") ;;
  checkFunds requirements a ;;
  sendJson 200 valid.

(** [handleVerifyTransfer] *)
Definition handleVerifyTransfer (req : Request) : M unit :=
  rejectIf (keyRejected (header req.(headers) "x-api-key")) 401
           (errorBody "Invalid or missing API key") ;;
  body <- readBody req 400 (invalid "Invalid JSON body") ;;
  payload <- lift (JS.destructure body "payload") ;;
  requirements <- lift (JS.destructure body "requirements") ;;
  tryCatch (verifyTransferChecks payload requirements) answerCaught.

(** [error.reason || error.message] *)
Definition reasonOrMessage (e : JSError) : string :=
  match e.(reason) with
  | Some r => if String.eqb r "" then e.(message) else r
  | None => e.(message)
  end.

(** The simulation at the end of the [try] block of [handleVerify],
    with its own [try] and [catch]. *)
Definition simulateSettlement (payload requirements : JSValue)
           (a : Authorization) : M unit :=
  tryCatch
    (orderId <- lift (JS.get (JS.getOpt requirements "extra") "orderId") ;;
     sig <- readSignature payload ;;
     let args := [JS.getOpt requirements "asset"; orderId; a.(from);
                  a.(value); a.(validAfter); a.(validBefore);
                  a.(nonce); sig] in
     emit (EvStaticCall env.(escrowAdapter) "settlePayment" args
                        env.(relayerAddress)) ;;
     lift (env.(staticCall) env.(escrowAdapter) "settlePayment" args
                            env.(relayerAddress)))
    (fun simError =>
       sendJson 200 (invalid ("Settlement simulation failed: "
                              ++ reasonOrMessage simError)) ;;
       returnM).

(** The [try] block of [handleVerify]. *)
Definition verifyEscrowChecks (payload requirements : JSValue) : M unit :=
  info <- checkEnvelope payload requirements ;;
  rejectIf (negb (JS.strictEqStr
                    (JS.getOpt (JS.getOpt requirements "extra") "assetTransferMethod")
                    "eip3009")) 200
           (invalid "Only eip3009 method supported") ;;
  a <- readAuthorization payload ;;
  signature <- readSignature payload ;;
  recoveredSigner <- lift (verifyTypedData (domainOf info requirements) a signature) ;;
  fromLower <- lift (JS.toLowerCase a.(from)) ;;
  rejectIf (negb (String.eqb (JSString.toLowerCase recoveredSigner) fromLower))
           200 (invalid "Invalid signature") ;;
  toLower <- lift (JS.toLowerCase a.(to)) ;;
  rejectIf (negb (String.eqb toLower (JSString.toLowerCase env.(escrowAdapter))))
           200 (invalid "Wrong payment destination") ;;
  checkFunds requirements a ;;
  simulateSettlement payload requirements a ;;
  sendJson 200 valid.

(** [handleVerify] (escrow mode) *)
Definition handleVerify (req : Request) : M unit :=
  rejectIf (keyRejected (header req.(headers) "x-api-key")) 401
           (errorBody "Invalid or missing API key") ;;
  rejectIf (String.eqb env.(escrowAdapter) "") 400
           (invalid "Escrow adapter not configured") ;;
  body <- readBody req 400 (invalid "Invalid JSON body") ;;
  payload <- lift (JS.destructure body "payload") ;;
  requirements <- lift (JS.destructure body "requirements") ;;
  tryCatch (verifyEscrowChecks payload requirements) answerCaught.

Definition settleFailed (e : JSError) : JSValue :=
  VObj [("success", VBool false); ("error", VStr (reasonOrMessage e))].

Definition settled (transaction : string) (payer : JSValue) : JSValue :=
  VObj [("x402Version", VNum 2); ("scheme", VStr "exact");
        ("network", VStr CONFIG.network); ("success", VBool true);
        ("transaction", VStr transaction); ("payer", payer)].

(** The [catch] of the settle handlers. *)
Definition answerSettleCaught (error : JSError) : M unit :=
  sendJson 500 (settleFailed error).

(** The [try] block of [handleSettle]. *)
Definition settleEscrowCall (payload requirements : JSValue) : M unit :=
  a <- readAuthorization payload ;;
  assetField <- lift (JS.get requirements "asset") ;;
  orderId <- lift (JS.get (JS.getOpt requirements "extra") "orderId") ;;
  sig <- readSignature payload ;;
  let args := [assetField; orderId; a.(from); a.(value); a.(validAfter);
               a.(validBefore); a.(nonce); sig] in
  emit (EvSendTransaction (VStr env.(escrowAdapter)) "settlePayment"
                          args 500000) ;;
  hash <- lift (env.(transact) (VStr env.(escrowAdapter)) "settlePayment"
                               args 500000) ;;
  sendJson 200 (settled hash a.(from)).

(** [handleSettle] (escrow mode) *)
Definition handleSettle (req : Request) : M unit :=
  rejectIf (keyRejected (header req.(headers) "x-api-key")) 401
           (errorBody "Invalid or missing API key") ;;
  rejectIf (String.eqb env.(escrowAdapter) "") 400
           (VObj [("success", VBool false);
                  ("error", VStr "Escrow adapter not configured")]) ;;
  body <- readBody req 400 (VObj [("success", VBool false);
                                  ("error", VStr "Invalid JSON body")]) ;;
  payload <- lift (JS.destructure body "payload") ;;
  requirements <- lift (JS.destructure body "requirements") ;;
  tryCatch (settleEscrowCall payload requirements) answerSettleCaught.

(** The [try] block of [handleSettleTransfer]. *)
Definition settleTransferCall (payload requirements : JSValue) : M unit :=
  a <- readAuthorization payload ;;
  assetField <- lift (JS.get requirements "asset") ;;
  token <- lift (Ethers.contractTarget assetField) ;;
  sig <- readSignature payload ;;
  let args := [a.(from); a.(to); a.(value); a.(validAfter);
               a.(validBefore); a.(nonce); sig] in
  emit (EvSendTransaction token "transferWithAuthorization"
                          args 200000) ;;
  hash <- lift (env.(transact) token "transferWithAuthorization"
                               args 200000) ;;
  sendJson 200 (settled hash a.(from)).

(** [handleSettleTransfer] *)
Definition handleSettleTransfer (req : Request) : M unit :=
  rejectIf (keyRejected (header req.(headers) "x-api-key")) 401
           (errorBody "Invalid or missing API key") ;;
  body <- readBody req 400 (VObj [("success", VBool false);
                                  ("error", VStr "Invalid JSON body")]) ;;
  payload <- lift (JS.destructure body "payload") ;;
  requirements <- lift (JS.destructure body "requirements") ;;
  tryCatch (settleTransferCall payload requirements) answerSettleCaught.

(** [handleHealth] *)
Definition handleHealth (req : Request) : M unit :=
  tryCatch
    (emit (EvGetBalance env.(relayerAddress)) ;;
     balance <- lift (env.(getBalance) env.(relayerAddress)) ;;
     sendJson 200
       (VObj [("status", VStr "ok");
              ("network", VStr CONFIG.network);
              ("chainId", VNum CONFIG.chainId);
              ("facilitator", VStr env.(relayerAddress));
              ("adapter", if String.eqb env.(escrowAdapter) "" then VNull
                          else VStr env.(escrowAdapter));
              ("balanceCFX", VStr (env.(formatEther) balance));
              ("supportedAssets",
               VArr (map (fun entry : string * AssetInfo =>
                            VObj [("address", VStr (fst entry));
                                  ("symbol", VStr (snd entry).(symbol));
                                  ("eip3009", VBool (snd entry).(eip3009))])
                         CONFIG.assets));
              ("x402Version", VNum 2)]))
    (fun error =>
       sendJson 500 (VObj [("status", VStr "error");
                           ("error", VStr error.(message))])).

Definition demoFailed (msg : string) : JSValue :=
  VObj [("success", VBool false); ("message", VStr msg)].

(** [(body.question || '').trim()] *)
Definition readQuestion (body : JSValue) : Result string :=
  match JS.get body "question" with
  | Err e => Err e
  | Ok q =>
      if JS.truthy q then
        match q with
        | VStr s => Ok (JSString.trim s)
        | _ => Throw "(body.question || '').trim is not a function"
        end
      else Ok ""
  end.

(** [handleDemoAi]; the client flow inside its [try] is [demoFlow]. *)
Definition handleDemoAi (req : Request) : M unit :=
  rejectIf (keyRejected (header req.(headers) "x-facilitator-key")) 401
           (errorBody "Invalid or missing API key") ;;
  body <- readBody req 400 (demoFailed "Invalid JSON body") ;;
  question <- lift (readQuestion body) ;;
  rejectIf (String.eqb question "" || (500 <? Z.of_nat (String.length question)))
           422 (demoFailed "Question required (max 500 chars)") ;;
  match env.(demoBuyerKey) with
  | None => sendJson 500 (demoFailed "No demo wallet configured (set DEMO_BUYER_KEY)")
  | Some demoKey =>
      if String.eqb demoKey "" then
        sendJson 500 (demoFailed "No demo wallet configured (set DEMO_BUYER_KEY)")
      else
        wallet <- lift (env.(demoWallet) demoKey) ;;
        tryCatch
          (emit (EvDemoFlow question) ;;
           out <- lift (env.(demoFlow) wallet question) ;;
           sendJson (fst out) (snd out))
          (fun error => sendJson 500 (demoFailed error.(message)))
  end.

(** The request listener of [http.createServer] past its first statement
    (the parse of the request target, which [listener] below performs):
    [req.(pathname)] is the pathname of the parsed URL. *)
Definition server (req : Request) : M unit :=
  if String.eqb req.(method) "OPTIONS" then
    emit (EvRespond 200 VUndefined) ;; returnM
  else if String.eqb req.(pathname) "/x402/health" && String.eqb req.(method) "GET"
  then handleHealth req
  else if String.eqb req.(pathname) "/x402/verify" && String.eqb req.(method) "POST"
  then handleVerify req
  else if String.eqb req.(pathname) "/x402/settle" && String.eqb req.(method) "POST"
  then handleSettle req
  else if String.eqb req.(pathname) "/x402/verify-transfer" && String.eqb req.(method) "POST"
  then handleVerifyTransfer req
  else if String.eqb req.(pathname) "/x402/settle-transfer" && String.eqb req.(method) "POST"
  then handleSettleTransfer req
  else if String.eqb req.(pathname) "/x402/demo-ai" && String.eqb req.(method) "POST"
  then handleDemoAi req
  else sendJson 404 (errorBody "Not found").

(** Serving one request: the events, from an empty trace. *)
Definition serve (req : Request) : list Event := snd (server req []).

(** The request as Node hands it to the listener.  [target] is what
    [new URL(req.url, `http://localhost:${PORT}`)] makes of the request
    target: the pathname, or the TypeError of a target the URL parser
    refuses (such as [//]). *)
Record Incoming := {
  incomingMethod : string;
  target : Result string;
  incomingHeaders : list (string * string);
  incomingBody : Body
}.

(** The request listener of [http.createServer], from its first statement:
    the URL is built outside every [try], so its TypeError ends the
    listener before a header or a response is written. *)
Definition listener (incoming : Incoming) : M unit :=
  match incoming.(target) with
  | Err e => throwM e
  | Ok pathname =>
      server {| method := incoming.(incomingMethod);
                pathname := pathname;
                headers := incoming.(incomingHeaders);
                body := incoming.(incomingBody) |}
  end.

End Facilitator.

(** The response a trace carries: its first [EvRespond]; a handler that
    ends in an unhandled rejection sends none. *)
Fixpoint responseOf (t : list Event) : option (Z * JSValue) :=
  match t with
  | [] => None
  | EvRespond status body :: _ => Some (status, body)
  | _ :: r => responseOf r
  end.

(** The events before the response. *)
Fixpoint beforeResponse (t : list Event) : list Event :=
  match t with
  | [] => []
  | EvRespond _ _ :: _ => []
  | ev :: r => ev :: beforeResponse r
  end.

Definition isChainEvent (ev : Event) : bool :=
  match ev with
  | EvBalanceOf _ _ | EvStaticCall _ _ _ _ | EvSendTransaction _ _ _ _
  | EvGetBalance _ | EvDemoFlow _ => true
  | _ => false
  end.

(* ================================================================== *)
(** ** Base64 (RFC 4648): PHP's [base64_encode], JavaScript's [btoa] and
       [atob] *)

Module Base64.

Import JSString.

Definition alphabet (i : Z) : ascii :=
  if i <? 26 then chr (65 + i)
  else if i <? 52 then chr (97 + (i - 26))
  else if i <? 62 then chr (48 + (i - 52))
  else if i =? 62 then "+"%char
  else "/"%char.

Definition value (c : ascii) : option Z :=
  let n := code c in
  if (65 <=? n) && (n <=? 90) then Some (n - 65)
  else if (97 <=? n) && (n <=? 122) then Some (n - 97 + 26)
  else if (48 <=? n) && (n <=? 57) then Some (n - 48 + 52)
  else if n =? 43 then Some 62
  else if n =? 47 then Some 63
  else None.

(** The 6-bit groups of a byte string; the last group is zero-filled. *)
Fixpoint sextets (s : string) : list Z :=
  match s with
  | EmptyString => []
  | String a EmptyString =>
      [code a / 4; (code a mod 4) * 16]
  | String a (String b EmptyString) =>
      [code a / 4; (code a mod 4) * 16 + code b / 16; (code b mod 16) * 4]
  | String a (String b (String c r)) =>
      code a / 4 :: (code a mod 4) * 16 + code b / 16
      :: (code b mod 16) * 4 + code c / 64 :: code c mod 64 :: sextets r
  end.

Fixpoint padding (s : string) : string :=
  match s with
  | EmptyString => ""
  | String _ EmptyString => "=="
  | String _ (String _ EmptyString) => "="
  | String _ (String _ (String _ r)) => padding r
  end.

Fixpoint ofChars (l : list ascii) : string :=
  match l with
  | [] => EmptyString
  | c :: r => String c (ofChars r)
  end.

(** [base64_encode] / [btoa] *)
Definition encode (s : string) : string :=
  ofChars (map alphabet (sextets s)) ++ padding s.

(** ASCII white space [atob] removes first: TAB, LF, FF, CR, SP. *)
Definition isAsciiWhitespace (c : ascii) : bool :=
  let n := code c in
  (n =? 9) || (n =? 10) || (n =? 12) || (n =? 13) || (n =? 32).

Fixpoint removeWhitespace (s : string) : string :=
  match s with
  | EmptyString => EmptyString
  | String c r => if isAsciiWhitespace c then removeWhitespace r
                  else String c (removeWhitespace r)
  end.

(** When the length is a multiple of four, one or two trailing [=] are
    removed. *)
Definition stripPadding (s : string) : string :=
  if Z.of_nat (String.length s) mod 4 =? 0 then
    match rev s with
    | String c1 r1 =>
        if Ascii.eqb c1 "=" then
          match r1 with
          | String c2 r2 => if Ascii.eqb c2 "=" then rev r2 else rev r1
          | EmptyString => rev r1
          end
        else s
    | EmptyString => s
    end
  else s.

Fixpoint values (s : string) : option (list Z) :=
  match s with
  | EmptyString => Some []
  | String c r =>
      match value c, values r with
      | Some v, Some vs => Some (v :: vs)
      | _, _ => None
      end
  end.

(** Bytes of a list of 6-bit groups; leftover bits are dropped, a single
    leftover group is an error. *)
Fixpoint bytes (l : list Z) : option string :=
  match l with
  | [] => Some EmptyString
  | [_] => None
  | [a; b] => Some (String (chr (a * 4 + b / 16)) EmptyString)
  | [a; b; c] =>
      Some (String (chr (a * 4 + b / 16))
              (String (chr ((b mod 16) * 16 + c / 4)) EmptyString))
  | a :: b :: c :: d :: r =>
      match bytes r with
      | Some t =>
          Some (String (chr (a * 4 + b / 16))
                  (String (chr ((b mod 16) * 16 + c / 4))
                     (String (chr ((c mod 4) * 64 + d)) t)))
      | None => None
      end
  end.

(** [atob]: the forgiving-base64 decode; [None] is the thrown
    InvalidCharacterError. *)
Definition atob (s : string) : option string :=
  match values (stripPadding (removeWhitespace s)) with
  | Some vs => bytes vs
  | None => None
  end.

End Base64.

(* ================================================================== *)
(** ** JSON text: [JSON.stringify], PHP's [json_encode] output, and
       [JSON.parse] *)

Module JSONText.

Import JSString.

Definition dquote : ascii := "034"%char.
Definition backslash : ascii := "092"%char.

Definition hexDigit (i : Z) : ascii :=
  if i <? 10 then chr (48 + i) else chr (87 + i).

(** [\u00xx] for a code unit below 256. *)
Definition unicodeEscape (c : ascii) : string :=
  String backslash
    (String "u" (String "0" (String "0"
       (String (hexDigit (code c / 16))
          (String (hexDigit (code c mod 16)) EmptyString))))).

Definition shortEscape (e : ascii) : string :=
  String backslash (String e EmptyString).

(** QuoteJSONString of ECMAScript, one code unit. *)
Definition escapeJS (c : ascii) : string :=
  let n := code c in
  if n =? 8 then shortEscape "b"
  else if n =? 9 then shortEscape "t"
  else if n =? 10 then shortEscape "n"
  else if n =? 12 then shortEscape "f"
  else if n =? 13 then shortEscape "r"
  else if n =? 34 then shortEscape dquote
  else if n =? 92 then shortEscape backslash
  else if n <? 32 then unicodeEscape c
  else String c EmptyString.

(** PHP's [json_encode] with default flags on one character of a text:
    as above, and the slash and every character above ASCII are escaped
    too. *)
Definition escapeText (c : ascii) : string :=
  let n := code c in
  if n =? 47 then shortEscape "/"
  else if 128 <=? n then unicodeEscape c
  else escapeJS c.

(** The same on one UTF-16 code unit, those above 255 included: a
    backslash, [u] and four lower-case hexadecimal digits. *)
Definition escapeUnit (u : Z) : string :=
  if u <? 128 then escapeText (chr u)
  else String backslash
         (String "u"
            (String (hexDigit (u / 4096))
               (String (hexDigit ((u / 256) mod 16))
                  (String (hexDigit ((u / 16) mod 16))
                     (String (hexDigit (u mod 16)) EmptyString))))).

(** The escapes of a sequence of code units, one after the other. *)
Fixpoint escapeUnits (esc : Z -> string) (units : list Z) : string :=
  match units with
  | [] => EmptyString
  | u :: r => esc u ++ escapeUnits esc r
  end.

Section Printer.

Variable escape : ascii -> string.

Fixpoint escapeAll (s : string) : string :=
  match s with
  | EmptyString => EmptyString
  | String c r => escape c ++ escapeAll r
  end.

Definition quote (s : string) : string :=
  String dquote (escapeAll s ++ String dquote EmptyString).

(** Serialisation of a value without [undefined] inside. *)
Fixpoint print (v : JSValue) : string :=
  match v with
  | VUndefined | VNull => "null"
  | VBool true => "true"
  | VBool false => "false"
  | VNum z => ofZ z
  | VStr s => quote s
  | VArr items =>
      "[" ++
      match items with
      | [] => ""
      | x :: r =>
          print x ++
          (fix rest (l : list JSValue) : string :=
             match l with
             | [] => ""
             | y :: l' => "," ++ print y ++ rest l'
             end) r
      end ++ "]"
  | VObj fields =>
      "{" ++
      match fields with
      | [] => ""
      | (k, x) :: r =>
          quote k ++ ":" ++ print x ++
          (fix rest (l : list (string * JSValue)) : string :=
             match l with
             | [] => ""
             | (k', y) :: l' => "," ++ quote k' ++ ":" ++ print y ++ rest l'
             end) r
      end ++ "}"
  end.

End Printer.

(** What [JSON.stringify] does with [undefined]: a property holding it is
    left out, an array element becomes [null]. *)
Fixpoint dropUndefined (v : JSValue) : JSValue :=
  match v with
  | VArr items => VArr (map dropUndefined items)
  | VObj fields =>
      VObj ((fix go (l : list (string * JSValue)) :=
               match l with
               | [] => []
               | (k, VUndefined) :: r => go r
               | (k, x) :: r => (k, dropUndefined x) :: go r
               end) fields)
  | VUndefined => VNull
  | other => other
  end.

(** [JSON.stringify(v)] for [v] other than [undefined]. *)
Definition stringify (v : JSValue) : string :=
  print escapeJS (dropUndefined v).

(** *** Parsing *)

Definition isJsonWhitespace (c : ascii) : bool :=
  let n := code c in
  (n =? 32) || (n =? 9) || (n =? 10) || (n =? 13).

Fixpoint skipWs (s : string) : string :=
  match s with
  | String c r => if isJsonWhitespace c then skipWs r else s
  | EmptyString => EmptyString
  end.

(** An object key that is an array index: JavaScript enumerates such keys
    first, in numeric order. *)
Definition isArrayIndex (k : string) : bool :=
  match digits 10 k with
  | Some n => String.eqb (ofZ n) k && (n <? 2 ^ 32 - 1)
  | None => false
  end.

Definition hex4 (a b c d : ascii) : option Z :=
  match digitValue 16 a, digitValue 16 b, digitValue 16 c, digitValue 16 d with
  | Some x, Some y, Some z, Some w => Some (((x * 16 + y) * 16 + z) * 16 + w)
  | _, _, _, _ => None
  end.

(** The characters of a string literal after its opening quote, up to
    and including the closing quote, as code units: a character of the
    text is one unit, an escape [\uXXXX] is the unit it names (a surrogate
    too). *)
Fixpoint parseChars (s : string) : option (list Z * string) :=
  match s with
  | EmptyString => None
  | String c r =>
      if Ascii.eqb c dquote then Some ([], r)
      else if Ascii.eqb c backslash then
        match r with
        | String e r' =>
            let simple (x : Z) :=
              match parseChars r' with
              | Some (t, rest) => Some (x :: t, rest)
              | None => None
              end in
            if Ascii.eqb e dquote then simple 34
            else if Ascii.eqb e backslash then simple 92
            else if Ascii.eqb e "/" then simple 47
            else if Ascii.eqb e "b" then simple 8
            else if Ascii.eqb e "f" then simple 12
            else if Ascii.eqb e "n" then simple 10
            else if Ascii.eqb e "r" then simple 13
            else if Ascii.eqb e "t" then simple 9
            else if Ascii.eqb e "u" then
              match r' with
              | String h1 (String h2 (String h3 (String h4 r''))) =>
                  match hex4 h1 h2 h3 h4 with
                  | Some n =>
                      match parseChars r'' with
                      | Some (t, rest) => Some (n :: t, rest)
                      | None => None
                      end
                  | None => None
                  end
              | _ => None
              end
            else None
        | EmptyString => None
        end
      else if code c <? 32 then None
      else match parseChars r with
           | Some (t, rest) => Some (code c :: t, rest)
           | None => None
           end
  end.

Fixpoint spanDigits (s : string) : string * string :=
  match s with
  | String c r =>
      if JS.isDecDigit c then
        let (d, rest) := spanDigits r in (String c d, rest)
      else (EmptyString, s)
  | EmptyString => (EmptyString, EmptyString)
  end.

Definition startsFraction (s : string) : bool :=
  match s with
  | String c _ => (code c =? 46) || (code c =? 101) || (code c =? 69)
  | EmptyString => false
  end.

Definition startsWith (c : ascii) (s : string) : bool :=
match s with
| String x _ => Ascii.eqb x c
| EmptyString => false
end.

Definition tail (s : string) : string :=
match s with
| String _ r => r
| EmptyString => EmptyString
end.

(** A digit string that is a single digit or does not start with 0. *)
Definition noLeadingZero (d : string) : bool :=
match d with
| EmptyString => false
| String _ EmptyString => true
| String c _ => negb (Ascii.eqb c "0")
end.

(** The value of a string of decimal digits, 0 for the empty string. *)
Definition digitsValue (d : string) : Z :=
match digitsFrom 10 0 d with
| Some n => n
| None => 0
end.

(** The optional fraction of a number: its digits (none without a
    fraction) and the text after it; [None] for a point without a digit. *)
Definition parseFraction (s : string) : option (string * string) :=
match s with
| String "." r =>
    let (f, rest) := spanDigits r in
    match f with
    | EmptyString => None
    | _ => Some (f, rest)
    end
| _ => Some (EmptyString, s)
end.

(** The optional exponent of a number: its value (0 without an exponent)
    and the text after it; [None] for an exponent mark without a digit. *)
Definition parseExponent (s : string) : option (Z * string) :=
match s with
| String c r =>
    if (code c =? 101) || (code c =? 69) then
      let negative := startsWith "-" r in
      let signed := negative || startsWith "+" r in
      let (d, rest) := spanDigits (if signed then tail r else r) in
      match d with
      | EmptyString => None
      | _ => Some (if negative then - digitsValue d else digitsValue d, rest)
      end
    else Some (0, s)
| EmptyString => Some (0, s)
end.

(** A number: an optional minus, an integer part without a leading zero,
    an optional fraction, an optional exponent; the value is the double
    nearest to the literal. *)
Definition parseNumber (s : string) : option (Double.t * string) :=
let negative := startsWith "-" s in
let (int, r1) := spanDigits (if negative then tail s else s) in
if noLeadingZero int then
  match parseFraction r1 with
  | Some (EmptyString, r2) =>
      match parseExponent r2 with
      | Some (e, r3) => Some (Double.ofDecimal negative (digitsValue int) e, r3)
      | None => None
      end
  | Some (frac, r2) =>
      match parseExponent r2 with
      | Some (e, r3) =>
          Some (Double.ofDecimal negative (digitsValue (int ++ frac))
                                 (e - Z.of_nat (String.length frac)), r3)
      | None => None
      end
  | None => None
  end
else None.

Fixpoint dropPrefix (p s : string) : option string :=
  match p, s with
  | EmptyString, _ => Some s
  | String a p', String b s' => if Ascii.eqb a b then dropPrefix p' s' else None
  | _, EmptyString => None
  end.

Fixpoint hasKey (k : string) (l : list (string * JSValue)) : bool :=
  match l with
  | [] => false
  | (k', _) :: r => String.eqb k k' || hasKey k r
  end.

(** Recursive descent over the whole grammar of JSON.  A repeated key
    keeps its first position and its last value; a finished object has its
    members in the order of enumeration.  [None] is a SyntaxError. *)
Fixpoint parseValue (fuel : nat) (s : string) : option (JSONDoc.t * string) :=
  match fuel with
  | O => None
  | S f =>
      match skipWs s with
      | EmptyString => None
      | String c r =>
          if Ascii.eqb c "[" then
            if startsWith "]" (skipWs r)
            then Some (JSONDoc.Arr [], tail (skipWs r))
            else
              match parseElements f (skipWs r) with
              | Some (items, rest) => Some (JSONDoc.Arr items, rest)
              | None => None
              end
          else if Ascii.eqb c "{" then
            if startsWith "}" (skipWs r)
            then Some (JSONDoc.Obj [], tail (skipWs r))
            else
              match parseMembers f (skipWs r) with
              | Some (members, rest) =>
                  Some (JSONDoc.Obj (JSONDoc.enumeration members), rest)
              | None => None
              end
          else if Ascii.eqb c dquote then
            match parseChars r with
            | Some (t, rest) => Some (JSONDoc.Str t, rest)
            | None => None
            end
          else if Ascii.eqb c "t" then
            option_map (fun rest => (JSONDoc.Bool true, rest)) (dropPrefix "rue" r)
          else if Ascii.eqb c "f" then
            option_map (fun rest => (JSONDoc.Bool false, rest)) (dropPrefix "alse" r)
          else if Ascii.eqb c "n" then
            option_map (fun rest => (JSONDoc.Null, rest)) (dropPrefix "ull" r)
          else
            match parseNumber (String c r) with
            | Some (d, rest) => Some (JSONDoc.Num d, rest)
            | None => None
            end
      end
  end

with parseElements (fuel : nat) (s : string)
     : option (list JSONDoc.t * string) :=
  match fuel with
  | O => None
  | S f =>
      match parseValue f s with
      | Some (v, r) =>
          match skipWs r with
          | String "," r' =>
              match parseElements f r' with
              | Some (items, rest) => Some (v :: items, rest)
              | None => None
              end
          | String "]" rest => Some ([v], rest)
          | _ => None
          end
      | None => None
      end
  end

with parseMembers (fuel : nat) (s : string)
     : option (list (list Z * JSONDoc.t) * string) :=
  match fuel with
  | O => None
  | S f =>
      match skipWs s with
      | String c r =>
          if Ascii.eqb c dquote then
            match parseChars r with
            | Some (k, r1) =>
                match skipWs r1 with
                | String ":" r2 =>
                    match parseValue f r2 with
                    | Some (v, r3) =>
                        match skipWs r3 with
                        | String "," r4 =>
                            match parseMembers f r4 with
                            | Some (members, rest) =>
                                Some (if JSONDoc.hasKey k members
                                      then (k, JSONDoc.lookup k members)
                                           :: JSONDoc.removeKey k members
                                      else (k, v) :: members, rest)
                            | None => None
                            end
                        | String "}" rest => Some ([(k, v)], rest)
                        | _ => None
                        end
                    | None => None
                    end
                | _ => None
                end
            | None => None
            end
          else None
      | EmptyString => None
      end
  end.

(** [JSON.parse(text)]; [None] is the SyntaxError. *)
Definition parse (text : string) : option JSONDoc.t :=
  match parseValue (S (String.length text)) text with
  | Some (v, rest) =>
      match skipWs rest with
      | EmptyString => Some v
      | _ => None
      end
  | None => None
  end.

(** [JSON.parse(text)] where the handlers of this development go on with
    the result: [None] is the SyntaxError, or a document that is no
    [JSValue] (a code unit above 255, a number that is no integer). *)
Definition parseValueOf (text : string) : option JSValue :=
  match parse text with
  | Some d => JSONDoc.toValue d
  | None => None
  end.

End JSONText.

(* ================================================================== *)
(** ** UTF-8, as PHP's [json_encode] reads the bytes of a string *)

Module Utf8.

Import JSString.

(** A continuation byte, 10xxxxxx. *)
Definition trail (c : ascii) : bool :=
  (128 <=? code c) && (code c <? 192).

Definition bits (c : ascii) : Z := code c - 128.

(** The code points of a byte string; [None] when it is not well-formed
    UTF-8: a stray or missing continuation byte, an overlong form, a
    surrogate, a code point above U+10FFFF. *)
Fixpoint decode (s : string) : option (list Z) :=
  match s with
  | EmptyString => Some []
  | String a r =>
      let x := code a in
      if x <? 128 then option_map (cons x) (decode r)
      else if x <? 194 then None
      else if x <? 224 then
        match r with
        | String b r1 =>
            if trail b
            then option_map (cons ((x - 192) * 64 + bits b)) (decode r1)
            else None
        | _ => None
        end
      else if x <? 240 then
        match r with
        | String b (String c r2) =>
            let point := (x - 224) * 4096 + bits b * 64 + bits c in
            if trail b && trail c
               && negb (point <? 2048)
               && negb ((55296 <=? point) && (point <=? 57343))
            then option_map (cons point) (decode r2)
            else None
        | _ => None
        end
      else if x <? 245 then
        match r with
        | String b (String c (String d r3)) =>
            let point := (x - 240) * 262144 + bits b * 4096
                         + bits c * 64 + bits d in
            if trail b && trail c && trail d
               && negb (point <? 65536) && negb (1114111 <? point)
            then option_map (cons point) (decode r3)
            else None
        | _ => None
        end
      else None
  end.

(** The UTF-16 code units of a code point: itself, or a surrogate pair. *)
Definition unitsOfPoint (point : Z) : list Z :=
  if point <? 65536 then [point]
  else [55296 + (point - 65536) / 1024; 56320 + (point - 65536) mod 1024].

Definition units (points : list Z) : list Z := flat_map unitsOfPoint points.

End Utf8.

(* ================================================================== *)
(** ** PHP values *)

Inductive PHPKey :=
| KInt (i : Z)
| KStr (s : string).

(** PHP values as [json_decode(..., true)] builds them; an array is an
    ordered map. *)
Inductive PHPValue :=
| PNull
| PBool (b : bool)
| PInt (i : Z)
| PString (s : string)
| PArray (entries : list (PHPKey * PHPValue)).

Module PHP.

(** Conversion to bool, as [!$x] and [if ($x)] apply it. *)
Definition toBool (v : PHPValue) : bool :=
  match v with
  | PNull => false
  | PBool b => b
  | PInt i => negb (i =? 0)
  | PString s => negb (String.eqb s "" || String.eqb s "0")
  | PArray entries => match entries with [] => false | _ => true end
  end.

(** Conversion to string, as the [.] operator applies it. *)
Definition toString (v : PHPValue) : string :=
  match v with
  | PNull => ""
  | PBool b => if b then "1" else ""
  | PInt i => JSString.ofZ i
  | PString s => s
  | PArray _ => "Array"
  end.

(** A string key that is a canonical decimal integer becomes an integer
    key. *)
Definition normaliseKey (k : string) : PHPKey :=
  match JS.signedDecimal k with
  | Some i => if String.eqb (JSString.ofZ i) k then KInt i else KStr k
  | None => KStr k
  end.

Definition keyEqb (a b : PHPKey) : bool :=
  match a, b with
  | KInt i, KInt j => i =? j
  | KStr s, KStr t => String.eqb s t
  | _, _ => false
  end.

Fixpoint lookup (k : PHPKey) (entries : list (PHPKey * PHPValue))
  : option PHPValue :=
  match entries with
  | [] => None
  | (k', v) :: r => if keyEqb k k' then Some v else lookup k r
  end.

(** [$v[$k] ?? $default] *)
Definition indexOr (v : PHPValue) (k : string) (default : PHPValue)
  : PHPValue :=
  match v with
  | PArray entries =>
      match lookup (normaliseKey k) entries with
      | Some PNull | None => default
      | Some x => x
      end
  | _ => default
  end.

Fixpoint enumerate (i : Z) (l : list PHPValue) : list (PHPKey * PHPValue) :=
  match l with
  | [] => []
  | x :: r => (KInt i, x) :: enumerate (i + 1) r
  end.

(** [json_decode($text, true)] on parsed JSON: objects and arrays both
    become arrays. *)
Fixpoint fromJson (v : JSValue) : PHPValue :=
  match v with
  | VUndefined | VNull => PNull
  | VBool b => PBool b
  | VNum z => PInt z
  | VStr s => PString s
  | VArr items => PArray (enumerate 0 (map fromJson items))
  | VObj fields =>
      PArray (map (fun kv : string * JSValue =>
                     (normaliseKey (fst kv), fromJson (snd kv))) fields)
  end.

(** An array whose keys are 0, 1, ..., n-1 in this order is a list. *)
Fixpoint isListFrom (i : Z) (entries : list (PHPKey * PHPValue)) : bool :=
  match entries with
  | [] => true
  | (KInt j, _) :: r => (i =? j) && isListFrom (i + 1) r
  | (KStr _, _) :: _ => false
  end.

Definition keyString (k : PHPKey) : string :=
  match k with
  | KInt i => JSString.ofZ i
  | KStr s => s
  end.

(** The JSON document [json_encode] writes: a list becomes an array, any
    other array an object. *)
Fixpoint toJson (v : PHPValue) : JSValue :=
  match v with
  | PNull => VNull
  | PBool b => VBool b
  | PInt i => VNum i
  | PString s => VStr s
  | PArray entries =>
      if isListFrom 0 entries
      then VArr (map (fun kv : PHPKey * PHPValue => toJson (snd kv)) entries)
      else VObj (map (fun kv : PHPKey * PHPValue =>
                        (keyString (fst kv), toJson (snd kv))) entries)
  end.

(** [json_encode($v)] of a value that [json_decode] built from a document
    of this development ([fromJson]).  A string [s] of such a value stands
    for the UTF-8 of the text [s], which the encoder reads back character
    by character: it does not fail, and it escapes every character above
    ASCII. *)
Definition json_encode_decoded (v : PHPValue) : string :=
  JSONText.print JSONText.escapeText (toJson v).

(** The string literal [json_encode] writes for a byte string, default
    flags: the bytes are read as UTF-8 and every code point is escaped
    through its UTF-16 code units; [None] when the bytes are not
    well-formed UTF-8. *)
Definition quoteBytes (s : string) : option string :=
  match Utf8.decode s with
  | Some points =>
      Some (String JSONText.dquote
              (JSONText.escapeUnits JSONText.escapeUnit (Utf8.units points)
               ++ String JSONText.dquote EmptyString))
  | None => None
  end.

(** The text [json_encode] writes for a value whose strings are byte
    strings, as the script holds them; [None] when a string or a key is
    not well-formed UTF-8. *)
Fixpoint jsonText (v : PHPValue) : option string :=
  match v with
  | PNull => Some "null"
  | PBool b => Some (if b then "true" else "false")
  | PInt i => Some (JSString.ofZ i)
  | PString s => quoteBytes s
  | PArray entries =>
      if isListFrom 0 entries then
        match entries with
        | [] => Some "[]"
        | (_, x) :: r =>
            match jsonText x,
                  (fix rest (l : list (PHPKey * PHPValue)) : option string :=
                     match l with
                     | [] => Some ""
                     | (_, y) :: l' =>
                         match jsonText y, rest l' with
                         | Some a, Some b => Some ("," ++ a ++ b)
                         | _, _ => None
                         end
                     end) r with
            | Some a, Some b => Some ("[" ++ a ++ b ++ "]")
            | _, _ => None
            end
        end
      else
        match entries with
        | [] => Some "{}"
        | (k, x) :: r =>
            match quoteBytes (keyString k), jsonText x,
                  (fix rest (l : list (PHPKey * PHPValue)) : option string :=
                     match l with
                     | [] => Some ""
                     | (k', y) :: l' =>
                         match quoteBytes (keyString k'), jsonText y, rest l' with
                         | Some q, Some a, Some b =>
                             Some ("," ++ q ++ ":" ++ a ++ b)
                         | _, _, _ => None
                         end
                     end) r with
            | Some q, Some a, Some b => Some ("{" ++ q ++ ":" ++ a ++ b ++ "}")
            | _, _, _ => None
            end
        end
  end.

(** How deep the arrays of a value are nested: 0 for a scalar. *)
Fixpoint nesting (v : PHPValue) : Z :=
  match v with
  | PArray entries =>
      1 + (fix deepest (l : list (PHPKey * PHPValue)) : Z :=
             match l with
             | [] => 0
             | (_, x) :: r => Z.max (nesting x) (deepest r)
             end) entries
  | _ => 0
  end.

(** [json_encode($v)], default flags and depth 512; [None] is the [false]
    it returns when it fails. *)
Definition json_encode (v : PHPValue) : option string :=
  if 512 <? nesting v then None else jsonText v.

(** [false] where a string is expected is the empty string. *)
Definition strval (r : option string) : string :=
  match r with
  | Some s => s
  | None => ""
  end.

(** The JSON document a value is, by the rules of JSON: a list is an
    array, any other array an object keyed by the keys as strings; a
    string is the text its bytes encode in UTF-8; [None] when some string
    is not well-formed UTF-8. *)
Fixpoint document (v : PHPValue) : option JSONDoc.t :=
  match v with
  | PNull => Some JSONDoc.Null
  | PBool b => Some (JSONDoc.Bool b)
  | PInt i => Some (JSONDoc.Num (Double.ofInt i))
  | PString s =>
      match Utf8.decode s with
      | Some points => Some (JSONDoc.Str (Utf8.units points))
      | None => None
      end
  | PArray entries =>
      if isListFrom 0 entries then
        option_map JSONDoc.Arr
          ((fix go (l : list (PHPKey * PHPValue)) : option (list JSONDoc.t) :=
              match l with
              | [] => Some []
              | (_, x) :: r =>
                  match document x, go r with
                  | Some d, Some ds => Some (d :: ds)
                  | _, _ => None
                  end
              end) entries)
      else
        option_map JSONDoc.Obj
          ((fix go (l : list (PHPKey * PHPValue))
              : option (list (list Z * JSONDoc.t)) :=
              match l with
              | [] => Some []
              | (k, x) :: r =>
                  match Utf8.decode (keyString k), document x, go r with
                  | Some points, Some d, Some ds =>
                      Some ((Utf8.units points, d) :: ds)
                  | _, _, _ => None
                  end
              end) entries)
  end.

(** [base64_encode($s)] *)
Definition base64_encode (s : string) : string := Base64.encode s.

(** [['k' => v, ...]] *)
Definition assoc (l : list (string * PHPValue)) : PHPValue :=
  PArray (map (fun kv : string * PHPValue => (KStr (fst kv), snd kv)) l).

End PHP.

(* ================================================================== *)
(** ** The payment gate ([X402Middleware]) *)

(** What the gate takes from outside:
    - [decode]: [json_decode(base64_decode($header), true)] as the JSON
      document read, [None] when [json_decode] finds no valid JSON;
    - [facilitator]: the HTTP exchange of [callFacilitator] with the
      facilitator: the status code (0 when curl fails) and the JSON document
      in the response body, [None] when the body is not JSON. *)
Record GateEnv := {
  decode : string -> option JSValue;
  facilitator : string -> PHPValue -> Z * option JSValue
}.

(** How a run of the gate ends. *)
Inductive GateResult :=
| Exit (status : Z) (responseHeaders : list (string * string))
       (responseBody : PHPValue)
| Proceed (responseHeaders : list (string * string))
          (settlement : PHPValue)
| Fatal.

Module X402Middleware.

Definition HEADER_PAYMENT_REQUIRED : string := "PAYMENT-REQUIRED".
Definition HEADER_PAYMENT_SIGNATURE : string := "PAYMENT-SIGNATURE".
Definition HEADER_PAYMENT_RESPONSE : string := "PAYMENT-RESPONSE".

Section Gate.

Variable genv : GateEnv.

(** [$headers[$name] ?? ...]: exact-case lookup in [getallheaders()]. *)
Fixpoint headerValue (headers : list (string * string)) (name : string)
  : option string :=
  match headers with
  | [] => None
  | (k, v) :: r => if String.eqb k name then Some v else headerValue r name
  end.

(** [getPaymentHeader] *)
Definition getPaymentHeader (headers : list (string * string))
  : option string :=
  match headerValue headers HEADER_PAYMENT_SIGNATURE with
  | Some v => Some v
  | None =>
      match headerValue headers "Payment-Signature" with
      | Some v => Some v
      | None => headerValue headers "payment-signature"
      end
  end.

(** [Response::error($message, $statusCode, $errorCode)]; the error
    codes passed by the gate are non-empty. *)
Definition responseError (message : string) (statusCode : Z)
           (errorCode : string) : GateResult :=
  Exit statusCode
       [("Content-Type", "application/json; charset=utf-8")]
       (PHP.assoc [("success", PBool false);
                   ("message", PString message);
                   ("error_code", PString errorCode)]).

(** [send402] *)
Definition send402 (requirements : PHPValue) : GateResult :=
  Exit 402
       [("Content-Type", "application/json");
        (HEADER_PAYMENT_REQUIRED,
         PHP.base64_encode
           (PHP.strval (PHP.json_encode (PArray [(KInt 0, requirements)]))))]
       (PHP.assoc [("success", PBool false);
                   ("message", PString "Payment Required");
                   ("error_code", PString "X402_PAYMENT_REQUIRED");
                   ("x402Version", PInt 2)]).

(** The outcome of [callFacilitator]: [null], an array, or the
    TypeError of returning a scalar from a function declared
    [?array]. *)
Inductive CallResult :=
| CallNull
| CallArray (a : PHPValue)
| CallTypeError.

(** [callFacilitator] *)
Definition callFacilitator (endpoint : string) (data : PHPValue)
  : CallResult :=
  let (httpCode, response) := genv.(facilitator) endpoint data in
  if negb (httpCode =? 200) && negb (httpCode =? 402) then CallNull
  else
    match response with
    | None => CallNull
    | Some doc =>
        match PHP.fromJson doc with
        | PNull => CallNull
        | PArray entries => CallArray (PArray entries)
        | _ => CallTypeError
        end
    end.

Definition callData (payload requirements : PHPValue) : PHPValue :=
  PHP.assoc [("payload", payload); ("requirements", requirements)].

(** [!$result || !($result[$flag] ?? false)] *)
Definition refused (result : PHPValue) (flag : string) : bool :=
  negb (PHP.toBool result)
  || negb (PHP.toBool (PHP.indexOr result flag (PBool false))).

(** The body shared by [handle] and [handleTransfer], which differ in
    the two endpoints they call.  The result comes with the facilitator
    endpoints called, in order. *)
Definition run (verifyEndpoint settleEndpoint : string)
           (headers : list (string * string)) (requirements : PHPValue)
  : list string * GateResult :=
  match getPaymentHeader headers with
  | None => ([], send402 requirements)
  | Some paymentHeader =>
      let payload := match genv.(decode) paymentHeader with
                     | Some doc => PHP.fromJson doc
                     | None => PNull
                     end in
      if negb (PHP.toBool payload) then
        ([], responseError "Invalid PAYMENT-SIGNATURE header" 400
                           "X402_INVALID_PAYLOAD")
      else
        match callFacilitator verifyEndpoint (callData payload requirements) with
        | CallTypeError => ([verifyEndpoint], Fatal)
        | verifyCall =>
            let verifyResult := match verifyCall with
                                | CallArray a => a
                                | _ => PNull
                                end in
            if refused verifyResult "valid" then
              ([verifyEndpoint],
               responseError
                 ("Payment verification failed: " ++
                  PHP.toString (PHP.indexOr verifyResult "reason"
                                            (PString "unknown")))
                 402 "X402_VERIFY_FAILED")
            else
              match callFacilitator settleEndpoint
                                    (callData payload requirements) with
              | CallTypeError => ([verifyEndpoint; settleEndpoint], Fatal)
              | settleCall =>
                  let settleResult := match settleCall with
                                      | CallArray a => a
                                      | _ => PNull
                                      end in
                  if refused settleResult "success" then
                    ([verifyEndpoint; settleEndpoint],
                     responseError
                       ("Payment settlement failed: " ++
                        PHP.toString (PHP.indexOr settleResult "error"
                                                  (PString "unknown")))
                       500 "X402_SETTLE_FAILED")
                  else
                    ([verifyEndpoint; settleEndpoint],
                     Proceed
                       [(HEADER_PAYMENT_RESPONSE,
                         PHP.base64_encode
                           (PHP.json_encode_decoded settleResult))]
                       settleResult)
              end
        end
  end.

(** [X402Middleware::handle] (escrow) *)
Definition handle := run "/x402/verify" "/x402/settle".

(** [X402Middleware::handleTransfer] (direct transfer) *)
Definition handleTransfer := run "/x402/verify-transfer" "/x402/settle-transfer".

End Gate.

End X402Middleware.

(* ================================================================== *)
(** ** The client's header codec ([X402Service]) *)

Module X402Service.

(** [encodePayload(payload)]: [btoa(JSON.stringify(payload))] *)
Definition encodePayload (payload : JSValue) : string :=
  Base64.encode (JSONText.stringify payload).

(** [parsePaymentRequired(response)], given the PAYMENT-REQUIRED header
    of the response; [None] is a thrown error (header missing, [atob] or
    [JSON.parse] failing). *)
Definition parsePaymentRequired (header : option string)
  : option JSONDoc.t :=
  match header with
  | None => None
  | Some h =>
      if String.eqb h "" then None
      else match Base64.atob h with
           | Some text => JSONText.parse text
           | None => None
           end
  end.

(** [JSON.parse(atob(paymentResponse))] of [payAndFetch], step 5, as a
    value of this development; [None] is a thrown error, or a document
    that is no [JSValue]. *)
Definition decodeHeader (h : string) : option JSValue :=
  match Base64.atob h with
  | Some text => JSONText.parseValueOf text
  | None => None
  end.

(** [this.network] and [this.x402Version], set by the constructor. *)
Definition network : string := "eip155:1030".
Definition x402Version : Z := 2.

(** The callback of [selectRequirements]: [&&] and [||] evaluate their
    right operand only when needed, and reading a property of [null] or
    [undefined] throws. *)
Definition compatible (r : JSValue) : Result bool :=
match JS.get r "scheme" with
| Err e => Err e
| Ok scheme =>
    if negb (JS.strictEqStr scheme "exact") then Ok false
    else
      match JS.get r "network" with
      | Err e => Err e
      | Ok net =>
          if negb (JS.strictEqStr net network) then Ok false
          else
            match JS.get r "extra" with
            | Err e => Err e
            | Ok extra =>
                Ok (JS.strictEqStr (JS.getOpt extra "settlementMode") "transfer"
                    || JS.strictEqStr (JS.getOpt extra "assetTransferMethod")
                                      "eip3009")
            end
      end
end.

(** [Array.prototype.find] with this callback: the first element for
    which it is true, [undefined] when there is none. *)
Fixpoint findCompatible (items : list JSValue) : Result JSValue :=
match items with
| [] => Ok VUndefined
| r :: rest =>
    match compatible r with
    | Err e => Err e
    | Ok true => Ok r
    | Ok false => findCompatible rest
    end
end.

(** [selectRequirements(requirementsList)]: only arrays have [find]. *)
Definition selectRequirements (requirementsList : JSValue) : Result JSValue :=
match requirementsList with
| VArr items => findCompatible items
| VUndefined => Throw "Cannot read properties of undefined (reading 'find')"
| VNull => Throw "Cannot read properties of null (reading 'find')"
| _ => Throw "requirementsList.find is not a function"
end.

(** The same two functions over what [parsePaymentRequired] returns: a
    parsed document, whose strings may hold any code unit.  A value that
    is read is a document or [undefined] ([None]). *)
Definition property (v : option JSONDoc.t) (k : string)
  : Result (option JSONDoc.t) :=
match v with
| None =>
    Throw ("Cannot read properties of undefined (reading '" ++ k ++ "')")
| Some JSONDoc.Null =>
    Throw ("Cannot read properties of null (reading '" ++ k ++ "')")
| Some (JSONDoc.Obj members) =>
    Ok (if JSONDoc.hasKey (JSONDoc.unitsOf k) members
        then Some (JSONDoc.lookup (JSONDoc.unitsOf k) members)
        else None)
| Some _ => Ok None
end.

(** [v?.k] *)
Definition propertyOpt (v : option JSONDoc.t) (k : string)
  : option JSONDoc.t :=
match v with
| Some (JSONDoc.Obj members) =>
    if JSONDoc.hasKey (JSONDoc.unitsOf k) members
    then Some (JSONDoc.lookup (JSONDoc.unitsOf k) members)
    else None
| _ => None
end.

(** [v === s] for a string literal [s]. *)
Definition isText (v : option JSONDoc.t) (s : string) : bool :=
match v with
| Some (JSONDoc.Str units) => JSONDoc.unitsEqb units (JSONDoc.unitsOf s)
| _ => false
end.

Definition compatibleOffer (r : JSONDoc.t) : Result bool :=
match property (Some r) "scheme" with
| Err e => Err e
| Ok scheme =>
    if negb (isText scheme "exact") then Ok false
    else
      match property (Some r) "network" with
      | Err e => Err e
      | Ok net =>
          if negb (isText net network) then Ok false
          else
            match property (Some r) "extra" with
            | Err e => Err e
            | Ok extra =>
                Ok (isText (propertyOpt extra "settlementMode") "transfer"
                    || isText (propertyOpt extra "assetTransferMethod")
                              "eip3009")
            end
      end
end.

Fixpoint findOffer (items : list JSONDoc.t) : Result (option JSONDoc.t) :=
match items with
| [] => Ok None
| r :: rest =>
    match compatibleOffer r with
    | Err e => Err e
    | Ok true => Ok (Some r)
    | Ok false => findOffer rest
    end
end.

(** [selectRequirements(requirementsList)] on the parsed header. *)
Definition selectOffer (requirementsList : JSONDoc.t)
  : Result (option JSONDoc.t) :=
match requirementsList with
| JSONDoc.Arr items => findOffer items
| JSONDoc.Null => Throw "Cannot read properties of null (reading 'find')"
| _ => Throw "requirementsList.find is not a function"
end.

(** The ethers signer handed to [signPayment]: its address, and its
    EIP-712 signature of a message under a domain (the types are the
    constant [TransferWithAuthorization] list). *)
Record Signer := {
  getAddress : Result string;
  signTypedData : JSValue -> JSValue -> Result string
}.

(** [signPayment(requirements, signer)], given the random [nonce]
    ([ethers.hexlify(ethers.randomBytes(32))]) and [Date.now()]. *)
Definition signPayment (signer : Signer) (nonce : string) (dateNow : Z)
           (requirements : JSValue) : Result JSValue :=
match signer.(getAddress) with
| Err e => Err e
| Ok address =>
    let validAfter := 0 in
    let validBefore := dateNow / 1000 + 3600 in
    match JS.get requirements "extra" with
    | Err e => Err e
    | Ok extra =>
        match JS.get extra "name" with
        | Err e => Err e
        | Ok name =>
            match JS.get extra "version" with
            | Err e => Err e
            | Ok version =>
                let domain :=
                  VObj [("name", name); ("version", version);
                        ("chainId", VNum 1030);
                        ("verifyingContract", JS.getOpt requirements "asset")] in
                let message :=
                  VObj [("from", VStr address);
                        ("to", JS.getOpt requirements "payTo");
                        ("value", JS.getOpt requirements "amount");
                        ("validAfter", VStr (JSString.ofZ validAfter));
                        ("validBefore", VStr (JSString.ofZ validBefore));
                        ("nonce", VStr nonce)] in
                match signer.(signTypedData) domain message with
                | Err e => Err e
                | Ok signature =>
                    Ok (VObj [("x402Version", VNum x402Version);
                              ("scheme", VStr "exact");
                              ("network", VStr network);
                              ("payload",
                               VObj [("signature", VStr signature);
                                     ("authorization", message)])])
                end
            end
        end
    end
end.

End X402Service.

(* ================================================================== *)
(** ** The facilitator's environment loader ([loadEnv]) *)

(** More of [String.prototype], for the one-character patterns the loader
    uses. *)
Module JSText.

(** [s.split(sep)]: the pieces between the separators, at least one. *)
Fixpoint split (sep : ascii) (s : string) : list string :=
match s with
| EmptyString => [EmptyString]
| String c r =>
    if Ascii.eqb c sep then EmptyString :: split sep r
    else match split sep r with
         | piece :: rest => String c piece :: rest
         | [] => [String c EmptyString]
         end
end.

(** [s.startsWith(c)] *)
Definition startsWith (c : ascii) (s : string) : bool :=
match s with
| String x _ => Ascii.eqb x c
| EmptyString => false
end.

(** [s.endsWith(c)] *)
Fixpoint endsWith (c : ascii) (s : string) : bool :=
match s with
| EmptyString => false
| String x EmptyString => Ascii.eqb x c
| String _ r => endsWith c r
end.

(** [s.includes(c)] *)
Fixpoint includes (c : ascii) (s : string) : bool :=
match s with
| EmptyString => false
| String x r => Ascii.eqb x c || includes c r
end.

(** [s.indexOf(c)]: the first position of [c], -1 when there is none. *)
Fixpoint indexOf (c : ascii) (s : string) : Z :=
match s with
| EmptyString => -1
| String x r =>
    if Ascii.eqb x c then 0
    else let i := indexOf c r in if i <? 0 then -1 else i + 1
end.

Fixpoint take (n : nat) (s : string) : string :=
match n, s with
| S m, String c r => String c (take m r)
| _, _ => EmptyString
end.

Fixpoint drop (n : nat) (s : string) : string :=
match n, s with
| S m, String _ r => drop m r
| _, _ => s
end.

Definition length (s : string) : Z := Z.of_nat (String.length s).

(** The characters from position [a] up to position [b]. *)
Definition between (s : string) (a b : Z) : string :=
take (Z.to_nat (b - a)) (drop (Z.to_nat a) s).

(** [s.substring(start, end)]: both positions are clamped to the string
    and swapped when out of order. *)
Definition substring (s : string) (start finish : Z) : string :=
let a := Z.max 0 (Z.min start (length s)) in
let b := Z.max 0 (Z.min finish (length s)) in
between s (Z.min a b) (Z.max a b).

(** [s.substring(start)] *)
Definition substringFrom (s : string) (start : Z) : string :=
substring s start (length s).

(** [s.slice(start, end)]: a negative position counts from the end; an
    empty range gives the empty string. *)
Definition slice (s : string) (start finish : Z) : string :=
let position i := if i <? 0 then Z.max (length s + i) 0
                  else Z.min i (length s) in
between s (position start) (Z.max (position start) (position finish)).

End JSText.

Module Loader.

(** The process environment: the variables by name, the first entry of a
    name being its value. *)
Definition ProcessEnv : Type := list (string * string).

Fixpoint getenv (penv : ProcessEnv) (name : string) : option string :=
match penv with
| [] => None
| (k, v) :: rest => if String.eqb k name then Some v else getenv rest name
end.

(** The names [process.env] inherits from [Object.prototype]: reading one
    that is not a variable gives a function or an object, never
    [undefined]. *)
Definition inheritedNames : list string :=
["constructor"; "__defineGetter__"; "__defineSetter__"; "hasOwnProperty";
 "__lookupGetter__"; "__lookupSetter__"; "isPrototypeOf";
 "propertyIsEnumerable"; "toString"; "valueOf"; "__proto__";
 "toLocaleString"].

(** The truth value of [process.env[key]]: a variable is true when its
    value is not empty. *)
Definition isSet (penv : ProcessEnv) (key : string) : bool :=
match getenv penv key with
| Some v => negb (String.eqb v "")
| None => existsb (String.eqb key) inheritedNames
end.

(** [process.env[key] = value]: the operating system refuses an empty
    name, and the assignment is then without effect. *)
Definition setenv (penv : ProcessEnv) (key value : string) : ProcessEnv :=
if String.eqb key "" then penv else (key, value) :: penv.

Definition dquote : ascii := "034"%char.
Definition squote : ascii := "039"%char.

(** The value with one pair of enclosing quotes removed. *)
Definition unquote (value : string) : string :=
if (JSText.startsWith dquote value && JSText.endsWith dquote value)
   || (JSText.startsWith squote value && JSText.endsWith squote value)
then JSText.slice value 1 (-1)
else value.

(** What a line of the file defines, if anything: the loop body up to the
    assignment. *)
Definition parseLine (line : string) : option (string * string) :=
if String.eqb line "" || JSText.startsWith "#" line
   || negb (JSText.includes "=" line)
then None
else
  let equalIndex := JSText.indexOf "=" line in
  let key := JSString.trim (JSText.substring line 0 equalIndex) in
  let value := JSString.trim (JSText.substringFrom line (equalIndex + 1)) in
  Some (key, unquote value).

(** One turn of the loop. *)
Definition loadLine (penv : ProcessEnv) (line : string) : ProcessEnv :=
match parseLine line with
| None => penv
| Some (key, value) =>
    if isSet penv key then penv else setenv penv key value
end.

(** [process.env.X402_FACILITATOR_KEY || ''], the facilitator's API_KEY. *)
Definition apiKey (penv : ProcessEnv) : string :=
match getenv penv "X402_FACILITATOR_KEY" with
| Some v => v
| None => ""
end.

(** [loadEnv()], given the text of the .env file ([None] when the file
    does not exist or cannot be read: the function then changes
    nothing) and the process environment; the result is the environment
    it leaves. *)
Definition loadEnv (file : option string) (penv : ProcessEnv) : ProcessEnv :=
match file with
| None => penv
| Some content => fold_left loadLine (JSText.split "010" content) penv
end.

End Loader.

(* ================================================================== *)
(** ** The gate's environment loader ([EnvLoader]) *)

(** PHP strings are byte strings; the functions of the loader. *)
Module PHPText.

(** The characters [trim] strips by default: space, tab, line feed,
    carriage return, NUL and vertical tab. *)
Definition isTrimChar (c : ascii) : bool :=
let n := JSString.code c in
(n =? 32) || (n =? 9) || (n =? 10) || (n =? 13) || (n =? 0) || (n =? 11).

Fixpoint ltrim (s : string) : string :=
match s with
| String c r => if isTrimChar c then ltrim r else s
| EmptyString => EmptyString
end.

(** [trim($s)] *)
Definition trim (s : string) : string :=
JSString.rev (ltrim (JSString.rev (ltrim s))).

(** [empty($s)] for a string: the empty string and ["0"]. *)
Definition empty (s : string) : bool := String.eqb s "" || String.eqb s "0".

(** [explode('=', $line, 2)] on a line that holds [=]: the text before
    the first [=] and the text after it. *)
Fixpoint explode2 (sep : ascii) (s : string) : string * string :=
match s with
| EmptyString => (EmptyString, EmptyString)
| String c r =>
    if Ascii.eqb c sep then (EmptyString, r)
    else let (before, after) := explode2 sep r in (String c before, after)
end.

Fixpoint noLineFeed (s : string) : bool :=
match s with
| EmptyString => true
| String c r => negb (Ascii.eqb c "010") && noLineFeed r
end.

(** The text without its last character. *)
Fixpoint chop (s : string) : string :=
match s with
| EmptyString => EmptyString
| String _ EmptyString => EmptyString
| String c r => String c (chop r)
end.

(** The [preg_match] of the loader, whose pattern is a caret, a group
    holding a double or a single quote, a dot with a star, a back
    reference to the group and a dollar: a quote, any characters but line
    feeds, the same quote, then the end of the text or a last line feed. *)
Definition quoted (value : string) : bool :=
match value with
| EmptyString => false
| String q r =>
    (Ascii.eqb q "034" || Ascii.eqb q "039")
    && let closes t := JSText.endsWith q t && noLineFeed (chop t) in
       (closes r || (JSText.endsWith "010" r && closes (chop r)))
end.

(** [substr($value, 1, -1)] *)
Definition substr_1_m1 (value : string) : string := JSText.slice value 1 (-1).

(** [file($path, FILE_IGNORE_NEW_LINES | FILE_SKIP_EMPTY_LINES)] on a
    file with this content: its lines without their line feeds, the empty
    ones left out; a carriage return before a line feed is left to
    [trim]. *)
Definition file (content : string) : list string :=
filter (fun line => negb (String.eqb line "")) (JSText.split "010" content).

End PHPText.

Module EnvLoader.

(** The static state of the class and what it reads and writes: the
    [$loaded] flag, the [$vars] array, the process environment of
    [getenv] and [putenv], and [$_ENV].  Arrays are keyed by name, the
    first entry of a name being its value (PHP turns a name that is a
    decimal integer into an integer key on writing and on reading
    alike). *)
Record State := {
  loaded : bool;
  vars : list (string * string);
  environment : list (string * string);
  ENV : list (string * string)
}.

Fixpoint lookup (entries : list (string * string)) (name : string)
  : option string :=
match entries with
| [] => None
| (k, v) :: rest => if String.eqb k name then Some v else lookup rest name
end.

(** How a call ends: it returns, [putenv] throws its ValueError (an
    assignment without a name), or [require] throws its Exception. *)
Inductive Outcome (A : Type) :=
| Done (a : A)
| ValueError
| MissingVariable (name : string).
Arguments Done {A} a.
Arguments ValueError {A}.
Arguments MissingVariable {A} name.

(** What a line defines, if anything. *)
Definition parseLine (rawLine : string) : option (string * string) :=
let line := PHPText.trim rawLine in
if PHPText.empty line || JSText.startsWith "#" line then None
else if negb (JSText.includes "=" line) then None
else
  let (name, value) := PHPText.explode2 "=" line in
  let name := PHPText.trim name in
  let value := PHPText.trim value in
  Some (name, if PHPText.quoted value then PHPText.substr_1_m1 value else value).

(** One turn of the [foreach]. *)
Definition loadLine (st : State) (rawLine : string) : Outcome State :=
match parseLine rawLine with
| None => Done st
| Some (name, value) =>
    let vars' := (name, value) :: st.(vars) in
    match lookup st.(environment) name with
    | None =>
        if String.eqb name "" then ValueError
        else
          Done {| loaded := st.(loaded);
                  vars := vars';
                  environment := (name, value) :: st.(environment);
                  ENV := match lookup st.(ENV) name with
                         | None => (name, value) :: st.(ENV)
                         | Some _ => st.(ENV)
                         end |}
    | Some _ =>
        Done {| loaded := st.(loaded);
                vars := vars';
                environment := st.(environment);
                ENV := match lookup st.(ENV) name with
                       | None => (name, value) :: st.(ENV)
                       | Some _ => st.(ENV)
                       end |}
    end
end.

Fixpoint loadLines (st : State) (lines : list string) : Outcome State :=
match lines with
| [] => Done st
| line :: rest =>
    match loadLine st line with
    | Done st' => loadLines st' rest
    | ValueError => ValueError
    | MissingVariable name => MissingVariable name
    end
end.

(** [EnvLoader::load()], given the lines [file()] reads from the .env
    file ([None] when the file does not exist). *)
Definition load (file : option (list string)) (st : State) : Outcome State :=
if st.(loaded) then Done st
else
  match file with
  | None => Done st
  | Some lines =>
      match loadLines st lines with
      | Done st' =>
          Done {| loaded := true; vars := st'.(vars);
                  environment := st'.(environment); ENV := st'.(ENV) |}
      | ValueError => ValueError
      | MissingVariable name => MissingVariable name
      end
  end.

(** [EnvLoader::get($key, $default)]: the value ([None] is [null]) and
    the state it leaves. *)
Definition get (file : option (list string)) (st : State)
           (key : string) (default : option string)
  : Outcome (option string * State) :=
match load file st with
| Done st' =>
    Done (match lookup st'.(vars) key with
          | Some v => Some v
          | None =>
              match lookup st'.(environment) key with
              | Some v => Some v
              | None =>
                  match lookup st'.(ENV) key with
                  | Some v => Some v
                  | None => default
                  end
              end
          end, st')
| ValueError => ValueError
| MissingVariable name => MissingVariable name
end.

(** [EnvLoader::require($key)] *)
Definition require (file : option (list string)) (st : State) (key : string)
  : Outcome (string * State) :=
match get file st key None with
| Done (Some v, st') =>
    if String.eqb v "" then MissingVariable key else Done (v, st')
| Done (None, _) => MissingVariable key
| ValueError => ValueError
| MissingVariable name => MissingVariable name
end.

(** [EnvLoader::has($key)] *)
Definition has (file : option (list string)) (st : State) (key : string)
  : Outcome (bool * State) :=
match load file st with
| Done st' =>
    match get file st' key None with
    | Done (Some _, st'') => Done (true, st'')
    | Done (None, st'') => Done (false, st'')
    | ValueError => ValueError
    | MissingVariable name => MissingVariable name
    end
| ValueError => ValueError
| MissingVariable name => MissingVariable name
end.

(** The state of a fresh PHP process. *)
Definition initial (environment ENV : list (string * string)) : State :=
{| loaded := false; vars := []; environment := environment; ENV := ENV |}.

End EnvLoader.

(* ================================================================== *)
(** ** The rate limiter of the demo proxy ([ai-demo-proxy.php]) *)

Module RateLimit.

(** The array the proxy keeps per client address in a file of the
    temporary directory: the times of the requests it let through, under
    integer keys.  [json_encode] and [json_decode] carry the keys and the
    values of such an array unchanged; a missing file is the empty
    array. *)
Definition Window : Type := list (Z * Z).

(** [array_filter($rateData, fn($t) => $t > $now - 60)]: the entries of
    the last minute, under their keys. *)
Definition recent (now : Z) (rateData : Window) : Window :=
filter (fun entry => now - 60 <? snd entry) rateData.

(** The key [$rateData[] = ...] writes to: one more than the largest key,
    0 in an empty array. *)
Fixpoint nextKey (rateData : Window) : Z :=
match rateData with
| [] => 0
| (k, _) :: rest => Z.max (k + 1) (nextKey rest)
end.

(** How the limiter ends: the request is refused with [Response::error]
    (429, OP_RATE_LIMIT) and the file stays as it is, or the request goes
    on and the file holds the new array. *)
Inductive Decision :=
| Refused (status : Z) (message errorCode : string)
| Passed.

(** The limiter at time [now = time()] over the stored array. *)
Definition limit (now : Z) (stored : Window) : Decision * Window :=
let rateData := recent now stored in
if 5 <=? Z.of_nat (List.length rateData)
then (Refused 429 "Rate limit exceeded. Max 5 requests per minute."
              "OP_RATE_LIMIT",
      stored)
else (Passed, (rateData ++ [(nextKey rateData, now)])%list).

(** The requests of one client address, by their times: the times of
    those the limiter lets through. *)
Fixpoint passedTimes (times : list Z) (stored : Window) : list Z :=
match times with
| [] => []
| now :: rest =>
    match limit now stored with
    | (Passed, stored') => now :: passedTimes rest stored'
    | (Refused _ _ _, stored') => passedTimes rest stored'
    end
end.

(** Times in the order of a clock that does not run backwards. *)
Fixpoint ascending (last : Z) (times : list Z) : Prop :=
match times with
| [] => True
| now :: rest => last <= now /\ ascending now rest
end.

End RateLimit.

(* ================================================================== *)
(** ** The paid endpoint ([api/x402/ai.php]) *)

Module AiEndpoint.

(** What the script reads from the environment before the gate:
    [EnvLoader::get('X402_API_TREASURY', '')] and the integer
    [(int) EnvLoader::get('X402_API_PRICE', '100')]. *)
Record Config := {
  treasury : string;
  price : Z
}.

(** [$_GET['q']]: absent, a string, or an array (as [?q[]=...] gives). *)
Inductive Query :=
| QueryAbsent
| QueryText (s : string)
| QueryArray.

Record Request := {
  requestMethod : string;
  q : Query;
  requestHeaders : list (string * string)
}.

(** How the script ends, or goes on:
    - [Preflight]: the 200 without a body of an OPTIONS request;
    - [Rejected]: a [Response::error] of the script itself;
    - [TypeError]: [trim()] of an array;
    - [Gated]: the gate ended the request (402, 400, 500, or its own
      fatal error);
    - [Ended]: the [exit] after a settlement PHP reads as false;
    - [Paid]: the gate let the request through; the script goes on to the
      AI service with the question, holding the settlement and the response
      headers the gate set. *)
Inductive Outcome :=
| Preflight
| Rejected (status : Z) (message errorCode : string)
| TypeError
| Gated (r : GateResult)
| Ended
| Paid (responseHeaders : list (string * string)) (settlement : PHPValue)
       (question : string).

(** [$requirements].  The description is a parameter: the literal of the
    source holds a dash, three bytes in the script's UTF-8. *)
Definition requirements (cfg : Config) (description : string) : PHPValue :=
PHP.assoc
  [("scheme", PString "exact");
   ("network", PString "eip155:1030");
   ("amount", PString (JSString.ofZ cfg.(price)));
   ("asset", PString "0xaf37e8b6c9ed7f6318979f56fc287d76c30847ff");
   ("payTo", PString cfg.(treasury));
   ("extra", PHP.assoc [("settlementMode", PString "transfer");
                        ("name", PString "USDT0");
                        ("version", PString "1");
                        ("description", PString description)])].

Definition questionRequired : string :=
"Query parameter " ++ String "034" ("q" ++ String "034" " is required").

(** The script up to the call of the AI service, with the facilitator
    endpoints it had called. *)
Definition run (genv : GateEnv) (cfg : Config) (description : string)
           (req : Request) : list string * Outcome :=
if String.eqb req.(requestMethod) "OPTIONS" then ([], Preflight)
else if negb (String.eqb req.(requestMethod) "GET")
then ([], Rejected 405 "Method not allowed" "OP_METHOD_NOT_ALLOWED")
else if PHPText.empty cfg.(treasury)
then ([], Rejected 503 "Treasury address not configured"
                   "SRV_SERVICE_UNAVAILABLE")
else
  match req.(q) with
  | QueryArray => ([], TypeError)
  | query =>
      let question := PHPText.trim match query with
                                   | QueryText s => s
                                   | _ => ""
                                   end in
      if PHPText.empty question
      then ([], Rejected 422 questionRequired "VAL_REQUIRED_FIELD")
      else if 500 <? Z.of_nat (String.length question)
      then ([], Rejected 422 "Question too long (max 500 characters)"
                         "VAL_INVALID_FORMAT")
      else
        match X402Middleware.handleTransfer genv req.(requestHeaders)
                (requirements cfg description) with
        | (calls, Proceed hdrs settlement) =>
            if negb (PHP.toBool settlement) then (calls, Ended)
            else (calls, Paid hdrs settlement question)
        | (calls, r) => (calls, Gated r)
        end
  end.

End AiEndpoint.

(* ================================================================== *)
(** * Sample data *)

Module Sample.

(** An environment in which the signature of every request is the
    payer's, every account holds 1000000 units, and the chain accepts
    every transaction; no escrow adapter is configured. *)
Definition env : Env :=
  {| API_KEY := "secret";
     escrowAdapter := "";
     relayerAddress := "0x00000000000000000000000000000000000000aa";
     dateNow := 1700000000123;
     decimalLiteral := fun _ => Double.NaN;
     recoverSigner := fun _ payer _ _ _ _ _ _ =>
                        match payer with
                        | VStr s => Ok s
                        | _ => Throw "invalid address"
                        end;
     balanceOf := fun _ _ => Ok 1000000;
     staticCall := fun _ _ _ _ => Ok tt;
     transact := fun _ _ _ _ => Ok "0x5e771e";
     getBalance := fun _ => Ok 0;
     formatEther := fun _ => "0.0";
     demoBuyerKey := None;
     demoWallet := fun _ => Throw "invalid private key";
     demoFlow := fun _ _ => Throw "fetch failed" |}.

Definition buyer : string := "0x00000000000000000000000000000000000000B1".
Definition treasury : string := "0x00000000000000000000000000000000000000c2".

(** A nonce of 32 bytes, as [bytes32] takes it. *)
Definition nonce : string :=
  "0x0000000000000000000000000000000000000000000000000000000000000001".

Definition authorization (amount notAfter : string) : JSValue :=
  VObj [("from", VStr buyer); ("to", VStr treasury);
        ("value", VStr amount); ("validAfter", VStr "0");
        ("validBefore", VStr notAfter); ("nonce", VStr nonce)].

Definition payload (amount notAfter : string) : JSValue :=
  VObj [("x402Version", VNum 2); ("scheme", VStr "exact");
        ("network", VStr "eip155:1030");
        ("payload", VObj [("signature", VStr "0x5161");
                          ("authorization", authorization amount notAfter)])].

Definition requirements : JSValue :=
  VObj [("scheme", VStr "exact"); ("network", VStr "eip155:1030");
        ("amount", VStr "100");
        ("asset", VStr "0xaf37e8b6c9ed7f6318979f56fc287d76c30847ff");
        ("payTo", VStr treasury);
        ("extra", VObj [("settlementMode", VStr "transfer");
                        ("name", VStr "USDT0"); ("version", VStr "1")])].

Definition callBody (amount notAfter : string) : JSValue :=
  VObj [("payload", payload amount notAfter);
        ("requirements", requirements)].

Definition post (path key : string) (b : Body) : Request :=
  {| method := "POST"; pathname := path;
     headers := [("content-type", "application/json"); ("x-api-key", key)];
     body := b |}.

End Sample.

(* ================================================================== *)
(** * Properties of the facilitator *)

(** The five endpoints that require the shared secret, with the header
    each of them reads. *)
Definition keyHeaderOf (path : string) : option string :=
  if String.eqb path "/x402/verify" then Some "x-api-key"
  else if String.eqb path "/x402/settle" then Some "x-api-key"
  else if String.eqb path "/x402/verify-transfer" then Some "x-api-key"
  else if String.eqb path "/x402/settle-transfer" then Some "x-api-key"
  else if String.eqb path "/x402/demo-ai" then Some "x-facilitator-key"
  else None.

Lemma keyHeaderOf_cases (path name : string) :
  keyHeaderOf path = Some name ->
  (path = "/x402/verify" /\ name = "x-api-key") \/
  (path = "/x402/settle" /\ name = "x-api-key") \/
  (path = "/x402/verify-transfer" /\ name = "x-api-key") \/
  (path = "/x402/settle-transfer" /\ name = "x-api-key") \/
  (path = "/x402/demo-ai" /\ name = "x-facilitator-key").
Proof.
  unfold keyHeaderOf.
  repeat match goal with
         | |- context [String.eqb path ?p] =>
             destruct (String.eqb_spec path p) as [-> | _]
         end;
    intros H; inversion H; subst; tauto.
Qed.

(** Each of the five handlers starts with the key check. *)
Lemma handlers_reject_key (env : Env) (req : Request) :
  let refusal := (@Return unit,
                  [EvRespond 401 (VObj [("error", VStr "Invalid or missing API key")])]) in
  (keyRejected env (header req.(headers) "x-api-key") = true ->
   handleVerify env req [] = refusal
   /\ handleSettle env req [] = refusal
   /\ handleVerifyTransfer env req [] = refusal
   /\ handleSettleTransfer env req [] = refusal)
  /\ (keyRejected env (header req.(headers) "x-facilitator-key") = true ->
      handleDemoAi env req [] = refusal).
Proof.
  split; intros Hk; repeat split;
    [ unfold handleVerify | unfold handleSettle | unfold handleVerifyTransfer
    | unfold handleSettleTransfer | unfold handleDemoAi ];
    unfold bind at 1; unfold rejectIf at 1; rewrite Hk; reflexivity.
Qed.

(** C8. On each of the five POST endpoints a request whose shared-secret
    header is absent, empty or different from the configured key is
    answered 401 with [{error}], and that response is the only event of the
    run: the body is not read and the chain is not touched. *)
Theorem unauthenticated_request_gets_401 (env : Env) (req : Request) (name : string) :
  req.(method) = "POST" ->
  keyHeaderOf req.(pathname) = Some name ->
  keyRejected env (header req.(headers) name) = true ->
  serve env req = [EvRespond 401 (VObj [("error", VStr "Invalid or missing API key")])].
Proof.
  intros Hm Hp Hk.
  destruct (handlers_reject_key env req) as [Hapi Hdemo].
  unfold serve, server. rewrite Hm.
  destruct (keyHeaderOf_cases _ Hp) as [[Hpath ->] | [[Hpath ->] | [[Hpath ->] | [[Hpath ->] | [Hpath ->]]]]];
    rewrite Hpath; cbn [String.eqb Ascii.eqb Bool.eqb andb];
    [ destruct (Hapi Hk) as [-> _]
    | destruct (Hapi Hk) as [_ [-> _]]
    | destruct (Hapi Hk) as [_ [_ [-> _]]]
    | destruct (Hapi Hk) as [_ [_ [_ ->]]]
    | rewrite (Hdemo Hk) ];
    reflexivity.
Qed.

Lemma unauthenticated_request_gets_401_witness :
  serve Sample.env (Sample.post "/x402/settle-transfer" "guess"
                                (BodyJson (Sample.callBody "100" "1800000000")))
  = [EvRespond 401 (VObj [("error", VStr "Invalid or missing API key")])].
Proof.
  apply (@unauthenticated_request_gets_401 Sample.env _ "x-api-key");
    reflexivity.
Defined.

(** ** Verdicts of the verify handlers *)

Definition isResponse (ev : Event) : bool :=
  match ev with
  | EvRespond _ _ => true
  | _ => false
  end.

(** Events none of which is a response. *)
Definition silent (evs : list Event) : Prop :=
  Forall (fun ev => isResponse ev = false) evs.

Lemma responseOf_silent (evs rest : list Event) :
  silent evs -> responseOf (evs ++ rest) = responseOf rest.
Proof.
  induction 1 as [| ev evs Hev _ IH]; simpl; [reflexivity |].
  destruct ev; simpl in Hev; try discriminate; exact IH.
Qed.

Lemma silent_app (a b : list Event) : silent a -> silent b -> silent (a ++ b).
Proof. apply Forall_app_intro || (intros; apply Forall_app; split; assumption). Qed.

(** A computation that, whatever the trace so far, adds silent events and
    then either continues, throws, or returns right after answering 200
    with a negative verdict. *)
Definition verdictOnly {A : Type} (m : M A) : Prop :=
  forall t, exists evs, silent evs /\
    match m t with
    | (Normal _, t') => t' = (t ++ evs)%list
    | (Thrown _, t') => t' = (t ++ evs)%list
    | (Return, t') =>
        exists why, t' = (t ++ evs ++ [EvRespond 200 (invalid why)])%list
    end.

Lemma verdictOnly_ret {A} (a : A) : verdictOnly (ret a).
Proof.
  intros t; exists []; split; [constructor |]; simpl.
  now rewrite app_nil_r.
Qed.

Lemma verdictOnly_lift {A} (r : Result A) : verdictOnly (lift r).
Proof.
  intros t; exists []; split; [constructor |].
  destruct r; simpl; now rewrite app_nil_r.
Qed.

Lemma verdictOnly_emit (ev : Event) :
  isResponse ev = false -> verdictOnly (emit ev).
Proof.
  intros H t; exists [ev]; split; [repeat constructor; exact H | reflexivity].
Qed.

Lemma verdictOnly_answer {A} (why : string) :
  verdictOnly (bind (sendJson 200 (invalid why)) (fun _ => @returnM A)).
Proof.
  intros t; exists []; split; [constructor |]; simpl.
  now exists why.
Qed.

Lemma verdictOnly_rejectIf (cond : bool) (why : string) :
  verdictOnly (rejectIf cond 200 (invalid why)).
Proof.
  destruct cond; [apply verdictOnly_answer | apply verdictOnly_ret].
Qed.

Lemma verdictOnly_bind {A B} (m : M A) (k : A -> M B) :
  verdictOnly m -> (forall a, verdictOnly (k a)) -> verdictOnly (bind m k).
Proof.
  intros Hm Hk t. unfold bind.
  destruct (Hm t) as [evs [Hs Ht]].
  destruct (m t) as [[a | | e] t'].
  - subst t'. destruct (Hk a (t ++ evs)%list) as [evs' [Hs' Ht']].
    exists (evs ++ evs')%list; split; [now apply silent_app |].
    destruct (k a (t ++ evs)%list) as [[b | | e] t''].
    + now rewrite app_assoc.
    + destruct Ht' as [why ->]. exists why. now rewrite !app_assoc.
    + now rewrite app_assoc.
  - exists evs; split; assumption.
  - exists evs; split; assumption.
Qed.

Lemma verdictOnly_tryCatch (m : M unit) (h : JSError -> M unit) :
  verdictOnly m -> (forall e, verdictOnly (h e)) -> verdictOnly (tryCatch m h).
Proof.
  intros Hm Hh t. unfold tryCatch.
  destruct (Hm t) as [evs [Hs Ht]].
  destruct (m t) as [[a | | e] t'].
  - exists evs; split; assumption.
  - exists evs; split; assumption.
  - subst t'. destruct (Hh e (t ++ evs)%list) as [evs' [Hs' Ht']].
    exists (evs ++ evs')%list; split; [now apply silent_app |].
    destruct (h e (t ++ evs)%list) as [[b | | e'] t''].
    + now rewrite app_assoc.
    + destruct Ht' as [why ->]. exists why. now rewrite !app_assoc.
    + now rewrite app_assoc.
Qed.

Ltac verdict_step :=
  first
    [ apply verdictOnly_answer
    | apply verdictOnly_rejectIf
    | apply verdictOnly_lift
    | apply verdictOnly_ret
    | apply verdictOnly_emit; reflexivity
    | apply verdictOnly_bind; [| intros ?] ].

Lemma verdictOnly_checkEnvelope (payload requirements : JSValue) :
  verdictOnly (checkEnvelope payload requirements).
Proof.
  unfold checkEnvelope.
  repeat verdict_step.
  destruct (CONFIG.asset _) as [info |]; [destruct (eip3009 info) |];
    repeat verdict_step.
Qed.

Lemma verdictOnly_readAuthorization (payload : JSValue) :
  verdictOnly (readAuthorization payload).
Proof. unfold readAuthorization. repeat verdict_step. Qed.

Lemma verdictOnly_readSignature (payload : JSValue) :
  verdictOnly (readSignature payload).
Proof. unfold readSignature. repeat verdict_step. Qed.

Lemma verdictOnly_checkFunds (env : Env) (requirements : JSValue)
      (a : Authorization) :
  verdictOnly (checkFunds env requirements a).
Proof. unfold checkFunds. repeat verdict_step. Qed.

(** The body of a verify handler's [try]: like [verdictOnly], and a normal
    end comes right after answering 200 with [{valid: true}]. *)
Definition answersOrThrows (m : M unit) : Prop :=
  forall t, exists evs, silent evs /\
    match m t with
    | (Normal _, t') => t' = (t ++ evs ++ [EvRespond 200 valid])%list
    | (Thrown _, t') => t' = (t ++ evs)%list
    | (Return, t') =>
        exists why, t' = (t ++ evs ++ [EvRespond 200 (invalid why)])%list
    end.

Lemma answersOrThrows_valid : answersOrThrows (sendJson 200 valid).
Proof. intros t; exists []; split; [constructor | reflexivity]. Qed.

Lemma answersOrThrows_bind {A} (m : M A) (k : A -> M unit) :
  verdictOnly m -> (forall a, answersOrThrows (k a)) ->
  answersOrThrows (bind m k).
Proof.
  intros Hm Hk t. unfold bind.
  destruct (Hm t) as [evs [Hs Ht]].
  destruct (m t) as [[a | | e] t'].
  - subst t'. destruct (Hk a (t ++ evs)%list) as [evs' [Hs' Ht']].
    exists (evs ++ evs')%list; split; [now apply silent_app |].
    destruct (k a (t ++ evs)%list) as [[b | | e] t''].
    + subst t''. now rewrite !app_assoc.
    + destruct Ht' as [why ->]. exists why. now rewrite !app_assoc.
    + now rewrite app_assoc.
  - exists evs; split; assumption.
  - exists evs; split; assumption.
Qed.

(** A verdict: [{valid: true}] or [{valid: false, reason}]. *)
Definition isVerdict (b : JSValue) : Prop :=
  b = VObj [("valid", VBool true)] \/
  exists why, b = VObj [("valid", VBool false); ("reason", VStr why)].

(** The [try] of a verify handler with its [catch]: one response, 200
    with a verdict, and the handler ends without an error. *)
Lemma verify_try_answers (m : M unit) (t : list Event) :
  answersOrThrows m -> silent t ->
  let out := tryCatch m answerCaught t in
  (forall e, fst out <> Thrown e) /\
  exists b, responseOf (snd out) = Some (200, b) /\ isVerdict b.
Proof.
  intros Hm Ht. unfold tryCatch.
  destruct (Hm t) as [evs [Hs Hout]].
  destruct (m t) as [[a | | e] t']; simpl.
  - subst t'. split; [discriminate |].
    exists valid. rewrite app_assoc, responseOf_silent by now apply silent_app.
    split; [reflexivity | now left].
  - destruct Hout as [why ->]. split; [discriminate |].
    exists (invalid why). rewrite app_assoc, responseOf_silent by now apply silent_app.
    split; [reflexivity | right; now exists why].
  - subst t'. split; [discriminate |].
    exists (invalid e.(message)). unfold sendJson, emit; simpl.
    rewrite responseOf_silent by now apply silent_app.
    split; [reflexivity | right; now exists e.(message)].
Qed.

Lemma verdictOnly_simulateSettlement (env : Env) (payload requirements : JSValue)
      (a : Authorization) :
  verdictOnly (simulateSettlement env payload requirements a).
Proof.
  unfold simulateSettlement.
  apply verdictOnly_tryCatch; [| intros e; apply verdictOnly_answer].
  apply verdictOnly_bind; [apply verdictOnly_lift | intros ?].
  apply verdictOnly_bind; [apply verdictOnly_readSignature | intros ?].
  apply verdictOnly_bind; [apply verdictOnly_emit; reflexivity | intros ?].
  apply verdictOnly_lift.
Qed.

Ltac answers_step :=
  first
    [ apply answersOrThrows_valid
    | apply answersOrThrows_bind;
      [ first [ apply verdictOnly_checkEnvelope
              | apply verdictOnly_readAuthorization
              | apply verdictOnly_readSignature
              | apply verdictOnly_checkFunds
              | apply verdictOnly_simulateSettlement
              | apply verdictOnly_rejectIf
              | apply verdictOnly_lift ]
      | intros ? ] ].

Lemma answersOrThrows_verifyTransferChecks (env : Env) (payload requirements : JSValue) :
  answersOrThrows (verifyTransferChecks env payload requirements).
Proof. unfold verifyTransferChecks. repeat answers_step. Qed.

Lemma answersOrThrows_verifyEscrowChecks (env : Env) (payload requirements : JSValue) :
  answersOrThrows (verifyEscrowChecks env payload requirements).
Proof. unfold verifyEscrowChecks. repeat answers_step. Qed.

Lemma destructure_defined (v : JSValue) (k : string) :
  v <> VNull -> v <> VUndefined -> exists x, JS.destructure v k = Ok x.
Proof.
  intros Hn Hu. destruct v; try (eexists; reflexivity); congruence.
Qed.

(** Past the key check and the body, the two verify handlers are their
    [try] blocks, run after the body was read. *)
Lemma handleVerifyTransfer_run (env : Env) (req : Request) (v pl rq : JSValue) :
  keyRejected env (header req.(headers) "x-api-key") = false ->
  req.(body) = BodyJson v ->
  JS.destructure v "payload" = Ok pl ->
  JS.destructure v "requirements" = Ok rq ->
  handleVerifyTransfer env req []
  = tryCatch (verifyTransferChecks env pl rq) answerCaught [EvReadBody].
Proof.
  intros Hk Hb Hpl Hrq.
  unfold handleVerifyTransfer, bind, rejectIf, readBody, bind.
  rewrite Hk, Hb. cbn -[tryCatch verifyTransferChecks].
  rewrite Hpl. cbn -[tryCatch verifyTransferChecks].
  rewrite Hrq. reflexivity.
Qed.

Lemma handleVerify_run (env : Env) (req : Request) (v pl rq : JSValue) :
  keyRejected env (header req.(headers) "x-api-key") = false ->
  String.eqb env.(escrowAdapter) "" = false ->
  req.(body) = BodyJson v ->
  JS.destructure v "payload" = Ok pl ->
  JS.destructure v "requirements" = Ok rq ->
  handleVerify env req []
  = tryCatch (verifyEscrowChecks env pl rq) answerCaught [EvReadBody].
Proof.
  intros Hk Ha Hb Hpl Hrq.
  unfold handleVerify, bind, rejectIf, readBody, bind.
  rewrite Hk, Ha, Hb. cbn -[tryCatch verifyEscrowChecks].
  rewrite Hpl. cbn -[tryCatch verifyEscrowChecks].
  rewrite Hrq. reflexivity.
Qed.

(** C3, as the code has it.  An authenticated POST to a verify endpoint
    whose body is not the JSON [null] is answered
    - 400 [{valid: false, reason}] on /x402/verify whenever no escrow
      adapter is configured, before the body is read;
    - else 400 [{valid: false, reason}] when the body cannot be read or
      parsed;
    - else 200 with a verdict [{valid, reason?}]. *)
Theorem verify_endpoints_answer (env : Env) (req : Request) :
  req.(method) = "POST" ->
  req.(pathname) = "/x402/verify-transfer" \/ req.(pathname) = "/x402/verify" ->
  keyRejected env (header req.(headers) "x-api-key") = false ->
  req.(body) <> BodyJson VNull ->
  req.(body) <> BodyJson VUndefined ->
  if String.eqb req.(pathname) "/x402/verify" && String.eqb env.(escrowAdapter) ""
  then responseOf (serve env req)
       = Some (400, VObj [("valid", VBool false);
                          ("reason", VStr "Escrow adapter not configured")])
  else match req.(body) with
       | BodyRejected =>
           responseOf (serve env req)
           = Some (400, VObj [("valid", VBool false);
                              ("reason", VStr "Invalid JSON body")])
       | BodyJson _ =>
           exists b, responseOf (serve env req) = Some (200, b) /\ isVerdict b
       end.
Proof.
  intros Hm Hp Hk Hnull Hundef.
  destruct req as [m p hs b]; simpl in *; subst m.
  destruct Hp as [-> | ->]; simpl.
  - (* /x402/verify-transfer *)
    unfold serve, server; simpl.
    destruct b as [v |].
    + destruct (@destructure_defined v "payload") as [pl Hpl]; try congruence.
      destruct (@destructure_defined v "requirements") as [rq Hrq]; try congruence.
      erewrite handleVerifyTransfer_run;
        [| exact Hk | reflexivity | exact Hpl | exact Hrq].
      apply verify_try_answers.
      * apply answersOrThrows_verifyTransferChecks.
      * repeat constructor.
    + unfold handleVerifyTransfer, bind, rejectIf. simpl. rewrite Hk. reflexivity.
  - (* /x402/verify *)
    unfold serve, server; simpl.
    destruct (String.eqb (escrowAdapter env) "") eqn:Ha.
    + unfold handleVerify, bind, rejectIf. simpl. rewrite Hk, Ha. reflexivity.
    + destruct b as [v |].
      * destruct (@destructure_defined v "payload") as [pl Hpl]; try congruence.
        destruct (@destructure_defined v "requirements") as [rq Hrq]; try congruence.
        erewrite handleVerify_run;
          [| exact Hk | exact Ha | reflexivity | exact Hpl | exact Hrq].
        apply verify_try_answers.
        -- apply answersOrThrows_verifyEscrowChecks.
        -- repeat constructor.
      * unfold handleVerify, bind, rejectIf. simpl. rewrite Hk, Ha. reflexivity.
Qed.

Lemma verify_endpoints_answer_witness :
  exists b,
    responseOf (serve Sample.env
                      (Sample.post "/x402/verify-transfer" "secret"
                                   (BodyJson (Sample.callBody "100" "1800000000"))))
    = Some (200, b) /\ isVerdict b.
Proof.
  apply (@verify_endpoints_answer Sample.env
           (Sample.post "/x402/verify-transfer" "secret"
                        (BodyJson (Sample.callBody "100" "1800000000"))));
    simpl; try reflexivity; try (left; reflexivity); discriminate.
Defined.

(** C3, as stated, fails: an authenticated request to /x402/verify with a
    readable, well-formed body is answered 400 when no escrow adapter is
    configured. *)
Lemma verify_answers_400_on_readable_body :
  responseOf (serve Sample.env
                    (Sample.post "/x402/verify" "secret"
                                 (BodyJson (Sample.callBody "100" "1800000000"))))
  = Some (400, VObj [("valid", VBool false);
                     ("reason", VStr "Escrow adapter not configured")]).
Proof. reflexivity. Qed.

(** ** The time window and unreadable bounds *)

(** C1 at its failing input.  A payload whose [validBefore] is the
    string ["-"] is read as 0 by ethers (so the signature is checked over
    [validBefore = 0], long past) and as NaN by [Number], against which
    the handler's comparison [now > Number(validBefore)] is false: the
    request is answered [{valid: true}] at a time after [validBefore]. *)
Theorem verify_transfer_accepts_expired_authorization :
  let req := Sample.post "/x402/verify-transfer" "secret"
                         (BodyJson (Sample.callBody "100" "-")) in
  Ethers.uint256 (VStr "-") = Ok 0
  /\ JS.Number Sample.env.(decimalLiteral) (VStr "-") = Double.NaN
  /\ 0 < unixNow Sample.env
  /\ responseOf (serve Sample.env req) = Some (200, VObj [("valid", VBool true)]).
Proof. repeat split; reflexivity. Qed.

(** The same request with a readable bound in the past is refused. *)
Example verify_transfer_refuses_expired_authorization :
  responseOf (serve Sample.env
                    (Sample.post "/x402/verify-transfer" "secret"
                                 (BodyJson (Sample.callBody "100" "1600000000"))))
  = Some (200, VObj [("valid", VBool false);
                     ("reason", VStr "Authorization expired or not yet valid")]).
Proof. reflexivity. Qed.

(** ** A body that is the JSON [null] *)

(** C2 at its failing input.  The handlers destructure the body before
    their [try]: on the body [null] the TypeError escapes, the handler ends
    in a rejected promise and no response is ever sent. *)
Theorem verify_transfer_null_body_unanswered :
  let req := Sample.post "/x402/verify-transfer" "secret" (BodyJson VNull) in
  responseOf (serve Sample.env req) = None
  /\ exists e, server Sample.env req [] = (Thrown e, [EvReadBody]).
Proof. split; [reflexivity | eexists; reflexivity]. Qed.

(** ** Settlement in transfer mode *)

(** The authorization a body carries, read without checks. *)
Definition authorizationIn (v : JSValue) : Authorization :=
  let au := JS.getOpt (JS.getOpt (JS.getOpt v "payload") "payload") "authorization" in
  {| from := JS.getOpt au "from";
     to := JS.getOpt au "to";
     value := JS.getOpt au "value";
     validAfter := JS.getOpt au "validAfter";
     validBefore := JS.getOpt au "validBefore";
     nonce := JS.getOpt au "nonce" |}.

Definition signatureIn (v : JSValue) : JSValue :=
  JS.getOpt (JS.getOpt (JS.getOpt v "payload") "payload") "signature".

Definition assetIn (v : JSValue) : JSValue :=
  JS.getOpt (JS.getOpt v "requirements") "asset".

Lemma bind_normal {A B} (m : M A) (k : A -> M B) (t t' : list Event) (a : A) :
  m t = (Normal a, t') -> bind m k t = k a t'.
Proof. intros H. unfold bind. now rewrite H. Qed.

Lemma bind_thrown {A B} (m : M A) (k : A -> M B) (t t' : list Event) (e : JSError) :
  m t = (Thrown e, t') -> bind m k t = (Thrown e, t').
Proof. intros H. unfold bind. now rewrite H. Qed.

Lemma bind_returned {A B} (m : M A) (k : A -> M B) (t t' : list Event) :
  m t = (Return, t') -> bind m k t = (Return, t').
Proof. intros H. unfold bind. now rewrite H. Qed.

Lemma bind_lift_ok {A B} (a : A) (k : A -> M B) (t : list Event) :
  bind (lift (Ok a)) k t = k a t.
Proof. reflexivity. Qed.

Lemma getOpt_single (k : string) (x : JSValue) :
  JS.getOpt (VObj [(k, x)]) k = x.
Proof. simpl. unfold JSString.eqb. now rewrite String.eqb_refl. Qed.

Lemma get_cases (v : JSValue) (k : string) :
  (exists e, JS.get v k = Err e) \/ JS.get v k = Ok (JS.getOpt v k).
Proof. destruct v; simpl; unfold Throw; eauto. Qed.

Lemma destructure_cases (v : JSValue) (k : string) :
  (exists e, JS.destructure v k = Err e) \/ JS.destructure v k = Ok (JS.getOpt v k).
Proof. destruct v; simpl; unfold Throw; eauto. Qed.

Lemma destructure_getOpt (v x : JSValue) (k : string) :
  JS.destructure v k = Ok x -> x = JS.getOpt v k.
Proof. destruct v; simpl; intros H; inversion H; reflexivity. Qed.

Lemma readAuthorization_cases (pl : JSValue) (t : list Event) :
  (exists e, readAuthorization pl t = (Thrown e, t)) \/
  readAuthorization pl t
  = (Normal (authorizationIn (VObj [("payload", pl)])), t).
Proof.
  unfold readAuthorization, bind, lift, authorizationIn. simpl JS.getOpt.
  destruct (get_cases pl "payload") as [[e ->] | ->]; [left; now exists e |].
  simpl.
  destruct (get_cases (JS.getOpt pl "payload") "authorization")
    as [[e ->] | ->]; [left; now exists e |].
  simpl.
  destruct (destructure_cases
              (JS.getOpt (JS.getOpt pl "payload") "authorization") "from")
    as [[e ->] | ->]; [left; now exists e |].
  right. reflexivity.
Qed.

Lemma readSignature_cases (pl : JSValue) (t : list Event) :
  (exists e, readSignature pl t = (Thrown e, t)) \/
  readSignature pl t = (Normal (signatureIn (VObj [("payload", pl)])), t).
Proof.
  unfold readSignature, bind, lift, signatureIn. simpl JS.getOpt.
  destruct (get_cases pl "payload") as [[e ->] | ->]; [left; now exists e |].
  simpl.
  destruct (get_cases (JS.getOpt pl "payload") "signature")
    as [[e ->] | ->]; [left; now exists e |].
  right. reflexivity.
Qed.

Lemma handleSettleTransfer_run (env : Env) (req : Request) (v pl rq : JSValue) :
  keyRejected env (header req.(headers) "x-api-key") = false ->
  req.(body) = BodyJson v ->
  JS.destructure v "payload" = Ok pl ->
  JS.destructure v "requirements" = Ok rq ->
  handleSettleTransfer env req []
  = tryCatch (settleTransferCall env pl rq) (answerSettleCaught) [EvReadBody].
Proof.
  intros Hk Hb Hpl Hrq.
  unfold handleSettleTransfer, bind, rejectIf, readBody, bind.
  rewrite Hk, Hb. cbn -[tryCatch settleTransferCall].
  rewrite Hpl. cbn -[tryCatch settleTransferCall].
  rewrite Hrq. reflexivity.
Qed.

Lemma server_settle_transfer (env : Env) (req : Request) :
  req.(method) = "POST" -> req.(pathname) = "/x402/settle-transfer" ->
  server env req = handleSettleTransfer env req.
Proof. intros Hm Hp. unfold server. rewrite Hm, Hp. reflexivity. Qed.

(** The seven arguments of [transferWithAuthorization], from the body. *)
Definition transferArgs (v : JSValue) : list JSValue :=
  let a := authorizationIn v in
  [a.(from); a.(to); a.(value); a.(validAfter); a.(validBefore); a.(nonce);
   signatureIn v].

(** [null] and [undefined]: the values a property cannot be read of. *)
Definition nullish (v : JSValue) : bool :=
  match v with
  | VUndefined | VNull => true
  | _ => false
  end.

Definition isString (v : JSValue) : bool :=
  match v with
  | VStr _ => true
  | _ => false
  end.

(** What the [try] block of [handleSettleTransfer] needs of a body to get
    as far as the contract call: [payload.payload.authorization] can be
    destructured and [requirements.asset] is a string. *)
Definition transferReadable (v : JSValue) : bool :=
  let pl := JS.getOpt v "payload" in
  let rq := JS.getOpt v "requirements" in
  negb (nullish pl)
  && negb (nullish (JS.getOpt pl "payload"))
  && negb (nullish (JS.getOpt (JS.getOpt pl "payload") "authorization"))
  && negb (nullish rq)
  && isString (JS.getOpt rq "asset").

Lemma get_spec (v : JSValue) (k : string) :
  (nullish v = true /\ exists e, JS.get v k = Err e)
  \/ (nullish v = false /\ JS.get v k = Ok (JS.getOpt v k)).
Proof. destruct v; simpl; unfold Throw; eauto. Qed.

Lemma destructure_spec (v : JSValue) (k : string) :
  (nullish v = true /\ exists e, JS.destructure v k = Err e)
  \/ (nullish v = false /\ JS.destructure v k = Ok (JS.getOpt v k)).
Proof. destruct v; simpl; unfold Throw; eauto. Qed.

Lemma readAuthorization_spec (pl : JSValue) (t : list Event) :
  if negb (nullish pl)
     && negb (nullish (JS.getOpt pl "payload"))
     && negb (nullish (JS.getOpt (JS.getOpt pl "payload") "authorization"))
  then readAuthorization pl t
       = (Normal (authorizationIn (VObj [("payload", pl)])), t)
  else exists e, readAuthorization pl t = (Thrown e, t).
Proof.
  unfold readAuthorization, bind, lift, authorizationIn. simpl JS.getOpt.
  destruct (get_spec pl "payload") as [[-> [e ->]] | [-> ->]];
    [now exists e |].
  cbn [negb andb ret].
  destruct (get_spec (JS.getOpt pl "payload") "authorization")
    as [[-> [e ->]] | [-> ->]]; [now exists e |].
  cbn [negb andb ret].
  destruct (destructure_spec
              (JS.getOpt (JS.getOpt pl "payload") "authorization") "from")
    as [[-> [e ->]] | [-> ->]]; [now exists e |].
  reflexivity.
Qed.

Lemma readSignature_spec (pl : JSValue) (t : list Event) :
  nullish pl = false -> nullish (JS.getOpt pl "payload") = false ->
  readSignature pl t = (Normal (signatureIn (VObj [("payload", pl)])), t).
Proof.
  intros Hpl Hinner.
  unfold readSignature, bind, lift, signatureIn. simpl JS.getOpt.
  destruct (get_spec pl "payload") as [[Hn _] | [_ ->]]; [congruence |].
  cbn [ret].
  destruct (get_spec (JS.getOpt pl "payload") "signature")
    as [[Hn _] | [_ ->]]; [congruence |].
  reflexivity.
Qed.

(** The run of [handleSettleTransfer] past the key check, on a body that
    is not [null]: the contract call when the body is readable, the 500
    of the [catch] with nothing sent when it is not. *)
Lemma handleSettleTransfer_exact (env : Env) (req : Request) (v : JSValue) :
  keyRejected env (header req.(headers) "x-api-key") = false ->
  req.(body) = BodyJson v ->
  v <> VNull -> v <> VUndefined ->
  if transferReadable v
  then snd (handleSettleTransfer env req [])
       = [EvReadBody;
          EvSendTransaction (assetIn v) "transferWithAuthorization"
                            (transferArgs v) 200000;
          match env.(transact) (assetIn v) "transferWithAuthorization"
                               (transferArgs v) 200000 with
          | Ok hash => EvRespond 200 (settled hash (authorizationIn v).(from))
          | Err e => EvRespond 500 (settleFailed e)
          end]
  else exists e,
      snd (handleSettleTransfer env req [])
      = [EvReadBody; EvRespond 500 (settleFailed e)].
Proof.
  intros Hk Hb Hnull Hundef.
  destruct (@destructure_defined v "payload") as [pl Hpl]; try assumption.
  destruct (@destructure_defined v "requirements") as [rq Hrq]; try assumption.
  rewrite (handleSettleTransfer_run env req Hk Hb Hpl Hrq).
  apply destructure_getOpt in Hpl, Hrq.
  assert (Hau : authorizationIn (VObj [("payload", pl)]) = authorizationIn v)
    by (unfold authorizationIn; rewrite getOpt_single; now rewrite Hpl).
  assert (Hsg : signatureIn (VObj [("payload", pl)]) = signatureIn v)
    by (unfold signatureIn; rewrite getOpt_single; now rewrite Hpl).
  unfold transferReadable. rewrite <- Hpl, <- Hrq.
  unfold tryCatch, settleTransferCall.
  pose proof (readAuthorization_spec pl [EvReadBody]) as Ha.
  destruct (nullish pl) eqn:Npl; cbn [negb andb] in Ha |- *.
  { destruct Ha as [e He]. exists e.
    now rewrite (@bind_thrown _ _ _ _ _ _ _ He). }
  destruct (nullish (JS.getOpt pl "payload")) eqn:Ninner;
    cbn [negb andb] in Ha |- *.
  { destruct Ha as [e He]. exists e.
    now rewrite (@bind_thrown _ _ _ _ _ _ _ He). }
  destruct (nullish (JS.getOpt (JS.getOpt pl "payload") "authorization"));
    cbn [negb andb] in Ha |- *.
  { destruct Ha as [e He]. exists e.
    now rewrite (@bind_thrown _ _ _ _ _ _ _ He). }
  rewrite (@bind_normal _ _ _ _ _ _ _ Ha).
  destruct (get_spec rq "asset") as [[-> [e He]] | [-> Hg]];
    cbn [negb andb]; rewrite ?He, ?Hg.
  { exists e. reflexivity. }
  rewrite bind_lift_ok.
  destruct (JS.getOpt rq "asset") eqn:Hasset; cbn [isString];
    try (eexists; reflexivity).
  cbn [Ethers.contractTarget]. rewrite bind_lift_ok.
  rewrite (@bind_normal _ _ _ _ _ _ _
             (@readSignature_spec pl [EvReadBody] Npl Ninner)).
  rewrite Hau, Hsg. unfold assetIn, transferArgs. rewrite <- Hrq, Hasset.
  unfold bind, emit, lift. simpl.
  destruct (transact env _ _ _ _); reflexivity.
Qed.

Lemma handleSettleTransfer_trace (env : Env) (req : Request) (v : JSValue) :
  keyRejected env (header req.(headers) "x-api-key") = false ->
  req.(body) = BodyJson v ->
  v <> VNull -> v <> VUndefined ->
  (exists e,
      snd (handleSettleTransfer env req [])
      = [EvReadBody; EvRespond 500 (settleFailed e)]) \/
  snd (handleSettleTransfer env req [])
  = [EvReadBody;
     EvSendTransaction (assetIn v) "transferWithAuthorization"
                       (transferArgs v) 200000;
     match env.(transact) (assetIn v) "transferWithAuthorization"
                          (transferArgs v) 200000 with
     | Ok hash => EvRespond 200 (settled hash (authorizationIn v).(from))
     | Err e => EvRespond 500 (settleFailed e)
     end].
Proof.
  intros Hk Hb Hnull Hundef.
  pose proof (handleSettleTransfer_exact env req Hk Hb Hnull Hundef) as H.
  destruct (transferReadable v); [now right | now left].
Qed.

(** C5, as the code has it.  An authenticated settle-transfer request whose
    body is JSON other than [null] has one of two runs, and the body alone
    decides which.  When [payload.payload.authorization] cannot be
    destructured (the payload, its [payload] or the authorization is [null]
    or missing) or [requirements.asset] is not a string, the answer is 500
    [{success: false, error}] and nothing is sent to the chain.  Otherwise
    the handler calls [transferWithAuthorization(from, to, value,
    validAfter, validBefore, nonce, signature)] on the asset contract with
    gas limit 200000 as its only chain interaction (no balance read, no
    clock read, no simulation) and answers 200 with the settlement when the
    call returns a receipt, 500 [{success: false, error: reason ||
    message}] when it throws. *)
Theorem settle_transfer_relays_unchecked (env : Env) (req : Request) (v : JSValue) :
  req.(method) = "POST" ->
  req.(pathname) = "/x402/settle-transfer" ->
  keyRejected env (header req.(headers) "x-api-key") = false ->
  req.(body) = BodyJson v ->
  v <> VNull -> v <> VUndefined ->
  if transferReadable v
  then serve env req
       = [EvReadBody;
          EvSendTransaction (assetIn v) "transferWithAuthorization"
                            (transferArgs v) 200000;
          match env.(transact) (assetIn v) "transferWithAuthorization"
                               (transferArgs v) 200000 with
          | Ok hash => EvRespond 200 (settled hash (authorizationIn v).(from))
          | Err e => EvRespond 500 (VObj [("success", VBool false);
                                          ("error", VStr (reasonOrMessage e))])
          end]
  else exists e,
      serve env req = [EvReadBody; EvRespond 500 (settleFailed e)].
Proof.
  intros Hm Hp Hk Hb Hnull Hundef.
  unfold serve. rewrite (server_settle_transfer env req Hm Hp).
  exact (handleSettleTransfer_exact env req Hk Hb Hnull Hundef).
Qed.

Lemma settle_transfer_relays_unchecked_witness :
  let v := Sample.callBody "100" "1800000000" in
  serve Sample.env (Sample.post "/x402/settle-transfer" "secret" (BodyJson v))
  = [EvReadBody;
     EvSendTransaction (assetIn v) "transferWithAuthorization"
                       (transferArgs v) 200000;
     EvRespond 200 (settled "0x5e771e" (VStr Sample.buyer))].
Proof.
  apply (@settle_transfer_relays_unchecked Sample.env
           (Sample.post "/x402/settle-transfer" "secret"
                        (BodyJson (Sample.callBody "100" "1800000000")))
           (Sample.callBody "100" "1800000000"));
    try reflexivity; discriminate.
Defined.

(** C5, as stated, fails: an authenticated settle-transfer request with a
    parseable body that carries no payload is answered 500 and nothing is
    sent to the chain. *)
Lemma settle_transfer_without_broadcast :
  serve Sample.env (Sample.post "/x402/settle-transfer" "secret"
                                (BodyJson (VObj [])))
  = [EvReadBody;
     EvRespond 500
       (VObj [("success", VBool false);
              ("error", VStr "Cannot read properties of undefined (reading 'payload')")])].
Proof. reflexivity. Qed.

(* ================================================================== *)
(** * Properties of the payment gate *)

(** The JSON documents PHP converts to [false]: [null], [false], [0], the
    strings [""] and ["0"], the empty array and the empty object. *)
Definition falsyDocument (doc : JSValue) : bool :=
  match doc with
  | VUndefined | VNull => true
  | VBool b => negb b
  | VNum z => z =? 0
  | VStr s => String.eqb s "" || String.eqb s "0"
  | VArr items => match items with [] => true | _ => false end
  | VObj fields => match fields with [] => true | _ => false end
  end.

Lemma toBool_fromJson (doc : JSValue) :
  PHP.toBool (PHP.fromJson doc) = negb (falsyDocument doc).
Proof.
  destruct doc as [| | b | z | s | items | fields]; simpl; try reflexivity.
  - now destruct b.
  - now destruct items.
  - now destruct fields.
Qed.

Section GateProperties.

Variable genv : GateEnv.
Variables verifyEndpoint settleEndpoint : string.
Variable headers : list (string * string).
Variable requirements : PHPValue.

Let outcome := X402Middleware.run genv verifyEndpoint settleEndpoint
                                  headers requirements.

Definition invalidPayload : GateResult :=
  Exit 400 [("Content-Type", "application/json; charset=utf-8")]
       (PHP.assoc [("success", PBool false);
                   ("message", PString "Invalid PAYMENT-SIGNATURE header");
                   ("error_code", PString "X402_INVALID_PAYLOAD")]).

(** C10, as the code has it.  With a PAYMENT-SIGNATURE header present:
    when it does not decode, or decodes to a document PHP converts to
    [false], the gate answers 400 X402_INVALID_PAYLOAD and calls nothing;
    when it decodes to any other document (also [true], a non-zero
    number, a non-empty string other than ["0"]) the gate calls the verify
    endpoint first. *)
Theorem payment_header_truthiness (h : string) :
  X402Middleware.getPaymentHeader headers = Some h ->
  match genv.(decode) h with
  | None => outcome = ([], invalidPayload)
  | Some doc =>
      if falsyDocument doc then outcome = ([], invalidPayload)
      else exists rest, fst outcome = verifyEndpoint :: rest
  end.
Proof.
  intros Hh. unfold outcome, X402Middleware.run. rewrite Hh.
  destruct (decode genv h) as [doc |]; [| reflexivity].
  rewrite toBool_fromJson.
  destruct (falsyDocument doc); [reflexivity |]. simpl negb. cbv iota.
  destruct (X402Middleware.callFacilitator genv verifyEndpoint _);
    try (eexists; reflexivity);
    match goal with
    | |- context [if ?c then _ else _] => destruct c
    end; try (eexists; reflexivity);
    destruct (X402Middleware.callFacilitator genv settleEndpoint _);
    try (eexists; reflexivity);
    match goal with
    | |- context [if ?c then _ else _] => destruct c
    end; eexists; reflexivity.
Qed.

End GateProperties.

(* ================================================================== *)
(** * The gate in front of the facilitator *)

Module Loopback.

(** [callFacilitator] against the facilitator of this repository: a POST
    to the endpoint with the shared key in X-API-Key and the JSON of
    [$data] as body.  The gate sees the status code and the document in
    the response body; a request that is never answered ends in curl's
    timeout, status 0. *)
Definition exchange (env : Env) (key : string)
           (endpoint : string) (data : PHPValue) : Z * option JSValue :=
  let req := {| method := "POST"; pathname := endpoint;
                headers := [("content-type", "application/json");
                            ("x-api-key", key)];
                body := BodyJson (PHP.toJson data) |} in
  match responseOf (serve env req) with
  | Some (status, VUndefined) => (status, None)
  | Some (status, doc) => (status, Some (JSONText.dropUndefined doc))
  | None => (0, None)
  end.

(** A gate with header decoder [dec] whose facilitator is [env], reached
    with [key]. *)
Definition gate (dec : string -> option JSValue) (env : Env) (key : string)
  : GateEnv :=
  {| decode := dec;
     facilitator := exchange env key |}.

End Loopback.

Module GateSample.

Definition requirements : PHPValue := PHP.fromJson Sample.requirements.

(** The requirements [ai.php] builds for a treasury address and a price.
    The description holds a dash that is three bytes in the script's
    UTF-8. *)
Definition dashBytes : string :=
  String (JSString.chr 226) (String (JSString.chr 128)
                               (String (JSString.chr 148) EmptyString)).

Definition aiRequirements (treasury : string) (price : Z) : PHPValue :=
  AiEndpoint.requirements
    {| AiEndpoint.treasury := treasury; AiEndpoint.price := price |}
    ("AI API query " ++ dashBytes ++ " 0.0001 USDT0 per request").

(** The document these requirements are: the dash is the one code unit
    U+2014. *)
Definition aiDocument (treasury : string) (price : Z) : JSONDoc.t :=
  let text (s : string) := JSONDoc.Str (JSONDoc.unitsOf s) in
  let key (s : string) := JSONDoc.unitsOf s in
  JSONDoc.Obj
    [(key "scheme", text "exact");
     (key "network", text "eip155:1030");
     (key "amount", text (JSString.ofZ price));
     (key "asset", text "0xaf37e8b6c9ed7f6318979f56fc287d76c30847ff");
     (key "payTo", text treasury);
     (key "extra",
      JSONDoc.Obj
        [(key "settlementMode", text "transfer");
         (key "name", text "USDT0");
         (key "version", text "1");
         (key "description",
          JSONDoc.Str (JSONDoc.unitsOf "AI API query " ++ [8212]
                       ++ JSONDoc.unitsOf " 0.0001 USDT0 per request")%list)])].


(** The gate of the samples: the key is the facilitator's; headers are
    decoded by the JSON reading of their base64 text, which on the sample
    headers is what PHP's [base64_decode] and [json_decode] read. *)
Definition gate (env : Env) : GateEnv :=
  Loopback.gate X402Service.decodeHeader env "secret".

(** A facilitator on whose chain every transaction reverts. *)
Definition revertingEnv : Env :=
  {| API_KEY := "secret";
     escrowAdapter := "";
     relayerAddress := Sample.env.(relayerAddress);
     dateNow := Sample.env.(dateNow);
     decimalLiteral := Sample.env.(decimalLiteral);
     recoverSigner := Sample.env.(recoverSigner);
     balanceOf := Sample.env.(balanceOf);
     staticCall := Sample.env.(staticCall);
     transact := fun _ _ _ _ =>
                   Err {| message := "execution reverted";
                          reason := Some "FiatTokenV2: authorization is used or canceled" |};
     getBalance := Sample.env.(getBalance);
     formatEther := Sample.env.(formatEther);
     demoBuyerKey := None;
     demoWallet := Sample.env.(demoWallet);
     demoFlow := Sample.env.(demoFlow) |}.

(** The PAYMENT-SIGNATURE header of the sample payload. *)
Definition paymentSignature : string :=
  Eval vm_compute in
    X402Service.encodePayload (Sample.payload "100" "1800000000").

Definition paidRequest : list (string * string) :=
  [("Accept", "*/*"); ("PAYMENT-SIGNATURE", paymentSignature)].

End GateSample.

Lemma payment_header_truthiness_witness :
  X402Middleware.run (GateSample.gate Sample.env)
                     "/x402/verify-transfer" "/x402/settle-transfer"
                     [("PAYMENT-SIGNATURE", "bnVsbA==")] GateSample.requirements
  = ([], invalidPayload).
Proof.
  exact (@payment_header_truthiness (GateSample.gate Sample.env)
           "/x402/verify-transfer" "/x402/settle-transfer"
           [("PAYMENT-SIGNATURE", "bnVsbA==")] GateSample.requirements
           "bnVsbA==" eq_refl).
Defined.

(** C10, as stated, fails: the header [NQ==] is the base64 of the JSON
    document [5], neither array nor object, and the gate passes it on to
    the facilitator's verify endpoint. *)
Lemma scalar_payload_reaches_verify :
  X402Service.decodeHeader "NQ==" = Some (VNum 5)
  /\ fst (X402Middleware.handleTransfer (GateSample.gate Sample.env)
            [("PAYMENT-SIGNATURE", "NQ==")] GateSample.requirements)
     = ["/x402/verify-transfer"].
Proof. split; reflexivity. Qed.

(** C4 at its failing input.  The facilitator answers a reverted
    settlement with status 500 and [{success: false, error}];
    [callFacilitator] turns every status other than 200 and 402 into
    [null], so the gate's 500 X402_SETTLE_FAILED carries the word
    [unknown] where the facilitator's error was. *)
Theorem settle_error_is_dropped :
  Loopback.exchange GateSample.revertingEnv "secret" "/x402/settle-transfer"
    (X402Middleware.callData
       (PHP.fromJson (Sample.payload "100" "1800000000"))
       GateSample.requirements)
  = (500, Some (VObj [("success", VBool false);
                      ("error", VStr "FiatTokenV2: authorization is used or canceled")]))
  /\ X402Middleware.handleTransfer (GateSample.gate GateSample.revertingEnv)
       GateSample.paidRequest GateSample.requirements
     = (["/x402/verify-transfer"; "/x402/settle-transfer"],
        Exit 500 [("Content-Type", "application/json; charset=utf-8")]
             (PHP.assoc [("success", PBool false);
                         ("message", PString "Payment settlement failed: unknown");
                         ("error_code", PString "X402_SETTLE_FAILED")])).
Proof. split; vm_compute; reflexivity. Qed.

(* ================================================================== *)
(** * Base64 round trip *)

Module Base64Facts.

Import JSString Base64.

Lemma code_range (c : ascii) : 0 <= code c < 256.
Proof.
  unfold code. pose proof (N_ascii_bounded c). lia.
Qed.

Lemma chr_code (c : ascii) : chr (code c) = c.
Proof.
  unfold chr, code. rewrite N2Z.id. apply ascii_N_embedding.
Qed.

Lemma code_chr (z : Z) : 0 <= z < 256 -> code (chr z) = z.
Proof.
  intros H. unfold chr, code.
  rewrite N_ascii_embedding by lia. lia.
Qed.

(** Induction on strings three characters at a time. *)
Lemma string_ind3 (P : string -> Prop) :
  P EmptyString ->
  (forall a, P (String a EmptyString)) ->
  (forall a b, P (String a (String b EmptyString))) ->
  (forall a b c r, P r -> P (String a (String b (String c r)))) ->
  forall s, P s.
Proof.
  intros H0 H1 H2 H3. fix IH 1.
  intros [| a [| b [| c r]]];
    [exact H0 | apply H1 | apply H2 | apply H3; apply IH].
Qed.

Ltac each_below_64 n :=
  do 64 (destruct n as [| n]; [vm_compute; reflexivity |]).

(** The alphabet is injective on 0..63, with [value] as inverse; none of
    its characters is white space or the padding sign. *)
Lemma alphabet_facts (i : Z) :
  0 <= i < 64 ->
  value (alphabet i) = Some i
  /\ isAsciiWhitespace (alphabet i) = false
  /\ Ascii.eqb (alphabet i) "=" = false.
Proof.
  intros H.
  assert (Hb : (match value (alphabet i) with
                | Some j => i =? j
                | None => false
                end
                && negb (isAsciiWhitespace (alphabet i))
                && negb (Ascii.eqb (alphabet i) "="))%bool = true).
  { rewrite <- (Z2Nat.id i) by lia.
    assert (Hn : (Z.to_nat i < 64)%nat) by lia.
    generalize dependent (Z.to_nat i). intros n Hn.
    each_below_64 n. lia. }
  apply andb_prop in Hb as [Hb H3]. apply andb_prop in Hb as [H1 H2].
  destruct (value (alphabet i)) as [j |]; [| discriminate].
  apply Z.eqb_eq in H1. subst j.
  repeat split.
  - now destruct (isAsciiWhitespace (alphabet i)).
  - now destruct (Ascii.eqb (alphabet i) "=").
Qed.

Ltac byte_arith :=
  repeat match goal with
         | c : ascii |- _ =>
             lazymatch goal with
             | _ : 0 <= code c < 256 |- _ => fail
             | _ => pose proof (code_range c)
             end
         end;
  Z.div_mod_to_equations; lia.

Lemma sextets_range (s : string) :
  Forall (fun i => 0 <= i < 64) (sextets s).
Proof.
  induction s as [| a | a b | a b c r IH] using string_ind3; simpl;
    repeat constructor; try exact IH; byte_arith.
Qed.

Lemma bytes_sextets (s : string) : bytes (sextets s) = Some s.
Proof.
  induction s as [| a | a b | a b c r IH] using string_ind3.
  - reflexivity.
  - simpl. f_equal. f_equal. rewrite <- (chr_code a) at 3. f_equal. byte_arith.
  - simpl. f_equal. f_equal.
    + rewrite <- (chr_code a) at 3. f_equal. byte_arith.
    + f_equal. rewrite <- (chr_code b) at 3. f_equal. byte_arith.
  - cbn [sextets bytes]. rewrite IH. f_equal. f_equal.
    + rewrite <- (chr_code a) at 3. f_equal. byte_arith.
    + f_equal.
      * rewrite <- (chr_code b) at 3. f_equal. byte_arith.
      * f_equal. rewrite <- (chr_code c) at 3. f_equal. byte_arith.
Qed.

Lemma values_alphabet (l : list Z) :
  Forall (fun i => 0 <= i < 64) l ->
  values (ofChars (map alphabet l)) = Some l.
Proof.
  induction 1 as [| i l Hi _ IH]; simpl; [reflexivity |].
  destruct (alphabet_facts Hi) as [-> _]. now rewrite IH.
Qed.

(** *** Strings: append, length, reversal *)

Lemma app_nil_r (s : string) : s ++ "" = s.
Proof. induction s as [| c s IH]; simpl; [reflexivity | now rewrite IH]. Qed.

Lemma app_assoc (a b c : string) : (a ++ b) ++ c = a ++ (b ++ c).
Proof. induction a as [| x a IH]; simpl; [reflexivity | now rewrite IH]. Qed.

Lemma length_app (a b : string) :
  String.length (a ++ b) = (String.length a + String.length b)%nat.
Proof. induction a as [| x a IH]; simpl; [reflexivity | now rewrite IH]. Qed.

Lemma rev_append_spec (s acc : string) : rev_append s acc = rev s ++ acc.
Proof.
  unfold rev. revert acc.
  induction s as [| c s IH]; intros acc; simpl; [reflexivity |].
  rewrite IH, (IH (String c "")), app_assoc. reflexivity.
Qed.

Lemma rev_cons (c : ascii) (s : string) : rev (String c s) = rev s ++ String c "".
Proof. unfold rev at 1. simpl. apply rev_append_spec. Qed.

Lemma rev_app (a b : string) : rev (a ++ b) = rev b ++ rev a.
Proof.
  induction a as [| x a IH]; simpl.
  - now rewrite app_nil_r.
  - now rewrite !rev_cons, IH, app_assoc.
Qed.

Lemma rev_involutive (s : string) : rev (rev s) = s.
Proof.
  induction s as [| c s IH]; [reflexivity |].
  now rewrite rev_cons, rev_app, IH.
Qed.

(** *** White space and padding in encoded text *)

Lemma removeWhitespace_body (l : list Z) (pad : string) :
  Forall (fun i => 0 <= i < 64) l ->
  removeWhitespace (ofChars (map alphabet l) ++ pad)
  = ofChars (map alphabet l) ++ removeWhitespace pad.
Proof.
  induction 1 as [| i l Hi _ IH]; simpl; [reflexivity |].
  destruct (alphabet_facts Hi) as [_ [-> _]]. now rewrite IH.
Qed.

(** The three shapes of an encoding: the count of 6-bit groups modulo 4
    determines the padding. *)
Lemma padding_cases (s : string) :
  (padding s = "" /\ exists n, List.length (sextets s) = (4 * n)%nat) \/
  (padding s = "=" /\ exists n, List.length (sextets s) = (4 * n + 3)%nat) \/
  (padding s = "==" /\ exists n, List.length (sextets s) = (4 * n + 2)%nat).
Proof.
  induction s as [| a | a b | a b c r IH] using string_ind3; simpl.
  - left. split; [reflexivity | now exists 0%nat].
  - right; right. split; [reflexivity | now exists 0%nat].
  - right; left. split; [reflexivity | now exists 0%nat].
  - destruct IH as [[-> [n Hn]] | [[-> [n Hn]] | [-> [n Hn]]]];
      [left | right; left | right; right];
      (split; [reflexivity | exists (S n); rewrite Hn; lia]).
Qed.

Lemma length_ofChars (l : list ascii) : String.length (ofChars l) = List.length l.
Proof. induction l as [| c l IH]; simpl; [reflexivity | now rewrite IH]. Qed.

Lemma rev_body_last (l : list Z) :
  Forall (fun i => 0 <= i < 64) l ->
  match rev (ofChars (map alphabet l)) with
  | String c _ => Ascii.eqb c "=" = false
  | EmptyString => l = []
  end.
Proof.
  induction 1 as [| i l Hi Hl IH]; [reflexivity |].
  simpl. rewrite rev_cons.
  destruct (rev (ofChars (map alphabet l))) as [| c r]; simpl.
  - now destruct (alphabet_facts Hi) as [_ [_ ->]].
  - exact IH.
Qed.

Lemma stripPadding_encode (s : string) :
  stripPadding (ofChars (map alphabet (sextets s)) ++ padding s)
  = ofChars (map alphabet (sextets s)).
Proof.
  pose proof (sextets_range s) as Hr.
  pose proof (rev_body_last Hr) as Hlast.
  unfold stripPadding.
  rewrite length_app, length_ofChars, length_map, rev_app.
  destruct (padding_cases s) as [[-> [n Hn]] | [[-> [n Hn]] | [-> [n Hn]]]];
    rewrite Hn; simpl String.length.
  - change (rev "") with "". rewrite !app_nil_r. cbn [append].
    destruct (Z.of_nat (4 * n + 0) mod 4 =? 0); [| reflexivity].
    destruct (rev (ofChars (map alphabet (sextets s)))) as [| c r];
      [reflexivity | now rewrite Hlast].
  - change (rev "=") with "=".
    replace (Z.of_nat (4 * n + 3 + 1) mod 4 =? 0) with true
      by (symmetry; apply Z.eqb_eq;
          replace (Z.of_nat (4 * n + 3 + 1)) with (Z.of_nat (S n) * 4) by lia;
          apply Z.mod_mul; lia).
    cbn [append]. change (Ascii.eqb "=" "=") with true. cbv iota.
    destruct (rev (ofChars (map alphabet (sextets s)))) as [| c r] eqn:Hrev.
    + rewrite <- (rev_involutive (ofChars _)), Hrev. reflexivity.
    + rewrite Hlast, <- Hrev. apply rev_involutive.
  - change (rev "==") with "==".
    replace (Z.of_nat (4 * n + 2 + 2) mod 4 =? 0) with true
      by (symmetry; apply Z.eqb_eq;
          replace (Z.of_nat (4 * n + 2 + 2)) with (Z.of_nat (S n) * 4) by lia;
          apply Z.mod_mul; lia).
    cbn [append]. change (Ascii.eqb "=" "=") with true. cbv iota.
    apply rev_involutive.
Qed.

(** [atob] undoes [btoa] and [base64_encode]. *)
Lemma atob_encode (s : string) : atob (encode s) = Some s.
Proof.
  unfold atob, encode.
  rewrite removeWhitespace_body by apply sextets_range.
  replace (removeWhitespace (padding s)) with (padding s)
    by (destruct (padding_cases s) as [[-> _] | [[-> _] | [-> _]]]; reflexivity).
  rewrite stripPadding_encode, values_alphabet by apply sextets_range.
  apply bytes_sextets.
Qed.

End Base64Facts.

(* ================================================================== *)
(** * JSON text round trip *)

Module JSONFacts.

Import JSString JSONText Base64Facts.

(** *** Decimal numerals *)

Fixpoint allDigits (d : string) : bool :=
match d with
| EmptyString => true
| String c r => JS.isDecDigit c && allDigits r
end.

Lemma digit_char (n : Z) :
  0 <= n < 10 ->
  digitValue 10 (chr (48 + n)) = Some n
  /\ JS.isDecDigit (chr (48 + n)) = true
  /\ (0 < n -> Ascii.eqb (chr (48 + n)) "0" = false).
Proof.
  intros H. rewrite <- (Z2Nat.id n) by lia.
  assert (Hm : (Z.to_nat n < 10)%nat) by lia.
  generalize dependent (Z.to_nat n). intros m Hm.
  do 10 (destruct m as [| m];
         [split; [| split];
          [reflexivity | reflexivity | intros Hpos; try reflexivity; lia] |]).
  lia.
Qed.

Lemma digitsFrom_app (radix a : Z) (x y : string) :
  digitsFrom radix a (x ++ y)
  = match digitsFrom radix a x with
    | Some a' => digitsFrom radix a' y
    | None => None
    end.
Proof.
  revert a. induction x as [| c x IH]; intros a; simpl; [reflexivity |].
  destruct (digitValue radix c); [apply IH | reflexivity].
Qed.

Lemma allDigits_app (x y : string) :
  allDigits (x ++ y) = allDigits x && allDigits y.
Proof.
  induction x as [| c x IH]; simpl; [reflexivity |].
  now rewrite IH, andb_assoc.
Qed.

(** What [decimalFuel] writes in front of its accumulator. *)
Record Numeral (n : Z) (d : string) : Prop := {
  numeral_digits : allDigits d = true;
  numeral_nonempty : d <> EmptyString;
  numeral_value : forall a,
      digitsFrom 10 a d = Some (a * 10 ^ Z.of_nat (String.length d) + n);
  numeral_head : 0 < n -> startsWith "0" d = false;
  numeral_zero : n = 0 -> d = "0"
}.

Lemma single_digit_numeral (n : Z) :
  0 <= n < 10 -> Numeral n (String (chr (48 + n)) "").
Proof.
  intros H. destruct (digit_char H) as [Hv [Hdig Hz]].
  constructor.
  - cbn [allDigits]. now rewrite Hdig.
  - discriminate.
  - intros a. cbn [digitsFrom]. rewrite Hv. reflexivity.
  - intros Hpos. cbn [startsWith]. now apply Hz.
  - intros ->. reflexivity.
Qed.

Lemma decimalFuel_small (fuel : nat) (n : Z) (acc : string) :
  0 <= n < 10 ->
  decimalFuel (S fuel) n acc = String (chr (48 + n)) acc.
Proof.
  intros H. cbn [decimalFuel]. rewrite Z.mod_small by lia.
  destruct (Z.ltb_spec n 10); [reflexivity | lia].
Qed.

Lemma decimalFuel_large (fuel : nat) (n : Z) (acc : string) :
  10 <= n ->
  decimalFuel (S fuel) n acc
  = decimalFuel fuel (n / 10) (String (chr (48 + n mod 10)) acc).
Proof.
  intros H. cbn [decimalFuel].
  destruct (Z.ltb_spec n 10); [lia | reflexivity].
Qed.

Lemma decimalFuel_numeral (fuel : nat) :
  forall n, 0 <= n < 10 ^ Z.of_nat (S fuel) ->
  exists d, (forall acc, decimalFuel (S fuel) n acc = d ++ acc) /\ Numeral n d.
Proof.
  induction fuel as [| fuel IH]; intros n Hn.
  - assert (Hlt : 0 <= n < 10) by (change (10 ^ Z.of_nat 1) with 10 in Hn; lia).
    exists (String (chr (48 + n)) "").
    split; [intros acc; now apply decimalFuel_small |
            now apply single_digit_numeral].
  - destruct (Z.ltb_spec n 10) as [Hlt | Hge].
    + exists (String (chr (48 + n)) "").
      split; [intros acc; apply decimalFuel_small; lia |
              apply single_digit_numeral; lia].
    + assert (Hq : 0 <= n / 10 < 10 ^ Z.of_nat (S fuel)).
      { split; [apply Z.div_pos; lia |].
        apply Z.div_lt_upper_bound; [lia |].
        replace (Z.of_nat (S (S fuel))) with (Z.of_nat (S fuel) + 1) in Hn by lia.
        rewrite Z.pow_add_r, Z.pow_1_r in Hn by lia. lia. }
      destruct (IH _ Hq) as [d' [Hrun Hnum]].
      assert (Hd : 0 <= n mod 10 < 10) by (apply Z.mod_pos_bound; lia).
      destruct (digit_char Hd) as [Hv [Hdig _]].
      exists (d' ++ String (chr (48 + n mod 10)) "").
      split.
      * intros acc. rewrite decimalFuel_large by assumption.
        rewrite Hrun, app_assoc. reflexivity.
      * destruct Hnum as [Hall Hne Hval Hhead Hzero].
        assert (Hqpos : 0 < n / 10)
          by (apply Z.div_str_pos; lia).
        constructor.
        -- rewrite allDigits_app, Hall. cbn [allDigits]. now rewrite Hdig.
        -- destruct d'; [congruence | discriminate].
        -- intros a. rewrite digitsFrom_app, Hval. cbn [digitsFrom]. rewrite Hv.
           f_equal. rewrite length_app.
           change (String.length (String (chr (48 + n mod 10)) "")) with 1%nat.
           replace (Z.of_nat (String.length d' + 1))
             with (Z.of_nat (String.length d') + 1) by lia.
           rewrite Z.pow_add_r, Z.pow_1_r by lia.
           pose proof (Z.div_mod n 10). lia.
        -- intros _. specialize (Hhead Hqpos).
           destruct d'; [congruence | exact Hhead].
        -- intros ->. simpl in Hge. lia.
Qed.

Lemma ofZ_numeral (n : Z) :
  0 <= n -> exists d, ofZ n = d /\ Numeral n d.
Proof.
  intros Hn. unfold ofZ.
  destruct (Z.ltb_spec n 0); [lia |].
  destruct (@decimalFuel_numeral (Z.to_nat (Z.log2 n)) n) as [d [Hrun Hnum]].
  - split; [assumption |].
    destruct (Z.eq_dec n 0) as [-> | Hnz].
    + apply Z.pow_pos_nonneg; lia.
    + pose proof (Z.log2_nonneg n).
      assert (Hs : n < 2 ^ Z.succ (Z.log2 n)) by (apply Z.log2_spec; lia).
      replace (Z.of_nat (S (Z.to_nat (Z.log2 n)))) with (Z.succ (Z.log2 n)) by lia.
      assert (2 ^ Z.succ (Z.log2 n) <= 10 ^ Z.succ (Z.log2 n))
        by (apply Z.pow_le_mono_l; lia).
      lia.
  - exists d. split; [| assumption].
    rewrite Hrun. apply app_nil_r.
Qed.

Lemma ofZ_negative (z : Z) :
  z < 0 -> exists d, ofZ z = String "-" d /\ Numeral (- z) d.
Proof.
  intros Hz.
  destruct (@ofZ_numeral (- z)) as [d [Hd Hnum]]; [lia |].
  exists d. split; [| assumption].
  unfold ofZ in *.
  destruct (Z.ltb_spec z 0); [| lia].
  destruct (Z.ltb_spec (- z) 0); [lia |].
  now rewrite Hd.
Qed.

(** *** String literals *)

(** An escaping of the code units below [limit] that the parser undoes,
    unit by unit. *)
Definition Unescapes (limit : Z) (esc : Z -> string) : Prop :=
  forall u t, 0 <= u < limit ->
    parseChars (esc u ++ t)
    = match parseChars t with
      | Some (us, rest) => Some (u :: us, rest)
      | None => None
      end.


Lemma escapeText_char (c : ascii) (t : string) :
  parseChars (escapeText c ++ t)
  = match parseChars t with
    | Some (us, rest) => Some (code c :: us, rest)
    | None => None
    end.
Proof.
  destruct c as [b0 b1 b2 b3 b4 b5 b6 b7];
    destruct b0, b1, b2, b3, b4, b5, b6, b7; reflexivity.
Qed.



Lemma hexDigit_value (i : Z) :
  0 <= i < 16 -> digitValue 16 (hexDigit i) = Some i.
Proof.
  intros H. rewrite <- (Z2Nat.id i) by lia.
  assert (Hn : (Z.to_nat i < 16)%nat) by lia.
  generalize dependent (Z.to_nat i). intros n Hn.
  do 16 (destruct n as [| n]; [reflexivity |]).
  lia.
Qed.

Lemma parseChars_unicode (h1 h2 h3 h4 : ascii) (t : string) :
  parseChars (String backslash
                (String "u" (String h1 (String h2 (String h3 (String h4 t))))))
  = match hex4 h1 h2 h3 h4 with
    | Some n =>
        match parseChars t with
        | Some (us, rest) => Some (n :: us, rest)
        | None => None
        end
    | None => None
    end.
Proof. reflexivity. Qed.

Lemma escapeUnit_unescapes : Unescapes 65536 escapeUnit.
Proof.
  intros u t H. unfold escapeUnit.
  destruct (Z.ltb_spec u 128) as [Hlow | Hhigh].
  - rewrite escapeText_char. now rewrite code_chr by lia.
  - cbn [append]. rewrite parseChars_unicode. unfold hex4.
    rewrite !hexDigit_value by (Z.div_mod_to_equations; lia).
    replace (((u / 4096 * 16 + u / 256 mod 16) * 16 + u / 16 mod 16) * 16
             + u mod 16) with u by (Z.div_mod_to_equations; lia).
    reflexivity.
Qed.

Definition below (limit : Z) (units : list Z) : bool :=
  forallb (fun u => (0 <=? u) && (u <? limit)) units.

Lemma parseChars_quote (limit : Z) (esc : Z -> string) (units : list Z)
      (rest : string) :
  Unescapes limit esc -> below limit units = true ->
  parseChars (escapeUnits esc units ++ String dquote rest) = Some (units, rest).
Proof.
  intros Hesc. induction units as [| u units IH]; intros Hb; [reflexivity |].
  cbn [below forallb] in Hb. apply andb_prop in Hb as [Hu Hrest].
  apply andb_prop in Hu as [Hlo Hhi].
  apply Z.leb_le in Hlo. apply Z.ltb_lt in Hhi.
  cbn [escapeUnits]. rewrite app_assoc, Hesc by lia.
  now rewrite (IH Hrest).
Qed.

(** *** Numbers *)

(** Text that may follow a number: it starts with neither a digit nor a
    fraction or exponent mark. *)
Definition followOk (rest : string) : bool :=
negb (JS.hasDigit rest) && negb (startsFraction rest).

Lemma spanDigits_app (d rest : string) :
  allDigits d = true -> JS.hasDigit rest = false ->
  spanDigits (d ++ rest) = (d, rest).
Proof.
  intros Hd Hr. induction d as [| c d IH].
  - destruct rest as [| x rest]; [reflexivity |].
    simpl in *. now rewrite Hr.
  - cbn [allDigits] in Hd. apply andb_prop in Hd as [Hc Hd].
    cbn [append spanDigits]. rewrite Hc, IH by assumption. reflexivity.
Qed.

Lemma digit_not_minus (c : ascii) :
  JS.isDecDigit c = true -> Ascii.eqb c "-" = false.
Proof.
  intros H. destruct (Ascii.eqb_spec c "-") as [-> |]; [discriminate | reflexivity].
Qed.

Lemma numeral_noLeadingZero (n : Z) (d : string) :
  0 <= n -> Numeral n d -> noLeadingZero d = true.
Proof.
  intros Hn [_ Hne _ Hhead Hzero].
  destruct (Z.eq_dec n 0) as [-> | Hnz].
  - now rewrite Hzero.
  - assert (Hh : startsWith "0" d = false) by (apply Hhead; lia).
    destruct d as [| c [| c' d]]; [congruence | reflexivity |].
    cbn [noLeadingZero]. cbn [startsWith] in Hh. now rewrite Hh.
Qed.

Lemma numeral_digits10 (n : Z) (d : string) :
  Numeral n d -> digits 10 d = Some n.
Proof.
  intros [_ Hne Hval _ _].
  destruct d as [| c d]; [congruence |].
  unfold digits. rewrite Hval. f_equal; lia.
Qed.

Lemma numeral_digitsValue (n : Z) (d : string) :
  Numeral n d -> digitsValue d = n.
Proof.
  intros [_ _ Hval _ _]. unfold digitsValue. rewrite Hval. lia.
Qed.

Lemma roundInt_safe (z : Z) :
  Z.abs z < 2 ^ 53 -> Double.roundInt z = Double.Fin z 0.
Proof.
  intros H. unfold Double.roundInt.
  destruct (Z.ltb_spec (Z.abs z) (2 ^ 53)); [reflexivity | lia].
Qed.

Ltac each_char c :=
  destruct c as [b0 b1 b2 b3 b4 b5 b6 b7];
  destruct b0, b1, b2, b3, b4, b5, b6, b7.

Lemma parseFraction_follow (rest : string) :
  startsFraction rest = false -> parseFraction rest = Some (EmptyString, rest).
Proof.
  destruct rest as [| c r]; [reflexivity |].
  each_char c; intros H; try reflexivity; discriminate H.
Qed.

Lemma parseExponent_follow (rest : string) :
  startsFraction rest = false -> parseExponent rest = Some (0, rest).
Proof.
  destruct rest as [| c r]; [reflexivity |].
  cbn [startsFraction parseExponent]. intros H.
  apply orb_false_iff in H as [H He']. apply orb_false_iff in H as [_ He].
  now rewrite He, He'.
Qed.

Lemma ofDecimal_integer (negative : bool) (n : Z) :
  Double.ofDecimal negative n 0
  = Double.roundInt (if negative then - n else n).
Proof.
  unfold Double.ofDecimal. change (0 <=? 0) with true. cbv iota.
  change (10 ^ 0) with 1. now rewrite Z.mul_1_r.
Qed.

Lemma parseNumber_ofZ (z : Z) (rest : string) :
  Z.abs z < 2 ^ 53 -> followOk rest = true ->
  parseNumber (ofZ z ++ rest) = Some (Double.ofInt z, rest).
Proof.
  intros Hz Hf. unfold followOk in Hf.
  apply andb_prop in Hf as [Hf1 Hf2].
  apply negb_true_iff in Hf1, Hf2.
  destruct (Z.lt_ge_cases z 0) as [Hneg | Hpos].
  - destruct (ofZ_negative Hneg) as [d [-> Hnum]].
    unfold parseNumber. cbn [append startsWith tail].
    change (Ascii.eqb "-" "-") with true. cbv iota.
    rewrite spanDigits_app by (try apply Hnum; assumption).
    rewrite (numeral_noLeadingZero (n := - z)) by (try lia; assumption).
    rewrite (parseFraction_follow _ Hf2), (parseExponent_follow _ Hf2).
    rewrite (numeral_digitsValue Hnum), ofDecimal_integer, Z.opp_involutive.
    now rewrite roundInt_safe by assumption.
  - destruct (ofZ_numeral Hpos) as [d [-> Hnum]].
    unfold parseNumber.
    assert (Hminus : startsWith "-" (d ++ rest) = false).
    { destruct Hnum as [Hall Hne _ _ _].
      destruct d as [| c d]; [congruence |].
      cbn [allDigits] in Hall. apply andb_prop in Hall as [Hc _].
      cbn [append startsWith]. now apply digit_not_minus. }
    rewrite Hminus.
    rewrite spanDigits_app by (try apply Hnum; assumption).
    rewrite (numeral_noLeadingZero (n := z)) by assumption.
    rewrite (parseFraction_follow _ Hf2), (parseExponent_follow _ Hf2).
    rewrite (numeral_digitsValue Hnum), ofDecimal_integer.
    now rewrite roundInt_safe by assumption.
Qed.

Lemma toInteger_ofInt (z : Z) : Double.toInteger (Double.ofInt z) = Some z.
Proof.
  unfold Double.toInteger, Double.ofInt. change (0 <=? 0) with true. cbv iota.
  change (2 ^ 0) with 1. now rewrite Z.mul_1_r.
Qed.

(** *** Documents *)

(** No code unit of a document is [limit] or above. *)
Fixpoint unitsBelow (limit : Z) (d : JSONDoc.t) : bool :=
match d with
| JSONDoc.Str units => below limit units
| JSONDoc.Arr items => forallb (unitsBelow limit) items
| JSONDoc.Obj members =>
    (fix go (l : list (list Z * JSONDoc.t)) : bool :=
       match l with
       | [] => true
       | (k, x) :: r => below limit k && unitsBelow limit x && go r
       end) members
| _ => true
end.

Fixpoint unitsBelowMembers (limit : Z) (l : list (list Z * JSONDoc.t)) : bool :=
match l with
| [] => true
| (k, x) :: r => below limit k && unitsBelow limit x && unitsBelowMembers limit r
end.

Lemma unitsBelow_object (limit : Z) (members : list (list Z * JSONDoc.t)) :
  unitsBelow limit (JSONDoc.Obj members) = unitsBelowMembers limit members.
Proof.
  induction members as [| [k x] r IH]; [reflexivity |].
  cbn [unitsBelowMembers]. rewrite <- IH. reflexivity.
Qed.

Fixpoint plainMembers (l : list (list Z * JSONDoc.t)) : bool :=
match l with
| [] => true
| (k, x) :: r =>
    negb (JSONDoc.hasKey k r) && JSONDoc.plain x && plainMembers r
end.

Lemma plain_object (members : list (list Z * JSONDoc.t)) :
  JSONDoc.plain (JSONDoc.Obj members) = plainMembers members.
Proof.
  induction members as [| [k x] r IH]; [reflexivity |].
  cbn [plainMembers]. rewrite <- IH. reflexivity.
Qed.

(** Fuel that suffices to parse the text of a document. *)
Fixpoint weight (d : JSONDoc.t) : nat :=
match d with
| JSONDoc.Arr items =>
    S ((fix go (l : list JSONDoc.t) : nat :=
          match l with
          | [] => O
          | x :: r => S (weight x + go r)
          end) items)
| JSONDoc.Obj members =>
    S ((fix go (l : list (list Z * JSONDoc.t)) : nat :=
          match l with
          | [] => O
          | (_, x) :: r => S (weight x + go r)
          end) members)
| _ => 1%nat
end.

Fixpoint weightItems (l : list JSONDoc.t) : nat :=
match l with
| [] => O
| x :: r => S (weight x + weightItems r)
end.

Fixpoint weightMembers (l : list (list Z * JSONDoc.t)) : nat :=
match l with
| [] => O
| (_, x) :: r => S (weight x + weightMembers r)
end.

Lemma weight_array (items : list JSONDoc.t) :
  weight (JSONDoc.Arr items) = S (weightItems items).
Proof. reflexivity. Qed.

Lemma weight_object (members : list (list Z * JSONDoc.t)) :
  weight (JSONDoc.Obj members) = S (weightMembers members).
Proof. reflexivity. Qed.

(** Induction on documents with the hypothesis for every element and
    every member. *)
Lemma Doc_ind2 (P : JSONDoc.t -> Prop) :
  P JSONDoc.Null -> (forall b, P (JSONDoc.Bool b)) ->
  (forall x, P (JSONDoc.Num x)) -> (forall units, P (JSONDoc.Str units)) ->
  (forall items, Forall P items -> P (JSONDoc.Arr items)) ->
  (forall members, Forall (fun kv => P (snd kv)) members ->
                   P (JSONDoc.Obj members)) ->
  forall d, P d.
Proof.
  intros Hn Hb Hz Hs Ha Ho.
  fix IH 1. intros [| b | x | units | items | members].
  - exact Hn.
  - apply Hb.
  - apply Hz.
  - apply Hs.
  - apply Ha. induction items as [| x r IHr]; constructor; [apply IH | exact IHr].
  - apply Ho. induction members as [| [k x] r IHr]; constructor;
      [apply IH | exact IHr].
Qed.

Definition enumeratedMembers (l : list (list Z * JSONDoc.t))
  : list (list Z * JSONDoc.t) :=
map (fun kv : list Z * JSONDoc.t => (fst kv, JSONDoc.enumerated (snd kv))) l.

Lemma enumerated_object (members : list (list Z * JSONDoc.t)) :
  JSONDoc.enumerated (JSONDoc.Obj members)
  = JSONDoc.Obj (JSONDoc.enumeration (enumeratedMembers members)).
Proof. reflexivity. Qed.

Lemma hasKey_enumerated (k : list Z) (l : list (list Z * JSONDoc.t)) :
  JSONDoc.hasKey k (enumeratedMembers l) = JSONDoc.hasKey k l.
Proof.
  induction l as [| [k' x] l IH]; [reflexivity |].
  cbn [enumeratedMembers map JSONDoc.hasKey fst]. f_equal. exact IH.
Qed.

Section Rendered.

Variable limit : Z.
Variable esc : Z -> string.
Hypothesis esc_ok : Unescapes limit esc.

Definition renderString (units : list Z) : string :=
String dquote (escapeUnits esc units ++ String dquote EmptyString).

(** The compact text of a document whose numbers are integers. *)
Fixpoint render (d : JSONDoc.t) : string :=
match d with
| JSONDoc.Null => "null"
| JSONDoc.Bool true => "true"
| JSONDoc.Bool false => "false"
| JSONDoc.Num x =>
    match Double.toInteger x with
    | Some z => ofZ z
    | None => "null"
    end
| JSONDoc.Str units => renderString units
| JSONDoc.Arr items =>
    "[" ++
    match items with
    | [] => ""
    | x :: r =>
        render x ++
        (fix rest (l : list JSONDoc.t) : string :=
           match l with
           | [] => ""
           | y :: l' => "," ++ render y ++ rest l'
           end) r
    end ++ "]"
| JSONDoc.Obj members =>
    "{" ++
    match members with
    | [] => ""
    | (k, x) :: r =>
        renderString k ++ ":" ++ render x ++
        (fix rest (l : list (list Z * JSONDoc.t)) : string :=
           match l with
           | [] => ""
           | (k', y) :: l' => "," ++ renderString k' ++ ":" ++ render y ++ rest l'
           end) r
    end ++ "}"
end.

(** The text after the first element of an array, and after the first
    member of an object. *)
Fixpoint itemsTail (l : list JSONDoc.t) : string :=
match l with
| [] => ""
| y :: l' => "," ++ render y ++ itemsTail l'
end.

Fixpoint membersTail (l : list (list Z * JSONDoc.t)) : string :=
match l with
| [] => ""
| (k, y) :: l' => "," ++ renderString k ++ ":" ++ render y ++ membersTail l'
end.

Lemma render_array (x : JSONDoc.t) (r : list JSONDoc.t) :
  render (JSONDoc.Arr (x :: r))
  = "[" ++ (render x ++ itemsTail r) ++ "]".
Proof. reflexivity. Qed.

Lemma render_object (k : list Z) (x : JSONDoc.t)
      (r : list (list Z * JSONDoc.t)) :
  render (JSONDoc.Obj ((k, x) :: r))
  = "{" ++ (renderString k ++ ":" ++ render x ++ membersTail r) ++ "}".
Proof. reflexivity. Qed.

Lemma render_number (z : Z) (e : Z) :
  (e =? 0) && (Z.abs z <? 2 ^ 53) = true ->
  render (JSONDoc.Num (Double.Fin z e)) = ofZ z
  /\ Double.Fin z e = Double.ofInt z /\ Z.abs z < 2 ^ 53.
Proof.
  intros H. apply andb_prop in H as [He Hz].
  apply Z.eqb_eq in He. apply Z.ltb_lt in Hz. subst e.
  cbn [render]. change (Double.Fin z 0) with (Double.ofInt z).
  now rewrite toInteger_ofInt.
Qed.

(** The first character of a rendered document. *)
Definition headOk (c : ascii) : bool :=
negb (isJsonWhitespace c) && negb (Ascii.eqb c "]").

Lemma digit_headOk (c : ascii) : JS.isDecDigit c = true -> headOk c = true.
Proof. each_char c; intros H; try reflexivity; discriminate H. Qed.

Lemma numeral_head_digit (n : Z) (d rest : string) :
  Numeral n d ->
  exists c t, d ++ rest = String c t /\ JS.isDecDigit c = true.
Proof.
  intros [Hall Hne _ _ _].
  destruct d as [| c d]; [congruence |].
  cbn [allDigits] in Hall. apply andb_prop in Hall as [Hc _].
  exists c, (d ++ rest). split; [reflexivity | exact Hc].
Qed.

Lemma ofZ_head (z : Z) (rest : string) :
  exists c t, ofZ z ++ rest = String c t /\ headOk c = true
              /\ JS.isDecDigit c || Ascii.eqb c "-" = true.
Proof.
  destruct (Z.lt_ge_cases z 0) as [Hneg | Hpos].
  - destruct (ofZ_negative Hneg) as [d [-> _]].
    eexists; eexists; split; [reflexivity | split; reflexivity].
  - destruct (ofZ_numeral Hpos) as [d [-> Hnum]].
    destruct (numeral_head_digit rest Hnum) as [c [t [-> Hc]]].
    exists c, t. split; [reflexivity |].
    split; [now apply digit_headOk | now rewrite Hc].
Qed.

(** A rendered document followed by anything: the first character is
    neither white space nor a closing bracket. *)
Lemma render_head (d : JSONDoc.t) (rest : string) :
  JSONDoc.plain d = true ->
  exists c t, render d ++ rest = String c t /\ headOk c = true.
Proof.
  intros Hp. destruct d as [| [|] | x | units | items | members];
    try (eexists; eexists; split; [reflexivity | reflexivity]).
  destruct x as [| negative | z e]; try discriminate Hp.
  cbn [JSONDoc.plain] in Hp.
  destruct (render_number z e Hp) as [-> _].
  destruct (ofZ_head z rest) as [c [t [Heq [Hc _]]]]. eauto.
Qed.

Lemma skipWs_head (c : ascii) (t : string) :
  headOk c = true -> skipWs (String c t) = String c t.
Proof.
  unfold headOk. intros H. apply andb_prop in H as [H _].
  cbn [skipWs]. now destruct (isJsonWhitespace c).
Qed.

Lemma startsWith_head (c : ascii) (t : string) :
  headOk c = true -> startsWith "]" (String c t) = false.
Proof.
  unfold headOk. intros H. apply andb_prop in H as [_ H].
  cbn [startsWith]. now destruct (Ascii.eqb c "]").
Qed.

(** *** The parser, one step at a time *)

Lemma parseValue_number (fuel : nat) (c : ascii) (r : string) :
  JS.isDecDigit c || Ascii.eqb c "-" = true ->
  parseValue (S fuel) (String c r)
  = match parseNumber (String c r) with
    | Some (x, rest) => Some (JSONDoc.Num x, rest)
    | None => None
    end.
Proof. each_char c; intros H; try reflexivity; discriminate H. Qed.

Lemma parseValue_string (fuel : nat) (r : string) :
  parseValue (S fuel) (String dquote r)
  = match parseChars r with
    | Some (t, rest) => Some (JSONDoc.Str t, rest)
    | None => None
    end.
Proof. reflexivity. Qed.

Lemma parseValue_array (fuel : nat) (r : string) :
  parseValue (S fuel) (String "[" r)
  = if startsWith "]" (skipWs r) then Some (JSONDoc.Arr [], tail (skipWs r))
    else match parseElements fuel (skipWs r) with
         | Some (items, rest) => Some (JSONDoc.Arr items, rest)
         | None => None
         end.
Proof. reflexivity. Qed.

Lemma parseValue_object (fuel : nat) (r : string) :
  parseValue (S fuel) (String "{" r)
  = if startsWith "}" (skipWs r) then Some (JSONDoc.Obj [], tail (skipWs r))
    else match parseMembers fuel (skipWs r) with
         | Some (members, rest) =>
             Some (JSONDoc.Obj (JSONDoc.enumeration members), rest)
         | None => None
         end.
Proof. reflexivity. Qed.

Lemma parseElements_step (fuel : nat) (s : string) :
  parseElements (S fuel) s
  = match parseValue fuel s with
    | Some (v, r) =>
        match skipWs r with
        | String "," r' =>
            match parseElements fuel r' with
            | Some (items, rest) => Some (v :: items, rest)
            | None => None
            end
        | String "]" rest => Some ([v], rest)
        | _ => None
        end
    | None => None
    end.
Proof. reflexivity. Qed.

Lemma parseMembers_step (fuel : nat) (r : string) :
  parseMembers (S fuel) (String dquote r)
  = match parseChars r with
    | Some (k, r1) =>
        match skipWs r1 with
        | String ":" r2 =>
            match parseValue fuel r2 with
            | Some (v, r3) =>
                match skipWs r3 with
                | String "," r4 =>
                    match parseMembers fuel r4 with
                    | Some (members, rest) =>
                        Some (if JSONDoc.hasKey k members
                              then (k, JSONDoc.lookup k members)
                                   :: JSONDoc.removeKey k members
                              else (k, v) :: members, rest)
                    | None => None
                    end
                | String "}" rest => Some ([(k, v)], rest)
                | _ => None
                end
            | None => None
            end
        | _ => None
        end
    | None => None
    end.
Proof. reflexivity. Qed.

(** *** Parsing what was rendered *)

(** The statement for one document, as the induction carries it. *)
Definition Reads (d : JSONDoc.t) : Prop :=
  JSONDoc.plain d = true -> unitsBelow limit d = true ->
  forall fuel rest,
    (weight d <= fuel)%nat -> followOk rest = true ->
    parseValue fuel (render d ++ rest) = Some (JSONDoc.enumerated d, rest).

Lemma itemsTail_shape (y : JSONDoc.t) (r : list JSONDoc.t) (t : string) :
  itemsTail (y :: r) ++ t = String "," (render y ++ (itemsTail r ++ t)).
Proof. cbn [itemsTail append]. now rewrite app_assoc. Qed.

Lemma membersTail_shape (k : list Z) (y : JSONDoc.t)
      (r : list (list Z * JSONDoc.t)) (t : string) :
  membersTail ((k, y) :: r) ++ t
  = String ","
      (String dquote
         (escapeUnits esc k
          ++ String dquote (String ":" (render y ++ (membersTail r ++ t))))).
Proof.
  cbn [membersTail append]. unfold renderString. cbn [append].
  rewrite !app_assoc. cbn [append]. now rewrite ?app_assoc.
Qed.

Lemma skipWs_dquote (t : string) : skipWs (String dquote t) = String dquote t.
Proof. reflexivity. Qed.

Lemma skipWs_comma (t : string) : skipWs (String "," t) = String "," t.
Proof. reflexivity. Qed.

Lemma skipWs_colon (t : string) : skipWs (String ":" t) = String ":" t.
Proof. reflexivity. Qed.

Lemma followOk_itemsTail (r : list JSONDoc.t) (rest : string) :
  followOk (itemsTail r ++ String "]" rest) = true.
Proof. destruct r; reflexivity. Qed.

Lemma followOk_membersTail (r : list (list Z * JSONDoc.t)) (rest : string) :
  followOk (membersTail r ++ String "}" rest) = true.
Proof. destruct r as [| [k y] r]; reflexivity. Qed.

Lemma parseElements_render (r : list JSONDoc.t) :
  forall x fuel rest,
    Forall Reads (x :: r) ->
    forallb JSONDoc.plain (x :: r) = true ->
    forallb (unitsBelow limit) (x :: r) = true ->
    (weightItems (x :: r) <= fuel)%nat ->
    parseElements fuel (render x ++ (itemsTail r ++ String "]" rest))
    = Some (map JSONDoc.enumerated (x :: r), rest).
Proof.
  induction r as [| y r IH]; intros x fuel rest Hall Hp Hb Hfuel;
    inversion Hall as [| ? ? Hx Hr]; subst;
    cbn [forallb] in Hp; apply andb_prop in Hp as [Hpx Hpr];
    cbn [forallb] in Hb; apply andb_prop in Hb as [Hbx Hbr];
    cbn [weightItems] in Hfuel;
    (destruct fuel as [| fuel]; [lia |]);
    rewrite parseElements_step;
    rewrite (Hx Hpx Hbx fuel _) by (try apply followOk_itemsTail; lia).
  - reflexivity.
  - rewrite itemsTail_shape, skipWs_comma.
    rewrite (IH y fuel rest Hr Hpr Hbr) by (cbn [weightItems]; lia).
    reflexivity.
Qed.

Lemma parseMembers_render (r : list (list Z * JSONDoc.t)) :
  forall k x fuel rest,
    Forall (fun kv => Reads (snd kv)) ((k, x) :: r) ->
    plainMembers ((k, x) :: r) = true ->
    unitsBelowMembers limit ((k, x) :: r) = true ->
    (weightMembers ((k, x) :: r) <= fuel)%nat ->
    parseMembers fuel
      (String dquote
         (escapeUnits esc k
          ++ String dquote
               (String ":" (render x ++ (membersTail r ++ String "}" rest)))))
    = Some (enumeratedMembers ((k, x) :: r), rest).
Proof.
  induction r as [| [k' y] r IH]; intros k x fuel rest Hall Hp Hb Hfuel;
    inversion Hall as [| ? ? Hx Hr]; subst; cbn [snd] in Hx;
    cbn [plainMembers] in Hp;
    apply andb_prop in Hp as [Hp Hpr];
    apply andb_prop in Hp as [Hkey Hpx];
    apply negb_true_iff in Hkey;
    cbn [unitsBelowMembers] in Hb;
    apply andb_prop in Hb as [Hb Hbr];
    apply andb_prop in Hb as [Hbk Hbx];
    cbn [weightMembers] in Hfuel;
    (destruct fuel as [| fuel]; [lia |]);
    rewrite parseMembers_step,
      (@parseChars_quote limit esc k _ esc_ok Hbk), skipWs_colon;
    rewrite (Hx Hpx Hbx fuel _) by (try apply followOk_membersTail; lia).
  - reflexivity.
  - rewrite membersTail_shape, skipWs_comma.
    rewrite (IH k' y fuel rest Hr Hpr Hbr) by (cbn [weightMembers]; lia).
    now rewrite hasKey_enumerated, Hkey.
Qed.

Lemma reads_all (d : JSONDoc.t) : Reads d.
Proof.
  induction d as [| b | x | units | items IH | members IH] using Doc_ind2;
    intros Hp Hb fuel rest Hfuel Hfollow.
  - destruct fuel as [| fuel]; [cbn in Hfuel; lia | reflexivity].
  - destruct fuel as [| fuel]; [cbn in Hfuel; lia | destruct b; reflexivity].
  - destruct fuel as [| fuel]; [cbn in Hfuel; lia |].
    destruct x as [| negative | z e]; try discriminate Hp.
    cbn [JSONDoc.plain] in Hp.
    destruct (render_number z e Hp) as [-> [-> Hz]].
    cbn [JSONDoc.enumerated].
    destruct (ofZ_head z rest) as [c [t [Heq [_ Hc]]]].
    rewrite Heq, (@parseValue_number fuel c t Hc), <- Heq.
    now rewrite (parseNumber_ofZ z rest Hz Hfollow).
  - destruct fuel as [| fuel]; [cbn in Hfuel; lia |].
    cbn [render]. unfold renderString. cbn [append].
    rewrite parseValue_string, app_assoc. cbn [append].
    now rewrite (@parseChars_quote limit esc units _ esc_ok Hb).
  - rewrite weight_array in Hfuel.
    destruct fuel as [| fuel]; [lia |].
    destruct items as [| x r]; [reflexivity |].
    rewrite render_array. cbn [append].
    rewrite parseValue_array, !app_assoc. cbn [append].
    cbn [JSONDoc.plain] in Hp. cbn [unitsBelow] in Hb.
    assert (Hpx : JSONDoc.plain x = true)
      by (cbn [forallb] in Hp; now apply andb_prop in Hp as [? _]).
    destruct (render_head x (itemsTail r ++ String "]" rest) Hpx)
      as [c [t [Heq Hc]]].
    rewrite Heq, skipWs_head, startsWith_head by assumption.
    rewrite <- Heq, parseElements_render by (try assumption; lia).
    reflexivity.
  - rewrite weight_object in Hfuel. rewrite plain_object in Hp.
    rewrite unitsBelow_object in Hb.
    destruct fuel as [| fuel]; [lia |].
    destruct members as [| [k x] r]; [reflexivity |].
    rewrite render_object. cbn [append]. unfold renderString. cbn [append].
    rewrite parseValue_object, !app_assoc. cbn [append].
    rewrite !app_assoc. cbn [append].
    rewrite skipWs_dquote.
    cbn [startsWith]. change (Ascii.eqb dquote "}") with false. cbv iota.
    rewrite parseMembers_render by (try assumption; lia).
    now rewrite enumerated_object.
Qed.

(** The text of a document is at least as long as its weight. *)
Lemma weight_le_length (d : JSONDoc.t) :
  (weight d <= String.length (render d))%nat.
Proof.
  induction d as [| b | x | units | items IH | members IH] using Doc_ind2;
    try (cbn; lia).
  - destruct b; cbn; lia.
  - cbn [weight render].
    destruct (Double.toInteger x) as [z |]; [| cbn; lia].
    destruct (ofZ_head z "") as [c [t [Heq _]]].
    rewrite app_nil_r in Heq. rewrite Heq. cbn. lia.
  - rewrite weight_array. destruct items as [| x r]; [cbn; lia |].
    rewrite render_array. cbn [append String.length]. rewrite !length_app.
    cbn [String.length].
    inversion IH as [| ? ? Hx Hr]; subst.
    assert (Ht : (weightItems r <= String.length (itemsTail r))%nat).
    { clear Hx IH. induction Hr as [| y r Hy _ IHr]; [cbn; lia |].
      cbn [weightItems itemsTail append String.length]. rewrite !length_app.
      lia. }
    cbn [weightItems]. lia.
  - rewrite weight_object. destruct members as [| [k x] r]; [cbn; lia |].
    rewrite render_object. cbn [append String.length]. rewrite !length_app.
    cbn [append String.length]. rewrite !length_app.
    inversion IH as [| ? ? Hx Hr]; subst. cbn [snd] in Hx.
    assert (Ht : (weightMembers r <= String.length (membersTail r))%nat).
    { clear Hx IH. induction Hr as [| [k' y] r Hy _ IHr]; [cbn; lia |].
      cbn [snd] in Hy.
      cbn [weightMembers membersTail append String.length]. rewrite !length_app.
      cbn [append String.length]. rewrite !length_app. lia. }
    cbn [weightMembers]. lia.
Qed.

(** Parsing the text of a plain document gives the document back, its
    objects in the order of enumeration. *)
Lemma parse_render (d : JSONDoc.t) :
  JSONDoc.plain d = true -> unitsBelow limit d = true ->
  parse (render d) = Some (JSONDoc.enumerated d).
Proof.
  intros Hp Hb. unfold parse.
  rewrite <- (app_nil_r (render d)) at 2.
  rewrite reads_all; [reflexivity | assumption | assumption | | reflexivity].
  pose proof (weight_le_length d). lia.
Qed.

End Rendered.

(** *** Values *)

(** The values the round trip is stated for: no [undefined], numbers that
    are safe integers, object keys that are distinct and not array
    indices. *)
Fixpoint wellFormed (v : JSValue) : bool :=
match v with
| VUndefined => false
| VNull | VBool _ | VStr _ => true
| VNum z => Z.abs z <? 2 ^ 53
| VArr items => forallb wellFormed items
| VObj fields =>
    (fix go (l : list (string * JSValue)) : bool :=
       match l with
       | [] => true
       | (k, x) :: r =>
           negb (isArrayIndex k) && negb (hasKey k r) && wellFormed x && go r
       end) fields
end.

Fixpoint wellFormedFields (l : list (string * JSValue)) : bool :=
match l with
| [] => true
| (k, x) :: r =>
    negb (isArrayIndex k) && negb (hasKey k r) && wellFormed x
    && wellFormedFields r
end.

Lemma wellFormed_object (fields : list (string * JSValue)) :
  wellFormed (VObj fields) = wellFormedFields fields.
Proof. reflexivity. Qed.


(** *** Values as documents *)

Lemma code_eqb (a b : ascii) : (code a =? code b) = Ascii.eqb a b.
Proof.
  destruct (Ascii.eqb_spec a b) as [-> | Hne]; [apply Z.eqb_refl |].
  apply Z.eqb_neq. intros H. apply Hne.
  rewrite <- (chr_code a), <- (chr_code b). now rewrite H.
Qed.

Lemma unitsEqb_unitsOf (a : string) :
  forall b, JSONDoc.unitsEqb (JSONDoc.unitsOf a) (JSONDoc.unitsOf b)
            = String.eqb a b.
Proof.
  induction a as [| x a IH]; intros [| y b]; try reflexivity.
  cbn [JSONDoc.unitsOf JSONDoc.unitsEqb String.eqb].
  rewrite code_eqb, IH. now destruct (Ascii.eqb x y).
Qed.

Definition fieldsOf (fields : list (string * JSValue))
  : list (list Z * JSONDoc.t) :=
map (fun kv : string * JSValue =>
       (JSONDoc.unitsOf (fst kv), JSONDoc.ofValue (snd kv))) fields.






Lemma ofValue_object (fields : list (string * JSValue)) :
  JSONDoc.ofValue (VObj fields) = JSONDoc.Obj (fieldsOf fields).
Proof. reflexivity. Qed.









(** *** The printer of values *)

Section Printed.

Variable escape : ascii -> string.








Hypothesis escape_ok : Unescapes 256 (fun u => escape (chr u)).


End Printed.

(** *** The encoder of the gate *)

Lemma PHPValue_ind2 (P : PHPValue -> Prop) :
  P PNull -> (forall b, P (PBool b)) -> (forall i, P (PInt i)) ->
  (forall s, P (PString s)) ->
  (forall entries, Forall (fun kv => P (snd kv)) entries -> P (PArray entries)) ->
  forall v, P v.
Proof.
  intros Hn Hb Hi Hs Ha.
  fix IH 1. intros [| b | i | s | entries].
  - exact Hn.
  - apply Hb.
  - apply Hi.
  - apply Hs.
  - apply Ha. induction entries as [| [k x] r IHr]; constructor;
      [apply IH | exact IHr].
Qed.

Fixpoint textItemsTail (l : list (PHPKey * PHPValue)) : option string :=
match l with
| [] => Some ""
| (_, y) :: l' =>
    match PHP.jsonText y, textItemsTail l' with
    | Some a, Some b => Some ("," ++ a ++ b)
    | _, _ => None
    end
end.

Fixpoint textMembersTail (l : list (PHPKey * PHPValue)) : option string :=
match l with
| [] => Some ""
| (k', y) :: l' =>
    match PHP.quoteBytes (PHP.keyString k'), PHP.jsonText y,
          textMembersTail l' with
    | Some q, Some a, Some b => Some ("," ++ q ++ ":" ++ a ++ b)
    | _, _, _ => None
    end
end.

Lemma jsonText_list (k : PHPKey) (x : PHPValue)
      (r : list (PHPKey * PHPValue)) :
  PHP.isListFrom 0 ((k, x) :: r) = true ->
  PHP.jsonText (PArray ((k, x) :: r))
  = match PHP.jsonText x, textItemsTail r with
    | Some a, Some b => Some ("[" ++ a ++ b ++ "]")
    | _, _ => None
    end.
Proof. intros H. cbn [PHP.jsonText]. rewrite H. reflexivity. Qed.

Lemma jsonText_map (k : PHPKey) (x : PHPValue)
      (r : list (PHPKey * PHPValue)) :
  PHP.isListFrom 0 ((k, x) :: r) = false ->
  PHP.jsonText (PArray ((k, x) :: r))
  = match PHP.quoteBytes (PHP.keyString k), PHP.jsonText x,
          textMembersTail r with
    | Some q, Some a, Some b => Some ("{" ++ q ++ ":" ++ a ++ b ++ "}")
    | _, _, _ => None
    end.
Proof. intros H. cbn [PHP.jsonText]. rewrite H. reflexivity. Qed.

Fixpoint documents (l : list (PHPKey * PHPValue)) : option (list JSONDoc.t) :=
match l with
| [] => Some []
| (_, x) :: r =>
    match PHP.document x, documents r with
    | Some d, Some ds => Some (d :: ds)
    | _, _ => None
    end
end.

Fixpoint documentMembers (l : list (PHPKey * PHPValue))
  : option (list (list Z * JSONDoc.t)) :=
match l with
| [] => Some []
| (k, x) :: r =>
    match Utf8.decode (PHP.keyString k), PHP.document x, documentMembers r with
    | Some points, Some d, Some ds => Some ((Utf8.units points, d) :: ds)
    | _, _, _ => None
    end
end.

Lemma document_array (entries : list (PHPKey * PHPValue)) :
  PHP.document (PArray entries)
  = if PHP.isListFrom 0 entries
    then option_map JSONDoc.Arr (documents entries)
    else option_map JSONDoc.Obj (documentMembers entries).
Proof. reflexivity. Qed.

Lemma quoteBytes_render (s : string) :
  PHP.quoteBytes s
  = option_map (fun points => renderString escapeUnit (Utf8.units points))
               (Utf8.decode s).
Proof. unfold PHP.quoteBytes. now destruct (Utf8.decode s). Qed.

(** The encoder writes the text of the document the value is, and fails
    where the value is no document. *)
Lemma jsonText_render (v : PHPValue) :
  PHP.jsonText v = option_map (render escapeUnit) (PHP.document v).
Proof.
  induction v as [| b | i | s | entries IH] using PHPValue_ind2.
  - reflexivity.
  - now destruct b.
  - cbn [PHP.jsonText PHP.document option_map render].
    now rewrite toInteger_ofInt.
  - cbn [PHP.jsonText PHP.document]. rewrite quoteBytes_render.
    now destruct (Utf8.decode s).
  - rewrite document_array.
    destruct entries as [| [k x] r].
    { reflexivity. }
    inversion IH as [| ? ? Hx Hr]; subst. cbn [snd] in Hx.
    destruct (PHP.isListFrom 0 ((k, x) :: r)) eqn:Hlist.
    + rewrite (@jsonText_list k x r Hlist), Hx. cbn [documents].
      assert (Htail : textItemsTail r
                      = option_map (itemsTail escapeUnit) (documents r)).
      { clear Hx IH Hlist. induction Hr as [| [k' y] r Hy _ IHr]; [reflexivity |].
        cbn [snd] in Hy. cbn [textItemsTail documents]. rewrite Hy, IHr.
        destruct (PHP.document y) as [d |]; [| reflexivity].
        destruct (documents r) as [ds |]; reflexivity. }
      rewrite Htail.
      destruct (PHP.document x) as [d |]; [| reflexivity].
      destruct (documents r) as [ds |]; [| reflexivity].
      cbn [option_map]. rewrite render_array. now rewrite !app_assoc.
    + rewrite (@jsonText_map k x r Hlist), Hx, quoteBytes_render. cbn [documentMembers].
      assert (Htail : textMembersTail r
                      = option_map (membersTail escapeUnit) (documentMembers r)).
      { clear Hx IH Hlist. induction Hr as [| [k' y] r Hy _ IHr]; [reflexivity |].
        cbn [snd] in Hy. cbn [textMembersTail documentMembers].
        rewrite Hy, IHr, quoteBytes_render.
        destruct (Utf8.decode (PHP.keyString k')) as [points |]; [| reflexivity].
        destruct (PHP.document y) as [d |]; [| reflexivity].
        destruct (documentMembers r) as [ds |]; reflexivity. }
      rewrite Htail.
      destruct (Utf8.decode (PHP.keyString k)) as [points |]; [| reflexivity].
      destruct (PHP.document x) as [d |]; [| reflexivity].
      destruct (documentMembers r) as [ds |]; [| reflexivity].
      cbn [option_map]. rewrite render_object. now rewrite !app_assoc.
Qed.

(** *** Code units of decoded bytes *)

Lemma below_app (limit : Z) (a b : list Z) :
  below limit (a ++ b)%list = below limit a && below limit b.
Proof. apply forallb_app. Qed.

Lemma unitsOfPoint_below (point : Z) :
  0 <= point <= 1114111 -> below 65536 (Utf8.unitsOfPoint point) = true.
Proof.
  intros H. unfold Utf8.unitsOfPoint.
  destruct (Z.ltb_spec point 65536) as [Hlow | Hhigh];
    cbn [below forallb]; rewrite ?andb_true_r, ?andb_true_iff;
    rewrite ?Z.leb_le, ?Z.ltb_lt.
  - lia.
  - repeat split; Z.div_mod_to_equations; lia.
Qed.

Lemma units_cons_below (point : Z) (points : list Z) :
  0 <= point <= 1114111 -> below 65536 (Utf8.units points) = true ->
  below 65536 (Utf8.units (point :: points)) = true.
Proof.
  intros Hp Hrest. unfold Utf8.units. cbn [flat_map].
  rewrite below_app, (unitsOfPoint_below Hp). exact Hrest.
Qed.

Lemma trail_bits (c : ascii) : Utf8.trail c = true -> 0 <= Utf8.bits c < 64.
Proof.
  unfold Utf8.trail, Utf8.bits. intros H. apply andb_prop in H as [Hlo Hhi].
  apply Z.leb_le in Hlo. apply Z.ltb_lt in Hhi. lia.
Qed.

Lemma decode_below (n : nat) :
  forall s points,
    (String.length s <= n)%nat -> Utf8.decode s = Some points ->
    below 65536 (Utf8.units points) = true.
Proof.
  induction n as [| n IH]; intros s points Hlen Hdec.
  - destruct s; [| cbn in Hlen; lia]. now injection Hdec as <-.
  - destruct s as [| a r]; [now injection Hdec as <- |].
    cbn [String.length] in Hlen.
    cbn [Utf8.decode] in Hdec. cbv zeta in Hdec.
    pose proof (code_range a) as Ha.
    destruct (Z.ltb_spec (code a) 128) as [H1 | H1].
    { destruct (Utf8.decode r) as [ps |] eqn:Hr; [| discriminate Hdec].
      injection Hdec as <-. apply units_cons_below; [lia |].
      apply (IH r); [lia | exact Hr]. }
    destruct (Z.ltb_spec (code a) 194) as [H2 | H2]; [discriminate Hdec |].
    destruct (Z.ltb_spec (code a) 224) as [H3 | H3].
    { destruct r as [| b r1]; [discriminate Hdec |].
      destruct (Utf8.trail b) eqn:Hb; [| discriminate Hdec].
      destruct (Utf8.decode r1) as [ps |] eqn:Hr; [| discriminate Hdec].
      injection Hdec as <-. pose proof (trail_bits b Hb).
      apply units_cons_below; [lia |].
      apply (IH r1); [cbn [String.length] in Hlen; lia | exact Hr]. }
    destruct (Z.ltb_spec (code a) 240) as [H4 | H4].
    { destruct r as [| b [| c r2]]; try discriminate Hdec.
      destruct (Utf8.trail b) eqn:Hb; [| discriminate Hdec].
      destruct (Utf8.trail c) eqn:Hc; [| discriminate Hdec].
      cbn [andb] in Hdec.
      match type of Hdec with
      | (if negb (?p <? 2048) && _ then _ else _) = _ =>
          destruct (Z.ltb_spec p 2048); [discriminate Hdec |]
      end.
      cbn [negb andb] in Hdec.
      match type of Hdec with
      | (if negb ?q then _ else _) = _ => destruct q; [discriminate Hdec |]
      end.
      cbn [negb] in Hdec.
      destruct (Utf8.decode r2) as [ps |] eqn:Hr; [| discriminate Hdec].
      injection Hdec as <-.
      pose proof (trail_bits b Hb). pose proof (trail_bits c Hc).
      apply units_cons_below; [lia |].
      apply (IH r2); [cbn [String.length] in Hlen; lia | exact Hr]. }
    destruct (Z.ltb_spec (code a) 245) as [H5 | H5]; [| discriminate Hdec].
    destruct r as [| b [| c [| d r3]]]; try discriminate Hdec.
    destruct (Utf8.trail b) eqn:Hb; [| discriminate Hdec].
    destruct (Utf8.trail c) eqn:Hc; [| discriminate Hdec].
    destruct (Utf8.trail d) eqn:Hd; [| discriminate Hdec].
    cbn [andb] in Hdec.
    match type of Hdec with
    | (if negb (?p <? 65536) && _ then _ else _) = _ =>
        destruct (Z.ltb_spec p 65536); [discriminate Hdec |];
        destruct (Z.ltb_spec 1114111 p); [discriminate Hdec |]
    end.
    cbn [negb andb] in Hdec.
    destruct (Utf8.decode r3) as [ps |] eqn:Hr; [| discriminate Hdec].
    injection Hdec as <-.
    apply units_cons_below; [lia |].
    apply (IH r3); [cbn [String.length] in Hlen; lia | exact Hr].
Qed.

Lemma decode_units_below (s : string) (points : list Z) :
  Utf8.decode s = Some points -> below 65536 (Utf8.units points) = true.
Proof. intros H. now apply (@decode_below (String.length s) s points). Qed.

Lemma document_below (v : PHPValue) :
  forall d, PHP.document v = Some d -> unitsBelow 65536 d = true.
Proof.
  induction v as [| b | i | s | entries IH] using PHPValue_ind2; intros d Hd.
  - now injection Hd as <-.
  - now injection Hd as <-.
  - now injection Hd as <-.
  - cbn [PHP.document] in Hd.
    destruct (Utf8.decode s) as [points |] eqn:Hs; [| discriminate Hd].
    injection Hd as <-. cbn [unitsBelow]. now apply (decode_units_below s).
  - rewrite document_array in Hd.
    destruct (PHP.isListFrom 0 entries).
    + destruct (documents entries) as [ds |] eqn:Hds; [| discriminate Hd].
      injection Hd as <-. cbn [unitsBelow].
      revert ds Hds. induction IH as [| [k x] r Hx _ IHr]; intros ds Hds.
      * now injection Hds as <-.
      * cbn [snd] in Hx. cbn [documents] in Hds.
        destruct (PHP.document x) as [dx |] eqn:Hdx; [| discriminate Hds].
        destruct (documents r) as [dr |]; [| discriminate Hds].
        injection Hds as <-. cbn [forallb].
        now rewrite (Hx dx eq_refl), (IHr dr eq_refl).
    + destruct (documentMembers entries) as [ds |] eqn:Hds; [| discriminate Hd].
      injection Hd as <-. rewrite unitsBelow_object.
      revert ds Hds. induction IH as [| [k x] r Hx _ IHr]; intros ds Hds.
      * now injection Hds as <-.
      * cbn [snd] in Hx. cbn [documentMembers] in Hds.
        destruct (Utf8.decode (PHP.keyString k)) as [points |] eqn:Hk;
          [| discriminate Hds].
        destruct (PHP.document x) as [dx |] eqn:Hdx; [| discriminate Hds].
        destruct (documentMembers r) as [dr |]; [| discriminate Hds].
        injection Hds as <-. cbn [unitsBelowMembers].
        now rewrite (decode_units_below _ Hk), (Hx dx eq_refl), (IHr dr eq_refl).
Qed.

(** [JSON.parse] of what [json_encode] wrote for a value that is a plain
    document, nested no deeper than the encoder goes: the document, its
    objects in the order of enumeration. *)
Lemma parse_json_encode (v : PHPValue) (d : JSONDoc.t) :
  PHP.document v = Some d -> PHP.nesting v <= 512 ->
  JSONDoc.plain d = true ->
  PHP.json_encode v = Some (render escapeUnit d)
  /\ parse (render escapeUnit d) = Some (JSONDoc.enumerated d).
Proof.
  intros Hd Hdepth Hp. split.
  - unfold PHP.json_encode.
    destruct (Z.ltb_spec 512 (PHP.nesting v)); [lia |].
    now rewrite jsonText_render, Hd.
  - apply (parse_render escapeUnit_unescapes); [exact Hp |].
    now apply (document_below v).
Qed.

(** What [json_encode] does to a value that is no document. *)
Lemma json_encode_malformed (v : PHPValue) :
  PHP.document v = None -> PHP.json_encode v = None.
Proof.
  intros Hd. unfold PHP.json_encode.
  destruct (512 <? PHP.nesting v); [reflexivity |].
  now rewrite jsonText_render, Hd.
Qed.

End JSONFacts.

(* ================================================================== *)
(** * Header encoding *)

Import JSONFacts.





Lemma encode_nonempty (s : string) :
  s <> EmptyString -> String.eqb (Base64.encode s) "" = false.
Proof.
  intros Hs. unfold Base64.encode.
  destruct s as [| a [| b [| c r]]]; [congruence | reflexivity ..].
Qed.

(** The value of a response header the gate set. *)
Definition responseHeader (r : GateResult) (name : string) : option string :=
match r with
| Exit _ hs _ | Proceed hs _ => X402Middleware.headerValue hs name
| Fatal => None
end.

Lemma send402_header (requirements : PHPValue) :
  responseHeader (X402Middleware.send402 requirements) "PAYMENT-REQUIRED"
  = Some (PHP.base64_encode
            (PHP.strval (PHP.json_encode (PArray [(KInt 0, requirements)])))).
Proof. reflexivity. Qed.

(** The text [send402] encodes, for requirements that are a plain
    document nested less deep than the encoder's limit: it starts with a
    bracket and [JSON.parse] reads it as the one-element array of the
    document. *)
Lemma offer_text (requirements : PHPValue) (d : JSONDoc.t) :
  PHP.document requirements = Some d ->
  PHP.nesting requirements < 512 ->
  JSONDoc.plain d = true ->
  exists t,
    PHP.json_encode (PArray [(KInt 0, requirements)]) = Some (String "[" t)
    /\ JSONText.parse (String "[" t)
       = Some (JSONDoc.Arr [JSONDoc.enumerated d]).
Proof.
  intros Hd Hdepth Hp.
  assert (Hdoc : PHP.document (PArray [(KInt 0, requirements)])
                 = Some (JSONDoc.Arr [d])).
  { rewrite document_array. cbn [PHP.isListFrom]. change (0 =? 0) with true.
    cbn [andb documents]. now rewrite Hd. }
  assert (Hnest : PHP.nesting (PArray [(KInt 0, requirements)]) <= 512).
  { cbn [PHP.nesting]. lia. }
  assert (Hplain : JSONDoc.plain (JSONDoc.Arr [d]) = true).
  { cbn [JSONDoc.plain forallb]. now rewrite Hp. }
  destruct (parse_json_encode _ Hdoc Hnest Hplain) as [Henc Hparse].
  rewrite render_array in Henc, Hparse. cbn [append] in Henc, Hparse.
  eexists. split; [exact Henc | exact Hparse].
Qed.







(** Why the order of enumeration is in the statements: requirements with
    the keys [b] and [5], in this order, reach the client with [5]
    first. *)
Example index_keys_come_first :
  let requirements := PArray [(KStr "b", PInt 1); (KInt 5, PInt 2)] in
  let key (s : string) := JSONDoc.unitsOf s in
  PHP.document requirements
  = Some (JSONDoc.Obj [(key "b", JSONDoc.Num (Double.ofInt 1));
                       (key "5", JSONDoc.Num (Double.ofInt 2))])
  /\ X402Service.parsePaymentRequired
       (responseHeader (X402Middleware.send402 requirements) "PAYMENT-REQUIRED")
     = Some (JSONDoc.Arr
               [JSONDoc.Obj [(key "5", JSONDoc.Num (Double.ofInt 2));
                             (key "b", JSONDoc.Num (Double.ofInt 1))]]).
Proof. split; reflexivity. Qed.

(* ================================================================== *)
(** * The receipt header *)


Lemma callFacilitator_array (genv : GateEnv) (endpoint : string)
      (data a : PHPValue) :
  X402Middleware.callFacilitator genv endpoint data
  = X402Middleware.CallArray a ->
  exists status doc,
    genv.(facilitator) endpoint data = (status, Some doc)
    /\ (status = 200 \/ status = 402)
    /\ PHP.fromJson doc = a.
Proof.
  unfold X402Middleware.callFacilitator.
  destruct (facilitator genv endpoint data) as [status response].
  destruct (Z.eqb_spec status 200) as [H200 | H200];
    destruct (Z.eqb_spec status 402) as [H402 | H402]; try discriminate;
    cbn [negb andb];
    (destruct response as [doc |]; [| discriminate]);
    (destruct (PHP.fromJson doc) eqn:Hdoc; try discriminate);
    intros H; inversion H; subst; eauto 6.
Qed.

(** The request [callFacilitator] sends. *)
Definition forwardedRequest (key endpoint : string) (data : PHPValue) : Request :=
{| method := "POST"; pathname := endpoint;
   headers := [("content-type", "application/json"); ("x-api-key", key)];
   body := BodyJson (PHP.toJson data) |}.

Lemma exchange_answered (env : Env) (key endpoint : string) (data : PHPValue)
      (status : Z) (doc : JSValue) :
  Loopback.exchange env key endpoint data = (status, Some doc) ->
  exists b,
    responseOf (serve env (forwardedRequest key endpoint data)) = Some (status, b)
    /\ doc = JSONText.dropUndefined b.
Proof.
  unfold Loopback.exchange. fold (forwardedRequest key endpoint data).
  destruct (responseOf _) as [[st b] |]; [| discriminate].
  destruct b; intros H; inversion H; subst; eauto.
Qed.

(** A settle-transfer response with status 200 or 402 is the settlement
    record of a receipt, naming the payer of the forwarded authorization. *)
Lemma settle_transfer_success (env : Env) (req : Request) (v : JSValue)
      (status : Z) (b : JSValue) :
  req.(method) = "POST" ->
  req.(pathname) = "/x402/settle-transfer" ->
  req.(body) = BodyJson v ->
  v <> VNull -> v <> VUndefined ->
  responseOf (serve env req) = Some (status, b) ->
  status = 200 \/ status = 402 ->
  exists hash,
    env.(transact) (assetIn v) "transferWithAuthorization" (transferArgs v) 200000
    = Ok hash
    /\ status = 200
    /\ b = settled hash (authorizationIn v).(from).
Proof.
  intros Hm Hp Hb Hn Hu Hresp Hst.
  destruct (keyRejected env (header req.(headers) "x-api-key")) eqn:Hk.
  - destruct (handlers_reject_key env req) as [Hapi _].
    destruct (Hapi Hk) as [_ [_ [_ Hrej]]].
    unfold serve in Hresp.
    rewrite (server_settle_transfer env req Hm Hp), Hrej in Hresp.
    cbn in Hresp. inversion Hresp; subst. destruct Hst; discriminate.
  - unfold serve in Hresp. rewrite (server_settle_transfer env req Hm Hp) in Hresp.
    destruct (handleSettleTransfer_trace env req Hk Hb Hn Hu)
      as [[e He] | Hrun].
    + rewrite He in Hresp. cbn in Hresp. inversion Hresp; subst.
      destruct Hst; discriminate.
    + rewrite Hrun in Hresp. cbn [responseOf] in Hresp.
      destruct (transact env _ _ _ _) as [hash | e].
      * inversion Hresp; subst. exists hash. repeat split.
      * inversion Hresp; subst. destruct Hst; discriminate.
Qed.

Lemma toJson_callData (payload requirements : PHPValue) :
  PHP.toJson (X402Middleware.callData payload requirements)
  = VObj [("payload", PHP.toJson payload);
          ("requirements", PHP.toJson requirements)].
Proof. reflexivity. Qed.

(** What the gate forwards to the facilitator for a PAYMENT-SIGNATURE
    header: the decoded payload next to the requirements. *)
Definition forwardedData (dec : string -> option JSValue)
           (paymentHeader : string) (requirements : PHPValue) : PHPValue :=
X402Middleware.callData
  (match dec paymentHeader with
   | Some doc => PHP.fromJson doc
   | None => PNull
   end) requirements.



(* ================================================================== *)
(** * What an accepted verification guarantees *)

Lemma bind_normal_inv {A B} (m : M A) (k : A -> M B) (t t' : list Event) (b : B) :
  bind m k t = (Normal b, t') ->
  exists a t1, m t = (Normal a, t1) /\ k a t1 = (Normal b, t').
Proof.
  unfold bind. destruct (m t) as [[a | | e] t1]; try discriminate.
  intros H. now exists a, t1.
Qed.

Lemma lift_normal_inv {A} (r : Result A) (t t' : list Event) (a : A) :
  lift r t = (Normal a, t') -> r = Ok a /\ t' = t.
Proof.
  destruct r; cbn; intros H; inversion H; now subst.
Qed.

Lemma rejectIf_normal_inv (cond : bool) (statusCode : Z) (data : JSValue)
      (t t' : list Event) (u : unit) :
  rejectIf cond statusCode data t = (Normal u, t') -> cond = false /\ t' = t.
Proof.
  destruct cond; cbn; intros H; inversion H; now subst.
Qed.

Lemma emit_normal_inv (ev : Event) (t t' : list Event) (u : unit) :
  emit ev t = (Normal u, t') -> t' = (t ++ [ev])%list.
Proof. cbn. intros H. now inversion H. Qed.

(** Peel the first statement off a run that ended normally: [a] is its
    result and [H1] what its normal end says. *)
Tactic Notation "peel" hyp(H) "as" ident(a) ident(H1) :=
  let t1 := fresh "t" in
  apply bind_normal_inv in H as [a [t1 [H1 H]]];
  first
    [ apply lift_normal_inv in H1 as [H1 ->]
    | apply rejectIf_normal_inv in H1 as [H1 ->]
    | apply emit_normal_inv in H1; subst t1
    | idtac ].

(** What the checks of [checkFunds] established when it ends normally. *)
Record Funded (env : Env) (requirements : JSValue) (a : Authorization) : Prop := {
  funded_balance : exists balance v,
      env.(balanceOf) (JS.getOpt requirements "asset") a.(from) = Ok balance
      /\ JS.BigInt a.(value) = Ok v /\ v <= balance;
  funded_window : outsideWindow env (unixNow env) a = false;
  funded_amount : exists v amount,
      JS.BigInt a.(value) = Ok v
      /\ JS.BigInt (JS.getOpt requirements "amount") = Ok amount
      /\ amount <= v
}.

Lemma checkFunds_normal (env : Env) (requirements : JSValue) (a : Authorization)
      (t t' : list Event) (u : unit) :
  checkFunds env requirements a t = (Normal u, t') ->
  Funded env requirements a.
Proof.
  unfold checkFunds. intros H.
  peel H as u1 Hread.
  peel H as balance Hbalance.
  peel H as v Hvalue.
  peel H as u2 Henough. apply Z.ltb_ge in Henough.
  peel H as u3 Hclock.
  peel H as u4 Hwindow.
  peel H as v' Hvalue'.
  peel H as amount Hamount.
  apply rejectIf_normal_inv in H as [Hpaid _]. apply Z.ltb_ge in Hpaid.
  constructor; eauto 6.
Qed.

(** What [checkEnvelope] established when it ends normally with the
    asset's entry [info]: the three fields of the payload it compares, and
    that [requirements.asset] is a string whose lower case is the key of
    [info] in [CONFIG.assets], an asset with [eip3009]. *)
Record Enveloped (payload requirements : JSValue) (info : AssetInfo) : Prop := {
  envelope_version : JS.getOpt payload "x402Version" = VNum 2;
  envelope_scheme : JS.getOpt payload "scheme" = VStr "exact";
  envelope_network : JS.getOpt payload "network" = VStr "eip155:1030";
  envelope_asset : exists address,
      JS.getOpt requirements "asset" = VStr address
      /\ CONFIG.asset (JSString.toLowerCase address) = Some info
      /\ info.(eip3009) = true
}.

Lemma strictEqNum_true (v : JSValue) (n : Z) :
  JS.strictEqNum v n = true -> v = VNum n.
Proof.
  destruct v; try discriminate. cbn. intros H. apply Z.eqb_eq in H. now subst.
Qed.

Lemma strictEqStr_string (v : JSValue) (s : string) :
  JS.strictEqStr v s = true -> v = VStr s.
Proof.
  destruct v; try discriminate. cbn. unfold JSString.eqb.
  intros H. apply String.eqb_eq in H. now subst.
Qed.

Lemma get_ok (v x : JSValue) (k : string) :
  JS.get v k = Ok x -> x = JS.getOpt v k.
Proof. destruct v; simpl; intros H; inversion H; reflexivity. Qed.

Lemma toLowerCase_ok (v : JSValue) (lower : string) :
  JS.toLowerCase v = Ok lower ->
  exists s, v = VStr s /\ lower = JSString.toLowerCase s.
Proof.
  destruct v; try discriminate. cbn. intros H. inversion H. eauto.
Qed.

Lemma checkEnvelope_normal (env : Env) (payload requirements : JSValue)
      (t t' : list Event) (info : AssetInfo) :
  checkEnvelope payload requirements t = (Normal info, t') ->
  Enveloped payload requirements info /\ t' = t.
Proof.
  unfold checkEnvelope. intros H.
  peel H as version Hversion. apply get_ok in Hversion. subst version.
  peel H as u1 Hv. apply negb_false_iff, strictEqNum_true in Hv.
  peel H as scheme Hscheme. apply get_ok in Hscheme. subst scheme.
  peel H as u2 Hs. apply negb_false_iff, strictEqStr_string in Hs.
  peel H as net Hnet. apply get_ok in Hnet. subst net.
  peel H as u3 Hn. apply negb_false_iff, strictEqStr_string in Hn.
  peel H as assetField Hasset. apply get_ok in Hasset. subst assetField.
  peel H as assetAddr Hlower.
  apply toLowerCase_ok in Hlower as [address [Haddress ->]].
  destruct (CONFIG.asset (JSString.toLowerCase address)) as [info' |] eqn:Hinfo;
    [| discriminate H].
  destruct (eip3009 info') eqn:Hflag; [| discriminate H].
  cbn in H. inversion H; subst info' t'.
  split; [| reflexivity].
  constructor; try assumption. exists address. now repeat split.
Qed.

(** What [handleVerifyTransfer] established when its [try] block ends
    normally, that is, after [{valid: true}].  The signature checked is
    [payload.payload.signature], under the domain of the configured asset
    that [requirements.asset] names. *)
Record Accepted (env : Env) (payload requirements : JSValue) : Prop := {
  accepted_mode :
    JS.getOpt (JS.getOpt requirements "extra") "settlementMode" = VStr "transfer";
  accepted_signer : exists info signer,
      Enveloped payload requirements info
      /\ verifyTypedData env (domainOf info requirements)
                         (authorizationIn (VObj [("payload", payload)]))
                         (signatureIn (VObj [("payload", payload)]))
         = Ok signer
      /\ JS.toLowerCase (authorizationIn (VObj [("payload", payload)])).(from)
         = Ok (JSString.toLowerCase signer);
  accepted_destination : exists lower,
      JS.toLowerCase (authorizationIn (VObj [("payload", payload)])).(to) = Ok lower
      /\ JS.toLowerCase (JS.getOpt requirements "payTo") = Ok lower;
  accepted_funds :
    Funded env requirements (authorizationIn (VObj [("payload", payload)]))
}.

Lemma readAuthorization_normal (payload : JSValue) (t t' : list Event)
      (a : Authorization) :
  readAuthorization payload t = (Normal a, t') ->
  a = authorizationIn (VObj [("payload", payload)]) /\ t' = t.
Proof.
  intros H.
  destruct (readAuthorization_cases payload t) as [[e He] | He];
    rewrite He in H; inversion H; now subst.
Qed.

Lemma readSignature_normal (payload : JSValue) (t t' : list Event)
      (sig : JSValue) :
  readSignature payload t = (Normal sig, t') ->
  sig = signatureIn (VObj [("payload", payload)]) /\ t' = t.
Proof.
  intros H.
  destruct (readSignature_cases payload t) as [[e He] | He];
    rewrite He in H; inversion H; now subst.
Qed.

Lemma verifyTransferChecks_normal (env : Env) (payload requirements : JSValue)
      (t t' : list Event) (u : unit) :
  verifyTransferChecks env payload requirements t = (Normal u, t') ->
  Accepted env payload requirements.
Proof.
  unfold verifyTransferChecks. intros H.
  peel H as info Henvelope.
  apply (checkEnvelope_normal env) in Henvelope as [Henvelope ->].
  peel H as u1 Hmode. apply negb_false_iff, strictEqStr_string in Hmode.
  peel H as a Ha. apply readAuthorization_normal in Ha as [-> ->].
  peel H as signature Hsig. apply readSignature_normal in Hsig as [-> ->].
  peel H as signer Hsigner.
  peel H as fromLower Hfrom.
  peel H as u2 Hsame. apply negb_false_iff, String.eqb_eq in Hsame.
  subst fromLower.
  peel H as toLower Hto.
  peel H as payToLower HpayTo.
  peel H as u3 Hdest. apply negb_false_iff, String.eqb_eq in Hdest.
  subst payToLower.
  peel H as u4 Hfunds. apply checkFunds_normal in Hfunds.
  constructor; eauto 8.
Qed.

(** A [try] block whose trace carries [{valid: true}] ended normally. *)
Lemma valid_answer_is_normal_end (m : M unit) (t : list Event) :
  answersOrThrows m -> silent t ->
  responseOf (snd (tryCatch m answerCaught t))
  = Some (200, VObj [("valid", VBool true)]) ->
  exists t', m t = (Normal tt, t').
Proof.
  intros Hm Ht. unfold tryCatch.
  destruct (Hm t) as [evs [Hs Hout]].
  destruct (m t) as [[[] | | e] t1]; cbn [snd].
  - intros _. now exists t1.
  - destruct Hout as [why ->].
    rewrite app_assoc, responseOf_silent by now apply silent_app.
    cbn. discriminate.
  - subst t1. unfold answerCaught, sendJson, emit. cbn [snd].
    rewrite responseOf_silent by now apply silent_app.
    cbn. discriminate.
Qed.

Lemma server_verify_transfer (env : Env) (req : Request) :
  req.(method) = "POST" -> req.(pathname) = "/x402/verify-transfer" ->
  server env req = handleVerifyTransfer env req.
Proof. intros Hm Hp. unfold server. rewrite Hm, Hp. reflexivity. Qed.

Lemma accepted_transfer_run (env : Env) (req : Request) (v : JSValue) :
  req.(method) = "POST" ->
  req.(pathname) = "/x402/verify-transfer" ->
  req.(body) = BodyJson v ->
  responseOf (serve env req) = Some (200, VObj [("valid", VBool true)]) ->
  Accepted env (JS.getOpt v "payload") (JS.getOpt v "requirements").
Proof.
  intros Hm Hp Hb Hresp.
  unfold serve in Hresp. rewrite (server_verify_transfer env req Hm Hp) in Hresp.
  destruct (keyRejected env (header req.(headers) "x-api-key")) eqn:Hk.
  { destruct (handlers_reject_key env req) as [Hapi _].
    destruct (Hapi Hk) as [_ [_ [Hrej _]]].
    rewrite Hrej in Hresp. discriminate Hresp. }
  destruct (destructure_cases v "payload") as [[e He] | Hpl].
  { unfold handleVerifyTransfer, bind, rejectIf, readBody, bind in Hresp.
    rewrite Hk, Hb in Hresp. cbn -[tryCatch verifyTransferChecks] in Hresp.
    rewrite He in Hresp. discriminate Hresp. }
  destruct (destructure_cases v "requirements") as [[e He] | Hrq].
  { unfold handleVerifyTransfer, bind, rejectIf, readBody, bind in Hresp.
    rewrite Hk, Hb in Hresp. cbn -[tryCatch verifyTransferChecks] in Hresp.
    rewrite Hpl in Hresp. cbn -[tryCatch verifyTransferChecks] in Hresp.
    rewrite He in Hresp. discriminate Hresp. }
  rewrite (handleVerifyTransfer_run env req Hk Hb Hpl Hrq) in Hresp.
  apply valid_answer_is_normal_end in Hresp as [t' Hrun].
  - now apply verifyTransferChecks_normal in Hrun.
  - apply answersOrThrows_verifyTransferChecks.
  - repeat constructor.
Qed.

(** X1. Every verify-transfer request answered [{valid: true}] passed the
    handler's checks: version 2, scheme and network; [requirements.asset]
    is a configured asset with [eip3009] and the settlement mode is
    "transfer"; the signer ethers recovers from [payload.payload.signature]
    over the authorization, under the domain of that asset, is [from]; the
    destination is [requirements.payTo] (both compared in lower case); the
    balance read from the asset covers the value, the handler's window test
    passed, and the value covers [requirements.amount] as big integers. *)
Lemma accepted_transfer (env : Env) (req : Request) (v : JSValue) :
  req.(method) = "POST" ->
  req.(pathname) = "/x402/verify-transfer" ->
  req.(body) = BodyJson v ->
  responseOf (serve env req) = Some (200, VObj [("valid", VBool true)]) ->
  Accepted env (JS.getOpt v "payload") (JS.getOpt v "requirements").
Proof. exact (@accepted_transfer_run env req v). Qed.

Lemma accepted_transfer_witness :
  Accepted Sample.env
           (JS.getOpt (Sample.callBody "100" "1800000000") "payload")
           (JS.getOpt (Sample.callBody "100" "1800000000") "requirements").
Proof.
  apply (@accepted_transfer Sample.env
           (Sample.post "/x402/verify-transfer" "secret"
                        (BodyJson (Sample.callBody "100" "1800000000")))
           (Sample.callBody "100" "1800000000")); reflexivity.
Defined.

(** ** The window, for bounds written without a minus sign *)

(** A uint256 field that is a number, or a string not starting with [-]. *)
Definition plainBound (v : JSValue) : bool :=
match v with
| VNum _ => true
| VStr (String c _) => negb (JSString.code c =? 45)
| _ => false
end.

Lemma StringToNumber_of_BigInt (lit : string -> Double.t) (s : string) (z : Z) :
  JS.StringToBigInt s = Some z -> JS.StringToNumber lit s = Double.roundInt z.
Proof.
  unfold JS.StringToBigInt, JS.StringToNumber.
  destruct (JSString.trim s) as [| c r].
  - intros H. inversion H. reflexivity.
  - destruct (JS.nonDecimalLiteral (String c r)) as [[n |] |].
    + intros H. inversion H. reflexivity.
    + discriminate.
    + intros ->. reflexivity.
Qed.

(** On a plain bound, [Number] is the rounding of what ethers reads. *)
Lemma Number_of_plainBound (lit : string -> Double.t) (v : JSValue) (z : Z) :
  plainBound v = true -> Ethers.uint256 v = Ok z ->
  JS.Number lit v = Double.roundInt z.
Proof.
  unfold Ethers.uint256, Ethers.getBigInt.
  destruct v as [| | b | n | s | items | fields]; try discriminate.
  - intros _.
    destruct ((- Ethers.maxValue <=? n) && (n <=? Ethers.maxValue)) eqn:Hsafe;
      [| discriminate].
    destruct ((0 <=? n) && (n <? 2 ^ 256)); [| discriminate].
    intros H. inversion H; subst z. cbn [JS.Number]. unfold Double.ofInt.
    symmetry. apply JSONFacts.roundInt_safe.
    apply andb_prop in Hsafe as [Hlo Hhi].
    apply Z.leb_le in Hlo, Hhi. unfold Ethers.maxValue in *. lia.
  - destruct s as [| c r]; [discriminate |].
    cbn [plainBound]. intros Hplain. apply negb_true_iff in Hplain.
    rewrite Hplain. cbn [andb].
    destruct (JS.StringToBigInt (String c r)) as [n |] eqn:Hbig; [| discriminate].
    destruct ((0 <=? n) && (n <? 2 ^ 256)); [| discriminate].
    intros H. inversion H; subst z. cbn [JS.Number JS.ToString].
    now apply StringToNumber_of_BigInt.
Qed.

(** A safe integer is below every integer whose rounding it is not below,
    and above every integer whose rounding it is not above. *)
Lemma lt_roundInt_false (now z : Z) :
  Z.abs now < 2 ^ 53 -> 0 <= z ->
  Double.lt (Double.ofInt now) (Double.roundInt z) = false -> z <= now.
Proof.
  intros Hnow Hz. unfold Double.roundInt, Double.ofInt.
  destruct (Z.ltb_spec (Z.abs z) (2 ^ 53)) as [Hsmall | Hbig].
  - cbn. rewrite !Z.mul_1_r. intros H. now apply Z.ltb_ge in H.
  - rewrite Z.abs_eq in * by assumption.
    set (k := Z.log2 z - 52).
    set (q := Z.shiftr z k).
    set (m := if _ : bool then q + 1 else q).
    assert (Hlog : 53 <= Z.log2 z) by (apply Z.log2_le_pow2; lia).
    assert (Hk : 1 <= k) by (unfold k; lia).
    assert (Hq : 2 ^ 52 <= q).
    { unfold q. rewrite Z.shiftr_div_pow2 by lia.
      apply Z.div_le_lower_bound; [apply Z.pow_pos_nonneg; lia |].
      rewrite <- Z.pow_add_r by lia.
      replace (k + 52) with (Z.log2 z) by (unfold k; lia).
      apply Z.log2_spec. lia. }
    assert (Hm : q <= m) by (unfold m; destruct (_ || _)%bool; lia).
    destruct (2 ^ 1024 <=? m * 2 ^ k).
    { cbn [Double.lt]. destruct (Z.ltb_spec z 0); [lia | discriminate]. }
    cbn [Double.lt]. unfold Double.align.
    rewrite Z.min_l by lia. rewrite !Z.sub_0_r.
    change (2 ^ 0) with 1. rewrite Z.mul_1_r.
    replace (Z.sgn z) with 1 by (symmetry; apply Z.sgn_pos; lia).
    intros H. apply Z.ltb_ge in H.
    assert (Hprod : 2 ^ 52 * 2 ^ 1 <= m * 2 ^ k).
    { apply Z.mul_le_mono_nonneg; try lia.
      apply Z.pow_le_mono_r; lia. }
    change (2 ^ 52 * 2 ^ 1) with (2 ^ 53) in Hprod. lia.
Qed.

Lemma gt_roundInt_false (now z : Z) :
  Z.abs now < 2 ^ 53 -> 0 <= z ->
  Double.gt (Double.ofInt now) (Double.roundInt z) = false -> now <= z.
Proof.
  intros Hnow Hz. unfold Double.gt, Double.roundInt, Double.ofInt.
  destruct (Z.ltb_spec (Z.abs z) (2 ^ 53)) as [Hsmall | Hbig].
  - cbn. rewrite !Z.mul_1_r. intros H. now apply Z.ltb_ge in H.
  - intros _. rewrite Z.abs_eq in Hbig by assumption. lia.
Qed.

Lemma uint256_range (v : JSValue) (z : Z) :
  Ethers.uint256 v = Ok z -> 0 <= z < 2 ^ 256.
Proof.
  unfold Ethers.uint256. destruct (Ethers.getBigInt v) as [n | e]; [| discriminate].
  destruct ((0 <=? n) && (n <? 2 ^ 256)) eqn:Hr; [| discriminate].
  intros H. inversion H; subst z.
  apply andb_prop in Hr as [Hlo Hhi].
  apply Z.leb_le in Hlo. apply Z.ltb_lt in Hhi. lia.
Qed.

(** X2. The window of an accepted authorization.  When both bounds are
    written without a minus sign (a number, or a string that does not start
    with [-]) and the clock is a safe integer, passing the handler's window
    test means [validAfter <= now <= validBefore] for the bounds ethers
    reads into the signed message. *)
Lemma window_of_plain_bounds (env : Env) (a : Authorization) (va vb : Z) :
  Z.abs (unixNow env) < 2 ^ 53 ->
  plainBound a.(validAfter) = true -> plainBound a.(validBefore) = true ->
  Ethers.uint256 a.(validAfter) = Ok va ->
  Ethers.uint256 a.(validBefore) = Ok vb ->
  outsideWindow env (unixNow env) a = false ->
  va <= unixNow env <= vb.
Proof.
  intros Hnow Hpa Hpb Hva Hvb. unfold outsideWindow.
  rewrite (Number_of_plainBound _ _ Hpa Hva), (Number_of_plainBound _ _ Hpb Hvb).
  intros H. apply orb_false_iff in H as [Hafter Hbefore].
  pose proof (uint256_range _ Hva). pose proof (uint256_range _ Hvb).
  split.
  - apply lt_roundInt_false; (assumption || lia).
  - apply gt_roundInt_false; (assumption || lia).
Qed.

Lemma window_of_plain_bounds_witness :
  0 <= unixNow Sample.env <= 1800000000.
Proof.
  apply (@window_of_plain_bounds Sample.env
           (authorizationIn (Sample.callBody "100" "1800000000")) 0 1800000000);
    reflexivity.
Defined.

(* ================================================================== *)
(** * Unsupported assets *)

(** [checkEnvelope] touches nothing outside: it continues or throws with
    the trace unchanged, or returns right after one negative verdict; and
    it continues only for an asset of the configured map. *)
Lemma checkEnvelope_trace (payload requirements : JSValue) (t : list Event) :
  match checkEnvelope payload requirements t with
  | (Normal info, t') =>
      t' = t /\ exists address,
        JS.getOpt requirements "asset" = VStr address
        /\ CONFIG.asset (JSString.toLowerCase address) = Some info
        /\ info.(eip3009) = true
  | (Thrown _, t') => t' = t
  | (Return, t') => exists why, t' = (t ++ [EvRespond 200 (invalid why)])%list
  end.
Proof.
  unfold checkEnvelope, bind, lift, rejectIf, sendJson, emit, returnM, ret.
  destruct (JS.get payload "x402Version") as [version | e]; [| reflexivity].
  destruct (negb (JS.strictEqNum version 2)); [eexists; reflexivity |].
  destruct (JS.get payload "scheme") as [scheme | e]; [| reflexivity].
  destruct (negb (JS.strictEqStr scheme "exact")); [eexists; reflexivity |].
  destruct (JS.get payload "network") as [net | e]; [| reflexivity].
  destruct (negb (JS.strictEqStr net CONFIG.network)); [eexists; reflexivity |].
  destruct (get_cases requirements "asset") as [[e ->] | ->]; [reflexivity |].
  destruct (JS.getOpt requirements "asset") as [| | b | z | address | l | l];
    try reflexivity.
  cbn [JS.toLowerCase].
  destruct (CONFIG.asset (JSString.toLowerCase address)) as [info |] eqn:Hasset;
    [| eexists; reflexivity].
  destruct (eip3009 info) eqn:Hflag; [| eexists; reflexivity].
  split; [reflexivity |]. exists address. auto.
Qed.

Definition isBalanceRead (ev : Event) : bool :=
match ev with
| EvBalanceOf _ _ => true
| _ => false
end.

(** X3. For an asset that is not a key of the configured map (or is
    not a string at all), verify-transfer reads no balance and does not
    answer [{valid: true}], whatever the rest of the request. *)
Lemma unsupported_asset_is_not_read (env : Env) (req : Request) :
  req.(method) = "POST" ->
  req.(pathname) = "/x402/verify-transfer" ->
  (forall v address,
      req.(body) = BodyJson v ->
      JS.getOpt (JS.getOpt v "requirements") "asset" = VStr address ->
      CONFIG.asset (JSString.toLowerCase address) = None) ->
  existsb isBalanceRead (serve env req) = false
  /\ responseOf (serve env req) <> Some (200, VObj [("valid", VBool true)]).
Proof.
  intros Hm Hp Hasset.
  unfold serve. rewrite (server_verify_transfer env req Hm Hp).
  destruct (keyRejected env (header req.(headers) "x-api-key")) eqn:Hk.
  { destruct (handlers_reject_key env req) as [Hapi _].
    destruct (Hapi Hk) as [_ [_ [-> _]]]. split; [reflexivity | discriminate]. }
  destruct (body req) as [v |] eqn:Hb.
  2:{ unfold handleVerifyTransfer, bind, rejectIf, readBody, bind.
      rewrite Hk, Hb. split; [reflexivity | discriminate]. }
  destruct (destructure_cases v "payload") as [[e He] | Hpl].
  { unfold handleVerifyTransfer, bind, rejectIf, readBody, bind.
    rewrite Hk, Hb. cbn -[tryCatch verifyTransferChecks].
    rewrite He. split; [reflexivity | discriminate]. }
  destruct (destructure_cases v "requirements") as [[e He] | Hrq].
  { unfold handleVerifyTransfer, bind, rejectIf, readBody, bind.
    rewrite Hk, Hb. cbn -[tryCatch verifyTransferChecks].
    rewrite Hpl. cbn -[tryCatch verifyTransferChecks].
    rewrite He. split; [reflexivity | discriminate]. }
  rewrite (handleVerifyTransfer_run env req Hk Hb Hpl Hrq).
  pose proof (checkEnvelope_trace (JS.getOpt v "payload")
                                  (JS.getOpt v "requirements") [EvReadBody])
    as Htrace.
  destruct (checkEnvelope _ _ _) as [[info | | e] t'] eqn:Hce.
  - destruct Htrace as [_ [address [Ha [Hsome _]]]].
    rewrite (Hasset v address eq_refl Ha) in Hsome. discriminate.
  - destruct Htrace as [why ->].
    unfold tryCatch, verifyTransferChecks.
    erewrite bind_returned by exact Hce.
    split; [reflexivity | cbn; discriminate].
  - subst t'.
    unfold tryCatch, verifyTransferChecks.
    erewrite bind_thrown by exact Hce.
    split; [reflexivity | cbn; discriminate].
Qed.

Lemma unsupported_asset_is_not_read_witness :
  let req := Sample.post "/x402/verify-transfer" "secret"
               (BodyJson
                  (VObj [("payload", Sample.payload "100" "1800000000");
                         ("requirements",
                          VObj [("asset", VStr "0x00000000000000000000000000000000000000EE");
                                ("payTo", VStr Sample.treasury);
                                ("amount", VStr "100");
                                ("extra", VObj [("settlementMode", VStr "transfer")])])])) in
  existsb isBalanceRead (serve Sample.env req) = false
  /\ responseOf (serve Sample.env req) <> Some (200, VObj [("valid", VBool true)]).
Proof.
  apply unsupported_asset_is_not_read; try reflexivity.
  intros v address Hb Ha. cbn in Hb. inversion Hb; subst v.
  cbn in Ha. inversion Ha; subst address. reflexivity.
Defined.

(* ================================================================== *)
(** * The router *)

Lemma unrouted_is_not_found (env : Env) (req : Request) :
  req.(method) <> "OPTIONS" ->
  (req.(method) = "GET" -> req.(pathname) <> "/x402/health") ->
  (req.(method) = "POST" -> keyHeaderOf req.(pathname) = None) ->
  server env req []
  = (Normal tt, [EvRespond 404 (VObj [("error", VStr "Not found")])]).
Proof.
  intros Hopt Hget Hpost. unfold server.
  destruct (String.eqb_spec req.(method) "OPTIONS") as [H | _]; [contradiction |].
  destruct (String.eqb_spec req.(method) "GET") as [Hg | Hg].
  - specialize (Hget Hg). rewrite Hg.
    destruct (String.eqb_spec req.(pathname) "/x402/health") as [H | _];
      [contradiction |].
    cbn [andb String.eqb Ascii.eqb Bool.eqb].
    rewrite !andb_false_r. reflexivity.
  - destruct (String.eqb_spec req.(method) "POST") as [Hp | Hp].
    + specialize (Hpost Hp). unfold keyHeaderOf in Hpost.
      rewrite !andb_false_r, !andb_true_r.
      repeat match type of Hpost with
             | context [String.eqb ?a ?b] =>
                 destruct (String.eqb a b); [discriminate |]
             end.
      reflexivity.
    + rewrite !andb_false_r. reflexivity.
Qed.

(** X4. A request whose target the URL parser refuses is never answered:
    the listener throws before any header, handler or response, whatever
    the method (OPTIONS too).  A request whose target parses, that is not
    an OPTIONS request and matches none of the six routes, is answered 404
    [{error: "Not found"}] and nothing else happens: a known path under the
    wrong method never reaches its handler. *)
Theorem unrouted_request_gets_404 (env : Env) (incoming : Incoming) :
  (forall e, incoming.(target) = Err e ->
             listener env incoming [] = (Thrown e, []))
  /\ (forall pathname,
         incoming.(target) = Ok pathname ->
         incoming.(incomingMethod) <> "OPTIONS" ->
         (incoming.(incomingMethod) = "GET" -> pathname <> "/x402/health") ->
         (incoming.(incomingMethod) = "POST" -> keyHeaderOf pathname = None) ->
         listener env incoming []
         = (Normal tt, [EvRespond 404 (VObj [("error", VStr "Not found")])])).
Proof.
  split.
  - intros e He. unfold listener. now rewrite He.
  - intros pathname Hp Hopt Hget Hpost. unfold listener. rewrite Hp.
    now apply unrouted_is_not_found.
Qed.

Lemma unrouted_request_gets_404_witness :
  listener Sample.env
           {| incomingMethod := "GET";
              target := Ok "/x402/settle-transfer";
              incomingHeaders := [("x-api-key", "secret")];
              incomingBody := BodyJson (Sample.callBody "100" "1800000000") |}
           []
  = (Normal tt, [EvRespond 404 (VObj [("error", VStr "Not found")])]).
Proof.
  apply (proj2 (@unrouted_request_gets_404 Sample.env
                  {| incomingMethod := "GET";
                     target := Ok "/x402/settle-transfer";
                     incomingHeaders := [("x-api-key", "secret")];
                     incomingBody :=
                       BodyJson (Sample.callBody "100" "1800000000") |})
               "/x402/settle-transfer" eq_refl);
    cbn; intros; discriminate.
Defined.

(** The health report of a relayer balance. *)
Definition healthReport (env : Env) (balance : Z) : JSValue :=
VObj [("status", VStr "ok");
      ("network", VStr "eip155:1030");
      ("chainId", VNum 1030);
      ("facilitator", VStr env.(relayerAddress));
      ("adapter", if String.eqb env.(escrowAdapter) "" then VNull
                  else VStr env.(escrowAdapter));
      ("balanceCFX", VStr (env.(formatEther) balance));
      ("supportedAssets",
       VArr [VObj [("address", VStr "0xaf37e8b6c9ed7f6318979f56fc287d76c30847ff");
                   ("symbol", VStr "USDT0"); ("eip3009", VBool true)];
             VObj [("address", VStr "0xded1660192d4d82e7c0b628ba556861edbb5cada");
                   ("symbol", VStr "CNHT0"); ("eip3009", VBool true)]]);
      ("x402Version", VNum 2)].

(** X5. GET /x402/health is served to everyone: whatever the headers and
    the body, the handler reads the relayer's native balance once and answers
    200 with the report (adapter [null] when none is configured, both
    assets listed), or 500 [{status: "error", error}] when the read fails;
    it never ends in an error. *)
Theorem health_is_open_and_answers (env : Env) (req : Request) :
  req.(method) = "GET" ->
  req.(pathname) = "/x402/health" ->
  server env req []
  = (Normal tt,
     [EvGetBalance env.(relayerAddress);
      match env.(getBalance) env.(relayerAddress) with
      | Ok balance => EvRespond 200 (healthReport env balance)
      | Err e => EvRespond 500 (VObj [("status", VStr "error");
                                      ("error", VStr e.(message))])
      end]).
Proof.
  intros Hm Hp. unfold server. rewrite Hm, Hp.
  cbn [String.eqb Ascii.eqb Bool.eqb andb].
  unfold handleHealth, tryCatch, bind, emit, lift, sendJson.
  cbn [app].
  destruct (getBalance env (relayerAddress env)); reflexivity.
Qed.

Lemma health_is_open_and_answers_witness :
  server Sample.env {| method := "GET"; pathname := "/x402/health";
                       headers := []; body := BodyRejected |} []
  = (Normal tt,
     [EvGetBalance Sample.env.(relayerAddress);
      EvRespond 200 (healthReport Sample.env 0)]).
Proof.
  apply (@health_is_open_and_answers Sample.env
           {| method := "GET"; pathname := "/x402/health";
              headers := []; body := BodyRejected |}); reflexivity.
Defined.

(* ================================================================== *)
(** * One response per request *)

(** The number of responses in a trace. *)
Definition responses (t : list Event) : nat := List.length (filter isResponse t).

Lemma responses_app (a b : list Event) :
  responses (a ++ b) = (responses a + responses b)%nat.
Proof. unfold responses. now rewrite filter_app, length_app. Qed.

(** A statement before the handler's last one: it answers only to
    return. *)
Definition answersToReturn {A : Type} (m : M A) : Prop :=
  forall t, exists evs, snd (m t) = (t ++ evs)%list /\
    match fst (m t) with
    | Return => (responses evs <= 1)%nat
    | _ => responses evs = 0%nat
    end.

(** The body of a [try]: it has not answered when it throws. *)
Definition throwsUnanswered {A : Type} (m : M A) : Prop :=
  forall t, exists evs, snd (m t) = (t ++ evs)%list /\
    match fst (m t) with
    | Thrown _ => responses evs = 0%nat
    | _ => (responses evs <= 1)%nat
    end.

(** A handler: at most one response, however it ends. *)
Definition answersOnce {A : Type} (m : M A) : Prop :=
  forall t, exists evs, snd (m t) = (t ++ evs)%list /\ (responses evs <= 1)%nat.

Lemma answersToReturn_ret {A} (a : A) : answersToReturn (ret a).
Proof. intros t. exists []. cbn. now rewrite app_nil_r. Qed.

Lemma answersToReturn_lift {A} (r : Result A) : answersToReturn (lift r).
Proof. intros t. exists []. destruct r; cbn; now rewrite app_nil_r. Qed.

Lemma answersToReturn_emit (ev : Event) :
  isResponse ev = false -> answersToReturn (emit ev).
Proof.
  intros H t. exists [ev]. cbn. split; [reflexivity |].
  unfold responses. cbn. now rewrite H.
Qed.

Lemma answersToReturn_answer {A} (statusCode : Z) (data : JSValue) :
  answersToReturn (bind (sendJson statusCode data) (fun _ => @returnM A)).
Proof. intros t. exists [EvRespond statusCode data]. cbn. split; [reflexivity | apply le_n]. Qed.

Lemma answersToReturn_rejectIf (cond : bool) (statusCode : Z) (data : JSValue) :
  answersToReturn (rejectIf cond statusCode data).
Proof.
  destruct cond; [apply answersToReturn_answer | apply answersToReturn_ret].
Qed.

Lemma answersToReturn_bind {A B} (m : M A) (k : A -> M B) :
  answersToReturn m -> (forall a, answersToReturn (k a)) ->
  answersToReturn (bind m k).
Proof.
  intros Hm Hk t. unfold bind.
  destruct (Hm t) as [evs [Ht Hc]].
  destruct (m t) as [[a | | e] t1]; cbn [fst snd] in *; subst t1.
  - destruct (Hk a (t ++ evs)%list) as [evs' [Ht' Hc']].
    exists (evs ++ evs')%list. rewrite Ht', app_assoc. split; [reflexivity |].
    rewrite responses_app, Hc.
    destruct (fst (k a (t ++ evs)%list)); cbn; assumption.
  - exists evs. now split.
  - exists evs. now split.
Qed.

Lemma answersToReturn_tryCatch (m : M unit) (h : JSError -> M unit) :
  answersToReturn m -> (forall e, answersToReturn (h e)) ->
  answersToReturn (tryCatch m h).
Proof.
  intros Hm Hh t. unfold tryCatch.
  destruct (Hm t) as [evs [Ht Hc]].
  destruct (m t) as [[a | | e] t1]; cbn [fst snd] in *; subst t1.
  - exists evs. now split.
  - exists evs. now split.
  - destruct (Hh e (t ++ evs)%list) as [evs' [Ht' Hc']].
    exists (evs ++ evs')%list. rewrite Ht', app_assoc. split; [reflexivity |].
    rewrite responses_app, Hc.
    destruct (fst (h e (t ++ evs)%list)); cbn; assumption.
Qed.

Lemma throwsUnanswered_send (statusCode : Z) (data : JSValue) :
  throwsUnanswered (sendJson statusCode data).
Proof. intros t. exists [EvRespond statusCode data]. cbn. split; [reflexivity | apply le_n]. Qed.

Lemma throwsUnanswered_bind {A B} (m : M A) (k : A -> M B) :
  answersToReturn m -> (forall a, throwsUnanswered (k a)) ->
  throwsUnanswered (bind m k).
Proof.
  intros Hm Hk t. unfold bind.
  destruct (Hm t) as [evs [Ht Hc]].
  destruct (m t) as [[a | | e] t1]; cbn [fst snd] in *; subst t1.
  - destruct (Hk a (t ++ evs)%list) as [evs' [Ht' Hc']].
    exists (evs ++ evs')%list. rewrite Ht', app_assoc. split; [reflexivity |].
    rewrite responses_app, Hc.
    destruct (fst (k a (t ++ evs)%list)); cbn; assumption.
  - exists evs. now split.
  - exists evs. now split.
Qed.

Lemma answersOnce_send (statusCode : Z) (data : JSValue) :
  answersOnce (sendJson statusCode data).
Proof. intros t. exists [EvRespond statusCode data]. cbn. split; [reflexivity | apply le_n]. Qed.

Lemma answersOnce_weaken {A} (m : M A) : answersToReturn m -> answersOnce m.
Proof.
  intros Hm t. destruct (Hm t) as [evs [Ht Hc]]. exists evs. split; [exact Ht |].
  destruct (fst (m t)); [rewrite Hc; apply le_0_n | exact Hc | rewrite Hc; apply le_0_n].
Qed.

Lemma answersOnce_bind {A B} (m : M A) (k : A -> M B) :
  answersToReturn m -> (forall a, answersOnce (k a)) -> answersOnce (bind m k).
Proof.
  intros Hm Hk t. unfold bind.
  destruct (Hm t) as [evs [Ht Hc]].
  destruct (m t) as [[a | | e] t1]; cbn [fst snd] in *; subst t1.
  - destruct (Hk a (t ++ evs)%list) as [evs' [Ht' Hc']].
    exists (evs ++ evs')%list. rewrite Ht', app_assoc. split; [reflexivity |].
    now rewrite responses_app, Hc.
  - exists evs. now split.
  - exists evs. split; [reflexivity | rewrite Hc; apply le_0_n].
Qed.

Lemma answersOnce_tryCatch (m : M unit) (h : JSError -> M unit) :
  throwsUnanswered m -> (forall e, answersOnce (h e)) ->
  answersOnce (tryCatch m h).
Proof.
  intros Hm Hh t. unfold tryCatch.
  destruct (Hm t) as [evs [Ht Hc]].
  destruct (m t) as [[a | | e] t1]; cbn [fst snd] in *; subst t1.
  - exists evs. now split.
  - exists evs. now split.
  - destruct (Hh e (t ++ evs)%list) as [evs' [Ht' Hc']].
    exists (evs ++ evs')%list. rewrite Ht', app_assoc. split; [reflexivity |].
    now rewrite responses_app, Hc.
Qed.

Ltac quiet_step :=
  first
    [ apply answersToReturn_answer
    | apply answersToReturn_rejectIf
    | apply answersToReturn_lift
    | apply answersToReturn_ret
    | apply answersToReturn_emit; reflexivity
    | apply answersToReturn_bind; [| intros ?] ].

Lemma answersToReturn_checkEnvelope (payload requirements : JSValue) :
  answersToReturn (checkEnvelope payload requirements).
Proof.
  unfold checkEnvelope. repeat quiet_step.
  destruct (CONFIG.asset _) as [info |]; [destruct (eip3009 info) |];
    repeat quiet_step.
Qed.

Lemma answersToReturn_readAuthorization (payload : JSValue) :
  answersToReturn (readAuthorization payload).
Proof. unfold readAuthorization. repeat quiet_step. Qed.

Lemma answersToReturn_readSignature (payload : JSValue) :
  answersToReturn (readSignature payload).
Proof. unfold readSignature. repeat quiet_step. Qed.

Lemma answersToReturn_checkFunds (env : Env) (requirements : JSValue)
      (a : Authorization) :
  answersToReturn (checkFunds env requirements a).
Proof. unfold checkFunds. repeat quiet_step. Qed.

Lemma answersToReturn_simulateSettlement (env : Env)
      (payload requirements : JSValue) (a : Authorization) :
  answersToReturn (simulateSettlement env payload requirements a).
Proof.
  unfold simulateSettlement.
  apply answersToReturn_tryCatch; [| intros e; apply answersToReturn_answer].
  apply answersToReturn_bind; [apply answersToReturn_lift | intros ?].
  apply answersToReturn_bind; [apply answersToReturn_readSignature | intros ?].
  repeat quiet_step.
Qed.

Lemma answersToReturn_readBody (req : Request) (statusCode : Z) (data : JSValue) :
  answersToReturn (readBody req statusCode data).
Proof.
  unfold readBody.
  apply answersToReturn_bind; [apply answersToReturn_emit; reflexivity | intros _].
  destruct (body req); repeat quiet_step.
Qed.

Ltac body_step :=
  first
    [ apply throwsUnanswered_send
    | apply throwsUnanswered_bind;
      [ first [ apply answersToReturn_checkEnvelope
              | apply answersToReturn_readAuthorization
              | apply answersToReturn_readSignature
              | apply answersToReturn_checkFunds
              | apply answersToReturn_simulateSettlement
              | apply answersToReturn_rejectIf
              | apply answersToReturn_lift
              | apply answersToReturn_emit; reflexivity ]
      | intros ? ] ].

Ltac handler_step :=
  first
    [ apply answersOnce_send
    | apply answersOnce_bind;
      [ first [ apply answersToReturn_rejectIf
              | apply answersToReturn_readBody
              | apply answersToReturn_lift
              | apply answersToReturn_emit; reflexivity ]
      | intros ? ] ].

Lemma answersOnce_handlers (env : Env) (req : Request) :
  answersOnce (handleHealth env req)
  /\ answersOnce (handleVerify env req)
  /\ answersOnce (handleSettle env req)
  /\ answersOnce (handleVerifyTransfer env req)
  /\ answersOnce (handleSettleTransfer env req)
  /\ answersOnce (handleDemoAi env req).
Proof.
  repeat split.
  - unfold handleHealth.
    apply answersOnce_tryCatch; [repeat body_step | intros e; apply answersOnce_send].
  - unfold handleVerify. repeat handler_step.
    apply answersOnce_tryCatch; [| intros e; apply answersOnce_send].
    unfold verifyEscrowChecks. repeat body_step.
  - unfold handleSettle. repeat handler_step.
    apply answersOnce_tryCatch; [| intros e; apply answersOnce_send].
    unfold settleEscrowCall. repeat body_step.
  - unfold handleVerifyTransfer. repeat handler_step.
    apply answersOnce_tryCatch; [| intros e; apply answersOnce_send].
    unfold verifyTransferChecks. repeat body_step.
  - unfold handleSettleTransfer. repeat handler_step.
    apply answersOnce_tryCatch; [| intros e; apply answersOnce_send].
    unfold settleTransferCall. repeat body_step.
  - unfold handleDemoAi. repeat handler_step.
    destruct (demoBuyerKey env) as [demoKey |]; [| apply answersOnce_send].
    destruct (String.eqb demoKey ""); [apply answersOnce_send |].
    repeat handler_step.
    apply answersOnce_tryCatch; [repeat body_step | intros e; apply answersOnce_send].
Qed.

(** X6. No request is answered twice: on every route, for every
    environment, headers and body, the run of the request listener sends at
    most one response. *)
Theorem never_answers_twice (env : Env) (req : Request) :
  (responses (serve env req) <= 1)%nat.
Proof.
  assert (H : answersOnce (server env req)).
  { destruct (answersOnce_handlers env req) as [H1 [H2 [H3 [H4 [H5 H6]]]]].
    unfold server.
    repeat match goal with
           | |- answersOnce (if ?c then _ else _) => destruct c
           end; try assumption.
    - apply answersOnce_weaken.
      exact (@answersToReturn_answer unit 200 VUndefined).
    - apply answersOnce_send. }
  unfold serve. destruct (H []) as [evs [-> Hc]]. exact Hc.
Qed.

(* ================================================================== *)
(** * What the verify handlers leave alone *)

Section EmitsOnly.

(** A class of events that holds every response. *)
Variable allowed : Event -> bool.
Hypothesis allowed_response : forall status b, allowed (EvRespond status b) = true.

(** A computation all of whose events are allowed. *)
Definition emitsOnly {A : Type} (m : M A) : Prop :=
  forall t, exists evs, snd (m t) = (t ++ evs)%list /\ forallb allowed evs = true.

Lemma emitsOnly_ret {A} (a : A) : emitsOnly (ret a).
Proof. intros t. exists []. cbn. now rewrite app_nil_r. Qed.

Lemma emitsOnly_lift {A} (r : Result A) : emitsOnly (lift r).
Proof. intros t. exists []. destruct r; cbn; now rewrite app_nil_r. Qed.

Lemma emitsOnly_emit (ev : Event) : allowed ev = true -> emitsOnly (emit ev).
Proof. intros H t. exists [ev]. cbn. now rewrite H. Qed.

Lemma emitsOnly_send (statusCode : Z) (data : JSValue) :
  emitsOnly (sendJson statusCode data).
Proof. apply emitsOnly_emit, allowed_response. Qed.

Lemma emitsOnly_bind {A B} (m : M A) (k : A -> M B) :
  emitsOnly m -> (forall a, emitsOnly (k a)) -> emitsOnly (bind m k).
Proof.
  intros Hm Hk t. unfold bind.
  destruct (Hm t) as [evs [Ht Hc]].
  destruct (m t) as [[a | | e] t1]; cbn [snd] in *; subst t1.
  - destruct (Hk a (t ++ evs)%list) as [evs' [Ht' Hc']].
    exists (evs ++ evs')%list. rewrite Ht', app_assoc. split; [reflexivity |].
    now rewrite forallb_app, Hc, Hc'.
  - exists evs. now split.
  - exists evs. now split.
Qed.

Lemma emitsOnly_tryCatch (m : M unit) (h : JSError -> M unit) :
  emitsOnly m -> (forall e, emitsOnly (h e)) -> emitsOnly (tryCatch m h).
Proof.
  intros Hm Hh t. unfold tryCatch.
  destruct (Hm t) as [evs [Ht Hc]].
  destruct (m t) as [[a | | e] t1]; cbn [snd] in *; subst t1.
  - exists evs. now split.
  - exists evs. now split.
  - destruct (Hh e (t ++ evs)%list) as [evs' [Ht' Hc']].
    exists (evs ++ evs')%list. rewrite Ht', app_assoc. split; [reflexivity |].
    now rewrite forallb_app, Hc, Hc'.
Qed.

Lemma emitsOnly_returnM {A} : emitsOnly (@returnM A).
Proof. intros t. exists []. cbn. now rewrite app_nil_r. Qed.

Lemma emitsOnly_rejectIf (cond : bool) (statusCode : Z) (data : JSValue) :
  emitsOnly (rejectIf cond statusCode data).
Proof.
  destruct cond; cbn [rejectIf]; [| apply emitsOnly_ret].
  apply emitsOnly_bind; [apply emitsOnly_send | intros _; apply emitsOnly_returnM].
Qed.

End EmitsOnly.

Ltac emits_step allowed Hallowed :=
  first
    [ apply (@emitsOnly_rejectIf allowed Hallowed)
    | apply (@emitsOnly_send allowed Hallowed)
    | apply (@emitsOnly_lift allowed)
    | apply (@emitsOnly_ret allowed)
    | apply (@emitsOnly_returnM allowed)
    | apply (@emitsOnly_emit allowed); reflexivity
    | apply (@emitsOnly_tryCatch allowed); [| intros ?]
    | apply (@emitsOnly_bind allowed); [| intros ?] ].

(** The events by which a handler spends money: a transaction sent
    through the relayer, the demo buyer's payment flow. *)
Definition isSpending (ev : Event) : bool :=
match ev with
| EvSendTransaction _ _ _ _ | EvDemoFlow _ => true
| _ => false
end.

Definition notSpending (ev : Event) : bool := negb (isSpending ev).

Lemma notSpending_response (status : Z) (b : JSValue) :
  notSpending (EvRespond status b) = true.
Proof. reflexivity. Qed.

Lemma verify_handlers_emit (env : Env) (req : Request) :
  emitsOnly notSpending (handleVerify env req)
  /\ emitsOnly notSpending (handleVerifyTransfer env req).
Proof.
  split.
  - unfold handleVerify, readBody, verifyEscrowChecks, checkEnvelope,
      simulateSettlement, checkFunds, readAuthorization, readSignature,
      answerCaught.
    repeat emits_step notSpending notSpending_response;
      repeat match goal with
             | |- emitsOnly _ (match ?x with _ => _ end) => destruct x
             | |- emitsOnly _ (if ?x then _ else _) => destruct x
             end;
      repeat emits_step notSpending notSpending_response.
  - unfold handleVerifyTransfer, readBody, verifyTransferChecks, checkEnvelope,
      checkFunds, readAuthorization, readSignature, answerCaught.
    repeat emits_step notSpending notSpending_response;
      repeat match goal with
             | |- emitsOnly _ (match ?x with _ => _ end) => destruct x
             | |- emitsOnly _ (if ?x then _ else _) => destruct x
             end;
      repeat emits_step notSpending notSpending_response.
Qed.

(** X7. The two verify endpoints only read: whatever the request, a run
    of /x402/verify or /x402/verify-transfer sends no transaction through
    the relayer (the escrow simulation is a static call) and starts no
    payment flow. *)
Theorem verify_endpoints_spend_nothing (env : Env) (req : Request) :
  req.(method) = "POST" ->
  req.(pathname) = "/x402/verify" \/ req.(pathname) = "/x402/verify-transfer" ->
  existsb isSpending (serve env req) = false.
Proof.
  intros Hm Hp.
  assert (H : emitsOnly notSpending (server env req)).
  { destruct (verify_handlers_emit env req) as [Hv Ht].
    unfold server. rewrite Hm. destruct Hp as [-> | ->]; assumption. }
  unfold serve. destruct (H []) as [evs [-> Hc]]. cbn [app].
  clear -Hc. induction evs as [| ev evs IH]; [reflexivity |].
  cbn [forallb existsb] in *. apply andb_prop in Hc as [Hev Hrest].
  unfold notSpending in Hev. apply negb_true_iff in Hev.
  now rewrite Hev, (IH Hrest).
Qed.

Lemma verify_endpoints_spend_nothing_witness :
  existsb isSpending
    (serve Sample.env (Sample.post "/x402/verify-transfer" "secret"
                                   (BodyJson (Sample.callBody "100" "1800000000"))))
  = false.
Proof.
  apply verify_endpoints_spend_nothing; [reflexivity | right; reflexivity].
Defined.

(* ================================================================== *)
(** * Escrow mode *)

(** The eight arguments of [settlePayment], from the payload and the
    requirements. *)
Definition settlePaymentArgs (payload requirements : JSValue) : list JSValue :=
let a := authorizationIn (VObj [("payload", payload)]) in
[JS.getOpt requirements "asset";
 JS.getOpt (JS.getOpt requirements "extra") "orderId";
 a.(from); a.(value); a.(validAfter); a.(validBefore); a.(nonce);
 signatureIn (VObj [("payload", payload)])].

(** What [handleVerify] established when its [try] block ends normally. *)
Record AcceptedEscrow (env : Env) (payload requirements : JSValue) : Prop := {
  escrow_method :
    JS.getOpt (JS.getOpt requirements "extra") "assetTransferMethod" = VStr "eip3009";
  escrow_signer : exists info signer,
      Enveloped payload requirements info
      /\ verifyTypedData env (domainOf info requirements)
                         (authorizationIn (VObj [("payload", payload)]))
                         (signatureIn (VObj [("payload", payload)]))
         = Ok signer
      /\ JS.toLowerCase (authorizationIn (VObj [("payload", payload)])).(from)
         = Ok (JSString.toLowerCase signer);
  escrow_destination :
    JS.toLowerCase (authorizationIn (VObj [("payload", payload)])).(to)
    = Ok (JSString.toLowerCase env.(escrowAdapter));
  escrow_funds :
    Funded env requirements (authorizationIn (VObj [("payload", payload)]));
  escrow_simulated :
    env.(staticCall) env.(escrowAdapter) "settlePayment"
                     (settlePaymentArgs payload requirements)
                     env.(relayerAddress)
    = Ok tt
}.

Lemma simulateSettlement_normal (env : Env) (payload requirements : JSValue)
      (a : Authorization) (t t' : list Event) (u : unit) :
  simulateSettlement env payload requirements a t = (Normal u, t') ->
  env.(staticCall) env.(escrowAdapter) "settlePayment"
    [JS.getOpt requirements "asset";
     JS.getOpt (JS.getOpt requirements "extra") "orderId";
     a.(from); a.(value); a.(validAfter); a.(validBefore); a.(nonce);
     signatureIn (VObj [("payload", payload)])]
    env.(relayerAddress)
  = Ok tt.
Proof.
  unfold simulateSettlement, tryCatch.
  match goal with
  | |- context [match ?body t with _ => _ end] => destruct (body t) as [[[] | | e] t1] eqn:Hbody
  end; try discriminate.
  intros _.
  peel Hbody as orderId Horder.
  peel Hbody as sig Hsig. apply readSignature_normal in Hsig as [-> ->].
  peel Hbody as u1 Hev.
  apply lift_normal_inv in Hbody as [Hcall _].
  destruct (get_cases (JS.getOpt requirements "extra") "orderId") as [[e He] | He];
    rewrite He in Horder; inversion Horder; subst orderId.
  destruct (staticCall env _ _ _ _) as [[] |]; [reflexivity | discriminate].
Qed.

Lemma verifyEscrowChecks_normal (env : Env) (payload requirements : JSValue)
      (t t' : list Event) (u : unit) :
  verifyEscrowChecks env payload requirements t = (Normal u, t') ->
  AcceptedEscrow env payload requirements.
Proof.
  unfold verifyEscrowChecks. intros H.
  peel H as info Henvelope.
  apply (checkEnvelope_normal env) in Henvelope as [Henvelope ->].
  peel H as u1 Hmode. apply negb_false_iff, strictEqStr_string in Hmode.
  peel H as a Ha. apply readAuthorization_normal in Ha as [-> ->].
  peel H as signature Hsig. apply readSignature_normal in Hsig as [-> ->].
  peel H as signer Hsigner.
  peel H as fromLower Hfrom.
  peel H as u2 Hsame. apply negb_false_iff, String.eqb_eq in Hsame.
  subst fromLower.
  peel H as toLower Hto.
  peel H as u3 Hdest. apply negb_false_iff, String.eqb_eq in Hdest.
  subst toLower.
  peel H as u4 Hfunds. apply checkFunds_normal in Hfunds.
  peel H as u5 Hsim. apply simulateSettlement_normal in Hsim.
  constructor; eauto 8.
Qed.

Lemma server_verify (env : Env) (req : Request) :
  req.(method) = "POST" -> req.(pathname) = "/x402/verify" ->
  server env req = handleVerify env req.
Proof. intros Hm Hp. unfold server. rewrite Hm, Hp. reflexivity. Qed.

(** X8. Escrow mode: every /x402/verify request answered [{valid: true}]
    was served with an adapter configured and passed the handler's checks:
    version 2, scheme and network; [requirements.asset] is a configured
    asset with [eip3009] and the transfer method is eip3009; the signer
    ethers recovers from [payload.payload.signature] over the
    authorization, under the domain of that asset, is [from], and the
    destination is the adapter (both compared in lower case); the balance
    covers the value, the value covers the amount, the window test passed,
    and the static call of [settlePayment] from the relayer succeeded. *)
Theorem accepted_escrow (env : Env) (req : Request) (v : JSValue) :
  req.(method) = "POST" ->
  req.(pathname) = "/x402/verify" ->
  req.(body) = BodyJson v ->
  responseOf (serve env req) = Some (200, VObj [("valid", VBool true)]) ->
  env.(escrowAdapter) <> ""
  /\ AcceptedEscrow env (JS.getOpt v "payload") (JS.getOpt v "requirements").
Proof.
  intros Hm Hp Hb Hresp.
  unfold serve in Hresp. rewrite (server_verify env req Hm Hp) in Hresp.
  destruct (keyRejected env (header req.(headers) "x-api-key")) eqn:Hk.
  { destruct (handlers_reject_key env req) as [Hapi _].
    destruct (Hapi Hk) as [Hrej _].
    rewrite Hrej in Hresp. discriminate Hresp. }
  destruct (String.eqb_spec env.(escrowAdapter) "") as [Ha | Ha].
  { unfold handleVerify, bind, rejectIf in Hresp.
    rewrite Hk, Ha in Hresp. discriminate Hresp. }
  split; [exact Ha |].
  apply String.eqb_neq in Ha.
  destruct (destructure_cases v "payload") as [[e He] | Hpl].
  { unfold handleVerify, bind, rejectIf, readBody, bind in Hresp.
    rewrite Hk, Ha, Hb in Hresp. cbn -[tryCatch verifyEscrowChecks] in Hresp.
    rewrite He in Hresp. discriminate Hresp. }
  destruct (destructure_cases v "requirements") as [[e He] | Hrq].
  { unfold handleVerify, bind, rejectIf, readBody, bind in Hresp.
    rewrite Hk, Ha, Hb in Hresp. cbn -[tryCatch verifyEscrowChecks] in Hresp.
    rewrite Hpl in Hresp. cbn -[tryCatch verifyEscrowChecks] in Hresp.
    rewrite He in Hresp. discriminate Hresp. }
  rewrite (handleVerify_run env req Hk Ha Hb Hpl Hrq) in Hresp.
  apply valid_answer_is_normal_end in Hresp as [t' Hrun].
  - now apply verifyEscrowChecks_normal in Hrun.
  - apply answersOrThrows_verifyEscrowChecks.
  - repeat constructor.
Qed.

Module EscrowSample.

Definition adapter : string := "0x00000000000000000000000000000000000000Ad".

(** [Sample.env] with an escrow adapter configured. *)
Definition env : Env :=
{| API_KEY := "secret";
   escrowAdapter := adapter;
   relayerAddress := Sample.env.(relayerAddress);
   dateNow := Sample.env.(dateNow);
   decimalLiteral := Sample.env.(decimalLiteral);
   recoverSigner := Sample.env.(recoverSigner);
   balanceOf := Sample.env.(balanceOf);
   staticCall := Sample.env.(staticCall);
   transact := Sample.env.(transact);
   getBalance := Sample.env.(getBalance);
   formatEther := Sample.env.(formatEther);
   demoBuyerKey := None;
   demoWallet := Sample.env.(demoWallet);
   demoFlow := Sample.env.(demoFlow) |}.

Definition payload : JSValue :=
VObj [("x402Version", VNum 2); ("scheme", VStr "exact");
      ("network", VStr "eip155:1030");
      ("payload",
       VObj [("signature", VStr "0x5161");
             ("authorization",
              VObj [("from", VStr Sample.buyer);
                    ("to", VStr "0x00000000000000000000000000000000000000ad");
                    ("value", VStr "100"); ("validAfter", VStr "0");
                    ("validBefore", VStr "1800000000");
                    ("nonce", VStr Sample.nonce)])])].

Definition requirements : JSValue :=
VObj [("scheme", VStr "exact"); ("network", VStr "eip155:1030");
      ("amount", VStr "100");
      ("asset", VStr "0xaf37e8b6c9ed7f6318979f56fc287d76c30847ff");
      ("payTo", VStr adapter);
      ("extra", VObj [("assetTransferMethod", VStr "eip3009");
                      ("orderId", VStr "0x0a")])].

Definition callBody : JSValue :=
VObj [("payload", payload); ("requirements", requirements)].

End EscrowSample.

Lemma accepted_escrow_witness :
  EscrowSample.env.(escrowAdapter) <> ""
  /\ AcceptedEscrow EscrowSample.env
                    (JS.getOpt EscrowSample.callBody "payload")
                    (JS.getOpt EscrowSample.callBody "requirements").
Proof.
  apply (@accepted_escrow EscrowSample.env
           (Sample.post "/x402/verify" "secret" (BodyJson EscrowSample.callBody))
           EscrowSample.callBody); reflexivity.
Defined.

Lemma server_settle (env : Env) (req : Request) :
  req.(method) = "POST" -> req.(pathname) = "/x402/settle" ->
  server env req = handleSettle env req.
Proof. intros Hm Hp. unfold server. rewrite Hm, Hp. reflexivity. Qed.

Lemma handleSettle_run (env : Env) (req : Request) (v pl rq : JSValue) :
  keyRejected env (header req.(headers) "x-api-key") = false ->
  String.eqb env.(escrowAdapter) "" = false ->
  req.(body) = BodyJson v ->
  JS.destructure v "payload" = Ok pl ->
  JS.destructure v "requirements" = Ok rq ->
  handleSettle env req []
  = tryCatch (settleEscrowCall env pl rq) answerSettleCaught [EvReadBody].
Proof.
  intros Hk Ha Hb Hpl Hrq.
  unfold handleSettle, bind, rejectIf, readBody, bind.
  rewrite Hk, Ha, Hb. cbn -[tryCatch settleEscrowCall].
  rewrite Hpl. cbn -[tryCatch settleEscrowCall].
  rewrite Hrq. reflexivity.
Qed.

(** What the [try] block of [handleSettle] needs of a body to get as far
    as the contract call: [payload.payload.authorization] can be
    destructured and [requirements.extra.orderId] can be read. *)
Definition escrowReadable (v : JSValue) : bool :=
  let pl := JS.getOpt v "payload" in
  let rq := JS.getOpt v "requirements" in
  negb (nullish pl)
  && negb (nullish (JS.getOpt pl "payload"))
  && negb (nullish (JS.getOpt (JS.getOpt pl "payload") "authorization"))
  && negb (nullish rq)
  && negb (nullish (JS.getOpt rq "extra")).

(** X9. Escrow settlement.  Past the key check, /x402/settle answers 400
    [{success: false, error}] before reading the body when no adapter is
    configured.  With an adapter, on a body other than [null], the body
    alone decides between two runs.  When [payload.payload.authorization]
    cannot be destructured or [requirements.extra.orderId] cannot be read
    (the payload, its [payload], the authorization, the requirements or
    their [extra] is [null] or missing), the answer is 500 with nothing
    sent.  Otherwise the handler calls [settlePayment(asset, orderId, from,
    value, validAfter, validBefore, nonce, signature)] on the adapter with
    gas limit 500000 through the relayer as its only chain interaction (no
    balance read, no clock, no simulation) and answers 200 with the
    settlement naming [from] as payer, or 500 [{success: false, error:
    reason || message}] when the call throws. *)
Theorem settle_escrow_relays_unchecked (env : Env) (req : Request) :
  req.(method) = "POST" ->
  req.(pathname) = "/x402/settle" ->
  keyRejected env (header req.(headers) "x-api-key") = false ->
  (env.(escrowAdapter) = "" ->
   serve env req
   = [EvRespond 400 (VObj [("success", VBool false);
                           ("error", VStr "Escrow adapter not configured")])])
  /\ (env.(escrowAdapter) <> "" ->
      forall v, req.(body) = BodyJson v -> v <> VNull -> v <> VUndefined ->
      let pl := JS.getOpt v "payload" in
      let rq := JS.getOpt v "requirements" in
      if escrowReadable v
      then serve env req
           = [EvReadBody;
              EvSendTransaction (VStr env.(escrowAdapter)) "settlePayment"
                                (settlePaymentArgs pl rq) 500000;
              match env.(transact) (VStr env.(escrowAdapter)) "settlePayment"
                                   (settlePaymentArgs pl rq) 500000 with
              | Ok hash =>
                  EvRespond 200
                    (settled hash
                       (authorizationIn (VObj [("payload", pl)])).(from))
              | Err e => EvRespond 500 (VObj [("success", VBool false);
                                              ("error", VStr (reasonOrMessage e))])
              end]
      else exists e,
          serve env req = [EvReadBody; EvRespond 500 (settleFailed e)]).
Proof.
  intros Hm Hp Hk. unfold serve. rewrite (server_settle env req Hm Hp). split.
  - intros Ha. unfold handleSettle, bind, rejectIf. rewrite Hk, Ha. reflexivity.
  - intros Ha v Hb Hnull Hundef.
    unfold escrowReadable.
    set (pl := JS.getOpt v "payload"). set (rq := JS.getOpt v "requirements").
    cbv zeta.
    apply String.eqb_neq in Ha.
    destruct (@destructure_defined v "payload") as [pl' Hpl]; try assumption.
    destruct (@destructure_defined v "requirements") as [rq' Hrq]; try assumption.
    rewrite (handleSettle_run env req Hk Ha Hb Hpl Hrq).
    apply destructure_getOpt in Hpl, Hrq. fold pl in Hpl. fold rq in Hrq.
    subst pl' rq'.
    unfold tryCatch, settleEscrowCall.
    pose proof (readAuthorization_spec pl [EvReadBody]) as Hau.
    destruct (nullish pl) eqn:Npl; cbn [negb andb] in Hau |- *.
    { destruct Hau as [e He]. exists e.
      now rewrite (@bind_thrown _ _ _ _ _ _ _ He). }
    destruct (nullish (JS.getOpt pl "payload")) eqn:Ninner;
      cbn [negb andb] in Hau |- *.
    { destruct Hau as [e He]. exists e.
      now rewrite (@bind_thrown _ _ _ _ _ _ _ He). }
    destruct (nullish (JS.getOpt (JS.getOpt pl "payload") "authorization"));
      cbn [negb andb] in Hau |- *.
    { destruct Hau as [e He]. exists e.
      now rewrite (@bind_thrown _ _ _ _ _ _ _ He). }
    rewrite (@bind_normal _ _ _ _ _ _ _ Hau).
    destruct (get_spec rq "asset") as [[-> [e He]] | [-> Hg]];
      cbn [negb andb]; rewrite ?He, ?Hg.
    { exists e. reflexivity. }
    rewrite bind_lift_ok.
    destruct (get_spec (JS.getOpt rq "extra") "orderId")
      as [[-> [e He]] | [-> Ho]]; cbn [negb andb]; rewrite ?He, ?Ho.
    { exists e. reflexivity. }
    rewrite bind_lift_ok.
    rewrite (@bind_normal _ _ _ _ _ _ _
               (@readSignature_spec pl [EvReadBody] Npl Ninner)).
    unfold settlePaymentArgs.
    unfold bind, emit, lift. cbn [app snd fst].
    destruct (transact env _ _ _ _); reflexivity.
Qed.

Lemma settle_escrow_relays_unchecked_witness :
  let req := Sample.post "/x402/settle" "secret" (BodyJson EscrowSample.callBody) in
  let pl := EscrowSample.payload in
  let rq := EscrowSample.requirements in
  serve EscrowSample.env req
  = [EvReadBody;
     EvSendTransaction (VStr EscrowSample.adapter) "settlePayment"
                       (settlePaymentArgs pl rq) 500000;
     EvRespond 200 (settled "0x5e771e" (VStr Sample.buyer))].
Proof.
  exact (proj2 (@settle_escrow_relays_unchecked EscrowSample.env
                  (Sample.post "/x402/settle" "secret"
                               (BodyJson EscrowSample.callBody))
                  eq_refl eq_refl eq_refl)
               ltac:(discriminate) EscrowSample.callBody eq_refl
               ltac:(discriminate) ltac:(discriminate)).
Defined.

(* ================================================================== *)
(** * The demo endpoint *)

Definition notDemoFlow (ev : Event) : bool :=
match ev with
| EvDemoFlow _ => false
| _ => true
end.

Lemma notDemoFlow_response (status : Z) (b : JSValue) :
  notDemoFlow (EvRespond status b) = true.
Proof. reflexivity. Qed.

Ltac emits_all allowed Hallowed :=
  repeat emits_step allowed Hallowed;
  repeat match goal with
         | |- emitsOnly _ (match ?x with _ => _ end) => destruct x
         | |- emitsOnly _ (if ?x then _ else _) => destruct x
         end;
  repeat emits_step allowed Hallowed.

Lemma other_handlers_start_no_demo (env : Env) (req : Request) :
  emitsOnly notDemoFlow (handleHealth env req)
  /\ emitsOnly notDemoFlow (handleVerify env req)
  /\ emitsOnly notDemoFlow (handleSettle env req)
  /\ emitsOnly notDemoFlow (handleVerifyTransfer env req)
  /\ emitsOnly notDemoFlow (handleSettleTransfer env req).
Proof.
  repeat split.
  - unfold handleHealth. emits_all notDemoFlow notDemoFlow_response.
  - unfold handleVerify, readBody, verifyEscrowChecks, checkEnvelope,
      simulateSettlement, checkFunds, readAuthorization, readSignature,
      answerCaught.
    emits_all notDemoFlow notDemoFlow_response.
  - unfold handleSettle, readBody, settleEscrowCall, readAuthorization,
      readSignature, answerSettleCaught.
    emits_all notDemoFlow notDemoFlow_response.
  - unfold handleVerifyTransfer, readBody, verifyTransferChecks, checkEnvelope,
      checkFunds, readAuthorization, readSignature, answerCaught.
    emits_all notDemoFlow notDemoFlow_response.
  - unfold handleSettleTransfer, readBody, settleTransferCall, readAuthorization,
      readSignature, answerSettleCaught.
    emits_all notDemoFlow notDemoFlow_response.
Qed.

Lemma emitsOnly_excludes (allowed : Event -> bool) (m : M unit) (ev : Event) :
  emitsOnly allowed m -> In ev (snd (m [])) -> allowed ev = true.
Proof.
  intros Hm Hin. destruct (Hm []) as [evs [Ht Hall]].
  rewrite Ht in Hin. cbn [app] in Hin.
  rewrite forallb_forall in Hall. now apply Hall.
Qed.

(** An event that is none of the listed ones is not in the list. *)
Ltac absent H :=
  repeat (destruct H as [H | H]; [discriminate H |]); destruct H.

(** X10. The demo payment flow is started only by an authenticated POST
    to /x402/demo-ai whose body carries a string question that, trimmed,
    is not empty and has at most 500 characters, and only while a
    non-empty DEMO_BUYER_KEY is configured; the flow gets the trimmed
    question. *)
Theorem demo_flow_is_guarded (env : Env) (req : Request) (question : string) :
  In (EvDemoFlow question) (serve env req) ->
  req.(method) = "POST" /\ req.(pathname) = "/x402/demo-ai"
  /\ keyRejected env (header req.(headers) "x-facilitator-key") = false
  /\ (exists b raw, req.(body) = BodyJson b
                    /\ JS.getOpt b "question" = VStr raw
                    /\ question = JSString.trim raw)
  /\ question <> ""
  /\ (String.length question <= 500)%nat
  /\ (exists demoKey, env.(demoBuyerKey) = Some demoKey /\ demoKey <> "").
Proof.
  intros Hin. unfold serve, server in Hin.
  destruct (other_handlers_start_no_demo env req) as [H1 [H2 [H3 [H4 H5]]]].
  destruct (String.eqb (method req) "OPTIONS").
  { cbn in Hin. absent Hin. }
  destruct (_ && _)%bool in Hin.
  { apply (@emitsOnly_excludes _ _ _ H1) in Hin. discriminate Hin. }
  destruct (_ && _)%bool in Hin.
  { apply (@emitsOnly_excludes _ _ _ H2) in Hin. discriminate Hin. }
  destruct (_ && _)%bool in Hin.
  { apply (@emitsOnly_excludes _ _ _ H3) in Hin. discriminate Hin. }
  destruct (_ && _)%bool in Hin.
  { apply (@emitsOnly_excludes _ _ _ H4) in Hin. discriminate Hin. }
  destruct (_ && _)%bool in Hin.
  { apply (@emitsOnly_excludes _ _ _ H5) in Hin. discriminate Hin. }
  destruct (_ && _)%bool eqn:Eroute in Hin.
  2:{ cbn in Hin. absent Hin. }
  apply andb_prop in Eroute as [Ep Em].
  apply String.eqb_eq in Ep, Em.
  split; [exact Em |]. split; [exact Ep |].
  unfold handleDemoAi, bind, rejectIf, readBody, bind in Hin.
  destruct (keyRejected env _) eqn:Hk.
  { cbn in Hin. absent Hin. }
  split; [reflexivity |].
  destruct (body req) as [b |] eqn:Hb.
  2:{ cbn in Hin. absent Hin. }
  cbn -[readQuestion tryCatch] in Hin.
  unfold readQuestion in Hin.
  destruct (get_cases b "question") as [[e He] | He]; rewrite He in Hin.
  { cbn in Hin. absent Hin. }
  destruct (JS.getOpt b "question") as [| | flag | z | raw | items | fields] eqn:Hq.
  - cbn in Hin. absent Hin.
  - cbn in Hin. absent Hin.
  - destruct flag; cbn in Hin; absent Hin.
  - cbn [JS.truthy] in Hin. destruct (z =? 0); cbn in Hin; absent Hin.
  - cbn [JS.truthy] in Hin. unfold JSString.eqb in Hin.
    destruct (String.eqb raw "") eqn:Hraw;
      [cbn in Hin; absent Hin |].
    cbn -[tryCatch String.eqb JSString.trim String.length Z.ltb Z.of_nat] in Hin.
    destruct (String.eqb (JSString.trim raw) "") eqn:Hempty;
      [cbn in Hin; absent Hin |].
    destruct (500 <? Z.of_nat (String.length (JSString.trim raw))) eqn:Hlong;
      [cbn in Hin; absent Hin |].
    cbn -[tryCatch String.eqb JSString.trim String.length Z.ltb Z.of_nat] in Hin.
    destruct (demoBuyerKey env) as [demoKey |] eqn:Hkey;
      [| cbn in Hin; absent Hin].
    destruct (String.eqb demoKey "") eqn:Hdemo;
      [cbn in Hin; absent Hin |].
    unfold bind, lift, tryCatch, emit, sendJson in Hin.
    destruct (demoWallet env demoKey) as [wallet | e];
      [| cbn in Hin; absent Hin].
    assert (Hq' : question = JSString.trim raw).
    { cbn -[JSString.trim] in Hin.
      destruct (demoFlow env wallet (JSString.trim raw)) as [out | e];
        cbn -[JSString.trim] in Hin;
        destruct Hin as [H | [H | Hin]]; try discriminate H;
        try (now inversion H); absent Hin. }
    split; [exists b, raw; auto |].
    rewrite Hq'.
    split; [now apply String.eqb_neq |].
    split; [apply Z.ltb_ge in Hlong; lia |].
    exists demoKey. split; [reflexivity | now apply String.eqb_neq].
  - cbn in Hin. absent Hin.
  - cbn in Hin. absent Hin.
Qed.

Module DemoSample.

(** [Sample.env] with a demo buyer whose flow ends in the seller's answer. *)
Definition env : Env :=
{| API_KEY := "secret";
   escrowAdapter := "";
   relayerAddress := Sample.env.(relayerAddress);
   dateNow := Sample.env.(dateNow);
   decimalLiteral := Sample.env.(decimalLiteral);
   recoverSigner := Sample.env.(recoverSigner);
   balanceOf := Sample.env.(balanceOf);
   staticCall := Sample.env.(staticCall);
   transact := Sample.env.(transact);
   getBalance := Sample.env.(getBalance);
   formatEther := Sample.env.(formatEther);
   demoBuyerKey := Some "0x0b";
   demoWallet := fun _ => Ok Sample.buyer;
   demoFlow := fun _ _ => Ok (200, VObj [("success", VBool true)]) |}.

Definition request : Request :=
{| method := "POST"; pathname := "/x402/demo-ai";
   headers := [("x-facilitator-key", "secret")];
   body := BodyJson (VObj [("question", VStr "  What is Conflux? ")]) |}.

End DemoSample.

Lemma demo_flow_is_guarded_witness :
  DemoSample.request.(method) = "POST"
  /\ DemoSample.request.(pathname) = "/x402/demo-ai"
  /\ keyRejected DemoSample.env
                 (header DemoSample.request.(headers) "x-facilitator-key") = false
  /\ (exists b raw, DemoSample.request.(body) = BodyJson b
                    /\ JS.getOpt b "question" = VStr raw
                    /\ "What is Conflux?" = JSString.trim raw)
  /\ "What is Conflux?" <> ""
  /\ (String.length "What is Conflux?" <= 500)%nat
  /\ (exists demoKey, DemoSample.env.(demoBuyerKey) = Some demoKey /\ demoKey <> "").
Proof.
  apply (@demo_flow_is_guarded DemoSample.env DemoSample.request "What is Conflux?").
  vm_compute. right. left. reflexivity.
Defined.

(* ================================================================== *)
(** * The gate's calls *)

(** X11. Whatever the facilitator answers, the gate calls it at most twice
    and in this order: the verify endpoint first, the settle endpoint only
    after the verify call returned an array with a true [valid]; a request
    is let through only after both calls; the two endpoints are the only
    ones called. *)
Theorem gate_calls_in_order
        (genv : GateEnv) (verifyEndpoint settleEndpoint : string)
        (hs : list (string * string)) (requirements : PHPValue) :
  let out := X402Middleware.run genv verifyEndpoint settleEndpoint hs requirements in
  (fst out = [] \/ fst out = [verifyEndpoint]
   \/ (fst out = [verifyEndpoint; settleEndpoint]
       /\ exists h a,
           X402Middleware.getPaymentHeader hs = Some h
           /\ X402Middleware.callFacilitator genv verifyEndpoint
                (forwardedData genv.(decode) h requirements)
              = X402Middleware.CallArray a
           /\ X402Middleware.refused a "valid" = false))
  /\ (forall hdrs settlement,
         snd out = Proceed hdrs settlement ->
         fst out = [verifyEndpoint; settleEndpoint]).
Proof.
  unfold X402Middleware.run, forwardedData.
  destruct (X402Middleware.getPaymentHeader hs) as [h |];
    [| split; [now left | discriminate]].
  destruct (negb (PHP.toBool _)); [split; [now left | discriminate] |].
  destruct (X402Middleware.callFacilitator genv verifyEndpoint _) as [| a |] eqn:Hv;
    cbn [fst snd];
    try (split; [right; now left | discriminate]);
    (destruct (X402Middleware.refused _ "valid") eqn:Hr;
     [split; [right; now left | discriminate] |]);
    (destruct (X402Middleware.callFacilitator genv settleEndpoint _) as [| b |];
     [| | split; [right; right; split; [reflexivity | eauto] | discriminate]]);
    (destruct (X402Middleware.refused _ "success"); cbn [fst snd];
     (split; [right; right; split; [reflexivity | eauto] | intros; reflexivity])).
Qed.

(** X12. A negative verdict's reason reaches the client word for word:
    when the verify endpoint answers 200 (or 402) with [{valid: false,
    reason}], the gate answers 402 X402_VERIFY_FAILED with the message
    "Payment verification failed: " followed by the reason, and does not
    call the settle endpoint. *)
Theorem verify_reason_reaches_client
        (genv : GateEnv) (verifyEndpoint settleEndpoint : string)
        (hs : list (string * string)) (requirements : PHPValue)
        (h why : string) (status : Z) :
  X402Middleware.getPaymentHeader hs = Some h ->
  (exists doc, genv.(decode) h = Some doc /\ falsyDocument doc = false) ->
  status = 200 \/ status = 402 ->
  genv.(facilitator) verifyEndpoint (forwardedData genv.(decode) h requirements)
  = (status, Some (VObj [("valid", VBool false); ("reason", VStr why)])) ->
  X402Middleware.run genv verifyEndpoint settleEndpoint hs requirements
  = ([verifyEndpoint],
     Exit 402 [("Content-Type", "application/json; charset=utf-8")]
          (PHP.assoc [("success", PBool false);
                      ("message", PString ("Payment verification failed: " ++ why));
                      ("error_code", PString "X402_VERIFY_FAILED")])).
Proof.
  intros Hh [doc [Hdoc Hfalsy]] Hst Hcall.
  unfold X402Middleware.run. rewrite Hh.
  unfold forwardedData in Hcall. rewrite Hdoc in *.
  rewrite toBool_fromJson, Hfalsy. cbn [negb].
  unfold X402Middleware.callFacilitator. rewrite Hcall.
  assert (Hcode : negb (status =? 200) && negb (status =? 402) = false)
    by (destruct Hst; subst status; reflexivity).
  rewrite Hcode. reflexivity.
Qed.

Module UnderpaidSample.

(** The PAYMENT-SIGNATURE header of a payload that pays 50 where 100 is
    required. *)
Definition paymentSignature : string :=
  Eval vm_compute in
    X402Service.encodePayload (Sample.payload "50" "1800000000").

End UnderpaidSample.

Lemma verify_reason_reaches_client_witness :
  X402Middleware.handleTransfer (GateSample.gate Sample.env)
    [("PAYMENT-SIGNATURE", UnderpaidSample.paymentSignature)]
    GateSample.requirements
  = (["/x402/verify-transfer"],
     Exit 402 [("Content-Type", "application/json; charset=utf-8")]
          (PHP.assoc [("success", PBool false);
                      ("message",
                       PString "Payment verification failed: Insufficient amount");
                      ("error_code", PString "X402_VERIFY_FAILED")])).
Proof.
  apply (@verify_reason_reaches_client (GateSample.gate Sample.env)
           "/x402/verify-transfer" "/x402/settle-transfer"
           [("PAYMENT-SIGNATURE", UnderpaidSample.paymentSignature)]
           GateSample.requirements
           UnderpaidSample.paymentSignature "Insufficient amount" 200).
  - reflexivity.
  - eexists. split; vm_compute; reflexivity.
  - left. reflexivity.
  - vm_compute. reflexivity.
Defined.

(* ================================================================== *)
(** * No service without payment *)

Lemma run_proceed_verified (genv : GateEnv) (verifyEndpoint settleEndpoint : string)
      (hs : list (string * string)) (requirements : PHPValue)
      (calls : list string) (hdrs : list (string * string))
      (settlement : PHPValue) :
  X402Middleware.run genv verifyEndpoint settleEndpoint hs requirements
  = (calls, Proceed hdrs settlement) ->
  exists h a,
    X402Middleware.getPaymentHeader hs = Some h
    /\ X402Middleware.callFacilitator genv verifyEndpoint
         (forwardedData genv.(decode) h requirements)
       = X402Middleware.CallArray a
    /\ X402Middleware.refused a "valid" = false
    /\ X402Middleware.callFacilitator genv settleEndpoint
         (forwardedData genv.(decode) h requirements)
       = X402Middleware.CallArray settlement
    /\ X402Middleware.refused settlement "success" = false.
Proof.
  unfold X402Middleware.run, forwardedData.
  destruct (X402Middleware.getPaymentHeader hs) as [h |]; [| discriminate].
  destruct (negb (PHP.toBool _)); [discriminate |].
  destruct (X402Middleware.callFacilitator genv verifyEndpoint _) as [| a |] eqn:Hv;
    try discriminate;
    (destruct (X402Middleware.refused _ "valid") eqn:Hr; [discriminate |]);
    (destruct (X402Middleware.callFacilitator genv settleEndpoint _) as [| b |] eqn:Hs;
     try discriminate);
    (destruct (X402Middleware.refused _ "success") eqn:Hr'; [discriminate |]);
    intros H; inversion H; subst;
    try (cbn in Hr; discriminate Hr); try (cbn in Hr'; discriminate Hr').
  exists h, a. auto.
Qed.

(** A verify-transfer response with status 200 or 402 is a verdict sent
    with status 200 to a request with the right key. *)
Lemma verify_transfer_verdict (env : Env) (req : Request) (v : JSValue)
      (status : Z) (b : JSValue) :
  req.(method) = "POST" ->
  req.(pathname) = "/x402/verify-transfer" ->
  req.(body) = BodyJson v ->
  v <> VNull -> v <> VUndefined ->
  responseOf (serve env req) = Some (status, b) ->
  status = 200 \/ status = 402 ->
  keyRejected env (header req.(headers) "x-api-key") = false
  /\ status = 200 /\ isVerdict b.
Proof.
  intros Hm Hp Hb Hn Hu Hresp Hst.
  unfold serve in Hresp. rewrite (server_verify_transfer env req Hm Hp) in Hresp.
  destruct (keyRejected env (header req.(headers) "x-api-key")) eqn:Hk.
  { destruct (handlers_reject_key env req) as [Hapi _].
    destruct (Hapi Hk) as [_ [_ [Hrej _]]].
    rewrite Hrej in Hresp. cbn in Hresp. inversion Hresp; subst.
    destruct Hst; discriminate. }
  split; [reflexivity |].
  destruct (@destructure_defined v "payload") as [pl Hpl]; try assumption.
  destruct (@destructure_defined v "requirements") as [rq Hrq]; try assumption.
  rewrite (handleVerifyTransfer_run env req Hk Hb Hpl Hrq) in Hresp.
  destruct (@verify_try_answers (verifyTransferChecks env pl rq) [EvReadBody])
    as [_ [b' [Hb' Hverdict]]].
  - apply answersOrThrows_verifyTransferChecks.
  - repeat constructor.
  - cbv zeta in Hb'. rewrite Hb' in Hresp. inversion Hresp; subst. now split.
Qed.

(** The only verdict PHP reads as accepted is [{valid: true}]. *)
Lemma accepted_verdict (b : JSValue) :
  isVerdict b ->
  X402Middleware.refused (PHP.fromJson (JSONText.dropUndefined b)) "valid" = false ->
  b = VObj [("valid", VBool true)].
Proof.
  intros [-> | [why ->]]; [reflexivity |].
  cbn. discriminate.
Qed.

Lemma proceed_means_paid
        (dec : string -> option JSValue) (env : Env) (key : string)
        (hs : list (string * string)) (requirements : PHPValue)
        (calls : list string) (hdrs : list (string * string))
        (settlement : PHPValue) :
  X402Middleware.handleTransfer (Loopback.gate dec env key) hs requirements
  = (calls, Proceed hdrs settlement) ->
  exists h hash,
    let data := PHP.toJson (forwardedData dec h requirements) in
    X402Middleware.getPaymentHeader hs = Some h
    /\ keyRejected env (Some key) = false
    /\ responseOf (serve env (forwardedRequest key "/x402/verify-transfer"
                                               (forwardedData dec h requirements)))
       = Some (200, VObj [("valid", VBool true)])
    /\ Accepted env (JS.getOpt data "payload") (JS.getOpt data "requirements")
    /\ env.(transact) (assetIn data) "transferWithAuthorization"
                      (transferArgs data) 200000
       = Ok hash
    /\ exists payer,
         (authorizationIn data).(from) = VStr payer
         /\ settlement = PHP.fromJson (settled hash (VStr payer)).
Proof.
  intros Hrun. unfold X402Middleware.handleTransfer in Hrun.
  apply run_proceed_verified in Hrun as [h [a [Hh [Hv [Hvalid [Hs _]]]]]].
  cbn [decode Loopback.gate] in Hv, Hs.
  apply callFacilitator_array in Hv as [st [doc [Hex [Hst Hdoc]]]].
  apply callFacilitator_array in Hs as [st' [doc' [Hex' [Hst' Hdoc']]]].
  cbn [facilitator Loopback.gate] in Hex, Hex'.
  apply exchange_answered in Hex as [b [Hresp ->]].
  apply exchange_answered in Hex' as [b' [Hresp' ->]].
  assert (Hobj : PHP.toJson (forwardedData dec h requirements) <> VNull
                 /\ PHP.toJson (forwardedData dec h requirements) <> VUndefined)
    by (unfold forwardedData; rewrite toJson_callData; split; discriminate).
  destruct Hobj as [Hn Hu].
  pose proof Hresp as Hverdict.
  apply (@verify_transfer_verdict env _
           (PHP.toJson (forwardedData dec h requirements)))
    in Hverdict as [Hk [-> Hverdict]];
    try reflexivity; try assumption.
  subst a. apply (accepted_verdict Hverdict) in Hvalid. subst b.
  pose proof Hresp as Hanswer.
  apply (@accepted_transfer_run env _
           (PHP.toJson (forwardedData dec h requirements)))
    in Hresp; try reflexivity.
  apply (@settle_transfer_success env _
           (PHP.toJson (forwardedData dec h requirements)))
    in Hresp' as [hash [Hhash [_ ->]]];
    try reflexivity; try assumption.
  exists h, hash. cbv zeta.
  split; [exact Hh |]. split; [exact Hk |]. split; [exact Hanswer |].
  split; [exact Hresp |].
  split; [exact Hhash |].
  destruct Hresp as [_ [info [signer [_ [_ Hfrom]]]] _ _].
  unfold authorizationIn in Hfrom. rewrite getOpt_single in Hfrom.
  fold (authorizationIn (PHP.toJson (forwardedData dec h requirements))) in Hfrom.
  destruct (from (authorizationIn (PHP.toJson (forwardedData dec h requirements))))
    as [| | flag | z | payer | items | fields] eqn:Hpayer;
    try discriminate Hfrom.
  exists payer. split; [reflexivity |]. now subst settlement.
Qed.

(** X13. No service without payment.  Whenever the gate in front of this
    facilitator lets a request through in transfer mode, the facilitator
    accepted the gate's key, answered the forwarded payload and
    requirements with 200 [{valid: true}] after its checks (the forwarded
    signature recovers to [from] under the domain of the configured asset,
    destination, balance, window and amount), and then got a receipt for
    [transferWithAuthorization] with the forwarded authorization; the
    settlement handed to the protected handler is that receipt's
    record. *)
Theorem served_only_after_payment
        (dec : string -> option JSValue) (env : Env) (key : string)
        (hs : list (string * string)) (requirements : PHPValue)
        (calls : list string) (hdrs : list (string * string))
        (settlement : PHPValue) :
  X402Middleware.handleTransfer (Loopback.gate dec env key) hs requirements
  = (calls, Proceed hdrs settlement) ->
  exists h hash,
    let data := PHP.toJson (forwardedData dec h requirements) in
    X402Middleware.getPaymentHeader hs = Some h
    /\ keyRejected env (Some key) = false
    /\ responseOf (serve env (forwardedRequest key "/x402/verify-transfer"
                                               (forwardedData dec h requirements)))
       = Some (200, VObj [("valid", VBool true)])
    /\ Accepted env (JS.getOpt data "payload") (JS.getOpt data "requirements")
    /\ env.(transact) (assetIn data) "transferWithAuthorization"
                      (transferArgs data) 200000
       = Ok hash
    /\ exists payer,
         (authorizationIn data).(from) = VStr payer
         /\ settlement = PHP.fromJson (settled hash (VStr payer)).
Proof.
  exact (@proceed_means_paid dec env key hs requirements calls hdrs settlement).
Qed.

Lemma served_only_after_payment_witness :
  exists h hash,
    let data := PHP.toJson (forwardedData X402Service.decodeHeader h
                                          GateSample.requirements) in
    X402Middleware.getPaymentHeader GateSample.paidRequest = Some h
    /\ keyRejected Sample.env (Some "secret") = false
    /\ responseOf (serve Sample.env
                         (forwardedRequest "secret" "/x402/verify-transfer"
                            (forwardedData X402Service.decodeHeader h
                                           GateSample.requirements)))
       = Some (200, VObj [("valid", VBool true)])
    /\ Accepted Sample.env (JS.getOpt data "payload") (JS.getOpt data "requirements")
    /\ Sample.env.(transact) (assetIn data) "transferWithAuthorization"
                             (transferArgs data) 200000
       = Ok hash
    /\ exists payer,
         (authorizationIn data).(from) = VStr payer
         /\ PHP.fromJson (settled "0x5e771e" (VStr Sample.buyer))
            = PHP.fromJson (settled hash (VStr payer)).
Proof.
  apply (@served_only_after_payment X402Service.decodeHeader Sample.env "secret"
           GateSample.paidRequest GateSample.requirements
           ["/x402/verify-transfer"; "/x402/settle-transfer"]
           [("PAYMENT-RESPONSE",
             PHP.base64_encode
               (PHP.json_encode_decoded
                  (PHP.fromJson (settled "0x5e771e" (VStr Sample.buyer)))))]
           (PHP.fromJson (settled "0x5e771e" (VStr Sample.buyer)))).
  vm_compute. reflexivity.
Defined.

(* ================================================================== *)
(** * Escrow mode without an adapter *)

(** X14. The escrow gate in front of a facilitator without an adapter:
    every request with a payment header that decodes to a value PHP reads
    as true is answered 402 X402_VERIFY_FAILED with the reason "unknown"
    (the facilitator's 400, or its 401 under a wrong key, is not a status
    [callFacilitator] reads), after one call of /x402/verify; nothing is
    settled and the request is never let through. *)
Theorem escrow_gate_without_adapter
        (dec : string -> option JSValue) (env : Env) (key : string)
        (hs : list (string * string)) (requirements : PHPValue)
        (h : string) (doc : JSValue) :
  env.(escrowAdapter) = "" ->
  X402Middleware.getPaymentHeader hs = Some h ->
  dec h = Some doc ->
  falsyDocument doc = false ->
  X402Middleware.handle (Loopback.gate dec env key) hs requirements
  = (["/x402/verify"],
     Exit 402 [("Content-Type", "application/json; charset=utf-8")]
          (PHP.assoc [("success", PBool false);
                      ("message", PString "Payment verification failed: unknown");
                      ("error_code", PString "X402_VERIFY_FAILED")])).
Proof.
  intros Ha Hh Hdoc Hfalsy.
  unfold X402Middleware.handle, X402Middleware.run. rewrite Hh.
  cbn [decode Loopback.gate]. rewrite Hdoc, toBool_fromJson, Hfalsy.
  cbn [negb].
  assert (Hcall : X402Middleware.callFacilitator (Loopback.gate dec env key)
                    "/x402/verify"
                    (X402Middleware.callData (PHP.fromJson doc) requirements)
                  = X402Middleware.CallNull).
  { unfold X402Middleware.callFacilitator. cbn [facilitator Loopback.gate].
    unfold Loopback.exchange, serve.
    rewrite server_verify by reflexivity.
    unfold handleVerify, bind, rejectIf. cbn [headers header String.eqb
      Ascii.eqb Bool.eqb].
    destruct (keyRejected env (Some key)); [reflexivity |].
    rewrite Ha. reflexivity. }
  rewrite Hcall. reflexivity.
Qed.

Lemma escrow_gate_without_adapter_witness :
  X402Middleware.handle (GateSample.gate Sample.env)
                        GateSample.paidRequest GateSample.requirements
  = (["/x402/verify"],
     Exit 402 [("Content-Type", "application/json; charset=utf-8")]
          (PHP.assoc [("success", PBool false);
                      ("message", PString "Payment verification failed: unknown");
                      ("error_code", PString "X402_VERIFY_FAILED")])).
Proof.
  apply (@escrow_gate_without_adapter X402Service.decodeHeader Sample.env "secret"
           GateSample.paidRequest GateSample.requirements
           GateSample.paymentSignature (Sample.payload "100" "1800000000"));
    vm_compute; reflexivity.
Defined.

(* ================================================================== *)
(** * The client: choosing and signing an offer *)

Lemma compatible_true (r : JSValue) :
  X402Service.compatible r = Ok true ->
  JS.getOpt r "scheme" = VStr "exact"
  /\ JS.getOpt r "network" = VStr "eip155:1030"
  /\ (JS.getOpt (JS.getOpt r "extra") "settlementMode" = VStr "transfer"
      \/ JS.getOpt (JS.getOpt r "extra") "assetTransferMethod" = VStr "eip3009").
Proof.
  unfold X402Service.compatible.
  destruct (get_cases r "scheme") as [[e ->] | ->]; [discriminate |].
  destruct (JS.strictEqStr (JS.getOpt r "scheme") "exact") eqn:Hs;
    [| discriminate]. cbn [negb].
  destruct (get_cases r "network") as [[e ->] | ->]; [discriminate |].
  destruct (JS.strictEqStr (JS.getOpt r "network") X402Service.network) eqn:Hn;
    [| discriminate]. cbn [negb].
  destruct (get_cases r "extra") as [[e ->] | ->]; [discriminate |].
  intros H. injection H as Hor.
  apply strictEqStr_string in Hs, Hn.
  split; [exact Hs |]. split; [exact Hn |].
  apply orb_prop in Hor as [H | H]; apply strictEqStr_string in H; auto.
Qed.

Lemma findCompatible_found (items : list JSValue) (r : JSValue) :
  X402Service.findCompatible items = Ok r -> r <> VUndefined ->
  exists before after,
    items = (before ++ r :: after)%list
    /\ Forall (fun x => X402Service.compatible x = Ok false) before
    /\ X402Service.compatible r = Ok true.
Proof.
  induction items as [| x rest IH]; cbn [X402Service.findCompatible].
  - intros H Hr. inversion H. congruence.
  - destruct (X402Service.compatible x) as [[|] | e] eqn:Hx; try discriminate.
    + intros H _. inversion H; subst x. exists [], rest. auto.
    + intros H Hr. destruct (IH H Hr) as [before [after [-> [Hb Hc]]]].
      exists (x :: before), after. auto.
Qed.

(** X15. What [selectRequirements] returns, when it returns an offer, is
    the first element of the list with scheme "exact", network
    "eip155:1030" and either settlement mode "transfer" or transfer method
    "eip3009": every element before it was examined and is not
    compatible. *)
Theorem selected_offer_is_first_compatible (requirementsList r : JSValue) :
  X402Service.selectRequirements requirementsList = Ok r ->
  r <> VUndefined ->
  (exists before after,
      requirementsList = VArr (before ++ r :: after)
      /\ Forall (fun x => X402Service.compatible x = Ok false) before)
  /\ JS.getOpt r "scheme" = VStr "exact"
  /\ JS.getOpt r "network" = VStr "eip155:1030"
  /\ (JS.getOpt (JS.getOpt r "extra") "settlementMode" = VStr "transfer"
      \/ JS.getOpt (JS.getOpt r "extra") "assetTransferMethod" = VStr "eip3009").
Proof.
  intros Hsel Hr.
  destruct requirementsList as [| | flag | z | s | items | fields];
    try discriminate Hsel.
  cbn [X402Service.selectRequirements] in Hsel.
  destruct (findCompatible_found _ Hsel Hr) as [before [after [-> [Hb Hc]]]].
  split; [exists before, after; auto |].
  now apply compatible_true.
Qed.

Lemma selected_offer_is_first_compatible_witness :
  let other := VObj [("scheme", VStr "upto"); ("network", VStr "eip155:1030")] in
  (exists before after,
      VArr [other; Sample.requirements] = VArr (before ++ Sample.requirements :: after)
      /\ Forall (fun x => X402Service.compatible x = Ok false) before)
  /\ JS.getOpt Sample.requirements "scheme" = VStr "exact"
  /\ JS.getOpt Sample.requirements "network" = VStr "eip155:1030"
  /\ (JS.getOpt (JS.getOpt Sample.requirements "extra") "settlementMode"
      = VStr "transfer"
      \/ JS.getOpt (JS.getOpt Sample.requirements "extra") "assetTransferMethod"
         = VStr "eip3009").
Proof.
  apply (@selected_offer_is_first_compatible
           (VArr [VObj [("scheme", VStr "upto"); ("network", VStr "eip155:1030")];
                  Sample.requirements])
           Sample.requirements); [reflexivity | discriminate].
Defined.

Lemma getOpt_string_object (v : JSValue) (k s : string) :
  JS.getOpt v k = VStr s -> exists fields, v = VObj fields.
Proof. destruct v; try discriminate. eauto. Qed.

Lemma selected_offer_shape (requirementsList r : JSValue) :
  X402Service.selectRequirements requirementsList = Ok r ->
  r <> VUndefined ->
  exists fields,
    r = VObj fields
    /\ exists extraFields, JS.getOpt (VObj fields) "extra" = VObj extraFields.
Proof.
  intros Hsel Hr.
  destruct requirementsList as [| | flag | z | s | items | fields];
    try discriminate Hsel.
  cbn [X402Service.selectRequirements] in Hsel.
  destruct (findCompatible_found _ Hsel Hr) as [before [after [_ [_ Hc]]]].
  apply compatible_true in Hc as [Hs [_ Hmode]].
  destruct (@getOpt_string_object _ _ _ Hs) as [fields ->].
  exists fields. split; [reflexivity |].
  destruct Hmode as [H | H]; apply getOpt_string_object in H as [extraFields H];
    eauto.
Qed.

(** The EIP-712 domain of an offer: the token's name and version from
    [extra], Conflux eSpace, the asset as verifying contract. *)
Definition offerDomain (r : JSValue) : JSValue :=
VObj [("name", JS.getOpt (JS.getOpt r "extra") "name");
      ("version", JS.getOpt (JS.getOpt r "extra") "version");
      ("chainId", VNum 1030);
      ("verifyingContract", JS.getOpt r "asset")].

(** The authorization that pays an offer from [address]: to [payTo], the
    [amount], valid from 0 until one hour after the client's clock. *)
Definition offerAuthorization (address nonce : string) (dateNow : Z)
           (r : JSValue) : JSValue :=
VObj [("from", VStr address);
      ("to", JS.getOpt r "payTo");
      ("value", JS.getOpt r "amount");
      ("validAfter", VStr "0");
      ("validBefore", VStr (JSString.ofZ (dateNow / 1000 + 3600)));
      ("nonce", VStr nonce)].

(** X16. A selected offer can be signed: on an offer returned by
    [selectRequirements], [signPayment] reads every field without an error
    and fails only when the signer does (no address, or no signature).  It
    asks the signer for one signature, of the authorization that pays the
    offer from the signer's address, under the offer's domain; the payload
    it returns carries version 2, scheme "exact", the network, that
    signature and that authorization. *)
Theorem selected_offer_is_signable
        (requirementsList r : JSValue)
        (signer : X402Service.Signer) (nonce : string) (dateNow : Z) :
  X402Service.selectRequirements requirementsList = Ok r ->
  r <> VUndefined ->
  X402Service.signPayment signer nonce dateNow r
  = match signer.(X402Service.getAddress) with
    | Err e => Err e
    | Ok address =>
        match signer.(X402Service.signTypedData)
                (offerDomain r) (offerAuthorization address nonce dateNow r) with
        | Err e => Err e
        | Ok signature =>
            Ok (VObj [("x402Version", VNum 2); ("scheme", VStr "exact");
                      ("network", VStr "eip155:1030");
                      ("payload",
                       VObj [("signature", VStr signature);
                             ("authorization",
                              offerAuthorization address nonce dateNow r)])])
        end
    end.
Proof.
  intros Hsel Hr.
  destruct (@selected_offer_shape _ _ Hsel Hr) as [fields [-> [extraFields Hextra]]].
  unfold X402Service.signPayment, offerDomain, offerAuthorization.
  destruct (X402Service.getAddress signer) as [address | e]; [| reflexivity].
  cbn [JS.get]. fold (JS.getOpt (VObj fields) "extra"). rewrite Hextra.
  cbn [JS.get JS.getOpt]. reflexivity.
Qed.

Module ClientSample.

(** A signer that holds the buyer's address and signs everything. *)
Definition signer : X402Service.Signer :=
{| X402Service.getAddress := Ok Sample.buyer;
   X402Service.signTypedData := fun _ _ => Ok "0x5161" |}.

Definition nonce : string := Sample.nonce.

(** The client's clock, ten seconds before the facilitator's. *)
Definition dateNow : Z := 1699999990456.

End ClientSample.

Lemma selected_offer_is_signable_witness :
  X402Service.signPayment ClientSample.signer ClientSample.nonce
                          ClientSample.dateNow Sample.requirements
  = Ok (VObj [("x402Version", VNum 2); ("scheme", VStr "exact");
              ("network", VStr "eip155:1030");
              ("payload",
               VObj [("signature", VStr "0x5161");
                     ("authorization",
                      offerAuthorization Sample.buyer ClientSample.nonce
                                         ClientSample.dateNow
                                         Sample.requirements)])]).
Proof.
  apply (@selected_offer_is_signable (VArr [Sample.requirements])
           Sample.requirements ClientSample.signer ClientSample.nonce
           ClientSample.dateNow); [reflexivity | discriminate].
Defined.

(** ** The two readings of the client's selection *)

(** A value the client reads, as a document; [undefined] is none. *)
Definition offerOf (v : JSValue) : option JSONDoc.t :=
match v with
| VUndefined => None
| _ => Some (JSONDoc.ofValue v)
end.

Lemma lookup_wellFormed (k : string) (fields : list (string * JSValue)) :
  wellFormedFields fields = true ->
  JS.lookup k fields = VUndefined \/ wellFormed (JS.lookup k fields) = true.
Proof.
  induction fields as [| [k' x] r IH]; intros Hwf; [now left |].
  cbn [wellFormedFields] in Hwf.
  apply andb_prop in Hwf as [Hwf Hwr]. apply andb_prop in Hwf as [_ Hwx].
  cbn [JS.lookup].
  match goal with
  | |- context [if ?c then _ else _] => destruct c
  end; [now right | now apply IH].
Qed.

Lemma lookup_document (k : string) (fields : list (string * JSValue)) :
  wellFormedFields fields = true ->
  (if JSONDoc.hasKey (JSONDoc.unitsOf k) (fieldsOf fields)
   then Some (JSONDoc.lookup (JSONDoc.unitsOf k) (fieldsOf fields))
   else None)
  = offerOf (JS.lookup k fields).
Proof.
  induction fields as [| [k' x] r IH]; intros Hwf; [reflexivity |].
  cbn [wellFormedFields] in Hwf.
  apply andb_prop in Hwf as [Hwf Hwr]. apply andb_prop in Hwf as [_ Hwx].
  cbn [fieldsOf map JSONDoc.hasKey JSONDoc.lookup JS.lookup fst snd].
  fold (fieldsOf r). rewrite unitsEqb_unitsOf. unfold JSString.eqb.
  destruct (String.eqb k k'); cbn [orb].
  - destruct x; try reflexivity; discriminate Hwx.
  - now apply IH.
Qed.

Lemma property_document (v : JSValue) (k : string) :
  wellFormed v = true ->
  X402Service.property (offerOf v) k
  = match JS.get v k with
    | Ok x => Ok (offerOf x)
    | Err e => Err e
    end.
Proof.
  intros Hwf. destruct v as [| | b | z | s | items | fields];
    try reflexivity; try discriminate Hwf.
  rewrite wellFormed_object in Hwf.
  cbn [offerOf]. rewrite ofValue_object.
  cbn [X402Service.property JS.get]. now rewrite lookup_document.
Qed.

Lemma propertyOpt_document (v : JSValue) (k : string) :
  v = VUndefined \/ wellFormed v = true ->
  X402Service.propertyOpt (offerOf v) k = offerOf (JS.getOpt v k).
Proof.
  intros [-> | Hwf]; [reflexivity |].
  destruct v as [| | b | z | s | items | fields];
    try reflexivity; try discriminate Hwf.
  rewrite wellFormed_object in Hwf.
  cbn [offerOf]. rewrite ofValue_object.
  cbn [X402Service.propertyOpt JS.getOpt]. now rewrite lookup_document.
Qed.

Lemma isText_document (v : JSValue) (s : string) :
  X402Service.isText (offerOf v) s = JS.strictEqStr v s.
Proof.
  destruct v as [| | b | z | s' | items | fields]; try reflexivity.
  cbn [offerOf JSONDoc.ofValue X402Service.isText JS.strictEqStr].
  unfold JSString.eqb. apply unitsEqb_unitsOf.
Qed.

Lemma offerOf_wellFormed (v : JSValue) :
  wellFormed v = true -> offerOf v = Some (JSONDoc.ofValue v).
Proof. destruct v; try reflexivity; discriminate. Qed.

(** On the documents that are values of the handlers, the callback of
    [selectRequirements] decides the same either way. *)
Lemma compatibleOffer_document (r : JSValue) :
  wellFormed r = true ->
  X402Service.compatibleOffer (JSONDoc.ofValue r) = X402Service.compatible r.
Proof.
  intros Hwf. unfold X402Service.compatibleOffer, X402Service.compatible.
  rewrite <- (offerOf_wellFormed r Hwf).
  rewrite !(property_document r _ Hwf).
  destruct (JS.get r "scheme") as [scheme | e]; [| reflexivity].
  rewrite isText_document.
  destruct (negb (JS.strictEqStr scheme "exact")); [reflexivity |].
  destruct (JS.get r "network") as [net | e]; [| reflexivity].
  rewrite isText_document.
  destruct (negb (JS.strictEqStr net X402Service.network)); [reflexivity |].
  destruct (JS.get r "extra") as [extra | e] eqn:Hextra; [| reflexivity].
  assert (Hx : extra = VUndefined \/ wellFormed extra = true).
  { destruct r as [| | b | z | s | items | fields];
      try discriminate Hwf; cbn [JS.get] in Hextra;
      try (injection Hextra as <-; now left); try discriminate Hextra.
    injection Hextra as <-. rewrite wellFormed_object in Hwf.
    now apply lookup_wellFormed. }
  now rewrite !(propertyOpt_document _ Hx), !isText_document.
Qed.

(** And so does [selectRequirements]. *)
Lemma selectOffer_document (items : list JSValue) :
  forallb wellFormed items = true ->
  X402Service.selectOffer (JSONDoc.ofValue (VArr items))
  = match X402Service.selectRequirements (VArr items) with
    | Ok v => Ok (offerOf v)
    | Err e => Err e
    end.
Proof.
  cbn [JSONDoc.ofValue X402Service.selectOffer X402Service.selectRequirements].
  induction items as [| r items IH]; intros Hwf; [reflexivity |].
  cbn [forallb] in Hwf. apply andb_prop in Hwf as [Hr Hitems].
  cbn [map X402Service.findOffer X402Service.findCompatible].
  rewrite (compatibleOffer_document r Hr).
  destruct (X402Service.compatible r) as [[|] | e]; [| now apply IH | reflexivity].
  now rewrite (offerOf_wellFormed r Hr).
Qed.

(** X17. The client takes the gate's offer: when the requirements of a
    protected resource are a document (well-formed UTF-8, nested less
    than 512 deep, integers of magnitude below 2^53, distinct keys) that
    is compatible with the client (scheme "exact", network "eip155:1030",
    transfer or eip3009), the client's [parsePaymentRequired] reads the
    PAYMENT-REQUIRED header of the gate's 402 and [selectRequirements]
    returns the document of these very requirements. *)
Theorem client_selects_the_gates_offer (requirements : PHPValue)
        (d : JSONDoc.t) :
  PHP.document requirements = Some d ->
  PHP.nesting requirements < 512 ->
  JSONDoc.plain d = true ->
  X402Service.compatibleOffer (JSONDoc.enumerated d) = Ok true ->
  exists requirementsList,
    X402Service.parsePaymentRequired
      (responseHeader (X402Middleware.send402 requirements) "PAYMENT-REQUIRED")
    = Some requirementsList
    /\ X402Service.selectOffer requirementsList
       = Ok (Some (JSONDoc.enumerated d)).
Proof.
  intros Hd Hdepth Hp Hc. exists (JSONDoc.Arr [JSONDoc.enumerated d]). split.
  - rewrite send402_header.
    destruct (offer_text requirements Hd Hdepth Hp) as [t [-> Hparse]].
    unfold X402Service.parsePaymentRequired, PHP.base64_encode, PHP.strval.
    rewrite encode_nonempty by discriminate.
    now rewrite Base64Facts.atob_encode.
  - cbn [X402Service.selectOffer X402Service.findOffer].
    now rewrite Hc.
Qed.

Lemma client_selects_the_gates_offer_witness :
  exists requirementsList,
    X402Service.parsePaymentRequired
      (responseHeader
         (X402Middleware.send402
            (GateSample.aiRequirements Sample.treasury 100))
         "PAYMENT-REQUIRED")
    = Some requirementsList
    /\ X402Service.selectOffer requirementsList
       = Ok (Some (JSONDoc.enumerated
                     (GateSample.aiDocument Sample.treasury 100))).
Proof.
  apply (@client_selects_the_gates_offer
           (GateSample.aiRequirements Sample.treasury 100)
           (GateSample.aiDocument Sample.treasury 100)); reflexivity.
Defined.

(* ================================================================== *)
(** * Decimal strings as the facilitator reads them *)

Lemma digit_code (c : ascii) :
  JS.isDecDigit c = true -> 48 <= JSString.code c <= 57.
Proof.
  unfold JS.isDecDigit. intros H. apply andb_prop in H as [H1 H2].
  apply Z.leb_le in H1, H2. lia.
Qed.

Lemma digit_not_whitespace (c : ascii) :
  JS.isDecDigit c = true -> JSString.isWhiteSpace c = false.
Proof.
  intros H. apply digit_code in H. unfold JSString.isWhiteSpace.
  destruct (Z.leb_spec 9 (JSString.code c));
    destruct (Z.leb_spec (JSString.code c) 13);
    destruct (Z.eqb_spec (JSString.code c) 32);
    destruct (Z.eqb_spec (JSString.code c) 160); cbn; try reflexivity; lia.
Qed.

Lemma trimStart_digits (d : string) :
  allDigits d = true -> JSString.trimStart d = d.
Proof.
  destruct d as [| c d]; [reflexivity |].
  cbn [allDigits JSString.trimStart]. intros H.
  apply andb_prop in H as [Hc _].
  now rewrite (digit_not_whitespace _ Hc).
Qed.

Lemma allDigits_rev (d : string) :
  allDigits d = true -> allDigits (JSString.rev d) = true.
Proof.
  induction d as [| c d IH]; [reflexivity |].
  cbn [allDigits]. intros H. apply andb_prop in H as [Hc Hd].
  rewrite Base64Facts.rev_cons, allDigits_app, (IH Hd).
  cbn [allDigits]. now rewrite Hc.
Qed.

Lemma trim_digits (d : string) :
  allDigits d = true -> JSString.trim d = d.
Proof.
  intros H. unfold JSString.trim.
  rewrite (trimStart_digits _ H).
  rewrite (trimStart_digits _ (allDigits_rev _ H)).
  apply Base64Facts.rev_involutive.
Qed.

Lemma nonDecimalLiteral_digits (d : string) :
  allDigits d = true -> JS.nonDecimalLiteral d = None.
Proof.
  destruct d as [| c [| c' r]].
  - reflexivity.
  - intros _. unfold JS.nonDecimalLiteral.
    destruct c as [[] [] [] [] [] [] [] []]; reflexivity.
  - cbn [allDigits]. intros H.
    apply andb_prop in H as [_ H]. apply andb_prop in H as [Hc' _].
    apply digit_code in Hc'.
    assert (Hx : (JSString.code c' =? 120) || (JSString.code c' =? 88) = false)
      by (destruct (Z.eqb_spec (JSString.code c') 120);
          destruct (Z.eqb_spec (JSString.code c') 88); cbn; try reflexivity; lia).
    assert (Ho : (JSString.code c' =? 111) || (JSString.code c' =? 79) = false)
      by (destruct (Z.eqb_spec (JSString.code c') 111);
          destruct (Z.eqb_spec (JSString.code c') 79); cbn; try reflexivity; lia).
    assert (Hb : (JSString.code c' =? 98) || (JSString.code c' =? 66) = false)
      by (destruct (Z.eqb_spec (JSString.code c') 98);
          destruct (Z.eqb_spec (JSString.code c') 66); cbn; try reflexivity; lia).
    unfold JS.nonDecimalLiteral.
    destruct c as [[] [] [] [] [] [] [] []]; try reflexivity.
    now rewrite Hx, Ho, Hb.
Qed.

Lemma signedDecimal_numeral (n : Z) (d : string) :
  Numeral n d -> JS.signedDecimal d = Some n.
Proof.
  intros Hnum. pose proof (numeral_digits10 Hnum) as Hd.
  destruct Hnum as [Hall Hne _ _ _].
  destruct d as [| c d]; [congruence |].
  cbn [allDigits] in Hall. apply andb_prop in Hall as [Hc _].
  apply digit_code in Hc.
  unfold JS.signedDecimal.
  destruct c as [[] [] [] [] [] [] [] []]; try exact Hd;
    cbn in Hc; lia.
Qed.

Lemma StringToBigInt_ofZ (n : Z) :
  0 <= n -> JS.StringToBigInt (JSString.ofZ n) = Some n.
Proof.
  intros Hn. destruct (ofZ_numeral Hn) as [d [-> Hnum]].
  unfold JS.StringToBigInt.
  rewrite (trim_digits _ (numeral_digits Hnum)).
  rewrite (nonDecimalLiteral_digits _ (numeral_digits Hnum)).
  rewrite (signedDecimal_numeral Hnum).
  destruct d; [destruct (numeral_nonempty Hnum); reflexivity | reflexivity].
Qed.

Lemma plainBound_ofZ (n : Z) :
  0 <= n -> plainBound (VStr (JSString.ofZ n)) = true.
Proof.
  intros Hn. destruct (ofZ_numeral Hn) as [d [-> Hnum]].
  destruct (numeral_head_digit "" Hnum) as [c [t [Hd Hc]]].
  rewrite Base64Facts.app_nil_r in Hd. subst d.
  cbn [plainBound]. apply digit_code in Hc.
  destruct (Z.eqb_spec (JSString.code c) 45); [lia | reflexivity].
Qed.

(** ethers reads the decimal string of a uint256 as that number. *)
Lemma uint256_ofZ (n : Z) :
  0 <= n < 2 ^ 256 -> Ethers.uint256 (VStr (JSString.ofZ n)) = Ok n.
Proof.
  intros Hn.
  assert (Hplain := @plainBound_ofZ n ltac:(lia)).
  assert (Hbig := @StringToBigInt_ofZ n ltac:(lia)).
  unfold Ethers.uint256, Ethers.getBigInt.
  destruct (JSString.ofZ n) as [| c r] eqn:Hs; [discriminate Hplain |].
  cbn [plainBound] in Hplain. apply negb_true_iff in Hplain.
  rewrite Hplain. cbn [andb]. rewrite Hbig.
  destruct (Z.leb_spec 0 n); [| lia].
  destruct (Z.ltb_spec n (2 ^ 256)); [reflexivity | lia].
Qed.

(** A plain bound reads the same to ethers and to [BigInt]. *)
Lemma BigInt_of_plainBound (v : JSValue) (z : Z) :
  plainBound v = true -> Ethers.uint256 v = Ok z -> JS.BigInt v = Ok z.
Proof.
  unfold Ethers.uint256, Ethers.getBigInt.
  destruct v as [| | b | n | s | items | fields]; try discriminate.
  - intros _.
    destruct ((- Ethers.maxValue <=? n) && (n <=? Ethers.maxValue));
      [| discriminate].
    destruct ((0 <=? n) && (n <? 2 ^ 256)); [| discriminate].
    intros H. inversion H. reflexivity.
  - destruct s as [| c r]; [discriminate |].
    cbn [plainBound]. intros Hplain. apply negb_true_iff in Hplain.
    rewrite Hplain. cbn [andb].
    cbn [JS.BigInt JS.ToString].
    destruct (JS.StringToBigInt (String c r)) as [n |]; [| discriminate].
    destruct ((0 <=? n) && (n <? 2 ^ 256)); [| discriminate].
    intros H. inversion H. reflexivity.
Qed.

(* ================================================================== *)
(** * A payment that passes every check *)

Lemma bind_ret {A B} (a : A) (k : A -> M B) (t : list Event) :
  bind (ret a) k t = k a t.
Proof. reflexivity. Qed.

Lemma bind_emit {B} (ev : Event) (k : unit -> M B) (t : list Event) :
  bind (emit ev) k t = k tt (t ++ [ev])%list.
Proof. reflexivity. Qed.

Lemma bind_rejectIf_false {B} (statusCode : Z) (data : JSValue)
      (k : unit -> M B) (t : list Event) :
  bind (rejectIf false statusCode data) k t = k tt t.
Proof. reflexivity. Qed.

Lemma checkFunds_passes (env : Env) (requirements : JSValue) (a : Authorization)
      (balance v amount : Z) (t : list Event) :
  env.(balanceOf) (JS.getOpt requirements "asset") a.(from) = Ok balance ->
  JS.BigInt a.(value) = Ok v -> v <= balance ->
  outsideWindow env (unixNow env) a = false ->
  JS.BigInt (JS.getOpt requirements "amount") = Ok amount -> amount <= v ->
  checkFunds env requirements a t
  = (Normal tt,
     (t ++ [EvBalanceOf (JS.getOpt requirements "asset") a.(from); EvClock])%list).
Proof.
  intros Hbal Hv Hle Hwin Ham Hpaid. unfold checkFunds.
  rewrite bind_emit, Hbal, bind_lift_ok, Hv, bind_lift_ok.
  replace (balance <? v) with false by (symmetry; apply Z.ltb_ge; lia).
  rewrite bind_rejectIf_false, bind_emit, Hwin, bind_rejectIf_false.
  rewrite bind_lift_ok, Ham, bind_lift_ok.
  replace (v <? amount) with false by (symmetry; apply Z.ltb_ge; lia).
  cbn [rejectIf ret]. now rewrite <- List.app_assoc.
Qed.

(** When every check of [handleVerifyTransfer] holds, its [try] block
    ends after [{valid: true}]. *)
Lemma verifyTransferChecks_passes (env : Env) (payload requirements : JSValue)
      (info : AssetInfo) (a : Authorization) (sig : JSValue)
      (signer lower : string) (balance v amount : Z) (t : list Event) :
  checkEnvelope payload requirements t = (Normal info, t) ->
  JS.getOpt (JS.getOpt requirements "extra") "settlementMode" = VStr "transfer" ->
  readAuthorization payload t = (Normal a, t) ->
  readSignature payload t = (Normal sig, t) ->
  verifyTypedData env (domainOf info requirements) a sig = Ok signer ->
  JS.toLowerCase a.(from) = Ok (JSString.toLowerCase signer) ->
  JS.toLowerCase a.(to) = Ok lower ->
  JS.toLowerCase (JS.getOpt requirements "payTo") = Ok lower ->
  env.(balanceOf) (JS.getOpt requirements "asset") a.(from) = Ok balance ->
  JS.BigInt a.(value) = Ok v -> v <= balance ->
  outsideWindow env (unixNow env) a = false ->
  JS.BigInt (JS.getOpt requirements "amount") = Ok amount -> amount <= v ->
  verifyTransferChecks env payload requirements t
  = (Normal tt,
     (t ++ [EvBalanceOf (JS.getOpt requirements "asset") a.(from); EvClock;
            EvRespond 200 valid])%list).
Proof.
  intros Henv Hmode Hau Hsig Hrec Hfrom Hto Hpay Hbal Hv Hle Hwin Ham Hpaid.
  unfold verifyTransferChecks.
  rewrite (@bind_normal _ _ _ _ _ _ _ Henv).
  rewrite Hmode. cbn [JS.strictEqStr JSString.eqb String.eqb Ascii.eqb Bool.eqb negb].
  rewrite bind_rejectIf_false.
  rewrite (@bind_normal _ _ _ _ _ _ _ Hau).
  rewrite (@bind_normal _ _ _ _ _ _ _ Hsig).
  rewrite Hrec, bind_lift_ok, Hfrom, bind_lift_ok.
  rewrite String.eqb_refl. cbn [negb]. rewrite bind_rejectIf_false.
  rewrite Hto, bind_lift_ok, Hpay, bind_lift_ok.
  rewrite String.eqb_refl. cbn [negb]. rewrite bind_rejectIf_false.
  rewrite (@bind_normal _ _ _ _ _ _ _
             (checkFunds_passes env requirements a t Hbal Hv Hle Hwin Ham Hpaid)).
  unfold sendJson, emit. now rewrite <- List.app_assoc.
Qed.

Lemma configured_asset_is_eip3009 (addr : string) (info : AssetInfo) :
  CONFIG.asset addr = Some info -> info.(eip3009) = true.
Proof.
  unfold CONFIG.asset, CONFIG.assets, CONFIG.lookupIn.
  repeat match goal with
         | |- context [String.eqb addr ?k] => destruct (String.eqb addr k)
         end;
    intros H; inversion H; reflexivity.
Qed.

(** The handler's window test passes between 0 and a safe bound. *)
Lemma inside_window (env : Env) (a : Authorization) (vb : Z) :
  a.(validAfter) = VStr (JSString.ofZ 0) ->
  a.(validBefore) = VStr (JSString.ofZ vb) ->
  0 <= unixNow env <= vb -> vb < 2 ^ 53 ->
  outsideWindow env (unixNow env) a = false.
Proof.
  intros Hva Hvb Hnow Hsafe. unfold outsideWindow. rewrite Hva, Hvb.
  rewrite (@Number_of_plainBound _ (VStr (JSString.ofZ 0)) 0)
    by (try apply plainBound_ofZ; try apply uint256_ofZ; lia).
  rewrite (@Number_of_plainBound _ (VStr (JSString.ofZ vb)) vb)
    by (try apply plainBound_ofZ; try apply uint256_ofZ; lia).
  rewrite !roundInt_safe by lia.
  unfold Double.gt, Double.ofInt. cbn. rewrite !Z.mul_1_r.
  apply orb_false_iff. split; apply Z.ltb_ge; lia.
Qed.

(** X18. An honest payment is accepted.  Take an offer for a configured
    asset in transfer mode; let the client's [signPayment] build the payload
    for it.  If the signature is one from which ethers recovers the
    client's address under the facilitator's domain, the client holds the
    amount, and the facilitator's clock is past 1970 and not more than an
    hour ahead of the client's, then verify-transfer reads the balance and
    the clock once and answers [{valid: true}]. *)
Theorem signed_payment_is_accepted
        (env : Env) (key : string)
        (signer : X402Service.Signer) (nonce : string) (clientNow : Z)
        (requirements payload : JSValue)
        (address payTo assetAddr signature recovered : string)
        (info : AssetInfo) (amount balance : Z) :
  keyRejected env (Some key) = false ->
  JS.getOpt requirements "asset" = VStr assetAddr ->
  CONFIG.asset (JSString.toLowerCase assetAddr) = Some info ->
  JS.getOpt (JS.getOpt requirements "extra") "settlementMode" = VStr "transfer" ->
  JS.getOpt requirements "payTo" = VStr payTo ->
  plainBound (JS.getOpt requirements "amount") = true ->
  Ethers.uint256 (JS.getOpt requirements "amount") = Ok amount ->
  signer.(X402Service.getAddress) = Ok address ->
  X402Service.signPayment signer nonce clientNow requirements = Ok payload ->
  JS.getOpt (JS.getOpt payload "payload") "signature" = VStr signature ->
  env.(recoverSigner) (domainOf info requirements) (VStr address) (VStr payTo)
                      amount 0 (clientNow / 1000 + 3600)
                      (VStr nonce) (VStr signature)
  = Ok recovered ->
  JSString.toLowerCase recovered = JSString.toLowerCase address ->
  env.(balanceOf) (VStr assetAddr) (VStr address) = Ok balance ->
  amount <= balance ->
  0 <= unixNow env <= clientNow / 1000 + 3600 ->
  clientNow / 1000 + 3600 < 2 ^ 53 ->
  serve env (Sample.post "/x402/verify-transfer" key
               (BodyJson (VObj [("payload", payload);
                                ("requirements", requirements)])))
  = [EvReadBody; EvBalanceOf (VStr assetAddr) (VStr address); EvClock;
     EvRespond 200 (VObj [("valid", VBool true)])].
Proof.
  intros Hk Hasset Hinfo Hmode HpayTo Hplain Hamount Haddr Hsign Hsig
         Hrec Hsame Hbal Hle Hnow Hsafe.
  destruct (@getOpt_string_object _ _ _ Hasset) as [fields ->].
  destruct (@getOpt_string_object _ _ _ Hmode) as [extraFields Hextra].
  (* the payload the client built *)
  unfold X402Service.signPayment in Hsign. rewrite Haddr in Hsign.
  cbn [JS.get] in Hsign. fold (JS.getOpt (VObj fields) "extra") in Hsign.
  rewrite Hextra in Hsign. cbn [JS.get] in Hsign.
  destruct (X402Service.signTypedData signer _ _) as [sig0 | e];
    [| discriminate Hsign].
  injection Hsign as <-.
  cbn in Hsig. injection Hsig as ->.
  set (rq := VObj fields) in *.
  set (a := {| from := VStr address;
               to := JS.getOpt rq "payTo";
               value := JS.getOpt rq "amount";
               validAfter := VStr (JSString.ofZ 0);
               validBefore := VStr (JSString.ofZ (clientNow / 1000 + 3600));
               nonce := VStr nonce |}).
  unfold serve.
  rewrite server_verify_transfer by reflexivity.
  erewrite handleVerifyTransfer_run;
    [| exact Hk | reflexivity | reflexivity | reflexivity].
  unfold tryCatch.
  erewrite (@verifyTransferChecks_passes env _ rq info a (VStr signature)
              recovered (JSString.toLowerCase payTo) balance amount amount).
  - cbn [app]. rewrite Hasset. reflexivity.
  - unfold checkEnvelope.
    cbn [JS.get JS.lookup JSString.eqb String.eqb Ascii.eqb Bool.eqb
         X402Service.x402Version X402Service.network].
    rewrite bind_lift_ok.
    cbn [JS.strictEqNum Z.eqb Pos.eqb negb]. rewrite bind_rejectIf_false.
    rewrite bind_lift_ok.
    cbn [JS.strictEqStr JSString.eqb String.eqb Ascii.eqb Bool.eqb negb].
    rewrite bind_rejectIf_false, bind_lift_ok.
    unfold CONFIG.network.
    cbn [JS.strictEqStr JSString.eqb String.eqb Ascii.eqb Bool.eqb negb].
    rewrite bind_rejectIf_false.
    change (JS.get rq "asset") with (Ok (JS.getOpt rq "asset")).
    rewrite Hasset, bind_lift_ok.
    cbn [JS.toLowerCase]. rewrite bind_lift_ok, Hinfo.
    now rewrite (configured_asset_is_eip3009 _ Hinfo).
  - exact Hmode.
  - reflexivity.
  - reflexivity.
  - unfold verifyTypedData, a. cbn [value validAfter validBefore from to].
    rewrite Hamount.
    rewrite (@uint256_ofZ 0) by lia.
    rewrite uint256_ofZ by lia.
    rewrite HpayTo. exact Hrec.
  - unfold a. cbn [from JS.toLowerCase]. now rewrite Hsame.
  - unfold a. cbn [to]. rewrite HpayTo. reflexivity.
  - rewrite HpayTo. reflexivity.
  - unfold a. cbn [from]. rewrite Hasset. exact Hbal.
  - unfold a. cbn [value]. now apply BigInt_of_plainBound.
  - exact Hle.
  - apply (@inside_window env a (clientNow / 1000 + 3600));
      try reflexivity; lia.
  - now apply BigInt_of_plainBound.
  - lia.
Qed.

Module SignedSample.

(** The payload [signPayment] builds for the sample offer. *)
Definition payload : JSValue :=
  Eval vm_compute in
    match X402Service.signPayment ClientSample.signer ClientSample.nonce
                                  ClientSample.dateNow Sample.requirements with
    | Ok p => p
    | Err _ => VUndefined
    end.

End SignedSample.

Lemma signed_payment_is_accepted_witness :
  serve Sample.env
        (Sample.post "/x402/verify-transfer" "secret"
           (BodyJson (VObj [("payload", SignedSample.payload);
                            ("requirements", Sample.requirements)])))
  = [EvReadBody;
     EvBalanceOf (VStr "0xaf37e8b6c9ed7f6318979f56fc287d76c30847ff")
                 (VStr Sample.buyer);
     EvClock;
     EvRespond 200 (VObj [("valid", VBool true)])].
Proof.
  apply (@signed_payment_is_accepted Sample.env "secret"
           ClientSample.signer ClientSample.nonce ClientSample.dateNow
           Sample.requirements SignedSample.payload
           Sample.buyer Sample.treasury
           "0xaf37e8b6c9ed7f6318979f56fc287d76c30847ff" "0x5161" Sample.buyer
           {| symbol := "USDT0"; decimals := 6; eip3009 := true;
              eip712Name := "USDT0"; eip712Version := "1" |}
           100 1000000);
    try (vm_compute; reflexivity);
    try (vm_compute; intuition discriminate).
Defined.

(* ================================================================== *)
(** * The facilitator's environment loader *)

Module LoaderFacts.

Import JSText Loader.

Lemma getenv_setenv_other (penv : ProcessEnv) (key value name : string) :
  key <> name -> getenv (setenv penv key value) name = getenv penv name.
Proof.
  intros Hne. unfold setenv.
  destruct (String.eqb key ""); [reflexivity |].
  cbn [getenv]. now rewrite (proj2 (String.eqb_neq key name) Hne).
Qed.

Lemma getenv_setenv_same (penv : ProcessEnv) (key value : string) :
  key <> "" -> getenv (setenv penv key value) key = Some value.
Proof.
  intros Hne. unfold setenv.
  rewrite (proj2 (String.eqb_neq key "") Hne).
  cbn [getenv]. now rewrite String.eqb_refl.
Qed.

(** A turn of the loop leaves a variable with a value alone. *)
Lemma loadLine_keeps (penv : ProcessEnv) (line name v : string) :
  getenv penv name = Some v -> v <> "" ->
  getenv (loadLine penv line) name = Some v.
Proof.
  intros Hget Hv. unfold loadLine.
  destruct (parseLine line) as [[key value] |]; [| exact Hget].
  destruct (isSet penv key) eqn:Hset; [exact Hget |].
  destruct (String.eqb_spec key name) as [-> | Hne].
  - unfold isSet in Hset. rewrite Hget in Hset.
    apply negb_false_iff, String.eqb_eq in Hset. contradiction.
  - now rewrite getenv_setenv_other.
Qed.

Lemma loadLine_defined (penv : ProcessEnv) (line name v : string) :
  getenv penv name = Some v ->
  exists v', getenv (loadLine penv line) name = Some v'.
Proof.
  intros Hget. unfold loadLine.
  destruct (parseLine line) as [[key value] |]; [| eauto].
  destruct (isSet penv key); [eauto |].
  unfold setenv. destruct (String.eqb key ""); [eauto |].
  cbn [getenv]. destruct (String.eqb key name); eauto.
Qed.

Lemma lines_keep (lines : list string) (penv : ProcessEnv) (name v : string) :
  getenv penv name = Some v -> v <> "" ->
  getenv (fold_left loadLine lines penv) name = Some v.
Proof.
  revert penv. induction lines as [| line lines IH]; intros penv Hget Hv.
  - exact Hget.
  - cbn [fold_left]. apply IH; [| exact Hv]. now apply loadLine_keeps.
Qed.

Lemma lines_defined (lines : list string) (penv : ProcessEnv) (name v : string) :
  getenv penv name = Some v ->
  exists v', getenv (fold_left loadLine lines penv) name = Some v'.
Proof.
  revert penv v. induction lines as [| line lines IH]; intros penv v Hget.
  - eauto.
  - cbn [fold_left].
    destruct (loadLine_defined penv line name Hget) as [v' Hv'].
    exact (IH _ _ Hv').
Qed.

(** A line that does not define [name] leaves it alone. *)
Lemma loadLine_other (penv : ProcessEnv) (line name : string) :
  (forall v, parseLine line <> Some (name, v)) ->
  getenv (loadLine penv line) name = getenv penv name.
Proof.
  intros Hother. unfold loadLine.
  destruct (parseLine line) as [[key value] |]; [| reflexivity].
  destruct (isSet penv key); [reflexivity |].
  destruct (String.eqb_spec key name) as [-> | Hne].
  - now destruct (Hother value).
  - now apply getenv_setenv_other.
Qed.

Lemma lines_other (lines : list string) (penv : ProcessEnv) (name : string) :
  Forall (fun line => forall v, parseLine line <> Some (name, v)) lines ->
  getenv (fold_left loadLine lines penv) name = getenv penv name.
Proof.
  revert penv. induction lines as [| line lines IH]; intros penv Hall.
  - reflexivity.
  - inversion Hall as [| ? ? Hline Hrest]; subst. cbn [fold_left].
    rewrite (IH _ Hrest). now apply loadLine_other.
Qed.

End LoaderFacts.

(** X19. The process environment wins over the file: a variable that has
    a non-empty value when [loadEnv] starts has the same value when it ends,
    whatever the .env file holds, and no variable is ever removed. *)
Theorem environment_wins_over_file
        (file : option string) (penv : Loader.ProcessEnv) (name v : string) :
  Loader.getenv penv name = Some v ->
  (v <> "" -> Loader.getenv (Loader.loadEnv file penv) name = Some v)
  /\ Loader.getenv (Loader.loadEnv file penv) name <> None.
Proof.
  intros Hget. unfold Loader.loadEnv.
  destruct file as [content |].
  - split.
    + intros Hv. now apply LoaderFacts.lines_keep.
    + destruct (LoaderFacts.lines_defined (JSText.split "010" content)
                  penv name Hget) as [v' ->]. discriminate.
  - split; [intros _; exact Hget | rewrite Hget; discriminate].
Qed.

(** X20. The first definition wins: when a line of the file defines a
    variable with a non-empty value, no line before it defines that
    variable, and the variable has no value in the process environment,
    [loadEnv] leaves the variable with the value of that line; later lines
    do not change it. *)
Theorem first_definition_wins
        (content : string) (before after : list string) (line : string)
        (penv : Loader.ProcessEnv) (key value : string) :
  JSText.split "010" content = (before ++ line :: after)%list ->
  Forall (fun l => forall v, Loader.parseLine l <> Some (key, v)) before ->
  Loader.parseLine line = Some (key, value) ->
  key <> "" -> value <> "" ->
  Loader.isSet penv key = false ->
  Loader.getenv (Loader.loadEnv (Some content) penv) key = Some value.
Proof.
  intros Hsplit Hbefore Hline Hkey Hvalue Hunset.
  unfold Loader.loadEnv. rewrite Hsplit, fold_left_app. cbn [fold_left].
  apply LoaderFacts.lines_keep; [| exact Hvalue].
  set (penv' := fold_left Loader.loadLine before penv).
  assert (Hsame : Loader.getenv penv' key = Loader.getenv penv key)
    by now apply LoaderFacts.lines_other.
  unfold Loader.loadLine. rewrite Hline.
  assert (Hunset' : Loader.isSet penv' key = false)
    by (unfold Loader.isSet in *; now rewrite Hsame).
  rewrite Hunset'. now apply LoaderFacts.getenv_setenv_same.
Qed.

Module LoaderSample.

Definition newline : string := String "010" "".

(** A file that defines the key twice, after a comment. *)
Definition content : string :=
"# shared secret" ++ newline
++ "X402_FACILITATOR_KEY=first" ++ newline
++ "X402_FACILITATOR_KEY=second".

End LoaderSample.

Lemma environment_wins_over_file_witness :
  ("from-shell" <> "" ->
   Loader.getenv (Loader.loadEnv (Some LoaderSample.content)
                                 [("X402_FACILITATOR_KEY", "from-shell")])
                 "X402_FACILITATOR_KEY"
   = Some "from-shell")
  /\ Loader.getenv (Loader.loadEnv (Some LoaderSample.content)
                                   [("X402_FACILITATOR_KEY", "from-shell")])
                   "X402_FACILITATOR_KEY"
     <> None.
Proof.
  apply (@environment_wins_over_file (Some LoaderSample.content)
           [("X402_FACILITATOR_KEY", "from-shell")]
           "X402_FACILITATOR_KEY" "from-shell").
  reflexivity.
Defined.

Lemma first_definition_wins_witness :
  Loader.getenv (Loader.loadEnv (Some LoaderSample.content) [("PATH", "/usr/bin")])
                "X402_FACILITATOR_KEY"
  = Some "first".
Proof.
  apply (@first_definition_wins LoaderSample.content
           ["# shared secret"] ["X402_FACILITATOR_KEY=second"]
           "X402_FACILITATOR_KEY=first" [("PATH", "/usr/bin")]
           "X402_FACILITATOR_KEY" "first");
    try reflexivity; try discriminate.
  constructor; [intros v; vm_compute; discriminate | constructor].
Defined.

Module LoaderParsing.

Import JSText Loader.

Lemma take_app (a b : string) : take (String.length a) (a ++ b) = a.
Proof. induction a as [| c a IH]; cbn; [now destruct b | now rewrite IH]. Qed.

Lemma drop_app (a b : string) : drop (String.length a) (a ++ b) = b.
Proof. induction a as [| c a IH]; cbn; [now destruct b | exact IH]. Qed.

Lemma take_all (s : string) : take (String.length s) s = s.
Proof. induction s as [| c s IH]; cbn; [reflexivity | now rewrite IH]. Qed.

Lemma length_append (a b : string) :
  length (a ++ b) = length a + length b.
Proof. unfold length. rewrite Base64Facts.length_app. lia. Qed.

Lemma length_nonneg (s : string) : 0 <= length s.
Proof. unfold length. lia. Qed.

Lemma includes_app (c : ascii) (name rest : string) :
  includes c (name ++ String c rest) = true.
Proof.
  induction name as [| x name IH]; cbn [append includes].
  - now rewrite Ascii.eqb_refl.
  - rewrite IH. apply orb_true_r.
Qed.

Lemma indexOf_app (c : ascii) (name rest : string) :
  includes c name = false ->
  indexOf c (name ++ String c rest) = length name.
Proof.
  unfold length.
  induction name as [| x name IH]; cbn [append includes indexOf String.length].
  - intros _. now rewrite Ascii.eqb_refl.
  - intros H. apply orb_false_iff in H as [Hx Hrest].
    rewrite Hx, (IH Hrest).
    destruct (Z.ltb_spec (Z.of_nat (String.length name)) 0); lia.
Qed.

Lemma substring_prefix (name rest : string) :
  substring (name ++ rest) 0 (length name) = name.
Proof.
  unfold substring, between. rewrite length_append.
  pose proof (length_nonneg name). pose proof (length_nonneg rest).
  rewrite (Z.min_l 0) by lia. rewrite (Z.max_l 0 0) by lia.
  rewrite (Z.min_l (length name)) by lia.
  rewrite (Z.max_r 0 (length name)) by lia.
  rewrite (Z.min_l 0), (Z.max_r 0) by lia.
  rewrite Z.sub_0_r. unfold length. rewrite Nat2Z.id. cbn [Z.to_nat drop].
  apply take_app.
Qed.

Lemma substringFrom_suffix (name rest : string) (c : ascii) :
  substringFrom (name ++ String c rest) (length name + 1) = rest.
Proof.
  unfold substringFrom, substring, between. rewrite length_append.
  change (length (String c rest)) with (Z.of_nat (S (String.length rest))).
  pose proof (length_nonneg name).
  set (n := length name) in *.
  set (m := Z.of_nat (S (String.length rest))).
  assert (Hm : 1 <= m) by (unfold m; lia).
  rewrite (Z.min_l (n + 1)) by lia.
  rewrite (Z.max_r 0 (n + 1)) by lia.
  rewrite (Z.min_l (n + m)) by lia.
  rewrite (Z.max_r 0 (n + m)) by lia.
  rewrite (Z.min_l (n + 1)), (Z.max_r (n + 1)) by lia.
  replace (n + m - (n + 1)) with (Z.of_nat (String.length rest)) by (unfold m; lia).
  replace (Z.to_nat (n + 1)) with (String.length (name ++ String c ""))
    by (rewrite Base64Facts.length_app; unfold n, length; cbn; lia).
  replace (name ++ String c rest) with ((name ++ String c "") ++ rest)
    by now rewrite Base64Facts.app_assoc.
  rewrite drop_app, Nat2Z.id. apply take_all.
Qed.

Lemma startsWith_app (c : ascii) (name rest : string) :
  name <> "" -> startsWith c (name ++ rest) = startsWith c name.
Proof. destruct name; [congruence | reflexivity]. Qed.

Lemma endsWith_last (c q : ascii) (inner : string) :
  endsWith c (inner ++ String q "") = Ascii.eqb q c.
Proof.
  induction inner as [| x inner IH]; [reflexivity |].
  cbn [append endsWith]. rewrite IH.
  destruct (inner ++ String q "") eqn:E; [| reflexivity].
  destruct inner; discriminate E.
Qed.

Lemma trim_enclosed (q : ascii) (inner : string) :
  JSString.isWhiteSpace q = false ->
  JSString.trim (String q (inner ++ String q ""))
  = String q (inner ++ String q "").
Proof.
  intros Hq. unfold JSString.trim.
  cbn [JSString.trimStart]. rewrite Hq.
  rewrite Base64Facts.rev_cons, Base64Facts.rev_app.
  change (JSString.rev (String q "")) with (String q "").
  cbn [append JSString.trimStart]. rewrite Hq.
  change (String q (JSString.rev inner ++ String q ""))
    with (String q "" ++ (JSString.rev inner ++ String q "")).
  rewrite Base64Facts.rev_app, Base64Facts.rev_app.
  change (JSString.rev (String q "")) with (String q "").
  now rewrite Base64Facts.rev_involutive.
Qed.

Lemma slice_enclosed (q : ascii) (inner : string) :
  slice (String q (inner ++ String q "")) 1 (-1) = inner.
Proof.
  unfold slice, between.
  change (length (String q (inner ++ String q "")))
    with (Z.of_nat (S (String.length (inner ++ String q "")))).
  rewrite Base64Facts.length_app.
  change (String.length (String q "")) with 1%nat.
  set (n := String.length inner).
  cbn [Z.ltb Z.compare].
  rewrite (Z.min_l 1) by lia.
  rewrite (Z.max_l (Z.of_nat (S (n + 1)) + -1) 0) by lia.
  rewrite (Z.max_r 1) by lia.
  replace (Z.of_nat (S (n + 1)) + -1 - 1) with (Z.of_nat n) by lia.
  rewrite Nat2Z.id. change (Z.to_nat 1) with 1%nat. cbn [drop].
  apply take_app.
Qed.

End LoaderParsing.

Lemma parseLine_at_first_equals (name raw : string) :
  name <> "" ->
  JSText.includes "=" name = false ->
  JSText.startsWith "#" name = false ->
  Loader.parseLine (name ++ String "=" raw)
  = Some (JSString.trim name, Loader.unquote (JSString.trim raw)).
Proof.
  intros Hne Heq Hhash. unfold Loader.parseLine.
  assert (Hline : String.eqb (name ++ String "=" raw) "" = false)
    by (destruct name; [congruence | reflexivity]).
  rewrite Hline, LoaderParsing.startsWith_app, Hhash by exact Hne.
  rewrite LoaderParsing.includes_app. cbn [negb orb].
  rewrite LoaderParsing.indexOf_app by exact Heq.
  rewrite LoaderParsing.substring_prefix, LoaderParsing.substringFrom_suffix.
  reflexivity.
Qed.

(** X21. A line of the .env file is split at its first [=]: for a name
    that is not empty, holds no [=] and does not start with [#], the line
    [name=raw] defines the trimmed name with the value [raw], trimmed and
    with one pair of enclosing quotes removed; further [=] and [#]
    characters in [raw] belong to the value. *)
Theorem line_is_split_at_first_equals (name raw : string) :
  name <> "" ->
  JSText.includes "=" name = false ->
  JSText.startsWith "#" name = false ->
  Loader.parseLine (name ++ String "=" raw)
  = Some (JSString.trim name, Loader.unquote (JSString.trim raw)).
Proof. exact (@parseLine_at_first_equals name raw). Qed.

Lemma line_is_split_at_first_equals_witness :
  Loader.parseLine ("API_URL" ++ String "=" " http://localhost/ai.php?q=1#top ")
  = Some (JSString.trim "API_URL",
          Loader.unquote (JSString.trim " http://localhost/ai.php?q=1#top ")).
Proof.
  apply line_is_split_at_first_equals; [discriminate | reflexivity | reflexivity].
Defined.

(** X22. A value in matching quotes is taken word for word: for a double
    or a single quote [q], the raw value [q inner q] is read as [inner],
    with its leading and trailing white space kept. *)
Theorem quoted_value_is_verbatim (q : ascii) (inner : string) :
  q = Loader.dquote \/ q = Loader.squote ->
  Loader.unquote (JSString.trim (String q (inner ++ String q ""))) = inner.
Proof.
  intros Hq.
  assert (Hws : JSString.isWhiteSpace q = false)
    by (destruct Hq; subst q; reflexivity).
  rewrite LoaderParsing.trim_enclosed by exact Hws.
  unfold Loader.unquote. cbn [JSText.startsWith].
  assert (Hend : forall c,
             JSText.endsWith c (String q (inner ++ String q "")) = Ascii.eqb q c)
    by (intros c; apply (LoaderParsing.endsWith_last c q (String q inner))).
  rewrite !Hend.
  assert (Hquoted : Ascii.eqb q Loader.dquote && Ascii.eqb q Loader.dquote
                    || Ascii.eqb q Loader.squote && Ascii.eqb q Loader.squote
                    = true)
    by (destruct Hq; subst q; reflexivity).
  rewrite Hquoted. apply LoaderParsing.slice_enclosed.
Qed.

Lemma quoted_value_is_verbatim_witness :
  Loader.unquote (JSString.trim (String Loader.dquote ("  two words " ++ String Loader.dquote "")))
  = "  two words ".
Proof.
  apply quoted_value_is_verbatim. left. reflexivity.
Defined.

(* ================================================================== *)
(** * The gate's environment loader *)

Module EnvLoaderFacts.

Import EnvLoader.

(** What a turn of the loop does to the three stores. *)
Lemma loadLine_done (st st' : State) (line : string) :
  loadLine st line = Done st' ->
  st'.(loaded) = st.(loaded)
  /\ match parseLine line with
     | None => st' = st
     | Some (name, value) =>
         st'.(vars) = (name, value) :: st.(vars)
         /\ st'.(environment)
            = match lookup st.(environment) name with
              | None => (name, value) :: st.(environment)
              | Some _ => st.(environment)
              end
         /\ st'.(ENV)
            = match lookup st.(ENV) name with
              | None => (name, value) :: st.(ENV)
              | Some _ => st.(ENV)
              end
     end.
Proof.
  unfold loadLine.
  destruct (parseLine line) as [[name value] |].
  - destruct (lookup (environment st) name).
    + intros H. inversion H. cbn. auto.
    + destruct (String.eqb name ""); [discriminate |].
      intros H. inversion H. cbn. auto.
  - intros H. inversion H. auto.
Qed.

Lemma lookup_cons_other (entries : list (string * string)) (k v name : string) :
  k <> name -> lookup ((k, v) :: entries) name = lookup entries name.
Proof.
  intros Hne. cbn [lookup]. now rewrite (proj2 (String.eqb_neq k name) Hne).
Qed.

Lemma lookup_cons_same (entries : list (string * string)) (k v : string) :
  lookup ((k, v) :: entries) k = Some v.
Proof. cbn [lookup]. now rewrite String.eqb_refl. Qed.

(** A line that does not define [name] leaves [name] as it is in the
    three stores. *)
Lemma loadLine_elsewhere (st st' : State) (line name : string) :
  (forall v, parseLine line <> Some (name, v)) ->
  loadLine st line = Done st' ->
  lookup st'.(vars) name = lookup st.(vars) name
  /\ lookup st'.(environment) name = lookup st.(environment) name
  /\ lookup st'.(ENV) name = lookup st.(ENV) name.
Proof.
  intros Hother Hdone.
  destruct (loadLine_done _ _ Hdone) as [_ Hstores].
  destruct (parseLine line) as [[k v] |]; [| now subst st'].
  assert (Hne : k <> name) by (intros ->; now apply (Hother v)).
  destruct Hstores as [-> [-> ->]].
  split; [now apply lookup_cons_other |].
  split.
  - destruct (lookup (environment st) k); [reflexivity |].
    now apply lookup_cons_other.
  - destruct (lookup (ENV st) k); [reflexivity |].
    now apply lookup_cons_other.
Qed.

Lemma loadLines_other (lines : list string) (st st' : State) (name : string) :
  Forall (fun line => forall v, parseLine line <> Some (name, v)) lines ->
  loadLines st lines = Done st' ->
  lookup st'.(vars) name = lookup st.(vars) name
  /\ lookup st'.(environment) name = lookup st.(environment) name
  /\ lookup st'.(ENV) name = lookup st.(ENV) name.
Proof.
  revert st. induction lines as [| line lines IH]; intros st Hall Hdone.
  - cbn in Hdone. inversion Hdone. auto.
  - inversion Hall as [| ? ? Hline Hrest]; subst.
    cbn [loadLines] in Hdone.
    destruct (loadLine st line) as [st1 | |] eqn:H1; try discriminate.
    destruct (loadLine_elsewhere _ _ Hline H1) as [Hv [He HE]].
    destruct (IH _ Hrest Hdone) as [Hv' [He' HE']].
    rewrite Hv', He', HE'. auto.
Qed.

Lemma loadLines_app (st : State) (a b : list string) :
  loadLines st (a ++ b)
  = match loadLines st a with
    | Done st' => loadLines st' b
    | ValueError => ValueError
    | MissingVariable name => MissingVariable name
    end.
Proof.
  revert st. induction a as [| line a IH]; intros st; cbn [app loadLines].
  - reflexivity.
  - destruct (loadLine st line); [apply IH | reflexivity | reflexivity].
Qed.

(** The loader throws only on an assignment without a name. *)
Lemma loadLines_throws (lines : list string) (st : State) :
  match loadLines st lines with
  | Done _ => True
  | ValueError => exists line v, In line lines /\ parseLine line = Some ("", v)
  | MissingVariable _ => False
  end.
Proof.
  revert st. induction lines as [| line lines IH]; intros st; cbn [loadLines].
  - exact I.
  - destruct (loadLine st line) as [st1 | | missing] eqn:H1.
    + specialize (IH st1). destruct (loadLines st1 lines); [exact I | | exact IH].
      destruct IH as [l [v [Hin Hl]]]. exists l, v. split; [now right | exact Hl].
    + unfold loadLine in H1.
      destruct (parseLine line) as [[name value] |] eqn:Hp; [| discriminate].
      destruct (lookup (environment st) name); [discriminate |].
      destruct (String.eqb_spec name ""); [| discriminate].
      subst name. exists line, value. split; [now left | exact Hp].
    + unfold loadLine in H1.
      destruct (parseLine line) as [[name value] |]; [| discriminate].
      destruct (lookup (environment st) name); [discriminate |].
      destruct (String.eqb name ""); discriminate.
Qed.

End EnvLoaderFacts.

Lemma get_last_definition
        (before after : list string) (line name value : string)
        (st : EnvLoader.State) (default : option string) :
  st.(EnvLoader.loaded) = false ->
  EnvLoader.parseLine line = Some (name, value) ->
  Forall (fun l => forall v, EnvLoader.parseLine l <> Some (name, v)) after ->
  match EnvLoader.get (Some (before ++ line :: after)%list) st name default with
  | EnvLoader.Done (result, st') =>
      result = Some value /\ st'.(EnvLoader.loaded) = true
  | EnvLoader.ValueError =>
      exists l v, In l (before ++ line :: after)%list
                  /\ EnvLoader.parseLine l = Some ("", v)
  | EnvLoader.MissingVariable _ => False
  end.
Proof.
  intros Hfresh Hline Hafter.
  unfold EnvLoader.get, EnvLoader.load. rewrite Hfresh.
  pose proof (EnvLoaderFacts.loadLines_throws (before ++ line :: after) st)
    as Hthrows.
  destruct (EnvLoader.loadLines st (before ++ line :: after)%list)
    as [st' | |] eqn:Hrun; [| exact Hthrows | exact Hthrows].
  cbn [EnvLoader.vars EnvLoader.loaded]. split; [| reflexivity].
  rewrite EnvLoaderFacts.loadLines_app in Hrun.
  destruct (EnvLoader.loadLines st before) as [st1 | |]; try discriminate.
  cbn [EnvLoader.loadLines] in Hrun.
  destruct (EnvLoader.loadLine st1 line) as [st2 | |] eqn:Hl; try discriminate.
  destruct (@EnvLoaderFacts.loadLine_done st1 st2 line Hl) as [_ Hstores].
  rewrite Hline in Hstores. destruct Hstores as [Hvars _].
  destruct (@EnvLoaderFacts.loadLines_other after st2 st' name Hafter Hrun) as [Hv _].
  now rewrite Hv, Hvars, EnvLoaderFacts.lookup_cons_same.
Qed.

(** X23. For the gate, the file wins and its last definition counts:
    when a line of the .env file defines a variable and no later line
    does, [EnvLoader::get] returns the value of that line on a first load,
    whatever the process environment, [$_ENV] and the default are.  The
    call fails only when some line of the file assigns to an empty
    name. *)
Theorem last_definition_wins
        (before after : list string) (line name value : string)
        (st : EnvLoader.State) (default : option string) :
  st.(EnvLoader.loaded) = false ->
  EnvLoader.parseLine line = Some (name, value) ->
  Forall (fun l => forall v, EnvLoader.parseLine l <> Some (name, v)) after ->
  match EnvLoader.get (Some (before ++ line :: after)%list) st name default with
  | EnvLoader.Done (result, st') =>
      result = Some value /\ st'.(EnvLoader.loaded) = true
  | EnvLoader.ValueError =>
      exists l v, In l (before ++ line :: after)%list
                  /\ EnvLoader.parseLine l = Some ("", v)
  | EnvLoader.MissingVariable _ => False
  end.
Proof. exact (@get_last_definition before after line name value st default). Qed.

Lemma last_definition_wins_witness :
  match EnvLoader.get
          (Some (["# shared secret"; "X402_FACILITATOR_KEY=first"]
                 ++ "X402_FACILITATOR_KEY=second" :: ["APP_URL=http://localhost"])%list)
          (EnvLoader.initial [("X402_FACILITATOR_KEY", "from-shell")] [])
          "X402_FACILITATOR_KEY" (Some "") with
  | EnvLoader.Done (result, st') =>
      result = Some "second" /\ st'.(EnvLoader.loaded) = true
  | EnvLoader.ValueError =>
      exists l v,
        In l (["# shared secret"; "X402_FACILITATOR_KEY=first"]
              ++ "X402_FACILITATOR_KEY=second" :: ["APP_URL=http://localhost"])%list
        /\ EnvLoader.parseLine l = Some ("", v)
  | EnvLoader.MissingVariable _ => False
  end.
Proof.
  apply (@last_definition_wins
           ["# shared secret"; "X402_FACILITATOR_KEY=first"]
           ["APP_URL=http://localhost"]
           "X402_FACILITATOR_KEY=second" "X402_FACILITATOR_KEY" "second"
           (EnvLoader.initial [("X402_FACILITATOR_KEY", "from-shell")] [])
           (Some "")); try reflexivity.
  constructor; [intros v; vm_compute; discriminate | constructor].
Defined.

(** X24. A variable the file does not define is looked up outside, in
    this order: the process environment, then [$_ENV], then the default;
    loading the file does not change what [getenv] and [$_ENV] hold for
    such a variable. *)
Theorem undefined_variable_falls_back
        (lines : list string) (name : string)
        (environment ENV : list (string * string)) (default : option string)
        (result : option string) (st' : EnvLoader.State) :
  Forall (fun l => forall v, EnvLoader.parseLine l <> Some (name, v)) lines ->
  EnvLoader.get (Some lines) (EnvLoader.initial environment ENV) name default
  = EnvLoader.Done (result, st') ->
  result = match EnvLoader.lookup environment name with
           | Some v => Some v
           | None => match EnvLoader.lookup ENV name with
                     | Some v => Some v
                     | None => default
                     end
           end
  /\ EnvLoader.lookup st'.(EnvLoader.environment) name
     = EnvLoader.lookup environment name
  /\ EnvLoader.lookup st'.(EnvLoader.ENV) name = EnvLoader.lookup ENV name.
Proof.
  intros Hother. unfold EnvLoader.get, EnvLoader.load.
  cbn [EnvLoader.initial EnvLoader.loaded].
  destruct (EnvLoader.loadLines _ lines) as [st1 | |] eqn:Hrun; try discriminate.
  destruct (@EnvLoaderFacts.loadLines_other lines _ st1 name Hother Hrun) as [Hv [He HE]].
  cbn [EnvLoader.initial EnvLoader.vars EnvLoader.environment EnvLoader.ENV
       EnvLoader.lookup] in Hv, He, HE.
  cbn [EnvLoader.vars EnvLoader.environment EnvLoader.ENV].
  rewrite Hv, He, HE. intros H. inversion H; subst. cbn. auto.
Qed.

Lemma undefined_variable_falls_back_witness :
  Some "/usr/bin"
  = match EnvLoader.lookup [("PATH", "/usr/bin")] "PATH" with
    | Some v => Some v
    | None => match EnvLoader.lookup [] "PATH" with
              | Some v => Some v
              | None => None
              end
    end
  /\ EnvLoader.lookup [("X402_FACILITATOR_KEY", "k"); ("PATH", "/usr/bin")] "PATH"
     = EnvLoader.lookup [("PATH", "/usr/bin")] "PATH"
  /\ EnvLoader.lookup [("X402_FACILITATOR_KEY", "k")] "PATH" = EnvLoader.lookup [] "PATH".
Proof.
  apply (@undefined_variable_falls_back ["X402_FACILITATOR_KEY=k"] "PATH"
           [("PATH", "/usr/bin")] [] None (Some "/usr/bin")
           {| EnvLoader.loaded := true;
              EnvLoader.vars := [("X402_FACILITATOR_KEY", "k")];
              EnvLoader.environment := [("X402_FACILITATOR_KEY", "k");
                                        ("PATH", "/usr/bin")];
              EnvLoader.ENV := [("X402_FACILITATOR_KEY", "k")] |});
    [| reflexivity].
  constructor; [intros v; vm_compute; discriminate | constructor].
Defined.

(* ================================================================== *)
(** * One file, two loaders *)

(** Text without white space, as either loader's [trim] sees it. *)
Definition solidChar (c : ascii) : bool :=
negb (JSString.isWhiteSpace c) && negb (PHPText.isTrimChar c).

Fixpoint solid (s : string) : bool :=
match s with
| EmptyString => true
| String c r => solidChar c && solid r
end.

Module SolidText.

Lemma solid_app (a b : string) : solid (a ++ b) = solid a && solid b.
Proof.
  induction a as [| c a IH]; cbn [append solid]; [reflexivity |].
  now rewrite IH, andb_assoc.
Qed.

Lemma solid_rev (s : string) : solid s = true -> solid (JSString.rev s) = true.
Proof.
  induction s as [| c s IH]; [reflexivity |].
  cbn [solid]. intros H. apply andb_prop in H as [Hc Hs].
  rewrite Base64Facts.rev_cons, solid_app, (IH Hs).
  cbn [solid]. now rewrite Hc.
Qed.

Lemma trimStart_solid (s : string) :
  solid s = true -> JSString.trimStart s = s.
Proof.
  destruct s as [| c s]; [reflexivity |].
  cbn [solid JSString.trimStart]. intros H.
  apply andb_prop in H as [Hc _]. unfold solidChar in Hc.
  apply andb_prop in Hc as [Hc _]. apply negb_true_iff in Hc.
  now rewrite Hc.
Qed.

Lemma ltrim_solid (s : string) :
  solid s = true -> PHPText.ltrim s = s.
Proof.
  destruct s as [| c s]; [reflexivity |].
  cbn [solid PHPText.ltrim]. intros H.
  apply andb_prop in H as [Hc _]. unfold solidChar in Hc.
  apply andb_prop in Hc as [_ Hc]. apply negb_true_iff in Hc.
  now rewrite Hc.
Qed.

Lemma js_trim_solid (s : string) : solid s = true -> JSString.trim s = s.
Proof.
  intros H. unfold JSString.trim.
  rewrite (trimStart_solid _ H), (trimStart_solid _ (solid_rev _ H)).
  apply Base64Facts.rev_involutive.
Qed.

Lemma php_trim_solid (s : string) : solid s = true -> PHPText.trim s = s.
Proof.
  intros H. unfold PHPText.trim.
  rewrite (ltrim_solid _ H), (ltrim_solid _ (solid_rev _ H)).
  apply Base64Facts.rev_involutive.
Qed.

Lemma explode2_app (name value : string) :
  JSText.includes "=" name = false ->
  PHPText.explode2 "=" (name ++ String "=" value) = (name, value).
Proof.
  induction name as [| c name IH]; cbn [append JSText.includes PHPText.explode2].
  - reflexivity.
  - intros H. apply orb_false_iff in H as [Hc Hrest].
    now rewrite Hc, (IH Hrest).
Qed.

End SolidText.

(** A value that does not open with a quote. *)
Definition opensWithQuote (value : string) : bool :=
match value with
| String q _ => Ascii.eqb q "034" || Ascii.eqb q "039"
| EmptyString => false
end.

(** On a line [name=value] without white space, whose name holds no [=]
    and does not start with [#] and whose value does not open with a
    quote, both loaders read the same definition. *)
Lemma loaders_agree_on_line (name value : string) :
  name <> "" -> solid name = true -> solid value = true ->
  JSText.includes "=" name = false ->
  JSText.startsWith "#" name = false ->
  opensWithQuote value = false ->
  Loader.parseLine (name ++ String "=" value) = Some (name, value)
  /\ EnvLoader.parseLine (name ++ String "=" value) = Some (name, value).
Proof.
  intros Hne Hname Hvalue Heq Hhash Hquote. split.
  - rewrite parseLine_at_first_equals by assumption.
    rewrite !SolidText.js_trim_solid by assumption.
    unfold Loader.unquote.
    destruct value as [| q r]; [reflexivity |].
    cbn [opensWithQuote] in Hquote. apply orb_false_iff in Hquote as [Hd Hs].
    cbn [JSText.startsWith]. unfold Loader.dquote, Loader.squote.
    now rewrite Hd, Hs.
  - unfold EnvLoader.parseLine.
    assert (Hline : solid (name ++ String "=" value) = true)
      by (rewrite SolidText.solid_app, Hname; cbn [solid]; now rewrite Hvalue).
    rewrite SolidText.php_trim_solid by exact Hline.
    assert (Hempty : PHPText.empty (name ++ String "=" value) = false).
    { unfold PHPText.empty.
      destruct name as [| c name]; [congruence |].
      cbn [append]. destruct name; cbn; destruct (Ascii.eqb c "0"); reflexivity. }
    rewrite Hempty, LoaderParsing.startsWith_app, Hhash by exact Hne.
    rewrite LoaderParsing.includes_app. cbn [negb orb].
    rewrite SolidText.explode2_app by exact Heq.
    rewrite !SolidText.php_trim_solid by assumption.
    assert (Hq : PHPText.quoted value = false).
    { destruct value as [| q r]; [reflexivity |].
      cbn [opensWithQuote] in Hquote. unfold PHPText.quoted.
      now rewrite Hquote. }
    now rewrite Hq.
Qed.

Lemma Forall_filter {A : Type} (P : A -> Prop) (f : A -> bool) (l : list A) :
  Forall P l -> Forall P (filter f l).
Proof.
  intros H. apply Forall_forall. intros x Hx.
  apply filter_In in Hx as [Hx _].
  rewrite Forall_forall in H. now apply H.
Qed.

Lemma Forall_app_parts {A : Type} (P : A -> Prop) (a b : list A) :
  Forall P (a ++ b) -> Forall P a /\ Forall P b.
Proof. intros H. now apply Forall_app in H. Qed.

(** Text in ASCII: the bytes PHP reads from a file are then the code
    units Node reads from it as UTF-8, and the code units Node reads from
    a header that carries them. *)
Fixpoint isAscii (s : string) : bool :=
match s with
| EmptyString => true
| String c r => (JSString.code c <? 128) && isAscii r
end.

(** X25. One file, one secret.  Let the .env file be in ASCII and define
    X402_FACILITATOR_KEY on exactly one line, [X402_FACILITATOR_KEY=value],
    with a value that is not empty, holds no white space and does not open
    with a quote, and let no line assign to an empty name.  If the
    facilitator's shell does not set the variable, then the key the
    facilitator boots with ([loadEnv], then [process.env.X402_FACILITATOR_KEY])
    and the key the gate sends ([EnvLoader::get]) are both this value, and
    the facilitator's key check accepts the gate's key. *)
Theorem gate_and_facilitator_share_the_key
        (content : string) (before after : list string) (value : string)
        (penv : Loader.ProcessEnv) (environment ENV : list (string * string))
        (env : Env) :
  let key := "X402_FACILITATOR_KEY" in
  isAscii content = true ->
  JSText.split "010" content
  = (before ++ (key ++ String "=" value)%string :: after)%list ->
  value <> "" -> solid value = true -> opensWithQuote value = false ->
  Forall (fun l => (forall v, Loader.parseLine l <> Some (key, v))
                   /\ (forall v, EnvLoader.parseLine l <> Some (key, v))
                   /\ (forall v, EnvLoader.parseLine l <> Some ("", v)))
         (before ++ after) ->
  Loader.getenv penv key = None ->
  env.(API_KEY) = Loader.apiKey (Loader.loadEnv (Some content) penv) ->
  env.(API_KEY) = value
  /\ (exists st',
         EnvLoader.get (Some (PHPText.file content))
                       (EnvLoader.initial environment ENV) key (Some "")
         = EnvLoader.Done (Some value, st'))
  /\ keyRejected env (Some value) = false.
Proof.
  intros key _ Hsplit Hvalue Hsolid Hquote Hothers Hunset Hboot.
  destruct (@loaders_agree_on_line key value) as [Hjs Hphp];
    try assumption; try reflexivity; try discriminate.
  apply Forall_app_parts in Hothers as [Hbefore Hafter].
  (* the facilitator *)
  assert (Hfac : Loader.getenv (Loader.loadEnv (Some content) penv) key
                 = Some value).
  { unfold Loader.loadEnv. rewrite Hsplit, fold_left_app. cbn [fold_left].
    apply LoaderFacts.lines_keep; [| exact Hvalue].
    set (penv' := fold_left Loader.loadLine before penv).
    assert (Hsame : Loader.getenv penv' key = Loader.getenv penv key).
    { apply LoaderFacts.lines_other.
      apply Forall_forall. intros l Hl.
      rewrite Forall_forall in Hbefore. now destruct (Hbefore l Hl). }
    unfold Loader.loadLine. rewrite Hjs.
    assert (Hfalse : Loader.isSet penv' key = false)
      by (unfold Loader.isSet; rewrite Hsame, Hunset; reflexivity).
    rewrite Hfalse. apply LoaderFacts.getenv_setenv_same. discriminate. }
  assert (Hkey : env.(API_KEY) = value).
  { rewrite Hboot. unfold Loader.apiKey. fold key. now rewrite Hfac. }
  split; [exact Hkey |]. split.
  - (* the gate *)
    assert (Hfile : PHPText.file content
                    = (filter (fun line => negb (String.eqb line "")) before
                       ++ (key ++ String "=" value)%string
                       :: filter (fun line => negb (String.eqb line "")) after)%list).
    { unfold PHPText.file. rewrite Hsplit, filter_app. reflexivity. }
    rewrite Hfile.
    pose proof (@get_last_definition
                  (filter (fun line => negb (String.eqb line "")) before)
                  (filter (fun line => negb (String.eqb line "")) after)
                  (key ++ String "=" value) key value
                  (EnvLoader.initial environment ENV) (Some "")
                  eq_refl Hphp) as Hget.
    assert (Hafter' : Forall (fun l => forall v, EnvLoader.parseLine l <> Some (key, v))
                             (filter (fun line => negb (String.eqb line "")) after)).
    { apply Forall_filter. apply Forall_forall. intros l Hl.
      rewrite Forall_forall in Hafter. now destruct (Hafter l Hl) as [_ [H _]]. }
    specialize (Hget Hafter').
    destruct (EnvLoader.get _ _ key (Some "")) as [[result st'] | |].
    + destruct Hget as [-> _]. now exists st'.
    + exfalso. destruct Hget as [l [v [Hin Hl]]].
      apply in_app_or in Hin as [Hin | [Hin | Hin]].
      * apply filter_In in Hin as [Hin _].
        rewrite Forall_forall in Hbefore.
        destruct (Hbefore l Hin) as [_ [_ H]]. now apply (H v).
      * subst l. rewrite Hphp in Hl. discriminate Hl.
      * apply filter_In in Hin as [Hin _].
        rewrite Forall_forall in Hafter.
        destruct (Hafter l Hin) as [_ [_ H]]. now apply (H v).
    + contradiction.
  - unfold keyRejected. rewrite Hkey, String.eqb_refl.
    now rewrite (proj2 (String.eqb_neq value "") Hvalue).
Qed.

Module SharedSample.

(** A file that defines the shared secret once. *)
Definition content : string :=
"# shared secret" ++ LoaderSample.newline
++ "X402_FACILITATOR_KEY=secret" ++ LoaderSample.newline
++ "APP_URL=http://localhost".

End SharedSample.

Lemma gate_and_facilitator_share_the_key_witness :
  Sample.env.(API_KEY) = "secret"
  /\ (exists st',
         EnvLoader.get (Some (PHPText.file SharedSample.content))
                       (EnvLoader.initial [("PATH", "/usr/bin")] [])
                       "X402_FACILITATOR_KEY" (Some "")
         = EnvLoader.Done (Some "secret", st'))
  /\ keyRejected Sample.env (Some "secret") = false.
Proof.
  apply (@gate_and_facilitator_share_the_key SharedSample.content
           ["# shared secret"] ["APP_URL=http://localhost"] "secret"
           [("PATH", "/usr/bin")] [("PATH", "/usr/bin")] [] Sample.env);
    try reflexivity; try discriminate.
  repeat constructor; intros v; vm_compute; discriminate.
Defined.

(* ================================================================== *)
(** * The rate limiter of the demo proxy *)

Module RateLimitFacts.

Import RateLimit.

(** The passed requests in the window of 60 seconds that ends at [T]. *)
Definition inWindow (T : Z) (passed : list Z) : list Z :=
filter (fun u => (T - 60 <? u) && (u <=? T)) passed.

Definition after (bound : Z) (passed : list Z) : list Z :=
filter (fun u => bound <? u) passed.

Lemma recent_values (now : Z) (w : Window) :
  map snd (recent now w) = after (now - 60) (map snd w).
Proof.
  unfold recent, after. induction w as [| [k t] w IH]; [reflexivity |].
  cbn [filter map snd]. destruct (now - 60 <? t); cbn [map snd]; now rewrite IH.
Qed.

Lemma after_after (a b : Z) (l : list Z) :
  a <= b -> after b (after a l) = after b l.
Proof.
  intros Hab. unfold after. induction l as [| u l IH]; [reflexivity |].
  cbn [filter].
  destruct (Z.ltb_spec a u); cbn [filter];
    destruct (Z.ltb_spec b u); try (now rewrite IH); lia.
Qed.

Lemma after_app (b : Z) (x y : list Z) : after b (x ++ y) = (after b x ++ after b y)%list.
Proof. apply filter_app. Qed.

Lemma length_inWindow_le_after (T : Z) (l : list Z) :
  (List.length (inWindow T l) <= List.length (after (T - 60) l))%nat.
Proof.
  unfold inWindow, after. induction l as [| u l IH]; [apply le_n |].
  cbn [filter].
  destruct (T - 60 <? u); cbn [andb]; [| exact IH].
  destruct (u <=? T); cbn [List.length]; lia.
Qed.

Lemma length_after_mono (a b : Z) (l : list Z) :
  a <= b -> (List.length (after b l) <= List.length (after a l))%nat.
Proof.
  intros Hab. unfold after. induction l as [| u l IH]; [apply le_n |].
  cbn [filter].
  destruct (Z.ltb_spec a u); destruct (Z.ltb_spec b u); cbn [List.length]; lia.
Qed.

(** The limiter keeps every window of 60 seconds at five passed requests
    or fewer: the invariant over what it passed so far ([passed]), with
    the stored array holding the passed times after some earlier time. *)
Lemma windows_stay_small (times : list Z) :
  forall (stored : Window) (passed : list Z) (last p : Z),
    ascending last times ->
    p <= last ->
    map snd stored = after (p - 60) passed ->
    (forall T, (List.length (inWindow T passed) <= 5)%nat) ->
    forall T,
      (List.length (inWindow T (passed ++ passedTimes times stored)) <= 5)%nat.
Proof.
  induction times as [| now rest IH]; intros stored passed last p Hasc Hp Hst Hsmall T.
  - cbn [passedTimes]. rewrite List.app_nil_r. apply Hsmall.
  - destruct Hasc as [Hnow Hrest]. cbn [passedTimes]. unfold limit.
    assert (Hrecent : map snd (recent now stored) = after (now - 60) passed).
    { rewrite recent_values, Hst. apply after_after. lia. }
    destruct (Z.leb_spec 5 (Z.of_nat (List.length (recent now stored)))) as [Hfull | Hroom].
    + apply (IH stored passed now p); try assumption; lia.
    + replace (passed ++ now :: passedTimes rest _)%list
        with ((passed ++ [now]) ++ passedTimes rest
                (recent now stored ++ [(nextKey (recent now stored), now)]))%list
        by (rewrite <- List.app_assoc; reflexivity).
      apply (IH _ (passed ++ [now])%list now now); try assumption; try lia.
      * rewrite map_app, Hrecent, after_app. cbn [map snd after filter].
        destruct (Z.ltb_spec (now - 60) now); [reflexivity | lia].
      * intros T'. unfold inWindow. rewrite filter_app, List.length_app.
        fold (inWindow T' passed).
        cbn [filter].
        destruct ((T' - 60 <? now) && (now <=? T')) eqn:Hin; cbn [List.length].
        -- apply andb_prop in Hin as [_ Hle]. apply Z.leb_le in Hle.
           pose proof (length_inWindow_le_after T' passed) as H1.
           pose proof (@length_after_mono (now - 60) (T' - 60) passed ltac:(lia)) as H2.
           assert (H3 : List.length (after (now - 60) passed)
                        = List.length (recent now stored))
             by (rewrite <- Hrecent; apply List.length_map).
           lia.
        -- specialize (Hsmall T'). lia.
Qed.

End RateLimitFacts.

(** X26. Five requests a minute.  For the requests of one client
    address, handled one after the other at times of a clock that does
    not run backwards and starting without a stored file, at most five of
    the requests the limiter lets through fall into any window of 60
    seconds. *)
Theorem at_most_five_per_minute (first : Z) (times : list Z) (T : Z) :
  RateLimit.ascending first times ->
  (List.length (RateLimitFacts.inWindow T (RateLimit.passedTimes times []))
   <= 5)%nat.
Proof.
  intros Hasc.
  apply (@RateLimitFacts.windows_stay_small times [] [] first first Hasc);
    [lia | reflexivity | intros T'; cbn; lia].
Qed.

Lemma at_most_five_per_minute_witness :
  (List.length
     (RateLimitFacts.inWindow 130%Z
        (RateLimit.passedTimes
           [100; 100; 101; 110; 120; 125; 130; 161; 161]%Z []))
   <= 5)%nat.
Proof.
  apply (@at_most_five_per_minute 100%Z). cbn. lia.
Defined.

(* ================================================================== *)
(** * The paid endpoint *)

Module AiEndpointFacts.

Lemma toJson_requirements (cfg : AiEndpoint.Config) (description : string) :
  PHP.toJson (AiEndpoint.requirements cfg description)
  = VObj [("scheme", VStr "exact");
          ("network", VStr "eip155:1030");
          ("amount", VStr (JSString.ofZ cfg.(AiEndpoint.price)));
          ("asset", VStr "0xaf37e8b6c9ed7f6318979f56fc287d76c30847ff");
          ("payTo", VStr cfg.(AiEndpoint.treasury));
          ("extra", VObj [("settlementMode", VStr "transfer");
                          ("name", VStr "USDT0");
                          ("version", VStr "1");
                          ("description", VStr description)])].
Proof. reflexivity. Qed.

(** The script reaches the gate only past its own checks. *)
Lemma run_reaches_gate (genv : GateEnv) (cfg : AiEndpoint.Config)
      (description : string) (req : AiEndpoint.Request) :
  (exists status message code,
      AiEndpoint.run genv cfg description req
      = ([], AiEndpoint.Rejected status message code))
  \/ AiEndpoint.run genv cfg description req = ([], AiEndpoint.Preflight)
  \/ AiEndpoint.run genv cfg description req = ([], AiEndpoint.TypeError)
  \/ (req.(AiEndpoint.requestMethod) = "GET"
      /\ PHPText.empty cfg.(AiEndpoint.treasury) = false
      /\ exists s,
           req.(AiEndpoint.q) = AiEndpoint.QueryText s
           /\ PHPText.empty (PHPText.trim s) = false
           /\ (String.length (PHPText.trim s) <= 500)%nat
           /\ AiEndpoint.run genv cfg description req
              = match X402Middleware.handleTransfer genv
                        req.(AiEndpoint.requestHeaders)
                        (AiEndpoint.requirements cfg description) with
                | (calls, Proceed hdrs settlement) =>
                    if negb (PHP.toBool settlement)
                    then (calls, AiEndpoint.Ended)
                    else (calls, AiEndpoint.Paid hdrs settlement
                                                 (PHPText.trim s))
                | (calls, r) => (calls, AiEndpoint.Gated r)
                end).
Proof.
  unfold AiEndpoint.run.
  destruct (String.eqb _ "OPTIONS"); [now right; left |].
  destruct (String.eqb _ "GET") eqn:Hget; cbn [negb];
    [| left; eauto].
  apply String.eqb_eq in Hget.
  destruct (PHPText.empty (AiEndpoint.treasury cfg)) eqn:Htreasury;
    [left; eauto |].
  destruct (AiEndpoint.q req) as [| s |].
  - left. change (PHPText.empty (PHPText.trim "")) with true. cbn iota. eauto.
  - destruct (PHPText.empty (PHPText.trim s)) eqn:Hempty; [left; eauto |].
    destruct (500 <? _) eqn:Hlong; [left; eauto |].
    apply Z.ltb_ge in Hlong.
    right; right; right. repeat split; try assumption.
    exists s. repeat split; try assumption. lia.
  - now right; right; left.
Qed.

End AiEndpointFacts.

(** X27. The paid endpoint calls the facilitator only for a request it
    would answer: a GET, with a treasury configured, with a question that
    after trimming is not empty (nor "0") and at most 500 bytes long, and
    with a payment header.  Every other request is ended without a call to
    the facilitator. *)
Theorem facilitator_is_called_for_valid_requests_only
        (genv : GateEnv) (cfg : AiEndpoint.Config) (description : string)
        (req : AiEndpoint.Request) :
  fst (AiEndpoint.run genv cfg description req) <> [] ->
  req.(AiEndpoint.requestMethod) = "GET"
  /\ PHPText.empty cfg.(AiEndpoint.treasury) = false
  /\ (exists s,
         req.(AiEndpoint.q) = AiEndpoint.QueryText s
         /\ PHPText.empty (PHPText.trim s) = false
         /\ (String.length (PHPText.trim s) <= 500)%nat)
  /\ exists h,
       X402Middleware.getPaymentHeader req.(AiEndpoint.requestHeaders) = Some h.
Proof.
  intros Hcalls.
  destruct (AiEndpointFacts.run_reaches_gate genv cfg description req)
    as [[status [message [code Hrun]]] | [Hrun | [Hrun | Hgate]]];
    try (rewrite Hrun in Hcalls; now destruct Hcalls).
  destruct Hgate as [Hget [Htreasury [s [Hq [Hempty [Hlong Hrun]]]]]].
  repeat split; try assumption; [exists s; now repeat split |].
  rewrite Hrun in Hcalls. clear Hrun.
  unfold X402Middleware.handleTransfer, X402Middleware.run in Hcalls.
  destruct (X402Middleware.getPaymentHeader _) as [h |];
    [now exists h | now destruct Hcalls].
Qed.

Module AiSample.

Definition cfg : AiEndpoint.Config :=
  {| AiEndpoint.treasury := Sample.treasury; AiEndpoint.price := 100 |}.

(** A GET with a question and the sample PAYMENT-SIGNATURE header. *)
Definition paidRequest : AiEndpoint.Request :=
  {| AiEndpoint.requestMethod := "GET";
     AiEndpoint.q := AiEndpoint.QueryText " What is Conflux? ";
     AiEndpoint.requestHeaders := GateSample.paidRequest |}.

Definition description : string := "AI API query".

End AiSample.

Lemma facilitator_is_called_for_valid_requests_only_witness :
  AiSample.paidRequest.(AiEndpoint.requestMethod) = "GET"
  /\ PHPText.empty AiSample.cfg.(AiEndpoint.treasury) = false
  /\ (exists s,
         AiSample.paidRequest.(AiEndpoint.q) = AiEndpoint.QueryText s
         /\ PHPText.empty (PHPText.trim s) = false
         /\ (String.length (PHPText.trim s) <= 500)%nat)
  /\ exists h,
       X402Middleware.getPaymentHeader
         AiSample.paidRequest.(AiEndpoint.requestHeaders) = Some h.
Proof.
  apply (@facilitator_is_called_for_valid_requests_only
           (GateSample.gate Sample.env) AiSample.cfg AiSample.description
           AiSample.paidRequest).
  vm_compute. discriminate.
Defined.

(** X28. An answer is paid for.  In front of this facilitator, with a
    price that is not negative, the paid endpoint goes on to the AI service
    only after the facilitator accepted an authorization whose destination
    is, up to letter case, the configured treasury and whose value is at
    least the configured price, and after the chain accepted the
    [transferWithAuthorization] of exactly that authorization on the USDT0
    contract; the settlement the script holds names that transaction and
    the payer of the authorization. *)
Theorem answer_is_paid_for
        (dec : string -> option JSValue) (env : Env) (key : string)
        (cfg : AiEndpoint.Config) (description : string)
        (req : AiEndpoint.Request)
        (calls : list string) (hdrs : list (string * string))
        (settlement : PHPValue) (question : string) :
  0 <= cfg.(AiEndpoint.price) ->
  AiEndpoint.run (Loopback.gate dec env key) cfg description req
  = (calls, AiEndpoint.Paid hdrs settlement question) ->
  exists h hash payer paid,
    let data := PHP.toJson (forwardedData dec h
                              (AiEndpoint.requirements cfg description)) in
    let a := authorizationIn data in
    X402Middleware.getPaymentHeader req.(AiEndpoint.requestHeaders) = Some h
    /\ a.(from) = VStr payer
    /\ JS.toLowerCase a.(to)
       = Ok (JSString.toLowerCase cfg.(AiEndpoint.treasury))
    /\ JS.BigInt a.(value) = Ok paid
    /\ cfg.(AiEndpoint.price) <= paid
    /\ env.(transact) (VStr "0xaf37e8b6c9ed7f6318979f56fc287d76c30847ff")
                      "transferWithAuthorization"
                      [a.(from); a.(to); a.(value); a.(validAfter);
                       a.(validBefore); a.(nonce); signatureIn data]
                      200000
       = Ok hash
    /\ settlement = PHP.fromJson (settled hash (VStr payer)).
Proof.
  intros Hprice Hrun.
  destruct (AiEndpointFacts.run_reaches_gate (Loopback.gate dec env key)
              cfg description req)
    as [[status [message [code Hr]]] | [Hr | [Hr | Hgate]]];
    try (rewrite Hr in Hrun; discriminate Hrun).
  destruct Hgate as [_ [_ [s [_ [_ [_ Hr]]]]]].
  rewrite Hr in Hrun. clear Hr.
  destruct (X402Middleware.handleTransfer _ _ _) as [calls' r] eqn:Hgate.
  destruct r as [status rh rb | hdrs' settlement' |]; try discriminate Hrun.
  destruct (negb (PHP.toBool settlement')); [discriminate Hrun |].
  injection Hrun as -> -> -> _.
  apply proceed_means_paid in Hgate
    as [h [hash [Hh [_ [_ [Haccepted [Htransact [payer [Hfrom Hsettlement]]]]]]]]].
  cbv zeta in Haccepted, Htransact, Hfrom.
  unfold forwardedData in *.
  rewrite toJson_callData in *.
  rewrite AiEndpointFacts.toJson_requirements in *.
  destruct Haccepted
    as [_ _ [lower [Hto Hpay]] [_ _ [paid [amount [Hpaid [Hamount Hle]]]]]].
  cbn in Hpay. injection Hpay as <-.
  cbn in Hamount. rewrite (StringToBigInt_ofZ Hprice) in Hamount.
  injection Hamount as <-.
  exists h, hash, payer, paid. cbv zeta.
  rewrite toJson_callData, AiEndpointFacts.toJson_requirements.
  repeat split; assumption.
Qed.

Lemma answer_is_paid_for_witness :
  exists h hash payer paid,
    let data := PHP.toJson (forwardedData X402Service.decodeHeader h
                              (AiEndpoint.requirements AiSample.cfg
                                 AiSample.description)) in
    let a := authorizationIn data in
    X402Middleware.getPaymentHeader
      AiSample.paidRequest.(AiEndpoint.requestHeaders) = Some h
    /\ a.(from) = VStr payer
    /\ JS.toLowerCase a.(to)
       = Ok (JSString.toLowerCase AiSample.cfg.(AiEndpoint.treasury))
    /\ JS.BigInt a.(value) = Ok paid
    /\ AiSample.cfg.(AiEndpoint.price) <= paid
    /\ Sample.env.(transact)
         (VStr "0xaf37e8b6c9ed7f6318979f56fc287d76c30847ff")
         "transferWithAuthorization"
         [a.(from); a.(to); a.(value); a.(validAfter);
          a.(validBefore); a.(nonce); signatureIn data]
         200000
       = Ok hash
    /\ PHP.fromJson (settled "0x5e771e" (VStr Sample.buyer))
       = PHP.fromJson (settled hash (VStr payer)).
Proof.
  apply (@answer_is_paid_for X402Service.decodeHeader Sample.env "secret"
           AiSample.cfg AiSample.description AiSample.paidRequest
           ["/x402/verify-transfer"; "/x402/settle-transfer"]
           [("PAYMENT-RESPONSE",
             PHP.base64_encode
               (PHP.json_encode_decoded
                  (PHP.fromJson (settled "0x5e771e" (VStr Sample.buyer)))))]
           (PHP.fromJson (settled "0x5e771e" (VStr Sample.buyer)))
           "What is Conflux?").
  - vm_compute. discriminate.
  - vm_compute. reflexivity.
Defined.
